(** * Session lifecycle, hour ledger and payroll of the guiguan tutoring API

    A shallow embedding of the API's scheduling core:
    - [lib/timezone.ts]               : [getTimeZoneOffsetMs], [zonedTimeToUtc];
    - [routes/teacher.ts]             : [prorateCents], the [GET /payroll] accumulation loop;
    - [routes/admin.ts]               : [POST /sessions], [PATCH /sessions/:id],
                                        [POST /change-requests/:id/approve];
    - [routes/student.ts]             : [POST /sessions/:id/change-requests];
    - [jobs/completeEndedSessions.ts] : [completeEndedSessions];
    - [lib/timezone.ts]               : [parseIsoDate], [isoDateAddDays];
    - [routes/teacher.ts]             : [payrollQuerySchema], the week of [GET /payroll];
    - [routes/student.ts]             : [GET /hours], [GET /hours/by-teacher];
    - [routes/admin.ts]               : [DELETE /sessions/:id],
                                        [POST /change-requests/:id/reject],
                                        [POST /students/:id/hours], [PUT /rates];
    - the teacher's payroll page      : [addDaysIsoDate].

    Conventions.  An instant ([Date]) is its time value, a [Z] number of
    milliseconds since the epoch.  Integer-valued JavaScript numbers are
    modelled by [Z], exact below 2^53; where a value can exceed that bound
    (the prorated wage and the [totalCents] of the payroll) the rounding to
    the nearest double is written out.  The fractional [totalHours] of the
    payroll is kept abstract and instantiated with IEEE-754 doubles
    ([SpecFloat]).  Prisma tables are lists of rows in
    storage order; identifiers are strings.  Values the handlers obtain from
    their environment ([new Date()], the id Prisma generates for a new row)
    are parameters of the embedded handlers. *)

From Stdlib Require Import ZArith List String Bool Lia Permutation.
From Stdlib Require Import QArith Qround SpecFloat DecimalString.
From Stdlib Require Import Ascii Sorted.
Import ListNotations.

Local Open Scope string_scope.
Local Open Scope list_scope.
Local Open Scope Z_scope.

(* ===================================================================== *)
(** * JavaScript numbers *)
(* ===================================================================== *)

Module Js.

(** [Number(b)] for a BigInt [b]: the nearest double, ties to even.  Values
    of magnitude at most 2^53 are represented exactly.  (Overflow to
    [Infinity], beyond 2^1024, is out of reach of the products formed here.) *)
Definition Number_of_BigInt (z : Z) : Z :=
  let a := Z.abs z in
  if a <=? 2 ^ 53 then z
  else
    let e := Z.log2 a - 52 in
    let q := a / 2 ^ e in
    let r := a mod 2 ^ e in
    let half := 2 ^ (e - 1) in
    let q' :=
      if r <? half then q
      else if half <? r then q + 1
      else if Z.even q then q else q + 1 in
    Z.sgn z * (q' * 2 ^ e).

(** BigInt division truncates toward zero. *)
Definition BigInt_div (a b : Z) : Z := Z.quot a b.

(** [a + b] on two integer-valued doubles: the exact sum, rounded to the
    nearest double, ties to even. *)
Definition Number_add (a b : Z) : Z := Number_of_BigInt (a + b).

(** IEEE-754 binary64, the representation of a JavaScript number. *)
Definition double := spec_float.
Definition dadd : double -> double -> double := SFadd 53 1024.
Definition ddiv : double -> double -> double := SFdiv 53 1024.
Definition double_of_Z (z : Z) : double := binary_normalize 53 1024 z 0 false.

(** The rational a finite double stands for. *)
Definition double_to_Q (d : double) : Q :=
  match d with
  | S754_finite s m e =>
      let magnitude :=
        if 0 <=? e then inject_Z (Z.pos m * 2 ^ e)
        else Qmake (Z.pos m) (Pos.pow 2 (Z.to_pos (- e))) in
      if s then Qopp magnitude else magnitude
  | _ => 0%Q
  end.

End Js.

(* ===================================================================== *)
(** * Time zones: [lib/timezone.ts] *)
(* ===================================================================== *)

Module Timezone.

(** A JavaScript number holding an integer, or [NaN] ([None]). *)
Definition Number := option Z.

(** A [Date]: its time value; [None] is the Invalid Date. *)
Definition Date := option Z.

(** The completion of a call that may throw a [RangeError]. *)
Inductive Completion (A : Type) : Type :=
| Normal (a : A)
| ThrowRangeError.
Arguments Normal {A} a.
Arguments ThrowRangeError {A}.

Definition bind {A B : Type} (c : Completion A) (k : A -> Completion B) : Completion B :=
  match c with
  | Normal a => k a
  | ThrowRangeError => ThrowRangeError
  end.

Notation "x <- c ;; k" := (bind c (fun x => k))
  (at level 61, c at next level, right associativity).

Definition Number_sub (a b : Number) : Number :=
  match a, b with
  | Some x, Some y => Some (x - y)
  | _, _ => None
  end.

(** [a === b] on numbers: [NaN] equals nothing. *)
Definition Number_strict_eq (a b : Number) : bool :=
  match a, b with
  | Some x, Some y => x =? y
  | _, _ => false
  end.

(** ** ECMAScript date arithmetic behind [Date.UTC] *)

Definition msPerDay : Z := 86400000.

Definition DayFromYear (y : Z) : Z :=
  365 * (y - 1970) + (y - 1969) / 4 - (y - 1901) / 100 + (y - 1601) / 400.

Definition InLeapYear (y : Z) : bool :=
  ((y mod 4 =? 0) && negb (y mod 100 =? 0)) || (y mod 400 =? 0).

(** Days from 1 January to the first day of month [mn] (0-based). *)
Definition DaysBeforeMonth (y mn : Z) : Z :=
  let leap := if InLeapYear y then 1 else 0 in
  match mn with
  | 0 => 0
  | 1 => 31
  | 2 => 59 + leap
  | 3 => 90 + leap
  | 4 => 120 + leap
  | 5 => 151 + leap
  | 6 => 181 + leap
  | 7 => 212 + leap
  | 8 => 243 + leap
  | 9 => 273 + leap
  | 10 => 304 + leap
  | _ => 334 + leap
  end.

Definition MakeDay (year month date : Z) : Z :=
  let ym := year + month / 12 in
  let mn := month mod 12 in
  DayFromYear ym + DaysBeforeMonth ym mn + date - 1.

Definition MakeTime (hour min sec ms : Z) : Z :=
  hour * 3600000 + min * 60000 + sec * 1000 + ms.

Definition MakeDate (day time : Z) : Z := day * msPerDay + time.

Definition TimeClip (time : Z) : Number :=
  if Z.abs time <=? 8640000000000000 then Some time else None.

(** [Date.UTC(year, month, day, hour, minute, second, millisecond)];
    years 0 to 99 stand for 1900 to 1999. *)
Definition Date_UTC (year month day hour minute second millisecond : Z) : Number :=
  let yr := if (0 <=? year) && (year <=? 99) then 1900 + year else year in
  TimeClip (MakeDate (MakeDay yr month day) (MakeTime hour minute second millisecond)).

(** [new Date(value)] *)
Definition Date_new (value : Number) : Date :=
  match value with
  | Some t => TimeClip t
  | None => None
  end.

Definition getTime (d : Date) : Number := d.

(** ** The module *)

(** The numeric fields [formatToParts] yields under the module's formatter
    options ([hourCycle: 'h23'], no fractional seconds). *)
Record LocalParts := {
  year : Z;
  month : Z;
  day : Z;
  hour : Z;
  minute : Z;
  second : Z
}.

(** A time zone, as [getTimeZoneFormatter(timeZone).formatToParts] sees it:
    the wall-clock reading of every valid instant.  (An unknown identifier
    makes the [Intl.DateTimeFormat] constructor throw; such identifiers are
    not zones.) *)
Definition Zone := Z -> LocalParts.

(** [getTimeZoneOffsetMs(date, timeZone)]; [formatToParts] throws a
    [RangeError] on the Invalid Date. *)
Definition getTimeZoneOffsetMs (date : Date) (timeZone : Zone) : Completion Number :=
  match date with
  | None => ThrowRangeError
  | Some t =>
      let parts := timeZone t in
      let asUtc := Date_UTC (year parts) (month parts - 1) (day parts)
                            (hour parts) (minute parts) (second parts) 0 in
      Normal (Number_sub asUtc (getTime date))
  end.

(** The [local] argument of [zonedTimeToUtc]. *)
Record LocalTime := {
  localYear : Z;
  localMonth : Z;
  localDay : Z;
  localHour : option Z;
  localMinute : option Z;
  localSecond : option Z;
  localMillisecond : option Z
}.

(** [x ?? 0] *)
Definition orZero (x : option Z) : Z :=
  match x with Some v => v | None => 0 end.

Definition utcGuessOf (local : LocalTime) : Date :=
  Date_new (Date_UTC (localYear local) (localMonth local - 1) (localDay local)
                     (orZero (localHour local)) (orZero (localMinute local))
                     (orZero (localSecond local)) (orZero (localMillisecond local))).

(** [zonedTimeToUtc(local, timeZone)] *)
Definition zonedTimeToUtc (local : LocalTime) (timeZone : Zone) : Completion Date :=
  let utcGuess := utcGuessOf local in
  offset1 <- getTimeZoneOffsetMs utcGuess timeZone ;;
  let utc1 := Date_new (Number_sub (getTime utcGuess) offset1) in
  offset2 <- getTimeZoneOffsetMs utc1 timeZone ;;
  if Number_strict_eq offset2 offset1 then Normal utc1
  else Normal (Date_new (Number_sub (getTime utcGuess) offset2)).

(** ** A concrete zone *)

(** The civil date of a day number (days since the epoch). *)
Definition civilFromDays (days : Z) : Z * Z * Z :=
  let z := days + 719468 in
  let era := z / 146097 in
  let doe := z - era * 146097 in
  let yoe := (doe - doe / 1460 + doe / 36524 - doe / 146096) / 365 in
  let doy := doe - (365 * yoe + yoe / 4 - yoe / 100) in
  let mp := (5 * doy + 2) / 153 in
  let d := doy - (153 * mp + 2) / 5 + 1 in
  let m := if mp <? 10 then mp + 3 else mp - 9 in
  let y := yoe + era * 400 + (if m <=? 2 then 1 else 0) in
  (y, m, d).

(** The wall clock of an instant at a given offset from UTC. *)
Definition wallClockAt (offsetMs t : Z) : LocalParts :=
  let localMs := t + offsetMs in
  let days := localMs / msPerDay in
  let rest := localMs mod msPerDay in
  let '(y, m, d) := civilFromDays days in
  {| year := y; month := m; day := d;
     hour := rest / 3600000;
     minute := (rest mod 3600000) / 60000;
     second := (rest mod 60000) / 1000 |}.

(** Australia/Sydney from April 2030 to April 2031: UTC+10 until
    2030-10-05T16:00:00Z (02:00 local on Sunday 6 October), UTC+11 after. *)
Definition sydneyDstStart2030 : Z := 1917446400000.

Definition sydney2030 : Zone :=
  fun t => if t <? sydneyDstStart2030 then wallClockAt 36000000 t
           else wallClockAt 39600000 t.

(** 02:30:00 on 6 October 2030, a wall-clock time the zone skips. *)
Definition skippedLocalTime : LocalTime :=
  {| localYear := 2030; localMonth := 10; localDay := 6;
     localHour := Some 2; localMinute := Some 30; localSecond := Some 0;
     localMillisecond := None |}.

(** Midnight on Monday 3 June 2030, far from any transition. *)
Definition plainLocalTime : LocalTime :=
  {| localYear := 2030; localMonth := 6; localDay := 3;
     localHour := Some 0; localMinute := Some 0; localSecond := Some 0;
     localMillisecond := None |}.

End Timezone.

(* ===================================================================== *)
(** * The database: [prisma/schema.prisma] *)
(* ===================================================================== *)

Module Prisma.

Inductive UserRole := STUDENT | TEACHER | ADMIN.
Inductive Subject := GENERAL | ENGLISH | MATH | CHINESE.
Inductive Currency := AUD | CNY | USD.
Inductive SessionStatus := SCHEDULED | CANCELLED | COMPLETED.
Inductive HourLedgerReason := PURCHASE | ADJUSTMENT | SESSION_CONSUME.
Inductive ChangeRequestType := CANCEL | RESCHEDULE.
Inductive ChangeRequestStatus := PENDING | APPROVED | REJECTED.

Definition UserRole_eqb (a b : UserRole) : bool :=
  match a, b with
  | STUDENT, STUDENT | TEACHER, TEACHER | ADMIN, ADMIN => true
  | _, _ => false
  end.

Definition Subject_eqb (a b : Subject) : bool :=
  match a, b with
  | GENERAL, GENERAL | ENGLISH, ENGLISH | MATH, MATH | CHINESE, CHINESE => true
  | _, _ => false
  end.

Definition Currency_eqb (a b : Currency) : bool :=
  match a, b with
  | AUD, AUD | CNY, CNY | USD, USD => true
  | _, _ => false
  end.

Definition Currency_toString (c : Currency) : string :=
  match c with AUD => "AUD" | CNY => "CNY" | USD => "USD" end.

Definition SessionStatus_eqb (a b : SessionStatus) : bool :=
  match a, b with
  | SCHEDULED, SCHEDULED | CANCELLED, CANCELLED | COMPLETED, COMPLETED => true
  | _, _ => false
  end.

Definition ChangeRequestStatus_eqb (a b : ChangeRequestStatus) : bool :=
  match a, b with
  | PENDING, PENDING | APPROVED, APPROVED | REJECTED, REJECTED => true
  | _, _ => false
  end.

(** Rows.  The [createdAt]/[updatedAt] columns and the [meta] JSON of the
    audit log play no part in any decision and are left out. *)

Module User.
Record t := { id : string; orgId : string; role : UserRole }.
End User.

Module TeacherStudentRate.
Record t := {
  id : string;
  teacherId : string;
  studentId : string;
  subject : Subject;
  hourlyRateCents : Z;
  currency : Currency
}.
End TeacherStudentRate.

Module Session.
Record t := {
  id : string;
  teacherId : string;
  studentId : string;
  subject : Subject;
  startAtUtc : Z;
  endAtUtc : Z;
  classTimeZone : string;
  status : SessionStatus;
  consumesUnits : Z;
  rateCentsSnapshot : Z;
  currencySnapshot : Currency;
  createdByAdminId : string
}.
End Session.

Module HourLedgerEntry.
Record t := {
  id : string;
  studentId : string;
  teacherId : option string;
  deltaUnits : Z;
  reason : HourLedgerReason;
  sessionId : option string
}.
End HourLedgerEntry.

Module ChangeRequest.
Record t := {
  id : string;
  sessionId : string;
  type : ChangeRequestType;
  proposedStartAtUtc : option Z;
  proposedEndAtUtc : option Z;
  proposedTimeZone : option string;
  status : ChangeRequestStatus;
  requestedByUserId : string;
  decidedByAdminId : option string
}.
End ChangeRequest.

Module AuditLog.
Record t := {
  orgId : string;
  actorUserId : string;
  action : string;
  entityType : string;
  entityId : string
}.
End AuditLog.

Record Db := {
  users : list User.t;
  teacherStudentRates : list TeacherStudentRate.t;
  sessions : list Session.t;
  changeRequests : list ChangeRequest.t;
  hourLedgerEntries : list HourLedgerEntry.t;
  auditLogs : list AuditLog.t
}.

(** ** Queries and writes *)

(** [user.findUnique({ where: { id } })] *)
Definition findUser (db : Db) (id : string) : option User.t :=
  find (fun u => String.eqb (User.id u) id) (users db).

(** [teacherStudentRate.findUnique({ where: { teacherId_studentId_subject } })] *)
Definition findRate (db : Db) (teacherId studentId : string) (subject : Subject)
  : option TeacherStudentRate.t :=
  find (fun r => String.eqb (TeacherStudentRate.teacherId r) teacherId
                 && String.eqb (TeacherStudentRate.studentId r) studentId
                 && Subject_eqb (TeacherStudentRate.subject r) subject)
       (teacherStudentRates db).

(** [session.findUnique({ where: { id } })] *)
Definition findSession (db : Db) (id : string) : option Session.t :=
  find (fun x => String.eqb (Session.id x) id) (sessions db).

(** [changeRequest.findUnique({ where: { id } })] *)
Definition findChangeRequest (db : Db) (id : string) : option ChangeRequest.t :=
  find (fun x => String.eqb (ChangeRequest.id x) id) (changeRequests db).

Definition withSessions (db : Db) (l : list Session.t) : Db :=
  {| users := users db; teacherStudentRates := teacherStudentRates db;
     sessions := l; changeRequests := changeRequests db;
     hourLedgerEntries := hourLedgerEntries db; auditLogs := auditLogs db |}.

Definition withChangeRequests (db : Db) (l : list ChangeRequest.t) : Db :=
  {| users := users db; teacherStudentRates := teacherStudentRates db;
     sessions := sessions db; changeRequests := l;
     hourLedgerEntries := hourLedgerEntries db; auditLogs := auditLogs db |}.

Definition withHourLedgerEntries (db : Db) (l : list HourLedgerEntry.t) : Db :=
  {| users := users db; teacherStudentRates := teacherStudentRates db;
     sessions := sessions db; changeRequests := changeRequests db;
     hourLedgerEntries := l; auditLogs := auditLogs db |}.

(** [session.create], [changeRequest.create], [auditLog.create]: a new row
    at the end of its table. *)
Definition createSession (db : Db) (row : Session.t) : Db :=
  withSessions db (sessions db ++ [row]).

Definition createChangeRequest (db : Db) (row : ChangeRequest.t) : Db :=
  withChangeRequests db (changeRequests db ++ [row]).

Definition createAuditLog (db : Db) (row : AuditLog.t) : Db :=
  {| users := users db; teacherStudentRates := teacherStudentRates db;
     sessions := sessions db; changeRequests := changeRequests db;
     hourLedgerEntries := hourLedgerEntries db; auditLogs := auditLogs db ++ [row] |}.

(** The rows of [id] rewritten by [f]; the other rows untouched. *)
Definition updateSessionRows (id : string) (f : Session.t -> Session.t)
  (l : list Session.t) : list Session.t :=
  map (fun x => if String.eqb (Session.id x) id then f x else x) l.

Definition updateChangeRequestRows (id : string) (f : ChangeRequest.t -> ChangeRequest.t)
  (l : list ChangeRequest.t) : list ChangeRequest.t :=
  map (fun x => if String.eqb (ChangeRequest.id x) id then f x else x) l.

End Prisma.

(* ===================================================================== *)
(** * JavaScript containers *)
(* ===================================================================== *)

(** A JavaScript [Map]: keys in insertion order; [set] on a present key
    replaces the value in place, on an absent key appends the entry. *)
Module JsMap.
Section JsMap.
Context {K V : Type}.
Variable eqb : K -> K -> bool.

Definition t := list (K * V).

Fixpoint get (k : K) (m : t) : option V :=
  match m with
  | [] => None
  | (k', v) :: m' => if eqb k k' then Some v else get k m'
  end.

Fixpoint set (k : K) (v : V) (m : t) : t :=
  match m with
  | [] => [(k, v)]
  | (k', v') :: m' => if eqb k k' then (k', v) :: m' else (k', v') :: set k v m'
  end.

Definition keys (m : t) : list K := map fst m.
Definition values (m : t) : list V := map snd m.
End JsMap.
End JsMap.

(** [Array.prototype.sort(compare)]: a stable sort; [compare a b <= 0] keeps
    [a] before [b]. *)
Module JsArray.
Section Sort.
Context {A : Type}.
Variable compare : A -> A -> Z.

Fixpoint insert (x : A) (l : list A) : list A :=
  match l with
  | [] => [x]
  | y :: l' => if compare x y <=? 0 then x :: y :: l' else y :: insert x l'
  end.

Definition sort (l : list A) : list A := fold_right insert [] l.
End Sort.
End JsArray.

(* ===================================================================== *)
(** * Payroll: [routes/teacher.ts] *)
(* ===================================================================== *)

Module Payroll.

Import Prisma.

Definition MS_PER_HOUR : Z := 60 * 60 * 1000.

(** [function prorateCents(durationMs, hourlyRateCents)] *)
Definition prorateCents (durationMs hourlyRateCents : Z) : Z :=
  if durationMs <=? 0 then 0
  else
    let numerator := durationMs * hourlyRateCents in
    let denominator := MS_PER_HOUR in
    Js.Number_of_BigInt
      (Js.BigInt_div (numerator + Js.BigInt_div denominator 2) denominator).

(** A row of the [findMany] result of [GET /payroll]; the joined
    [student.studentProfile?.displayName] is [studentDisplayName]. *)
Record SessionRow := {
  studentId : string;
  startAtUtc : Z;
  endAtUtc : Z;
  teacherHourlyWageCentsSnapshot : Z;
  currencySnapshot : Currency;
  studentDisplayName : option string
}.

Section Accumulation.
(** The number type of [totalHours], with [0], [+] and
    [durationMs / MS_PER_HOUR]; and [String.prototype.localeCompare]. *)
Variable hours : Type.
Variable hzero : hours.
Variable hadd : hours -> hours -> hours.
Variable hoursOf : Z -> hours.
Variable localeCompare : string -> string -> Z.

Record CurrencyTotal := {
  currency : Currency;
  totalCents : Z;
  totalHours : hours;
  sessionsCount : Z
}.

Record StudentEntry := {
  entryStudentId : string;
  entryStudentName : option string;
  totalsByCurrency : JsMap.t (K := Currency) (V := CurrencyTotal)
}.

Record StudentTotals := {
  outStudentId : string;
  outStudentName : option string;
  outTotals : list CurrencyTotal
}.

(** [{ currency, totalCents: 0, totalHours: 0, sessionsCount: 0 }] *)
Definition freshTotal (c : Currency) : CurrencyTotal :=
  {| currency := c; totalCents := 0; totalHours := hzero; sessionsCount := 0 |}.

(** The three [+=] of the loop body.  [totalCents] is a double: beyond 2^53
    its additions round.  ([sessionsCount] stays below 2^53, where adding 1
    is exact.) *)
Definition addSession (x : CurrencyTotal) (sessionCents durationMs : Z) : CurrencyTotal :=
  {| currency := currency x;
     totalCents := Js.Number_add (totalCents x) sessionCents;
     totalHours := hadd (totalHours x) (hoursOf durationMs);
     sessionsCount := sessionsCount x + 1 |}.

Definition Accumulators : Type :=
  (JsMap.t (K := Currency) (V := CurrencyTotal) * JsMap.t (K := string) (V := StudentEntry))%type.

Definition durationMsOf (session : SessionRow) : Z :=
  endAtUtc session - startAtUtc session.

(** [m.get(currency) ?? { currency, totalCents: 0, totalHours: 0, sessionsCount: 0 }] *)
Definition getOrFresh (m : JsMap.t (K := Currency) (V := CurrencyTotal)) (c : Currency) : CurrencyTotal :=
  match JsMap.get Currency_eqb c m with
  | Some x => x
  | None => freshTotal c
  end.

(** [prorateCents(durationMs, session.teacherHourlyWageCentsSnapshot)] *)
Definition sessionCentsOf (session : SessionRow) : Z :=
  prorateCents (durationMsOf session) (teacherHourlyWageCentsSnapshot session).

(** One iteration of [for (const session of sessions)]. *)
Definition accumulateSession (acc : Accumulators) (session : SessionRow) : Accumulators :=
  let '(totalsByCurrency0, totalsByStudent0) := acc in
  let durationMs := durationMsOf session in
  if durationMs <=? 0 then acc
  else
    let currency := currencySnapshot session in
    let studentId := studentId session in
    let existing := getOrFresh totalsByCurrency0 currency in
    let sessionCents := sessionCentsOf session in
    let existing := addSession existing sessionCents durationMs in
    let totalsByCurrency1 := JsMap.set Currency_eqb currency existing totalsByCurrency0 in
    let studentEntry :=
      match JsMap.get String.eqb studentId totalsByStudent0 with
      | Some e => e
      | None => {| entryStudentId := studentId;
                   entryStudentName := studentDisplayName session;
                   totalsByCurrency := [] |}
      end in
    let studentCurrencyTotal := getOrFresh (totalsByCurrency studentEntry) currency in
    let studentCurrencyTotal := addSession studentCurrencyTotal sessionCents durationMs in
    let studentEntry :=
      {| entryStudentId := entryStudentId studentEntry;
         entryStudentName := entryStudentName studentEntry;
         totalsByCurrency :=
           JsMap.set Currency_eqb currency studentCurrencyTotal (totalsByCurrency studentEntry) |} in
    (totalsByCurrency1, JsMap.set String.eqb studentId studentEntry totalsByStudent0).

Definition accumulate (sessions : list SessionRow) : Accumulators :=
  fold_left accumulateSession sessions ([], []).

Definition compareCurrency (a b : CurrencyTotal) : Z :=
  localeCompare (Currency_toString (currency a)) (Currency_toString (currency b)).

Definition sortKey (e : StudentTotals) : string :=
  match outStudentName e with Some n => n | None => outStudentId e end.

Definition compareStudent (a b : StudentTotals) : Z :=
  localeCompare (sortKey a) (sortKey b).

Definition toStudentTotals (entry : StudentEntry) : StudentTotals :=
  {| outStudentId := entryStudentId entry;
     outStudentName := entryStudentName entry;
     outTotals := JsArray.sort compareCurrency (JsMap.values (totalsByCurrency entry)) |}.

(** The [totals] and [byStudent] of the response. *)
Definition payrollTotals (sessions : list SessionRow) : list CurrencyTotal * list StudentTotals :=
  let '(totalsByCurrency, totalsByStudent) := accumulate sessions in
  (JsArray.sort compareCurrency (JsMap.values totalsByCurrency),
   JsArray.sort compareStudent (map toStudentTotals (JsMap.values totalsByStudent))).

(** ** Sums over the response

    A field of the totals valued in [M] with an addition: [totalCents] and
    [sessionsCount] in [Z], [totalHours] in [hours]. *)
Variable M : Type.
Variable mzero : M.
Variable madd : M -> M -> M.
Variable field : CurrencyTotal -> M.

Definition msum (l : list M) : M := fold_right madd mzero l.

Definition inCurrency (c : Currency) (l : list CurrencyTotal) : list CurrencyTotal :=
  filter (fun x => Currency_eqb (currency x) c) l.

(** The field summed over the entries of [l] for currency [c]. *)
Definition totalIn (c : Currency) (l : list CurrencyTotal) : M :=
  msum (map field (inCurrency c l)).

(** The field summed over all per-student entries for currency [c]. *)
Definition studentsTotal (c : Currency) (byStudent : list StudentTotals) : M :=
  msum (map (fun e => totalIn c (outTotals e)) byStudent).

Definition mget (m : JsMap.t (K := Currency) (V := CurrencyTotal)) (c : Currency) : M :=
  match JsMap.get Currency_eqb c m with
  | Some x => field x
  | None => mzero
  end.

(** The sessions the loop does not skip, and those of one currency. *)
Definition counted (session : SessionRow) : bool := negb (durationMsOf session <=? 0).

Definition countedIn (c : Currency) (sessions : list SessionRow) : list SessionRow :=
  filter (fun s => counted s && Currency_eqb (currencySnapshot s) c) sessions.

(** The left-to-right sum of a per-session amount, as the loop adds it. *)
Definition runningTotal (delta : Z -> Z -> M) (sessions : list SessionRow) : M :=
  fold_left (fun a s => madd a (delta (sessionCentsOf s) (durationMsOf s))) sessions mzero.

(** The field of the entry of student [sid] for currency [c]. *)
Definition sget (students : JsMap.t (K := string) (V := StudentEntry)) (sid : string) (c : Currency) : M :=
  match JsMap.get String.eqb sid students with
  | Some e => mget (totalsByCurrency e) c
  | None => mzero
  end.

(** The counted sessions of one student in one currency. *)
Definition countedFor (sid : string) (c : Currency) (sessions : list SessionRow) : list SessionRow :=
  filter (fun s => counted s && Currency_eqb (currencySnapshot s) c && String.eqb (studentId s) sid)
         sessions.

(** Invariants of the accumulators. *)
Definition wfTotals (m : JsMap.t (K := Currency) (V := CurrencyTotal)) : Prop :=
  NoDup (JsMap.keys m) /\ forall k x, In (k, x) m -> currency x = k.

Definition wfStudents (students : JsMap.t (K := string) (V := StudentEntry)) : Prop :=
  NoDup (JsMap.keys students) /\
  forall sid e, In (sid, e) students ->
    entryStudentId e = sid /\ wfTotals (totalsByCurrency e).

Definition wfAcc (acc : Accumulators) : Prop :=
  wfTotals (fst acc) /\ wfStudents (snd acc).

(** Every currency of a per-student entry has a top-level entry. *)
Definition currenciesCovered (acc : Accumulators) : Prop :=
  forall sid e k x,
    In (sid, e) (snd acc) -> In (k, x) (totalsByCurrency e) -> In k (JsMap.keys (fst acc)).

Definition consistent (acc : Accumulators) : Prop :=
  forall c, mget (fst acc) c
            = msum (map (fun e => mget (totalsByCurrency e) c) (JsMap.values (snd acc))).
End Accumulation.

Arguments currency {hours}.
Arguments totalCents {hours}.
Arguments totalHours {hours}.
Arguments sessionsCount {hours}.
Arguments entryStudentId {hours}.
Arguments entryStudentName {hours}.
Arguments totalsByCurrency {hours}.
Arguments outStudentId {hours}.
Arguments outStudentName {hours}.
Arguments outTotals {hours}.

(** The loop as it runs: [totalHours] in binary64. *)
Definition hoursOfDouble (durationMs : Z) : Js.double :=
  Js.ddiv (Js.double_of_Z durationMs) (Js.double_of_Z MS_PER_HOUR).
Definition zeroDouble : Js.double := Js.double_of_Z 0.

Definition payrollTotalsDouble (localeCompare : string -> string -> Z) :=
  payrollTotals Js.double zeroDouble Js.dadd hoursOfDouble localeCompare.

(** A code-unit order standing for [localeCompare] in examples. *)
Definition codeUnitCompare (a b : string) : Z :=
  match String.compare a b with Lt => -1 | Eq => 0 | Gt => 1 end.

(** Three AUD sessions of 6, 12 and 18 minutes at 10000 cents per hour: one
    of student [A], two of student [B]. *)
Definition minutesSession (sid : string) (minutes : Z) : SessionRow :=
  {| studentId := sid;
     startAtUtc := 1893492000000;
     endAtUtc := 1893492000000 + minutes * 60000;
     teacherHourlyWageCentsSnapshot := 10000;
     currencySnapshot := AUD;
     studentDisplayName := None |}.

Definition threeSessions : list SessionRow :=
  [minutesSession "A" 6; minutesSession "B" 12; minutesSession "B" 18].

End Payroll.

(* ===================================================================== *)
(** * HTTP replies and transactions *)
(* ===================================================================== *)

Module Http.
Import Prisma.

Inductive Reply :=
| badRequest                                   (* 400, the zod issues *)
| message (code : Z) (text : string)           (* [reply.code(code).send({ message })] *)
| timeConflict (conflictSessionId : string)    (* 409, 'Teacher time conflict' *)
| created (id : string)                        (* 201, [{ id }] *)
| ok                                           (* 200, [{ ok: true }] *)
| createdChangeRequest (cr : ChangeRequest.t)  (* 201 *)
| approved (cr : ChangeRequest.t) (session : Session.t)   (* 200 *)
| internalError.                               (* the handler threw *)

Definition statusCode (r : Reply) : Z :=
  match r with
  | badRequest => 400
  | message code _ => code
  | timeConflict _ => 409
  | created _ => 201
  | ok => 200
  | createdChangeRequest _ => 201
  | approved _ _ => 200
  | internalError => 500
  end.

(** The outcome classes of the specification. *)
Definition InvalidArgument (r : Reply) : Prop := statusCode r = 400.
Definition Forbidden (r : Reply) : Prop := statusCode r = 403.
Definition NotFound (r : Reply) : Prop := statusCode r = 404.
Definition Conflict (r : Reply) : Prop := statusCode r = 409.

(** [z.string().min(1)] *)
Definition nonEmpty (x : string) : bool := negb (String.eqb x "").

(** ** [prisma.$transaction(async (tx) => ...)]

    The body is a sequence of statements on the store.  A statement throws
    when its record is missing or when the store fails under it; [fault]
    names the statement (by position) at which the store fails, if any.  A
    throw rolls the store back and propagates. *)
Definition Tx (A : Type) : Type := Db -> option (A * Db).

Definition ret {A : Type} (a : A) : Tx A := fun db => Some (a, db).

Definition bind {A B : Type} (m : Tx A) (k : A -> Tx B) : Tx B :=
  fun db => match m db with
            | Some (a, db') => k a db'
            | None => None
            end.

Definition stmt {A : Type} (fault : option nat) (position : nat) (op : Tx A) : Tx A :=
  fun db => match fault with
            | Some n => if Nat.eqb n position then None else op db
            | None => op db
            end.

Definition transaction {A : Type} (body : Tx A) (db : Db) : Db * option A :=
  match body db with
  | Some (a, db') => (db', Some a)
  | None => (db, None)
  end.

(** [tx.changeRequest.update({ where: { id }, data })] *)
Definition changeRequest_update (id : string) (data : ChangeRequest.t -> ChangeRequest.t)
  : Tx ChangeRequest.t :=
  fun db => match findChangeRequest db id with
            | Some cr =>
                Some (data cr,
                      withChangeRequests db (updateChangeRequestRows id data (changeRequests db)))
            | None => None
            end.

(** [tx.session.update({ where: { id }, data })] *)
Definition session_update (id : string) (data : Session.t -> Session.t) : Tx Session.t :=
  fun db => match findSession db id with
            | Some x =>
                Some (data x, withSessions db (updateSessionRows id data (sessions db)))
            | None => None
            end.

(** [tx.changeRequest.create({ data })] and [tx.auditLog.create({ data })] *)
Definition changeRequest_create (row : ChangeRequest.t) : Tx ChangeRequest.t :=
  fun db => Some (row, createChangeRequest db row).

Definition auditLog_create (row : AuditLog.t) : Tx unit :=
  fun db => Some (tt, createAuditLog db row).

End Http.

(* ===================================================================== *)
(** * Administrator routes: [routes/admin.ts] *)
(* ===================================================================== *)

Module AdminRoutes.
Import Prisma Http.

(** The parsed body of [POST /sessions], defaults applied. *)
Record CreateSessionBody := {
  teacherId : string;
  studentId : string;
  subject : Subject;
  startAtUtc : Z;
  endAtUtc : Z;
  classTimeZone : string;
  consumesUnits : Z
}.

(** [createSessionBodySchema]: the field constraints and the [refine]. *)
Definition createSessionBodySchema (data : CreateSessionBody) : bool :=
  nonEmpty (teacherId data) && nonEmpty (studentId data)
  && nonEmpty (classTimeZone data) && (0 <? consumesUnits data)
  && (startAtUtc data <? endAtUtc data).

(** The [where] of the conflict query of [POST /sessions]. *)
Definition conflictsWith (teacher : string) (newStart newEnd : Z) (x : Session.t) : bool :=
  String.eqb (Session.teacherId x) teacher
  && SessionStatus_eqb (Session.status x) SCHEDULED
  && (Session.startAtUtc x <? newEnd)
  && (newStart <? Session.endAtUtc x).

(** [POST /sessions], for the authenticated administrator [userId]; [newId]
    is the id the store gives the new row. *)
Definition postSessions (db : Db) (userId : string) (body : CreateSessionBody)
  (newId : string) : Db * Reply :=
  if negb (createSessionBodySchema body) then (db, badRequest)
  else
    match findUser db userId with
    | None => (db, message 401 "Unauthorized")
    | Some actor =>
        match findUser db (teacherId body) with
        | None => (db, message 404 "Teacher not found")
        | Some teacher =>
            if negb (String.eqb (User.orgId teacher) (User.orgId actor))
               || negb (UserRole_eqb (User.role teacher) TEACHER)
            then (db, message 404 "Teacher not found")
            else
              match findUser db (studentId body) with
              | None => (db, message 404 "Student not found")
              | Some student =>
                  if negb (String.eqb (User.orgId student) (User.orgId actor))
                     || negb (UserRole_eqb (User.role student) STUDENT)
                  then (db, message 404 "Student not found")
                  else
                    match findRate db (User.id teacher) (User.id student) (subject body) with
                    | None => (db, message 404 "Rate not found")
                    | Some rate =>
                        match find (conflictsWith (User.id teacher)
                                      (startAtUtc body) (endAtUtc body)) (sessions db) with
                        | Some conflict => (db, timeConflict (Session.id conflict))
                        | None =>
                            let session :=
                              {| Session.id := newId;
                                 Session.teacherId := User.id teacher;
                                 Session.studentId := User.id student;
                                 Session.subject := subject body;
                                 Session.startAtUtc := startAtUtc body;
                                 Session.endAtUtc := endAtUtc body;
                                 Session.classTimeZone := classTimeZone body;
                                 Session.status := SCHEDULED;
                                 Session.consumesUnits := consumesUnits body;
                                 Session.rateCentsSnapshot :=
                                   TeacherStudentRate.hourlyRateCents rate;
                                 Session.currencySnapshot := TeacherStudentRate.currency rate;
                                 Session.createdByAdminId := User.id actor |} in
                            let db1 := createSession db session in
                            let db2 := createAuditLog db1
                              {| AuditLog.orgId := User.orgId actor;
                                 AuditLog.actorUserId := User.id actor;
                                 AuditLog.action := "ADMIN_CREATE_SESSION";
                                 AuditLog.entityType := "Session";
                                 AuditLog.entityId := Session.id session |} in
                            (db2, created (Session.id session))
                        end
                    end
              end
        end
    end.

(** The parsed body of [PATCH /sessions/:id]: every field optional. *)
Record UpdateSessionBody := {
  newSubject : option Subject;
  newStartAtUtc : option Z;
  newEndAtUtc : option Z;
  newClassTimeZone : option string;
  newConsumesUnits : option Z;
  newStatus : option SessionStatus
}.

(** [updateSessionBodySchema]: the field constraints and the [refine]
    [!data.startAtUtc || !data.endAtUtc || data.endAtUtc > data.startAtUtc]. *)
Definition updateSessionBodySchema (data : UpdateSessionBody) : bool :=
  match newClassTimeZone data with Some z => nonEmpty z | None => true end
  && match newConsumesUnits data with Some n => 0 <? n | None => true end
  && match newStartAtUtc data, newEndAtUtc data with
     | Some startAt, Some endAt => startAt <? endAt
     | _, _ => true
     end.

(** [x ?? y] *)
Definition orElse {A : Type} (x : option A) (y : A) : A :=
  match x with Some v => v | None => y end.

(** The relation filter [{ teacher: { orgId }, student: { orgId } }]. *)
Definition inOrg (db : Db) (orgId : string) (x : Session.t) : bool :=
  match findUser db (Session.teacherId x), findUser db (Session.studentId x) with
  | Some teacher, Some student =>
      String.eqb (User.orgId teacher) orgId && String.eqb (User.orgId student) orgId
  | _, _ => false
  end.

(** The [where] of the conflict query of [PATCH /sessions/:id]. *)
Definition conflictsWithOther (existing : Session.t) (nextStart nextEnd : Z)
  (x : Session.t) : bool :=
  negb (String.eqb (Session.id x) (Session.id existing))
  && conflictsWith (Session.teacherId existing) nextStart nextEnd x.

(** [PATCH /sessions/:id] *)
Definition patchSession (db : Db) (userId : string) (id : string)
  (body : UpdateSessionBody) : Db * Reply :=
  if negb (nonEmpty id) then (db, badRequest)
  else if negb (updateSessionBodySchema body) then (db, badRequest)
  else
    match findUser db userId with
    | None => (db, message 401 "Unauthorized")
    | Some actor =>
        match find (fun x => String.eqb (Session.id x) id && inOrg db (User.orgId actor) x)
                   (sessions db) with
        | None => (db, message 404 "Session not found")
        | Some existing =>
            if negb (SessionStatus_eqb (Session.status existing) SCHEDULED)
            then (db, message 409 "Only SCHEDULED sessions can be edited")
            else
              let nextSubject := orElse (newSubject body) (Session.subject existing) in
              let nextStartAtUtc := orElse (newStartAtUtc body) (Session.startAtUtc existing) in
              let nextEndAtUtc := orElse (newEndAtUtc body) (Session.endAtUtc existing) in
              let nextStatus := orElse (newStatus body) (Session.status existing) in
              if negb (SessionStatus_eqb nextStatus SCHEDULED)
                 && negb (SessionStatus_eqb nextStatus CANCELLED)
              then (db, message 400 "Invalid status transition")
              else
                match find (conflictsWithOther existing nextStartAtUtc nextEndAtUtc)
                           (sessions db) with
                | Some conflict => (db, timeConflict (Session.id conflict))
                | None =>
                    let nextRate :=
                      if negb (Subject_eqb nextSubject (Session.subject existing))
                      then
                        match findRate db (Session.teacherId existing)
                                (Session.studentId existing) nextSubject with
                        | Some rate => Some (Some rate)
                        | None => None
                        end
                      else Some None in
                    match nextRate with
                    | None => (db, message 404 "Rate not found")
                    | Some rate =>
                        let data (x : Session.t) : Session.t :=
                          {| Session.id := Session.id x;
                             Session.teacherId := Session.teacherId x;
                             Session.studentId := Session.studentId x;
                             Session.subject := nextSubject;
                             Session.startAtUtc := nextStartAtUtc;
                             Session.endAtUtc := nextEndAtUtc;
                             Session.classTimeZone :=
                               orElse (newClassTimeZone body) (Session.classTimeZone existing);
                             Session.status := nextStatus;
                             Session.consumesUnits :=
                               orElse (newConsumesUnits body) (Session.consumesUnits existing);
                             Session.rateCentsSnapshot :=
                               match rate with
                               | Some r => TeacherStudentRate.hourlyRateCents r
                               | None => Session.rateCentsSnapshot x
                               end;
                             Session.currencySnapshot :=
                               match rate with
                               | Some r => TeacherStudentRate.currency r
                               | None => Session.currencySnapshot x
                               end;
                             Session.createdByAdminId := Session.createdByAdminId x |} in
                        let db1 :=
                          withSessions db (updateSessionRows (Session.id existing) data
                                             (sessions db)) in
                        let db2 := createAuditLog db1
                          {| AuditLog.orgId := User.orgId actor;
                             AuditLog.actorUserId := User.id actor;
                             AuditLog.action := "ADMIN_UPDATE_SESSION";
                             AuditLog.entityType := "Session";
                             AuditLog.entityId := Session.id existing |} in
                        (db2, ok)
                    end
                end
        end
    end.

(** ** [POST /change-requests/:id/approve] *)

(** [data: { status: APPROVED, decidedByAdminId: actor.id }] *)
Definition markApproved (deciderId : string) (cr : ChangeRequest.t) : ChangeRequest.t :=
  {| ChangeRequest.id := ChangeRequest.id cr;
     ChangeRequest.sessionId := ChangeRequest.sessionId cr;
     ChangeRequest.type := ChangeRequest.type cr;
     ChangeRequest.proposedStartAtUtc := ChangeRequest.proposedStartAtUtc cr;
     ChangeRequest.proposedEndAtUtc := ChangeRequest.proposedEndAtUtc cr;
     ChangeRequest.proposedTimeZone := ChangeRequest.proposedTimeZone cr;
     ChangeRequest.status := APPROVED;
     ChangeRequest.requestedByUserId := ChangeRequest.requestedByUserId cr;
     ChangeRequest.decidedByAdminId := Some deciderId |}.

(** [data: { status: CANCELLED }] *)
Definition markCancelled (x : Session.t) : Session.t :=
  {| Session.id := Session.id x;
     Session.teacherId := Session.teacherId x;
     Session.studentId := Session.studentId x;
     Session.subject := Session.subject x;
     Session.startAtUtc := Session.startAtUtc x;
     Session.endAtUtc := Session.endAtUtc x;
     Session.classTimeZone := Session.classTimeZone x;
     Session.status := CANCELLED;
     Session.consumesUnits := Session.consumesUnits x;
     Session.rateCentsSnapshot := Session.rateCentsSnapshot x;
     Session.currencySnapshot := Session.currencySnapshot x;
     Session.createdByAdminId := Session.createdByAdminId x |}.

(** [data: { startAtUtc, endAtUtc, classTimeZone }] *)
Definition reschedule (startAt endAt : Z) (zone : string) (x : Session.t) : Session.t :=
  {| Session.id := Session.id x;
     Session.teacherId := Session.teacherId x;
     Session.studentId := Session.studentId x;
     Session.subject := Session.subject x;
     Session.startAtUtc := startAt;
     Session.endAtUtc := endAt;
     Session.classTimeZone := zone;
     Session.status := Session.status x;
     Session.consumesUnits := Session.consumesUnits x;
     Session.rateCentsSnapshot := Session.rateCentsSnapshot x;
     Session.currencySnapshot := Session.currencySnapshot x;
     Session.createdByAdminId := Session.createdByAdminId x |}.

(** The session mutation an approval applies: [None] when a [RESCHEDULE]
    lacks a proposed field (a date is always truthy, the empty string is
    not). *)
Definition approvalMutation (cr : ChangeRequest.t) : option (Session.t -> Session.t) :=
  match ChangeRequest.type cr with
  | CANCEL => Some markCancelled
  | RESCHEDULE =>
      match ChangeRequest.proposedStartAtUtc cr, ChangeRequest.proposedEndAtUtc cr,
            ChangeRequest.proposedTimeZone cr with
      | Some startAt, Some endAt, Some zone =>
          if nonEmpty zone then Some (reschedule startAt endAt zone) else None
      | _, _, _ => None
      end
  end.

(** The transaction of the approval: statements 0 to 3. *)
Definition approveTransaction (fault : option nat) (actor : User.t)
  (changeRequest : ChangeRequest.t) (mutation : Session.t -> Session.t)
  : Tx (ChangeRequest.t * Session.t) :=
  bind (stmt fault 0 (changeRequest_update (ChangeRequest.id changeRequest)
                        (markApproved (User.id actor))))
    (fun updatedChangeRequest =>
  bind (stmt fault 1 (session_update (ChangeRequest.sessionId changeRequest) mutation))
    (fun updatedSession =>
  bind (stmt fault 2 (auditLog_create
          {| AuditLog.orgId := User.orgId actor;
             AuditLog.actorUserId := User.id actor;
             AuditLog.action := "ADMIN_APPROVE_CHANGE_REQUEST";
             AuditLog.entityType := "ChangeRequest";
             AuditLog.entityId := ChangeRequest.id updatedChangeRequest |}))
    (fun _ =>
  bind (stmt fault 3 (auditLog_create
          {| AuditLog.orgId := User.orgId actor;
             AuditLog.actorUserId := User.id actor;
             AuditLog.action :=
               match ChangeRequest.type changeRequest with
               | CANCEL => "ADMIN_CANCEL_SESSION"
               | RESCHEDULE => "ADMIN_RESCHEDULE_SESSION"
               end;
             AuditLog.entityType := "Session";
             AuditLog.entityId := Session.id updatedSession |}))
    (fun _ => ret (updatedChangeRequest, updatedSession))))).

(** [POST /change-requests/:id/approve].  The joined
    [changeRequest.session.student] always exists in a store that respects
    its foreign keys; a store that does not makes the handler throw. *)
Definition approveChangeRequest (fault : option nat) (db : Db) (userId : string)
  (id : string) : Db * Reply :=
  if negb (nonEmpty id) then (db, badRequest)
  else
    match findUser db userId with
    | None => (db, message 401 "Unauthorized")
    | Some actor =>
        match findChangeRequest db id with
        | None => (db, message 404 "Change request not found")
        | Some changeRequest =>
            match findSession db (ChangeRequest.sessionId changeRequest) with
            | None => (db, internalError)
            | Some session =>
                match findUser db (Session.studentId session) with
                | None => (db, internalError)
                | Some student =>
                    if negb (String.eqb (User.orgId student) (User.orgId actor))
                    then (db, message 404 "Change request not found")
                    else if negb (ChangeRequestStatus_eqb
                                    (ChangeRequest.status changeRequest) PENDING)
                    then (db, message 409 "Change request is not pending")
                    else if negb (SessionStatus_eqb (Session.status session) SCHEDULED)
                    then (db, message 409 "Session is not schedulable")
                    else
                      match approvalMutation changeRequest with
                      | None => (db, message 400 "Missing proposed time fields")
                      | Some mutation =>
                          match transaction
                                  (approveTransaction fault actor changeRequest mutation) db with
                          | (db', Some (updatedChangeRequest, updatedSession)) =>
                              (db', approved updatedChangeRequest updatedSession)
                          | (db', None) => (db', internalError)
                          end
                      end
                end
            end
        end
    end.

End AdminRoutes.

(* ===================================================================== *)
(** * Student routes: [routes/student.ts] *)
(* ===================================================================== *)

Module StudentRoutes.
Import Prisma Http.

(** The parsed body of [POST /sessions/:id/change-requests]. *)
Inductive CreateChangeRequestBody :=
| CancelBody
| RescheduleBody (proposedStartAtUtc proposedEndAtUtc : Z) (proposedTimeZone : string).

(** [createChangeRequestBodySchema]: the union and its [superRefine]. *)
Definition createChangeRequestBodySchema (data : CreateChangeRequestBody) : bool :=
  match data with
  | CancelBody => true
  | RescheduleBody startAt endAt zone => nonEmpty zone && negb (endAt <=? startAt)
  end.

(** [new Date(session.startAtUtc.getTime() - 24 * 60 * 60 * 1000)], a valid
    date for every stored timestamp. *)
Definition cutoffUtc (session : Session.t) : Z :=
  Session.startAtUtc session - 24 * 60 * 60 * 1000.

(** [changeRequest.findFirst({ where: { sessionId, status: PENDING } })] *)
Definition findPending (db : Db) (sessionId : string) : option ChangeRequest.t :=
  find (fun cr => String.eqb (ChangeRequest.sessionId cr) sessionId
                  && ChangeRequestStatus_eqb (ChangeRequest.status cr) PENDING)
       (changeRequests db).

(** The row [tx.changeRequest.create] inserts; [status] and
    [decidedByAdminId] take their column defaults. *)
Definition newChangeRequest (newId sessionId requester : string)
  (body : CreateChangeRequestBody) : ChangeRequest.t :=
  {| ChangeRequest.id := newId;
     ChangeRequest.sessionId := sessionId;
     ChangeRequest.type := match body with CancelBody => CANCEL | RescheduleBody _ _ _ => RESCHEDULE end;
     ChangeRequest.proposedStartAtUtc :=
       match body with CancelBody => None | RescheduleBody startAt _ _ => Some startAt end;
     ChangeRequest.proposedEndAtUtc :=
       match body with CancelBody => None | RescheduleBody _ endAt _ => Some endAt end;
     ChangeRequest.proposedTimeZone :=
       match body with CancelBody => None | RescheduleBody _ _ zone => Some zone end;
     ChangeRequest.status := PENDING;
     ChangeRequest.requestedByUserId := requester;
     ChangeRequest.decidedByAdminId := None |}.

(** The transaction of the creation: statements 0 and 1. *)
Definition createTransaction (fault : option nat) (actor : User.t)
  (row : ChangeRequest.t) : Tx ChangeRequest.t :=
  bind (stmt fault 0 (changeRequest_create row))
    (fun created =>
  bind (stmt fault 1 (auditLog_create
          {| AuditLog.orgId := User.orgId actor;
             AuditLog.actorUserId := User.id actor;
             AuditLog.action := "STUDENT_CREATE_CHANGE_REQUEST";
             AuditLog.entityType := "ChangeRequest";
             AuditLog.entityId := ChangeRequest.id created |}))
    (fun _ => ret created)).

(** [POST /sessions/:id/change-requests], for the authenticated student
    [userId]; [nowUtc] is the [new Date()] of the handler, [newId] the id the
    store gives the new row. *)
Definition postChangeRequest (fault : option nat) (db : Db) (userId : string)
  (id : string) (body : CreateChangeRequestBody) (nowUtc : Z) (newId : string)
  : Db * Reply :=
  if negb (nonEmpty id) then (db, badRequest)
  else if negb (createChangeRequestBodySchema body) then (db, badRequest)
  else
    match findUser db userId with
    | None => (db, message 401 "Unauthorized")
    | Some actor =>
        match find (fun x => String.eqb (Session.id x) id
                             && String.eqb (Session.studentId x) userId) (sessions db) with
        | None => (db, message 404 "Session not found")
        | Some session =>
            if negb (SessionStatus_eqb (Session.status session) SCHEDULED)
            then (db, message 409 "Session is not schedulable")
            else if cutoffUtc session <? nowUtc
            then (db, message 403 "Forbidden")
            else
              match findPending db (Session.id session) with
              | Some existingPending =>
                  (db, message 409 "Pending change request already exists")
              | None =>
                  match transaction
                          (createTransaction fault actor
                             (newChangeRequest newId (Session.id session) userId body)) db with
                  | (db', Some changeRequest) => (db', createdChangeRequest changeRequest)
                  | (db', None) => (db', internalError)
                  end
              end
        end
    end.

End StudentRoutes.

(* ===================================================================== *)
(** * The completion job: [jobs/completeEndedSessions.ts] *)
(* ===================================================================== *)

Module Jobs.
Import Prisma.

(** [orderBy: { endAtUtc: 'asc' }]; rows with equal [endAtUtc] keep their
    storage order. *)
Definition byEndAtUtc (a b : Session.t) : Z := Session.endAtUtc a - Session.endAtUtc b.

(** The [findMany] of the job: at most [batchSize] ended [SCHEDULED]
    sessions, oldest first. *)
Definition endedSessions (db : Db) (now : Z) (batchSize : nat) : list Session.t :=
  firstn batchSize
    (JsArray.sort byEndAtUtc
       (filter (fun x => SessionStatus_eqb (Session.status x) SCHEDULED
                         && (Session.endAtUtc x <=? now)) (sessions db))).

(** [data: { status: COMPLETED }] *)
Definition markCompleted (x : Session.t) : Session.t :=
  {| Session.id := Session.id x;
     Session.teacherId := Session.teacherId x;
     Session.studentId := Session.studentId x;
     Session.subject := Session.subject x;
     Session.startAtUtc := Session.startAtUtc x;
     Session.endAtUtc := Session.endAtUtc x;
     Session.classTimeZone := Session.classTimeZone x;
     Session.status := COMPLETED;
     Session.consumesUnits := Session.consumesUnits x;
     Session.rateCentsSnapshot := Session.rateCentsSnapshot x;
     Session.currencySnapshot := Session.currencySnapshot x;
     Session.createdByAdminId := Session.createdByAdminId x |}.

(** [tx.session.updateMany({ where: { id, status: SCHEDULED }, data: { status: COMPLETED } })] *)
Definition completeScheduled (id : string) (l : list Session.t) : list Session.t :=
  map (fun x => if String.eqb (Session.id x) id
                   && SessionStatus_eqb (Session.status x) SCHEDULED
                then markCompleted x else x) l.

Definition refersTo (sessionId : string) (e : HourLedgerEntry.t) : bool :=
  match HourLedgerEntry.sessionId e with
  | Some sid => String.eqb sid sessionId
  | None => false
  end.

(** [tx.hourLedgerEntry.upsert({ where: { sessionId }, create, update: {} })] *)
Definition upsertConsume (entryId : string) (current : Session.t)
  (l : list HourLedgerEntry.t) : list HourLedgerEntry.t :=
  match find (refersTo (Session.id current)) l with
  | Some _ => l
  | None =>
      l ++ [{| HourLedgerEntry.id := entryId;
               HourLedgerEntry.studentId := Session.studentId current;
               HourLedgerEntry.teacherId := Some (Session.teacherId current);
               HourLedgerEntry.deltaUnits := - Session.consumesUnits current;
               HourLedgerEntry.reason := SESSION_CONSUME;
               HourLedgerEntry.sessionId := Some (Session.id current) |}]
  end.

(** The transaction run for one selected session; [newEntryId] gives the id
    of a ledger entry the store creates for a session.  Every transaction
    is taken to commit. *)
Definition completeOne (newEntryId : string -> string) (now : Z) (db : Db)
  (session : Session.t) : Db :=
  match findSession db (Session.id session) with
  | None => db
  | Some current =>
      if now <? Session.endAtUtc current then db
      else if SessionStatus_eqb (Session.status current) CANCELLED then db
      else
        let db1 := withSessions db (completeScheduled (Session.id current) (sessions db)) in
        withHourLedgerEntries db1
          (upsertConsume (newEntryId (Session.id current)) current (hourLedgerEntries db1))
  end.

(** [completeEndedSessions(prisma, { now, batchSize })]: the store after the
    run and [processed]. *)
Definition completeEndedSessions (newEntryId : string -> string) (db : Db)
  (now : Z) (batchSize : nat) : Db * Z :=
  let sessions := endedSessions db now batchSize in
  (fold_left (completeOne newEntryId now) sessions db, Z.of_nat (List.length sessions)).

(** [hourLedgerEntry.aggregate({ where: { studentId }, _sum: { deltaUnits } })] *)
Definition remainingUnits (db : Db) (studentId : string) : Z :=
  fold_right Z.add 0
    (map HourLedgerEntry.deltaUnits
       (filter (fun e => String.eqb (HourLedgerEntry.studentId e) studentId)
               (hourLedgerEntries db))).

(** The ledger entries that refer to a session. *)
Definition entriesOf (db : Db) (sessionId : string) : list HourLedgerEntry.t :=
  filter (refersTo sessionId) (hourLedgerEntries db).

End Jobs.

(* ===================================================================== *)
(** * Notions of the specification *)
(* ===================================================================== *)

Module Spec.
Import Prisma Http.

(** ** Session creation *)

(** The request passes body validation, the actor, teacher and student
    checks and rate resolution. *)
Definition reachesConflictCheck (db : Db) (userId : string)
  (body : AdminRoutes.CreateSessionBody) : Prop :=
  AdminRoutes.createSessionBodySchema body = true /\
  exists actor teacher student rate,
    findUser db userId = Some actor /\
    findUser db (AdminRoutes.teacherId body) = Some teacher /\
    User.orgId teacher = User.orgId actor /\ User.role teacher = TEACHER /\
    findUser db (AdminRoutes.studentId body) = Some student /\
    User.orgId student = User.orgId actor /\ User.role student = STUDENT /\
    findRate db (User.id teacher) (User.id student) (AdminRoutes.subject body) = Some rate.

(** Half-open overlap of an existing session with [[newStart, newEnd)]. *)
Definition overlaps (x : Session.t) (newStart newEnd : Z) : Prop :=
  Session.startAtUtc x < newEnd /\ Session.endAtUtc x > newStart.

(** ** Change requests *)

(** The approval request reaches the transaction for change request [cr]
    on session [session]. *)
Definition approvable (db : Db) (userId id : string) (actor : User.t)
  (cr : ChangeRequest.t) (session : Session.t) : Prop :=
  nonEmpty id = true /\
  findUser db userId = Some actor /\
  findChangeRequest db id = Some cr /\
  findSession db (ChangeRequest.sessionId cr) = Some session /\
  (exists student, findUser db (Session.studentId session) = Some student /\
                   User.orgId student = User.orgId actor) /\
  ChangeRequest.status cr = PENDING /\
  Session.status session = SCHEDULED.

(** Both effects of an approval are in [db']: the change request rows of
    [id] marked approved by [deciderId], the rows of the session rewritten
    by [mutation]; users, rates and ledger as before. *)
Definition approvalApplied (db db' : Db) (id deciderId sessionId : string)
  (mutation : Session.t -> Session.t) : Prop :=
  changeRequests db'
  = updateChangeRequestRows id (AdminRoutes.markApproved deciderId) (changeRequests db) /\
  sessions db' = updateSessionRows sessionId mutation (sessions db) /\
  users db' = users db /\ teacherStudentRates db' = teacherStudentRates db /\
  hourLedgerEntries db' = hourLedgerEntries db.

(** The student's request, with a valid body, concerns one of the student's
    own sessions. *)
Definition ownSession (db : Db) (userId id : string)
  (body : StudentRoutes.CreateChangeRequestBody) (session : Session.t) : Prop :=
  nonEmpty id = true /\
  StudentRoutes.createChangeRequestBodySchema body = true /\
  (exists actor, findUser db userId = Some actor) /\
  find (fun x => String.eqb (Session.id x) id && String.eqb (Session.studentId x) userId)
       (sessions db) = Some session.

(** ... and that session is [SCHEDULED]. *)
Definition ownScheduledSession (db : Db) (userId id : string)
  (body : StudentRoutes.CreateChangeRequestBody) (session : Session.t) : Prop :=
  ownSession db userId id body session /\ Session.status session = SCHEDULED.

Definition pendingFor (sessionId : string) (cr : ChangeRequest.t) : bool :=
  String.eqb (ChangeRequest.sessionId cr) sessionId
  && ChangeRequestStatus_eqb (ChangeRequest.status cr) PENDING.

(** At most one [PENDING] change request per session. *)
Definition atMostOnePending (db : Db) : Prop :=
  forall sessionId,
    (List.length (filter (pendingFor sessionId) (changeRequests db)) <= 1)%nat.

(** ** The completion job *)

(** The sessions the job selects from: [SCHEDULED] and ended by [now]. *)
Definition isEnded (now : Z) (x : Session.t) : bool :=
  SessionStatus_eqb (Session.status x) SCHEDULED && (Session.endAtUtc x <=? now).

(** The entry the job writes for a session. *)
Definition consumeEntry (newEntryId : string -> string) (x : Session.t) : HourLedgerEntry.t :=
  {| HourLedgerEntry.id := newEntryId (Session.id x);
     HourLedgerEntry.studentId := Session.studentId x;
     HourLedgerEntry.teacherId := Some (Session.teacherId x);
     HourLedgerEntry.deltaUnits := - Session.consumesUnits x;
     HourLedgerEntry.reason := SESSION_CONSUME;
     HourLedgerEntry.sessionId := Some (Session.id x) |}.

(** The store's constraints the job relies on: session ids are a primary
    key, and no ledger entry refers to a session still [SCHEDULED]. *)
Definition wellFormed (db : Db) : Prop :=
  NoDup (map Session.id (sessions db)) /\
  forall x, In x (sessions db) -> Session.status x = SCHEDULED ->
            Jobs.entriesOf db (Session.id x) = [].

(** The rows of a table after the job has visited the sessions [ids]. *)
Definition completeRows (now : Z) (ids : list string) (x : Session.t) : Session.t :=
  if existsb (String.eqb (Session.id x)) ids && isEnded now x
  then Jobs.markCompleted x else x.

End Spec.

(* ===================================================================== *)
(** * Example data *)
(* ===================================================================== *)

Module Examples.
Import Prisma.

Definition admin1 : User.t := {| User.id := "admin1"; User.orgId := "org1"; User.role := ADMIN |}.
Definition teacher1 : User.t := {| User.id := "teacher1"; User.orgId := "org1"; User.role := TEACHER |}.
Definition student1 : User.t := {| User.id := "student1"; User.orgId := "org1"; User.role := STUDENT |}.

Definition rate1 : TeacherStudentRate.t :=
  {| TeacherStudentRate.id := "rate1";
     TeacherStudentRate.teacherId := "teacher1";
     TeacherStudentRate.studentId := "student1";
     TeacherStudentRate.subject := GENERAL;
     TeacherStudentRate.hourlyRateCents := 10000;
     TeacherStudentRate.currency := AUD |}.

(** [h] hours after 2030-01-01T00:00:00.000Z. *)
Definition jan1 (h : Z) : Z := 1893456000000 + h * 3600000.

Definition mkSession (id : string) (startAt endAt : Z) (status : SessionStatus) : Session.t :=
  {| Session.id := id;
     Session.teacherId := "teacher1";
     Session.studentId := "student1";
     Session.subject := GENERAL;
     Session.startAtUtc := startAt;
     Session.endAtUtc := endAt;
     Session.classTimeZone := "Australia/Sydney";
     Session.status := status;
     Session.consumesUnits := 1;
     Session.rateCentsSnapshot := 10000;
     Session.currencySnapshot := AUD;
     Session.createdByAdminId := "admin1" |}.

Definition mkDb (sessions : list Session.t) (changeRequests : list ChangeRequest.t)
  (ledger : list HourLedgerEntry.t) : Db :=
  {| users := [admin1; teacher1; student1];
     teacherStudentRates := [rate1];
     sessions := sessions;
     changeRequests := changeRequests;
     hourLedgerEntries := ledger;
     auditLogs := [] |}.

Definition mkBody (startAt endAt : Z) : AdminRoutes.CreateSessionBody :=
  {| AdminRoutes.teacherId := "teacher1";
     AdminRoutes.studentId := "student1";
     AdminRoutes.subject := GENERAL;
     AdminRoutes.startAtUtc := startAt;
     AdminRoutes.endAtUtc := endAt;
     AdminRoutes.classTimeZone := "Australia/Sydney";
     AdminRoutes.consumesUnits := 1 |}.

(** A [+10] purchase of [student1]. *)
Definition purchase10 : HourLedgerEntry.t :=
  {| HourLedgerEntry.id := "ledger0";
     HourLedgerEntry.studentId := "student1";
     HourLedgerEntry.teacherId := None;
     HourLedgerEntry.deltaUnits := 10;
     HourLedgerEntry.reason := PURCHASE;
     HourLedgerEntry.sessionId := None |}.

Definition pendingCancel (id sessionId : string) : ChangeRequest.t :=
  {| ChangeRequest.id := id;
     ChangeRequest.sessionId := sessionId;
     ChangeRequest.type := CANCEL;
     ChangeRequest.proposedStartAtUtc := None;
     ChangeRequest.proposedEndAtUtc := None;
     ChangeRequest.proposedTimeZone := None;
     ChangeRequest.status := PENDING;
     ChangeRequest.requestedByUserId := "student1";
     ChangeRequest.decidedByAdminId := None |}.

Definition pendingReschedule (id sessionId : string) (startAt endAt : Z) : ChangeRequest.t :=
  {| ChangeRequest.id := id;
     ChangeRequest.sessionId := sessionId;
     ChangeRequest.type := RESCHEDULE;
     ChangeRequest.proposedStartAtUtc := Some startAt;
     ChangeRequest.proposedEndAtUtc := Some endAt;
     ChangeRequest.proposedTimeZone := Some "Asia/Shanghai";
     ChangeRequest.status := PENDING;
     ChangeRequest.requestedByUserId := "student1";
     ChangeRequest.decidedByAdminId := None |}.

Definition entryIdOf (sessionId : string) : string := "ledger-" ++ sessionId.

(** Two sessions ended by 2030-01-02T00:00Z and a purchase of ten units. *)
Definition twoEnded : Db :=
  mkDb [mkSession "s1" (jan1 10) (jan1 11) SCHEDULED;
        mkSession "s2" (jan1 12) (jan1 13) SCHEDULED] [] [purchase10].




End Examples.

(* ===================================================================== *)
(** * Calendar dates: [lib/timezone.ts], [parseIsoDate] and [isoDateAddDays] *)
(* ===================================================================== *)

Module IsoDate.
Import Timezone.

(** ** ECMAScript time values: [Day], [YearFromTime], [MonthFromTime],
    [DateFromTime], [WeekDay] *)

Definition Day (t : Z) : Z := t / msPerDay.

(** The year [y] with [DayFromYear y <= d < DayFromYear (y + 1)]: the
    estimate from the mean year length, off by at most one. *)
Definition YearFromDay (d : Z) : Z :=
  let y0 := 1970 + d * 400 / 146097 in
  if d <? DayFromYear y0 then y0 - 1
  else if DayFromYear (y0 + 1) <=? d then y0 + 1
  else y0.

Definition YearFromTime (t : Z) : Z := YearFromDay (Day t).

Definition DayWithinYear (t : Z) : Z := Day t - DayFromYear (YearFromTime t).

Definition MonthFromTime (t : Z) : Z :=
  let leap := if InLeapYear (YearFromTime t) then 1 else 0 in
  let d := DayWithinYear t in
  if d <? 31 then 0
  else if d <? 59 + leap then 1
  else if d <? 90 + leap then 2
  else if d <? 120 + leap then 3
  else if d <? 151 + leap then 4
  else if d <? 181 + leap then 5
  else if d <? 212 + leap then 6
  else if d <? 243 + leap then 7
  else if d <? 273 + leap then 8
  else if d <? 304 + leap then 9
  else if d <? 334 + leap then 10
  else 11.

Definition DateFromTime (t : Z) : Z :=
  DayWithinYear t - DaysBeforeMonth (YearFromTime t) (MonthFromTime t) + 1.

Definition WeekDay (t : Z) : Z := (Day t + 4) mod 7.

Definition HourFromTime (t : Z) : Z := (t / 3600000) mod 24.
Definition MinFromTime (t : Z) : Z := (t / 60000) mod 60.
Definition SecFromTime (t : Z) : Z := (t / 1000) mod 60.
Definition msFromTime (t : Z) : Z := t mod 1000.

(** [Date.prototype.getUTCFullYear] and its kin: [NaN] on the Invalid Date. *)
Definition getUTCFullYear (d : Date) : Number := option_map YearFromTime d.
Definition getUTCMonth (d : Date) : Number := option_map MonthFromTime d.
Definition getUTCDate (d : Date) : Number := option_map DateFromTime d.
Definition getUTCDay (d : Date) : Number := option_map WeekDay d.

Definition Number_add (a b : Number) : Number :=
  match a, b with
  | Some x, Some y => Some (x + y)
  | _, _ => None
  end.

(** [a !== b] *)
Definition Number_strict_ne (a b : Number) : bool := negb (Number_strict_eq a b).

(** ** Exceptions *)

Inductive Exception :=
| Error (message : string)
| RangeError.

Inductive Result (A : Type) : Type :=
| Return (a : A)
| Throw (e : Exception).
Arguments Return {A} a.
Arguments Throw {A} e.

Definition andThen {A B : Type} (r : Result A) (k : A -> Result B) : Result B :=
  match r with
  | Return a => k a
  | Throw e => Throw e
  end.

(** ** Decimal digits *)

Definition isDigit (c : ascii) : bool :=
  let n := nat_of_ascii c in (48 <=? n)%nat && (n <=? 57)%nat.

Definition digitValue (c : ascii) : Z := Z.of_nat (nat_of_ascii c) - 48.

Definition digitChar (n : Z) : ascii := ascii_of_nat (48 + Z.to_nat n).

(** [Number(s)] for a string [s] of decimal digits. *)
Definition Number_of_digits (s : list ascii) : Z :=
  fold_left (fun acc c => 10 * acc + digitValue c) s 0.

(** The decimal digits of [n], zero-padded to [width] characters, for
    [0 <= n < 10 ^ width]. *)
Fixpoint zeroPadded (width : nat) (n : Z) : string :=
  match width with
  | O => ""
  | S w => String (digitChar ((n / 10 ^ Z.of_nat w) mod 10)) (zeroPadded w n)
  end.

(** [Date.prototype.toISOString]: a four-digit year from 0 to 9999, a
    signed six-digit year otherwise; a [RangeError] on the Invalid Date. *)
Definition toISOString (d : Date) : Result string :=
  match d with
  | None => Throw RangeError
  | Some t =>
      let y := YearFromTime t in
      let yearString :=
        if (0 <=? y) && (y <=? 9999) then zeroPadded 4 y
        else String.append (if 0 <=? y then "+" else "-") (zeroPadded 6 (Z.abs y)) in
      Return (yearString ++ "-" ++ zeroPadded 2 (MonthFromTime t + 1)
              ++ "-" ++ zeroPadded 2 (DateFromTime t)
              ++ "T" ++ zeroPadded 2 (HourFromTime t)
              ++ ":" ++ zeroPadded 2 (MinFromTime t)
              ++ ":" ++ zeroPadded 2 (SecFromTime t)
              ++ "." ++ zeroPadded 3 (msFromTime t) ++ "Z")%string
  end.

(** [s.slice(0, 10)] *)
Definition slice10 (s : string) : string := String.substring 0 10 s.

(** ** The module, continued *)

Record IsoDateParts := {
  year : Z;
  month : Z;
  day : Z
}.

(** [/^(\d{4})-(\d{2})-(\d{2})$/.exec(dateStr)]: the three groups. *)
Definition isoDatePattern (dateStr : string)
  : option (list ascii * list ascii * list ascii) :=
  match list_ascii_of_string dateStr with
  | [y1; y2; y3; y4; h1; m1; m2; h2; d1; d2] =>
      if forallb isDigit [y1; y2; y3; y4; m1; m2; d1; d2]
         && Ascii.eqb h1 "-" && Ascii.eqb h2 "-"
      then Some ([y1; y2; y3; y4], [m1; m2], [d1; d2])
      else None
  | _ => None
  end.

(** [parseIsoDate(dateStr)] *)
Definition parseIsoDate (dateStr : string) : Result IsoDateParts :=
  match isoDatePattern dateStr with
  | None => Throw (Error "Invalid ISO date")
  | Some (g1, g2, g3) =>
      let year := Number_of_digits g1 in
      let month := Number_of_digits g2 in
      let day := Number_of_digits g3 in
      let utc := Date_new (Date_UTC year (month - 1) day 0 0 0 0) in
      if Number_strict_ne (getUTCFullYear utc) (Some year)
         || Number_strict_ne (Number_add (getUTCMonth utc) (Some 1)) (Some month)
         || Number_strict_ne (getUTCDate utc) (Some day)
      then Throw (Error "Invalid ISO date")
      else Return {| year := year; month := month; day := day |}
  end.

(** [isoDateAddDays(dateStr, days)], for an integer [days]. *)
Definition isoDateAddDays (dateStr : string) (days : Z) : Result string :=
  andThen (parseIsoDate dateStr) (fun p =>
  let utc := Date_new (Date_UTC (year p) (month p - 1) (day p + days) 0 0 0 0) in
  andThen (toISOString utc) (fun iso => Return (slice10 iso))).

(** ** Calendar notions *)

Definition daysInMonth (y m : Z) : Z :=
  match m with
  | 2 => if InLeapYear y then 29 else 28
  | 4 | 6 | 9 | 11 => 30
  | _ => 31
  end.

(** [YYYY-MM-DD] *)
Definition isoDateString (y m d : Z) : string :=
  (zeroPadded 4 y ++ "-" ++ zeroPadded 2 m ++ "-" ++ zeroPadded 2 d)%string.

(** The day number (days since the epoch) of a calendar date. *)
Definition dayNumber (p : IsoDateParts) : Z := MakeDay (year p) (month p - 1) (day p).

Definition validDate (p : IsoDateParts) : Prop :=
  1 <= month p <= 12 /\ 1 <= day p <= daysInMonth (year p) (month p).

End IsoDate.

(* ===================================================================== *)
(** * The payroll week: [routes/teacher.ts], [GET /payroll] *)
(* ===================================================================== *)

Module PayrollWeek.
Import Timezone IsoDate.

(** [payrollQuerySchema]: the [regex] and the [superRefine], which adds an
    issue when [parseIsoDate] throws or the date is not a Monday. *)
Definition payrollQuerySchema (weekStart : string) : bool :=
  match isoDatePattern weekStart with Some _ => true | None => false end
  && match parseIsoDate weekStart with
     | Return parts =>
         let utc := Date_new (Date_UTC (year parts) (month parts - 1) (day parts) 0 0 0 0) in
         negb (Number_strict_ne (getUTCDay utc) (Some 1))
     | Throw _ => false
     end.

(** [{ year, month, day, hour: 0, minute: 0, second: 0 }] *)
Definition midnight (parts : IsoDateParts) : LocalTime :=
  {| localYear := year parts; localMonth := month parts; localDay := day parts;
     localHour := Some 0; localMinute := Some 0; localSecond := Some 0;
     localMillisecond := None |}.

Definition ofCompletion {A : Type} (c : Completion A) : Result A :=
  match c with
  | Normal a => Return a
  | ThrowRangeError => Throw RangeError
  end.

Record Week := {
  weekStartLocal : string;
  weekEndLocal : string;
  nextWeekStartLocal : string;
  rangeStartUtc : Date;
  rangeEndUtcExclusive : Date
}.

(** The dates the handler computes from a validated [weekStart], in the
    payroll time zone. *)
Definition payrollWeek (zone : Zone) (weekStart : string) : Result Week :=
  let weekStartLocal := weekStart in
  andThen (isoDateAddDays weekStartLocal 6) (fun weekEndLocal =>
  andThen (isoDateAddDays weekStartLocal 7) (fun nextWeekStartLocal =>
  andThen (parseIsoDate weekStartLocal) (fun weekStartParts =>
  andThen (parseIsoDate nextWeekStartLocal) (fun nextWeekStartParts =>
  andThen (ofCompletion (zonedTimeToUtc (midnight weekStartParts) zone)) (fun rangeStartUtc =>
  andThen (ofCompletion (zonedTimeToUtc (midnight nextWeekStartParts) zone))
    (fun rangeEndUtcExclusive =>
  Return {| weekStartLocal := weekStartLocal;
            weekEndLocal := weekEndLocal;
            nextWeekStartLocal := nextWeekStartLocal;
            rangeStartUtc := rangeStartUtc;
            rangeEndUtcExclusive := rangeEndUtcExclusive |})))))).

(** Monday 3 June 2030 *)
Definition monday : string := "2030-06-03".

End PayrollWeek.

(* ===================================================================== *)
(** * The teacher's payroll page: week navigation *)
(* ===================================================================== *)

Module TeacherPayrollPage.
Import Timezone IsoDate.

(** The page's own [parseIsoDate(value)]: the pattern, no calendar check. *)
Definition parseIsoDate (value : string) : Result IsoDateParts :=
  match isoDatePattern value with
  | None => Throw (Error "Invalid date")
  | Some (g1, g2, g3) =>
      Return {| year := Number_of_digits g1;
                month := Number_of_digits g2;
                day := Number_of_digits g3 |}
  end.

(** [Date.prototype.setUTCDate(dt)]: the date after the call. *)
Definition setUTCDate (d : Date) (dt : Number) : Date :=
  match d, dt with
  | Some t, Some n =>
      TimeClip (MakeDate (MakeDay (YearFromTime t) (MonthFromTime t) n) (t mod msPerDay))
  | _, _ => None
  end.

(** [addDaysIsoDate(isoDate, deltaDays)], for an integer [deltaDays]. *)
Definition addDaysIsoDate (isoDate : string) (deltaDays : Z) : Result string :=
  andThen (parseIsoDate isoDate) (fun p =>
  let date := Date_new (Date_UTC (year p) (month p - 1) (day p) 0 0 0 0) in
  let date := setUTCDate date (Number_add (getUTCDate date) (Some deltaDays)) in
  andThen (toISOString date) (fun iso => Return (slice10 iso))).

End TeacherPayrollPage.

(* ===================================================================== *)
(** * Student routes: [GET /hours] and [GET /hours/by-teacher] *)
(* ===================================================================== *)

Module StudentHours.
Import Prisma Http.

(** The rows of [where: { studentId }]. *)
Definition entriesOfStudent (db : Db) (studentId : string) : list HourLedgerEntry.t :=
  filter (fun e => String.eqb (HourLedgerEntry.studentId e) studentId) (hourLedgerEntries db).

(** [_sum: { deltaUnits: true }]: the sum of the column, [null] over no
    row. *)
Definition sumDeltaUnits (rows : list HourLedgerEntry.t) : option Z :=
  match rows with
  | [] => None
  | _ => Some (fold_right Z.add 0 (map HourLedgerEntry.deltaUnits rows))
  end.

(** [x ?? 0] *)
Definition orZero (x : option Z) : Z :=
  match x with Some v => v | None => 0 end.

(** [GET /hours]: [remainingUnits]. *)
Definition getHours (db : Db) (userId : string) : Z :=
  orZero (sumDeltaUnits (entriesOfStudent db userId)).

(** A group of [hourLedgerEntry.groupBy({ by: ['teacherId'], _sum: { deltaUnits } })]. *)
Record Group := {
  groupTeacherId : option string;
  groupSumDeltaUnits : option Z
}.

Definition sameTeacher (a b : option string) : bool :=
  match a, b with
  | Some x, Some y => String.eqb x y
  | None, None => true
  | _, _ => false
  end.

(** The distinct values of a column, in order of first occurrence. *)
Fixpoint distinct (l : list (option string)) : list (option string) :=
  match l with
  | [] => []
  | x :: l' => x :: filter (fun y => negb (sameTeacher y x)) (distinct l')
  end.

(** One group per distinct [teacherId] of the rows, with the sum of its
    rows. *)
Definition groupByTeacherId (rows : list HourLedgerEntry.t) : list Group :=
  map (fun t =>
         {| groupTeacherId := t;
            groupSumDeltaUnits :=
              sumDeltaUnits
                (filter (fun e => sameTeacher (HourLedgerEntry.teacherId e) t) rows) |})
      (distinct (map HourLedgerEntry.teacherId rows)).

Record TeacherUnits := {
  teacherId : string;
  teacherName : option string;
  remainingUnits : Z
}.

Record HoursByTeacher := {
  totalRemainingUnits : Z;
  unassignedUnits : Z;
  byTeacher : list TeacherUnits
}.

(** [g.teacherId === null] *)
Definition isNull (g : Group) : bool :=
  match groupTeacherId g with None => true | Some _ => false end.

Section ByTeacher.
(** The order in which the store returns the groups (no [orderBy] is
    given); the [displayName] of a user's [teacherProfile], if it has one;
    and [String.prototype.localeCompare]. *)
Variable groupOrder : list Group -> list Group.
Variable teacherProfileDisplayName : string -> option string.
Variable localeCompare : string -> string -> Z.

(** [if (!group.teacherId) continue; unitsByTeacherId.set(...)]: [null]
    and the empty string are falsy. *)
Definition collectUnits (m : JsMap.t (K := string) (V := Z)) (group : Group)
  : JsMap.t (K := string) (V := Z) :=
  match groupTeacherId group with
  | None => m
  | Some t =>
      if String.eqb t "" then m
      else JsMap.set String.eqb t (orZero (groupSumDeltaUnits group)) m
  end.

Definition sortName (a : TeacherUnits) : string :=
  match teacherName a with Some n => n | None => teacherId a end.

Definition compareTeacher (a b : TeacherUnits) : Z :=
  localeCompare (sortName a) (sortName b).

(** [GET /hours/by-teacher] *)
Definition getHoursByTeacher (db : Db) (userId : string) : Reply + HoursByTeacher :=
  match findUser db userId with
  | None => inl (message 401 "Unauthorized")
  | Some actor =>
      let grouped := groupOrder (groupByTeacherId (entriesOfStudent db (User.id actor))) in
      let unassignedUnits :=
        match find isNull grouped with
        | Some g => orZero (groupSumDeltaUnits g)
        | None => 0
        end in
      let unitsByTeacherId := fold_left collectUnits grouped [] in
      let teacherIds := JsMap.keys unitsByTeacherId in
      let teachers :=
        match teacherIds with
        | [] => []
        | _ => filter (fun u => existsb (String.eqb (User.id u)) teacherIds
                                && String.eqb (User.orgId u) (User.orgId actor)
                                && UserRole_eqb (User.role u) TEACHER) (users db)
        end in
      let teacherNameById :=
        fold_left (fun m teacher =>
                     JsMap.set String.eqb (User.id teacher)
                       (teacherProfileDisplayName (User.id teacher)) m)
                  teachers [] in
      let byTeacher :=
        JsArray.sort compareTeacher
          (map (fun teacherId =>
                  {| teacherId := teacherId;
                     teacherName :=
                       match JsMap.get String.eqb teacherId teacherNameById with
                       | Some name => name
                       | None => None
                       end;
                     remainingUnits :=
                       orZero (JsMap.get String.eqb teacherId unitsByTeacherId) |})
               teacherIds) in
      let totalRemainingUnits :=
        fold_left (fun acc g => acc + orZero (groupSumDeltaUnits g)) grouped 0 in
      inr {| totalRemainingUnits := totalRemainingUnits;
             unassignedUnits := unassignedUnits;
             byTeacher := byTeacher |}
  end.
End ByTeacher.

(** [group._sum.deltaUnits ?? 0] *)
Definition units (g : Group) : Z := orZero (groupSumDeltaUnits g).

(** The entry [collectUnits] adds for a group, if any. *)
Definition collected (g : Group) : list (string * Z) :=
  match groupTeacherId g with
  | Some t => if String.eqb t "" then [] else [(t, units g)]
  | None => []
  end.

(** The sum of a column of integers. *)
Definition total (l : list Z) : Z := fold_right Z.add 0 l.

(** The rows of the student booked with one teacher. *)
Definition entriesWithTeacher (db : Db) (studentId teacher : string) : list HourLedgerEntry.t :=
  filter (fun e => sameTeacher (HourLedgerEntry.teacherId e) (Some teacher))
         (entriesOfStudent db studentId).

(** Two purchases with [teacher1], one without a teacher, one session
    consumed. *)
Definition ledgerOfStudent1 : Db :=
  Examples.mkDb []
    []
    [ {| HourLedgerEntry.id := "l1"; HourLedgerEntry.studentId := "student1";
         HourLedgerEntry.teacherId := Some "teacher1"; HourLedgerEntry.deltaUnits := 10;
         HourLedgerEntry.reason := PURCHASE; HourLedgerEntry.sessionId := None |};
      Examples.purchase10;
      {| HourLedgerEntry.id := "l3"; HourLedgerEntry.studentId := "student1";
         HourLedgerEntry.teacherId := Some "teacher1"; HourLedgerEntry.deltaUnits := -1;
         HourLedgerEntry.reason := SESSION_CONSUME; HourLedgerEntry.sessionId := Some "s1" |};
      {| HourLedgerEntry.id := "l4"; HourLedgerEntry.studentId := "student1";
         HourLedgerEntry.teacherId := Some "teacher2"; HourLedgerEntry.deltaUnits := 5;
         HourLedgerEntry.reason := ADJUSTMENT; HourLedgerEntry.sessionId := None |} ].

Definition noProfile (userId : string) : option string := None.

End StudentHours.

(* ===================================================================== *)
(** * Administrator routes: rejection, cancellation, hours and rates *)
(* ===================================================================== *)

Module AdminMutations.
Import Prisma Http.

(** ** [POST /change-requests/:id/reject] *)

(** [data: { status: REJECTED, decidedByAdminId: actor.id }] *)
Definition markRejected (deciderId : string) (cr : ChangeRequest.t) : ChangeRequest.t :=
  {| ChangeRequest.id := ChangeRequest.id cr;
     ChangeRequest.sessionId := ChangeRequest.sessionId cr;
     ChangeRequest.type := ChangeRequest.type cr;
     ChangeRequest.proposedStartAtUtc := ChangeRequest.proposedStartAtUtc cr;
     ChangeRequest.proposedEndAtUtc := ChangeRequest.proposedEndAtUtc cr;
     ChangeRequest.proposedTimeZone := ChangeRequest.proposedTimeZone cr;
     ChangeRequest.status := REJECTED;
     ChangeRequest.requestedByUserId := ChangeRequest.requestedByUserId cr;
     ChangeRequest.decidedByAdminId := Some deciderId |}.

(** The transaction of the rejection: statements 0 and 1. *)
Definition rejectTransaction (fault : option nat) (actor : User.t)
  (changeRequest : ChangeRequest.t) : Tx ChangeRequest.t :=
  bind (stmt fault 0 (changeRequest_update (ChangeRequest.id changeRequest)
                        (markRejected (User.id actor))))
    (fun updatedChangeRequest =>
  bind (stmt fault 1 (auditLog_create
          {| AuditLog.orgId := User.orgId actor;
             AuditLog.actorUserId := User.id actor;
             AuditLog.action := "ADMIN_REJECT_CHANGE_REQUEST";
             AuditLog.entityType := "ChangeRequest";
             AuditLog.entityId := ChangeRequest.id updatedChangeRequest |}))
    (fun _ => ret updatedChangeRequest)).

(** [POST /change-requests/:id/reject]; the reply to a rejection shows the
    [id] and [status] of the updated request ([inr]).  As for the approval,
    a store that breaks the foreign keys of the joined
    [changeRequest.session.student] makes the handler throw. *)
Definition rejectChangeRequest (fault : option nat) (db : Db) (userId : string)
  (id : string) : Db * (Reply + ChangeRequest.t) :=
  if negb (nonEmpty id) then (db, inl badRequest)
  else
    match findUser db userId with
    | None => (db, inl (message 401 "Unauthorized"))
    | Some actor =>
        match findChangeRequest db id with
        | None => (db, inl (message 404 "Change request not found"))
        | Some changeRequest =>
            match findSession db (ChangeRequest.sessionId changeRequest) with
            | None => (db, inl internalError)
            | Some session =>
                match findUser db (Session.studentId session) with
                | None => (db, inl internalError)
                | Some student =>
                    if negb (String.eqb (User.orgId student) (User.orgId actor))
                    then (db, inl (message 404 "Change request not found"))
                    else if negb (ChangeRequestStatus_eqb
                                    (ChangeRequest.status changeRequest) PENDING)
                    then (db, inl (message 409 "Change request is not pending"))
                    else
                      match transaction (rejectTransaction fault actor changeRequest) db with
                      | (db', Some updated) => (db', inr updated)
                      | (db', None) => (db', inl internalError)
                      end
                end
            end
        end
    end.

(** ** [DELETE /sessions/:id] *)

(** The two writes of the handler are separate statements, 0 and 1, outside
    any transaction: each commits on its own, and a failing statement makes
    the handler throw with the earlier write in place. *)
Definition deleteSession (fault : option nat) (db : Db) (userId : string) (id : string)
  : Db * Reply :=
  if negb (nonEmpty id) then (db, badRequest)
  else
    match findUser db userId with
    | None => (db, message 401 "Unauthorized")
    | Some actor =>
        match find (fun x => String.eqb (Session.id x) id
                             && AdminRoutes.inOrg db (User.orgId actor) x) (sessions db) with
        | None => (db, message 404 "Session not found")
        | Some existing =>
            if SessionStatus_eqb (Session.status existing) COMPLETED
            then (db, message 409 "Cannot delete COMPLETED session")
            else
              let cancelled :=
                if negb (SessionStatus_eqb (Session.status existing) CANCELLED)
                then stmt fault 0 (session_update (Session.id existing)
                                     AdminRoutes.markCancelled) db
                else Some (existing, db) in
              match cancelled with
              | None => (db, internalError)
              | Some (_, db1) =>
                  match stmt fault 1 (auditLog_create
                          {| AuditLog.orgId := User.orgId actor;
                             AuditLog.actorUserId := User.id actor;
                             AuditLog.action := "ADMIN_CANCEL_SESSION";
                             AuditLog.entityType := "Session";
                             AuditLog.entityId := Session.id existing |}) db1 with
                  | None => (db1, internalError)
                  | Some (_, db2) => (db2, ok)
                  end
              end
        end
    end.

(** ** [POST /sessions] and [PATCH /sessions/:id] on a store that may fail

    [AdminRoutes.postSessions] and [AdminRoutes.patchSession] are the two
    handlers when every statement succeeds.  Like [DELETE /sessions/:id]
    they issue their two writes as separate statements, 0 and 1, outside any
    transaction; here the store may fail at one of them, and the handler
    then throws with the earlier write in place. *)

(** [session.create({ data })] *)
Definition session_create (row : Session.t) : Tx Session.t :=
  fun db => Some (row, createSession db row).

Definition postSessionsFallible (fault : option nat) (db : Db) (userId : string)
  (body : AdminRoutes.CreateSessionBody) (newId : string) : Db * Reply :=
  if negb (AdminRoutes.createSessionBodySchema body) then (db, badRequest)
  else
    match findUser db userId with
    | None => (db, message 401 "Unauthorized")
    | Some actor =>
        match findUser db (AdminRoutes.teacherId body) with
        | None => (db, message 404 "Teacher not found")
        | Some teacher =>
            if negb (String.eqb (User.orgId teacher) (User.orgId actor))
               || negb (UserRole_eqb (User.role teacher) TEACHER)
            then (db, message 404 "Teacher not found")
            else
              match findUser db (AdminRoutes.studentId body) with
              | None => (db, message 404 "Student not found")
              | Some student =>
                  if negb (String.eqb (User.orgId student) (User.orgId actor))
                     || negb (UserRole_eqb (User.role student) STUDENT)
                  then (db, message 404 "Student not found")
                  else
                    match findRate db (User.id teacher) (User.id student)
                            (AdminRoutes.subject body) with
                    | None => (db, message 404 "Rate not found")
                    | Some rate =>
                        match find (AdminRoutes.conflictsWith (User.id teacher)
                                      (AdminRoutes.startAtUtc body)
                                      (AdminRoutes.endAtUtc body)) (sessions db) with
                        | Some conflict => (db, timeConflict (Session.id conflict))
                        | None =>
                            let session :=
                              {| Session.id := newId;
                                 Session.teacherId := User.id teacher;
                                 Session.studentId := User.id student;
                                 Session.subject := AdminRoutes.subject body;
                                 Session.startAtUtc := AdminRoutes.startAtUtc body;
                                 Session.endAtUtc := AdminRoutes.endAtUtc body;
                                 Session.classTimeZone := AdminRoutes.classTimeZone body;
                                 Session.status := SCHEDULED;
                                 Session.consumesUnits := AdminRoutes.consumesUnits body;
                                 Session.rateCentsSnapshot :=
                                   TeacherStudentRate.hourlyRateCents rate;
                                 Session.currencySnapshot := TeacherStudentRate.currency rate;
                                 Session.createdByAdminId := User.id actor |} in
                            match stmt fault 0 (session_create session) db with
                            | None => (db, internalError)
                            | Some (session, db1) =>
                                match stmt fault 1 (auditLog_create
                                        {| AuditLog.orgId := User.orgId actor;
                                           AuditLog.actorUserId := User.id actor;
                                           AuditLog.action := "ADMIN_CREATE_SESSION";
                                           AuditLog.entityType := "Session";
                                           AuditLog.entityId := Session.id session |}) db1 with
                                | None => (db1, internalError)
                                | Some (_, db2) => (db2, created (Session.id session))
                                end
                            end
                        end
                    end
              end
        end
    end.

Definition patchSessionFallible (fault : option nat) (db : Db) (userId : string)
  (id : string) (body : AdminRoutes.UpdateSessionBody) : Db * Reply :=
  if negb (nonEmpty id) then (db, badRequest)
  else if negb (AdminRoutes.updateSessionBodySchema body) then (db, badRequest)
  else
    match findUser db userId with
    | None => (db, message 401 "Unauthorized")
    | Some actor =>
        match find (fun x => String.eqb (Session.id x) id
                             && AdminRoutes.inOrg db (User.orgId actor) x) (sessions db) with
        | None => (db, message 404 "Session not found")
        | Some existing =>
            if negb (SessionStatus_eqb (Session.status existing) SCHEDULED)
            then (db, message 409 "Only SCHEDULED sessions can be edited")
            else
              let nextSubject :=
                AdminRoutes.orElse (AdminRoutes.newSubject body) (Session.subject existing) in
              let nextStartAtUtc :=
                AdminRoutes.orElse (AdminRoutes.newStartAtUtc body)
                  (Session.startAtUtc existing) in
              let nextEndAtUtc :=
                AdminRoutes.orElse (AdminRoutes.newEndAtUtc body) (Session.endAtUtc existing) in
              let nextStatus :=
                AdminRoutes.orElse (AdminRoutes.newStatus body) (Session.status existing) in
              if negb (SessionStatus_eqb nextStatus SCHEDULED)
                 && negb (SessionStatus_eqb nextStatus CANCELLED)
              then (db, message 400 "Invalid status transition")
              else
                match find (AdminRoutes.conflictsWithOther existing nextStartAtUtc nextEndAtUtc)
                           (sessions db) with
                | Some conflict => (db, timeConflict (Session.id conflict))
                | None =>
                    let nextRate :=
                      if negb (Subject_eqb nextSubject (Session.subject existing))
                      then
                        match findRate db (Session.teacherId existing)
                                (Session.studentId existing) nextSubject with
                        | Some rate => Some (Some rate)
                        | None => None
                        end
                      else Some None in
                    match nextRate with
                    | None => (db, message 404 "Rate not found")
                    | Some rate =>
                        let data (x : Session.t) : Session.t :=
                          {| Session.id := Session.id x;
                             Session.teacherId := Session.teacherId x;
                             Session.studentId := Session.studentId x;
                             Session.subject := nextSubject;
                             Session.startAtUtc := nextStartAtUtc;
                             Session.endAtUtc := nextEndAtUtc;
                             Session.classTimeZone :=
                               AdminRoutes.orElse (AdminRoutes.newClassTimeZone body)
                                 (Session.classTimeZone existing);
                             Session.status := nextStatus;
                             Session.consumesUnits :=
                               AdminRoutes.orElse (AdminRoutes.newConsumesUnits body)
                                 (Session.consumesUnits existing);
                             Session.rateCentsSnapshot :=
                               match rate with
                               | Some r => TeacherStudentRate.hourlyRateCents r
                               | None => Session.rateCentsSnapshot x
                               end;
                             Session.currencySnapshot :=
                               match rate with
                               | Some r => TeacherStudentRate.currency r
                               | None => Session.currencySnapshot x
                               end;
                             Session.createdByAdminId := Session.createdByAdminId x |} in
                        match stmt fault 0 (session_update (Session.id existing) data) db with
                        | None => (db, internalError)
                        | Some (_, db1) =>
                            match stmt fault 1 (auditLog_create
                                    {| AuditLog.orgId := User.orgId actor;
                                       AuditLog.actorUserId := User.id actor;
                                       AuditLog.action := "ADMIN_UPDATE_SESSION";
                                       AuditLog.entityType := "Session";
                                       AuditLog.entityId := Session.id existing |}) db1 with
                            | None => (db1, internalError)
                            | Some (_, db2) => (db2, ok)
                            end
                        end
                    end
                end
        end
    end.

(** ** [POST /students/:id/hours] *)

Record AddHoursBody := {
  deltaUnits : Z;
  reason : HourLedgerReason;
  teacherId : option string
}.

(** [addHoursBodySchema] *)
Definition addHoursBodySchema (data : AddHoursBody) : bool :=
  (0 <? deltaUnits data)
  && match reason data with PURCHASE | ADJUSTMENT => true | SESSION_CONSUME => false end
  && match teacherId data with Some t => nonEmpty t | None => true end.

(** [hourLedgerEntry.create]: a new row at the end of the table. *)
Definition createHourLedgerEntry (db : Db) (row : HourLedgerEntry.t) : Db :=
  withHourLedgerEntries db (hourLedgerEntries db ++ [row]).

(** [hourLedgerEntry.create({ data })] *)
Definition hourLedgerEntry_create (row : HourLedgerEntry.t) : Tx HourLedgerEntry.t :=
  fun db => Some (row, createHourLedgerEntry db row).

(** [POST /students/:id/hours]; [newId] is the id the store gives the new
    entry.  The two writes are separate statements, 0 and 1, outside any
    transaction. *)
Definition addHours (fault : option nat) (db : Db) (userId : string) (id : string)
  (body : AddHoursBody) (newId : string) : Db * Reply :=
  if negb (nonEmpty id) then (db, badRequest)
  else if negb (addHoursBodySchema body) then (db, badRequest)
  else
    match findUser db userId with
    | None => (db, message 401 "Unauthorized")
    | Some actor =>
        match findUser db id with
        | None => (db, message 404 "Student not found")
        | Some student =>
            if negb (String.eqb (User.orgId student) (User.orgId actor))
               || negb (UserRole_eqb (User.role student) STUDENT)
            then (db, message 404 "Student not found")
            else
              let teacherCheck : option (option string) :=
                match teacherId body with
                | Some t =>
                    if nonEmpty t then
                      match findUser db t with
                      | None => None
                      | Some teacher =>
                          if negb (String.eqb (User.orgId teacher) (User.orgId actor))
                             || negb (UserRole_eqb (User.role teacher) TEACHER)
                          then None
                          else Some (Some (User.id teacher))
                      end
                    else Some None
                | None => Some None
                end in
              match teacherCheck with
              | None => (db, message 404 "Teacher not found")
              | Some teacherId =>
                  let entry :=
                    {| HourLedgerEntry.id := newId;
                       HourLedgerEntry.studentId := User.id student;
                       HourLedgerEntry.teacherId := teacherId;
                       HourLedgerEntry.deltaUnits := deltaUnits body;
                       HourLedgerEntry.reason := reason body;
                       HourLedgerEntry.sessionId := None |} in
                  match stmt fault 0 (hourLedgerEntry_create entry) db with
                  | None => (db, internalError)
                  | Some (entry, db1) =>
                      match stmt fault 1 (auditLog_create
                              {| AuditLog.orgId := User.orgId actor;
                                 AuditLog.actorUserId := User.id actor;
                                 AuditLog.action := "ADMIN_ADD_HOURS";
                                 AuditLog.entityType := "HourLedgerEntry";
                                 AuditLog.entityId := HourLedgerEntry.id entry |}) db1 with
                      | None => (db1, internalError)
                      | Some (_, db2) => (db2, created (HourLedgerEntry.id entry))
                      end
                  end
              end
        end
    end.

(** ** [PUT /rates] *)

Record UpsertRateBody := {
  rateTeacherId : string;
  rateStudentId : string;
  rateSubject : option Subject;
  hourlyRateCents : Z;
  currency : Currency
}.

(** [upsertRateBodySchema] *)
Definition upsertRateBodySchema (data : UpsertRateBody) : bool :=
  nonEmpty (rateTeacherId data) && nonEmpty (rateStudentId data)
  && (0 <? hourlyRateCents data).

Definition withTeacherStudentRates (db : Db) (l : list TeacherStudentRate.t) : Db :=
  {| users := users db; teacherStudentRates := l;
     sessions := sessions db; changeRequests := changeRequests db;
     hourLedgerEntries := hourLedgerEntries db; auditLogs := auditLogs db |}.

(** The unique key [teacherId_studentId_subject]. *)
Definition hasKey (teacherId studentId : string) (subject : Subject)
  (r : TeacherStudentRate.t) : bool :=
  String.eqb (TeacherStudentRate.teacherId r) teacherId
  && String.eqb (TeacherStudentRate.studentId r) studentId
  && Subject_eqb (TeacherStudentRate.subject r) subject.

(** [update: { subject, hourlyRateCents, currency }] *)
Definition updateRate (subject : Subject) (cents : Z) (cur : Currency)
  (r : TeacherStudentRate.t) : TeacherStudentRate.t :=
  {| TeacherStudentRate.id := TeacherStudentRate.id r;
     TeacherStudentRate.teacherId := TeacherStudentRate.teacherId r;
     TeacherStudentRate.studentId := TeacherStudentRate.studentId r;
     TeacherStudentRate.subject := subject;
     TeacherStudentRate.hourlyRateCents := cents;
     TeacherStudentRate.currency := cur |}.

(** [teacherStudentRate.upsert({ where, create, update })]: the row of the
    key rewritten, or a new row at the end of the table. *)
Definition upsertRate (teacherId studentId : string) (subject : Subject) (cents : Z)
  (cur : Currency) (newId : string) (db : Db) : TeacherStudentRate.t * Db :=
  match findRate db teacherId studentId subject with
  | Some existing =>
      (updateRate subject cents cur existing,
       withTeacherStudentRates db
         (map (fun r => if hasKey teacherId studentId subject r
                        then updateRate subject cents cur r else r)
              (teacherStudentRates db)))
  | None =>
      let row :=
        {| TeacherStudentRate.id := newId;
           TeacherStudentRate.teacherId := teacherId;
           TeacherStudentRate.studentId := studentId;
           TeacherStudentRate.subject := subject;
           TeacherStudentRate.hourlyRateCents := cents;
           TeacherStudentRate.currency := cur |} in
      (row, withTeacherStudentRates db (teacherStudentRates db ++ [row]))
  end.

Definition teacherStudentRate_upsert (teacherId studentId : string) (subject : Subject)
  (cents : Z) (cur : Currency) (newId : string) : Tx TeacherStudentRate.t :=
  fun db => Some (upsertRate teacherId studentId subject cents cur newId db).

(** [PUT /rates]; the reply to an upsert shows the stored rate ([inr]).  The
    two writes are separate statements, 0 and 1, outside any transaction. *)
Definition putRates (fault : option nat) (db : Db) (userId : string)
  (body : UpsertRateBody) (newId : string) : Db * (Reply + TeacherStudentRate.t) :=
  if negb (upsertRateBodySchema body) then (db, inl badRequest)
  else
    match findUser db userId with
    | None => (db, inl (message 401 "Unauthorized"))
    | Some actor =>
        match findUser db (rateTeacherId body) with
        | None => (db, inl (message 404 "Teacher not found"))
        | Some teacher =>
            if negb (String.eqb (User.orgId teacher) (User.orgId actor))
               || negb (UserRole_eqb (User.role teacher) TEACHER)
            then (db, inl (message 404 "Teacher not found"))
            else
              match findUser db (rateStudentId body) with
              | None => (db, inl (message 404 "Student not found"))
              | Some student =>
                  if negb (String.eqb (User.orgId student) (User.orgId actor))
                     || negb (UserRole_eqb (User.role student) STUDENT)
                  then (db, inl (message 404 "Student not found"))
                  else
                    let subject := AdminRoutes.orElse (rateSubject body) GENERAL in
                    match stmt fault 0 (teacherStudentRate_upsert (User.id teacher)
                                          (User.id student) subject (hourlyRateCents body)
                                          (currency body) newId) db with
                    | None => (db, inl internalError)
                    | Some (rate, db1) =>
                        match stmt fault 1 (auditLog_create
                                {| AuditLog.orgId := User.orgId actor;
                                   AuditLog.actorUserId := User.id actor;
                                   AuditLog.action := "ADMIN_UPSERT_RATE";
                                   AuditLog.entityType := "TeacherStudentRate";
                                   AuditLog.entityId := TeacherStudentRate.id rate |}) db1 with
                        | None => (db1, inl internalError)
                        | Some (_, db2) => (db2, inr rate)
                        end
                    end
              end
        end
    end.

(** The unique index on [(teacherId, studentId, subject)]. *)
Definition uniqueRateKeys (db : Db) : Prop :=
  forall teacherId studentId subject,
    (List.length (filter (hasKey teacherId studentId subject) (teacherStudentRates db)) <= 1)%nat.

(** The rejection request reaches the transaction for change request
    [cr]. *)
Definition rejectable (db : Db) (userId id : string) (actor : User.t)
  (cr : ChangeRequest.t) : Prop :=
  nonEmpty id = true /\
  findUser db userId = Some actor /\
  findChangeRequest db id = Some cr /\
  (exists session student,
     findSession db (ChangeRequest.sessionId cr) = Some session /\
     findUser db (Session.studentId session) = Some student /\
     User.orgId student = User.orgId actor) /\
  ChangeRequest.status cr = PENDING.

(** The effects of a rejection are in [db']: the change request rows of
    [id] marked rejected by the actor and one audit row; users, rates,
    sessions and ledger as before. *)
Definition rejectionApplied (db db' : Db) (id : string) (actor : User.t) : Prop :=
  changeRequests db'
  = updateChangeRequestRows id (markRejected (User.id actor)) (changeRequests db) /\
  auditLogs db'
  = auditLogs db ++ [{| AuditLog.orgId := User.orgId actor;
                        AuditLog.actorUserId := User.id actor;
                        AuditLog.action := "ADMIN_REJECT_CHANGE_REQUEST";
                        AuditLog.entityType := "ChangeRequest";
                        AuditLog.entityId := id |}] /\
  sessions db' = sessions db /\ users db' = users db /\
  teacherStudentRates db' = teacherStudentRates db /\
  hourLedgerEntries db' = hourLedgerEntries db.

(** A decision on change request [id] by [userId] that takes [db] to [db']. *)
Definition decides (db : Db) (userId id : string) (db' : Db) : Prop :=
  (exists fault cr session,
     AdminRoutes.approveChangeRequest fault db userId id = (db', approved cr session)) \/
  (exists fault cr, rejectChangeRequest fault db userId id = (db', inr cr)).

(** The audit row [actor] leaves for [action] on an entity. *)
Definition auditEntry (actor : User.t) (action entityType entityId : string) : AuditLog.t :=
  {| AuditLog.orgId := User.orgId actor;
     AuditLog.actorUserId := User.id actor;
     AuditLog.action := action;
     AuditLog.entityType := entityType;
     AuditLog.entityId := entityId |}.

(** The audit row of a cancellation through [DELETE /sessions/:id]. *)
Definition cancelAudit (actor : User.t) (id : string) : AuditLog.t :=
  {| AuditLog.orgId := User.orgId actor;
     AuditLog.actorUserId := User.id actor;
     AuditLog.action := "ADMIN_CANCEL_SESSION";
     AuditLog.entityType := "Session";
     AuditLog.entityId := id |}.

(** The session [DELETE] and [PATCH] act on: the first of the
    administrator's organisation with the given id. *)
Definition findInOrg (db : Db) (actor : User.t) (id : string) : option Session.t :=
  find (fun x => String.eqb (Session.id x) id && AdminRoutes.inOrg db (User.orgId actor) x)
       (sessions db).

(** The edit passes validation, finds a [SCHEDULED] session and asks for no
    status other than [SCHEDULED] or [CANCELLED]. *)
Definition reachesPatchConflictCheck (db : Db) (userId id : string)
  (body : AdminRoutes.UpdateSessionBody) (actor : User.t) (existing : Session.t) : Prop :=
  nonEmpty id = true /\
  AdminRoutes.updateSessionBodySchema body = true /\
  findUser db userId = Some actor /\
  findInOrg db actor id = Some existing /\
  Session.status existing = SCHEDULED /\
  AdminRoutes.newStatus body <> Some COMPLETED.

(** The rate [PATCH] resolves: none asked for when the subject stays, the
    rate of the new subject when it changes. *)
Definition patchRate (db : Db) (body : AdminRoutes.UpdateSessionBody) (existing : Session.t)
  : option (option TeacherStudentRate.t) :=
  let nextSubject := AdminRoutes.orElse (AdminRoutes.newSubject body) (Session.subject existing) in
  if negb (Subject_eqb nextSubject (Session.subject existing))
  then match findRate db (Session.teacherId existing) (Session.studentId existing)
               nextSubject with
       | Some rate => Some (Some rate)
       | None => None
       end
  else Some None.

(** The row [PATCH /sessions/:id] writes in place of [existing], with the
    rate snapshot taken from [rate] when the subject changes. *)
Definition patched (body : AdminRoutes.UpdateSessionBody) (existing : Session.t)
  (rate : option TeacherStudentRate.t) (x : Session.t) : Session.t :=
  {| Session.id := Session.id x;
     Session.teacherId := Session.teacherId x;
     Session.studentId := Session.studentId x;
     Session.subject := AdminRoutes.orElse (AdminRoutes.newSubject body) (Session.subject existing);
     Session.startAtUtc :=
       AdminRoutes.orElse (AdminRoutes.newStartAtUtc body) (Session.startAtUtc existing);
     Session.endAtUtc :=
       AdminRoutes.orElse (AdminRoutes.newEndAtUtc body) (Session.endAtUtc existing);
     Session.classTimeZone :=
       AdminRoutes.orElse (AdminRoutes.newClassTimeZone body) (Session.classTimeZone existing);
     Session.status := AdminRoutes.orElse (AdminRoutes.newStatus body) (Session.status existing);
     Session.consumesUnits :=
       AdminRoutes.orElse (AdminRoutes.newConsumesUnits body) (Session.consumesUnits existing);
     Session.rateCentsSnapshot :=
       match rate with
       | Some r => TeacherStudentRate.hourlyRateCents r
       | None => Session.rateCentsSnapshot x
       end;
     Session.currencySnapshot :=
       match rate with
       | Some r => TeacherStudentRate.currency r
       | None => Session.currencySnapshot x
       end;
     Session.createdByAdminId := Session.createdByAdminId x |}.

(** The row [POST /sessions] creates. *)
Definition createdSession (actor : User.t) (body : AdminRoutes.CreateSessionBody)
  (rate : TeacherStudentRate.t) (newId : string) : Session.t :=
  {| Session.id := newId;
     Session.teacherId := AdminRoutes.teacherId body;
     Session.studentId := AdminRoutes.studentId body;
     Session.subject := AdminRoutes.subject body;
     Session.startAtUtc := AdminRoutes.startAtUtc body;
     Session.endAtUtc := AdminRoutes.endAtUtc body;
     Session.classTimeZone := AdminRoutes.classTimeZone body;
     Session.status := SCHEDULED;
     Session.consumesUnits := AdminRoutes.consumesUnits body;
     Session.rateCentsSnapshot := TeacherStudentRate.hourlyRateCents rate;
     Session.currencySnapshot := TeacherStudentRate.currency rate;
     Session.createdByAdminId := User.id actor |}.

(** Two tables equal but for the audit log. *)
Definition sameData (db db' : Db) : Prop :=
  users db' = users db /\ teacherStudentRates db' = teacherStudentRates db /\
  sessions db' = sessions db /\ changeRequests db' = changeRequests db /\
  hourLedgerEntries db' = hourLedgerEntries db.

End AdminMutations.

(* ===================================================================== *)
(** * Notions for the job and the payroll *)
(* ===================================================================== *)

Module JobDefs.
Import Prisma Jobs Spec.
(** The units the sessions [sel] of one student consume. *)
Definition consumedBy (studentId : string) (sel : list Session.t) : Z :=
  fold_right Z.add 0
    (map Session.consumesUnits
       (filter (fun s => String.eqb (Session.studentId s) studentId) sel)).
End JobDefs.

Module PayrollNotions.
Import Prisma Payroll.
(** In the per-student map, student [sid] has an entry for currency [k]. *)
Definition hasEntry {hours : Type} (students : JsMap.t (K := string) (V := StudentEntry hours))
  (sid : string) (k : Currency) : Prop :=
  exists e, In (sid, e) students /\ In k (JsMap.keys (totalsByCurrency e)).

(** The prorated wages of a list of sessions: their exact sum, and the sum
    of their absolute values. *)
Definition sumCents (l : list SessionRow) : Z :=
  fold_right Z.add 0 (map sessionCentsOf l).

Definition sumAbsCents (l : list SessionRow) : Z :=
  fold_right Z.add 0 (map (fun s => Z.abs (sessionCentsOf s)) l).

(** Three AUD sessions: 4194305 hours at 2147483647 cents per hour (the
    largest [Int]) for student [A], prorated to 9007201398030336 cents, and
    two of one hour at 1 cent per hour for student [B]. *)
Definition hoursSession (sid : string) (hours wageCents : Z) : SessionRow :=
  {| studentId := sid;
     startAtUtc := 0;
     endAtUtc := hours * 3600000;
     teacherHourlyWageCentsSnapshot := wageCents;
     currencySnapshot := AUD;
     studentDisplayName := None |}.

Definition largeSessions : list SessionRow :=
  [hoursSession "A" 4194305 2147483647; hoursSession "B" 1 1; hoursSession "B" 1 1].
End PayrollNotions.

(* ===================================================================== *)
(** * Payroll proration *)
(* ===================================================================== *)

Module PayrollFacts.
Import Payroll.

Definition hourMs : Z := 3600000.
Definition halfHourMs : Z := hourMs / 2.

(** Round-half-up of a rational: the floor of the value plus one half. *)
Definition round_half_up (x : Q) : Z := Qfloor (x + (1 # 2)).

Lemma Number_of_BigInt_safe (z : Z) :
  Z.abs z <= 2 ^ 53 -> Js.Number_of_BigInt z = z.
Proof.
  intros Hz. unfold Js.Number_of_BigInt.
  destruct (Z.leb_spec (Z.abs z) (2 ^ 53)) as [_ | Hgt]; [reflexivity | lia].
Qed.

Lemma round_half_up_ratio (n : Z) :
  round_half_up (inject_Z n / inject_Z hourMs) = (n + halfHourMs) / hourMs.
Proof.
  unfold round_half_up.
  assert (E : (inject_Z n / inject_Z hourMs + (1 # 2) == (n + halfHourMs) # 3600000)%Q).
  { change halfHourMs with 1800000. change hourMs with 3600000.
    unfold Qeq, Qdiv, Qmult, Qplus, Qinv, inject_Z. simpl. lia. }
  rewrite E. reflexivity.
Qed.

(** C7 (amended).  For every session the payroll loop counts (one that
    ends after it starts) with a non-negative wage snapshot, let
    [quotient = floor((durationMs * wageCents + halfHourMs) / hourMs)] with
    [hourMs = 3600000] and [halfHourMs = hourMs / 2].  The quotient is
    computed on integers and is the round-half-up of the exact rational
    [durationMs * wageCents / hourMs]; the prorated wage in cents is
    [Number(quotient)], the double nearest to the quotient, and equals the
    quotient whenever the quotient is at most 2^53.  A 1.5-hour session at
    10000 cents per hour yields 15000 cents. *)
Theorem prorateCents_round_half_up (session : SessionRow) :
  startAtUtc session < endAtUtc session ->
  0 <= teacherHourlyWageCentsSnapshot session ->
  let durationMs := durationMsOf session in
  let wageCents := teacherHourlyWageCentsSnapshot session in
  let quotient := (durationMs * wageCents + halfHourMs) / hourMs in
  hourMs = 3600000 /\ halfHourMs = hourMs / 2 /\
  counted session = true /\
  quotient = round_half_up (inject_Z (durationMs * wageCents) / inject_Z hourMs) /\
  sessionCentsOf session = Js.Number_of_BigInt quotient /\
  (quotient <= 2 ^ 53 ->
     sessionCentsOf session = quotient /\
     sessionCentsOf session
     = round_half_up (inject_Z (durationMs * wageCents) / inject_Z hourMs)) /\
  prorateCents 5400000 10000 = 15000.
Proof.
  intros Hdur Hw durationMs wageCents quotient.
  assert (Hd : 0 < durationMs) by (unfold durationMs, durationMsOf; lia).
  assert (Hnum : 0 <= durationMs * wageCents + halfHourMs).
  { change halfHourMs with 1800000. nia. }
  assert (Hnumber : sessionCentsOf session = Js.Number_of_BigInt quotient).
  { unfold sessionCentsOf, prorateCents. fold durationMs wageCents.
    destruct (Z.leb_spec durationMs 0) as [Hle | _]; [lia |].
    unfold Js.BigInt_div, MS_PER_HOUR.
    change (Z.quot (60 * 60 * 1000) 2) with halfHourMs.
    change (60 * 60 * 1000) with hourMs.
    now rewrite Z.quot_div_nonneg by (unfold hourMs; lia). }
  assert (Hfloor : quotient <= 2 ^ 53 -> sessionCentsOf session = quotient).
  { intros Hsafe. rewrite Hnumber. apply Number_of_BigInt_safe.
    rewrite Z.abs_eq; [exact Hsafe |].
    apply Z.div_pos; [exact Hnum | unfold hourMs; lia]. }
  split; [reflexivity |]. split; [reflexivity |].
  split; [unfold counted; fold durationMs;
          destruct (Z.leb_spec durationMs 0); [lia | reflexivity] |].
  split; [now rewrite round_half_up_ratio |].
  split; [exact Hnumber |].
  split; [| reflexivity].
  intros Hsafe. split; [now apply Hfloor |].
  rewrite round_half_up_ratio. now apply Hfloor.
Qed.

(** C7, witness: a session of 90 minutes at 10000 cents per hour. *)
Lemma prorateCents_round_half_up_witness :
  sessionCentsOf
    {| studentId := "student1"; startAtUtc := 1893492000000; endAtUtc := 1893497400000;
       teacherHourlyWageCentsSnapshot := 10000; currencySnapshot := Prisma.AUD;
       studentDisplayName := None |}
  = 15000.
Proof.
  destruct (prorateCents_round_half_up
              {| studentId := "student1"; startAtUtc := 1893492000000;
                 endAtUtc := 1893497400000; teacherHourlyWageCentsSnapshot := 10000;
                 currencySnapshot := Prisma.AUD; studentDisplayName := None |})
    as (_ & _ & _ & _ & _ & H & _).
  - reflexivity.
  - discriminate.
  - apply H. vm_compute. discriminate.
Defined.

(** C7, counterexample: a session of 4194305 hours at 2147483647 cents per
    hour (the largest [Int]).  The quotient of the formula is
    9007201398030335, above 2^53 and odd, hence no double; [Number] rounds
    it to 9007201398030336, which is what the loop adds. *)
Lemma prorateCents_above_2_53_counterexample :
  let session :=
    {| studentId := "student1"; startAtUtc := 0; endAtUtc := 4194305 * 3600000;
       teacherHourlyWageCentsSnapshot := 2147483647; currencySnapshot := Prisma.AUD;
       studentDisplayName := None |} in
  counted session = true /\
  (durationMsOf session * teacherHourlyWageCentsSnapshot session + halfHourMs) / hourMs
  = 9007201398030335 /\
  sessionCentsOf session = 9007201398030336 /\
  sessionCentsOf session
  <> (durationMsOf session * teacherHourlyWageCentsSnapshot session + halfHourMs) / hourMs.
Proof.
  cbv zeta. split; [reflexivity |]. split; [reflexivity |].
  split; [vm_compute; reflexivity | vm_compute; discriminate].
Qed.

(** Sessions that do not end after they start are skipped by the loop and
    prorate to nothing. *)
Lemma prorateCents_skipped (durationMs hourlyRateCents : Z) :
  durationMs <= 0 -> prorateCents durationMs hourlyRateCents = 0.
Proof.
  intros H. unfold prorateCents.
  destruct (Z.leb_spec durationMs 0); [reflexivity | lia].
Qed.

End PayrollFacts.

(* ===================================================================== *)
(** * Facts about [Map] and [sort] *)
(* ===================================================================== *)

Module JsMapFacts.
Section Facts.
Context {K V : Type}.
Variable eqb : K -> K -> bool.
Hypothesis eqb_spec : forall a b, reflect (a = b) (eqb a b).

Lemma get_set_eq (k : K) (v : V) m : JsMap.get eqb k (JsMap.set eqb k v m) = Some v.
Proof.
  induction m as [| [k' v'] m IH]; simpl.
  - destruct (eqb_spec k k); congruence.
  - destruct (eqb_spec k k') as [-> | Hne]; simpl.
    + destruct (eqb_spec k' k'); congruence.
    + destruct (eqb_spec k k'); [contradiction | exact IH].
Qed.

Lemma get_set_ne (k k' : K) (v : V) m :
  k <> k' -> JsMap.get eqb k' (JsMap.set eqb k v m) = JsMap.get eqb k' m.
Proof.
  intros Hne. induction m as [| [k0 v0] m IH]; simpl.
  - destruct (eqb_spec k' k); congruence.
  - destruct (eqb_spec k k0) as [-> | Hk]; simpl.
    + destruct (eqb_spec k' k0); congruence.
    + destruct (eqb_spec k' k0); [reflexivity | exact IH].
Qed.

Lemma get_None_not_In (k : K) (m : JsMap.t) :
  JsMap.get eqb k m = None -> ~ In k (JsMap.keys (V := V) m).
Proof.
  induction m as [| [k' v'] m IH]; simpl; [tauto |].
  destruct (eqb_spec k k'); [discriminate |].
  intros Hg [E | Hin]; [congruence | exact (IH Hg Hin)].
Qed.

Lemma get_Some_In (k : K) (v : V) m : JsMap.get eqb k m = Some v -> In (k, v) m.
Proof.
  induction m as [| [k' v'] m IH]; simpl; [discriminate |].
  destruct (eqb_spec k k') as [-> | Hne].
  - intros [= ->]. now left.
  - intros Hg. right. exact (IH Hg).
Qed.

Lemma In_get_NoDup (k : K) (v : V) m :
  NoDup (JsMap.keys m) -> In (k, v) m -> JsMap.get eqb k m = Some v.
Proof.
  induction m as [| [k' v'] m IH]; simpl; [tauto |].
  intros Hnd Hin. inversion Hnd as [| ? ? Hnotin Hnd']; subst.
  destruct Hin as [[= -> ->] | Hin].
  - destruct (eqb_spec k k); congruence.
  - destruct (eqb_spec k k') as [-> | Hne]; [| exact (IH Hnd' Hin)].
    exfalso. apply Hnotin. change k' with (fst (k', v)). now apply in_map.
Qed.

Lemma keys_set (k : K) (v : V) m :
  JsMap.keys (JsMap.set eqb k v m)
  = match JsMap.get eqb k m with
    | Some _ => JsMap.keys m
    | None => JsMap.keys m ++ [k]
    end.
Proof.
  induction m as [| [k' v'] m IH]; simpl; [reflexivity |].
  destruct (eqb_spec k k') as [-> | Hne]; simpl; [reflexivity |].
  rewrite IH. destruct (JsMap.get eqb k m); reflexivity.
Qed.

Lemma NoDup_keys_set (k : K) (v : V) m :
  NoDup (JsMap.keys m) -> NoDup (JsMap.keys (JsMap.set eqb k v m)).
Proof.
  intros Hnd. rewrite keys_set.
  destruct (JsMap.get eqb k m) eqn:Hg; [exact Hnd |].
  apply get_None_not_In in Hg.
  apply (Permutation_NoDup (Permutation_cons_append (JsMap.keys m) k)).
  now constructor.
Qed.

Lemma In_keys_set (k k' : K) (v : V) m :
  k' = k \/ In k' (JsMap.keys m) -> In k' (JsMap.keys (JsMap.set eqb k v m)).
Proof.
  rewrite keys_set. intros [-> | Hin].
  - destruct (JsMap.get eqb k m) eqn:Hg.
    + apply get_Some_In in Hg. change k with (fst (k, v0)). now apply in_map.
    + apply in_or_app. right. now left.
  - destruct (JsMap.get eqb k m); [exact Hin | apply in_or_app; now left].
Qed.

Lemma In_set (k k' : K) (v x : V) m :
  In (k', x) (JsMap.set eqb k v m) -> (k' = k /\ x = v) \/ In (k', x) m.
Proof.
  induction m as [| [k0 v0] m IH]; simpl.
  - intros [[= <- <-] | []]. now left.
  - destruct (eqb_spec k k0) as [-> | Hne]; simpl.
    + intros [[= <- <-] | Hin]; [now left | right; now right].
    + intros [E | Hin]; [right; now left |].
      destruct (IH Hin) as [H | H]; [now left | right; now right].
Qed.

End Facts.
End JsMapFacts.

Module JsArrayFacts.
Section Facts.
Context {A : Type}.
Variable compare : A -> A -> Z.

Lemma insert_perm (x : A) l : Permutation (JsArray.insert compare x l) (x :: l).
Proof.
  induction l as [| y l IH]; simpl; [reflexivity |].
  destruct (compare x y <=? 0); [reflexivity |].
  rewrite IH. apply perm_swap.
Qed.

Lemma sort_perm (l : list A) : Permutation (JsArray.sort compare l) l.
Proof.
  induction l as [| x l IH]; simpl; [reflexivity |].
  rewrite insert_perm. now constructor.
Qed.

End Facts.
End JsArrayFacts.

(* ===================================================================== *)
(** * Payroll: the totals and the per-student breakdown agree *)
(* ===================================================================== *)

Module PayrollConsistency.
Import Prisma Payroll.

Lemma Currency_eqb_spec (a b : Currency) : reflect (a = b) (Currency_eqb a b).
Proof. destruct a, b; constructor; congruence. Qed.

Lemma filter_perm {A : Type} (f : A -> bool) (l l' : list A) :
  Permutation l l' -> Permutation (filter f l) (filter f l').
Proof.
  induction 1 as [| x l l' _ IH | x y l | l l' l'' _ IH1 _ IH2]; simpl.
  - constructor.
  - destruct (f x); [now constructor | exact IH].
  - destruct (f x), (f y); try reflexivity. apply perm_swap.
  - now transitivity (filter f l').
Qed.

(** ** What one iteration does to a field, with no law on the addition *)
Section Running.
Variable hours : Type.
Variable hzero : hours.
Variable hadd : hours -> hours -> hours.
Variable hoursOf : Z -> hours.
Variable M : Type.
Variable mzero : M.
Variable madd : M -> M -> M.
Variable field : CurrencyTotal hours -> M.
Variable delta : Z -> Z -> M.
Hypothesis field_fresh : forall c, field (freshTotal hours hzero c) = mzero.
Hypothesis field_add : forall x cents d,
  field (addSession hours hadd hoursOf x cents d) = madd (field x) (delta cents d).

Let get := mget hours M mzero field.

Lemma mget_getOrFresh m c : field (getOrFresh hours hzero m c) = get m c.
Proof.
  unfold get, mget, getOrFresh.
  destruct (JsMap.get Currency_eqb c m); [reflexivity | apply field_fresh].
Qed.

Lemma mget_bump m c c' cents d :
  get (JsMap.set Currency_eqb c
         (addSession hours hadd hoursOf (getOrFresh hours hzero m c) cents d) m) c'
  = if Currency_eqb c c' then madd (get m c') (delta cents d) else get m c'.
Proof.
  destruct (Currency_eqb_spec c c') as [<- | Hne].
  - unfold get at 1, mget.
    rewrite (JsMapFacts.get_set_eq _ Currency_eqb_spec).
    now rewrite field_add, mget_getOrFresh.
  - unfold get, mget.
    now rewrite (JsMapFacts.get_set_ne _ Currency_eqb_spec) by exact Hne.
Qed.

Lemma wfTotals_bump m c cents d :
  wfTotals hours m ->
  wfTotals hours (JsMap.set Currency_eqb c
    (addSession hours hadd hoursOf (getOrFresh hours hzero m c) cents d) m).
Proof.
  intros [Hnd Hcur]. split.
  - now apply (JsMapFacts.NoDup_keys_set _ Currency_eqb_spec).
  - intros k x Hin.
    destruct (JsMapFacts.In_set _ Currency_eqb_spec _ _ _ _ _ Hin) as [[-> ->] | Hold];
      [| now apply Hcur].
    simpl. unfold getOrFresh.
    destruct (JsMap.get Currency_eqb c m) eqn:Hg; [| reflexivity].
    apply Hcur. now apply (JsMapFacts.get_Some_In _ Currency_eqb_spec).
Qed.

Lemma wfAcc_step acc session :
  wfAcc hours acc -> wfAcc hours (accumulateSession hours hzero hadd hoursOf acc session).
Proof.
  destruct acc as [top students]. intros [Htop [Hnd Hstud]].
  unfold accumulateSession.
  destruct (durationMsOf session <=? 0); [exact (conj Htop (conj Hnd Hstud)) |].
  cbn [fst snd] in *.
  set (entry := match JsMap.get String.eqb (studentId session) students with
                | Some e => e
                | None => {| entryStudentId := studentId session;
                             entryStudentName := studentDisplayName session;
                             totalsByCurrency := [] |}
                end).
  assert (Hentry : entryStudentId entry = studentId session
                   /\ wfTotals hours (totalsByCurrency entry)).
  { subst entry. destruct (JsMap.get String.eqb (studentId session) students) eqn:Hg.
    - apply Hstud. now apply (JsMapFacts.get_Some_In _ String.eqb_spec).
    - split; [reflexivity |]. split; [constructor | intros k x []]. }
  split; [now apply wfTotals_bump |]. split.
  - now apply (JsMapFacts.NoDup_keys_set _ String.eqb_spec).
  - intros sid e Hin.
    destruct (JsMapFacts.In_set _ String.eqb_spec _ _ _ _ _ Hin) as [[-> ->] | Hold];
      [| now apply Hstud].
    cbn [entryStudentId totalsByCurrency].
    split; [apply Hentry | apply wfTotals_bump, Hentry].
Qed.

Lemma wfAcc_accumulate sessions :
  wfAcc hours (accumulate hours hzero hadd hoursOf sessions).
Proof.
  unfold accumulate.
  assert (H0 : wfAcc hours (@nil (Currency * CurrencyTotal hours),
                            @nil (string * StudentEntry hours))).
  { split; [split; [constructor | intros ? ? []] |].
    split; [constructor | intros ? ? []]. }
  revert H0. generalize (@nil (Currency * CurrencyTotal hours),
                         @nil (string * StudentEntry hours)).
  induction sessions as [| s sessions IH]; intros acc Hacc; simpl; [exact Hacc |].
  apply IH. now apply wfAcc_step.
Qed.

Lemma currenciesCovered_step acc session :
  currenciesCovered hours acc ->
  currenciesCovered hours (accumulateSession hours hzero hadd hoursOf acc session).
Proof.
  destruct acc as [top students]. unfold currenciesCovered, accumulateSession.
  intros Hcov.
  destruct (durationMsOf session <=? 0); [exact Hcov |].
  cbn [fst snd] in *. intros sid e k x Hin Hk.
  apply (JsMapFacts.In_keys_set _ Currency_eqb_spec).
  destruct (JsMapFacts.In_set _ String.eqb_spec _ _ _ _ _ Hin) as [[-> ->] | Hold].
  - cbn [totalsByCurrency] in Hk.
    destruct (JsMapFacts.In_set _ Currency_eqb_spec _ _ _ _ _ Hk) as [[-> _] | Hk'];
      [now left | right].
    destruct (JsMap.get String.eqb (studentId session) students) as [e0 |] eqn:Hg.
    + apply (Hcov (studentId session) e0 k x); [| exact Hk'].
      now apply (JsMapFacts.get_Some_In _ String.eqb_spec).
    + destruct Hk'.
  - right. now apply (Hcov sid e k x).
Qed.

Lemma currenciesCovered_accumulate sessions :
  currenciesCovered hours (accumulate hours hzero hadd hoursOf sessions).
Proof.
  unfold accumulate.
  assert (H0 : currenciesCovered hours (@nil (Currency * CurrencyTotal hours),
                                        @nil (string * StudentEntry hours)))
    by (intros sid e k x []).
  revert H0. generalize (@nil (Currency * CurrencyTotal hours),
                         @nil (string * StudentEntry hours)).
  induction sessions as [| s sessions IH]; intros acc Hacc; simpl; [exact Hacc |].
  apply IH. now apply currenciesCovered_step.
Qed.

(** Every currency of a per-student entry of the response has an entry in
    [totals]. *)
Lemma student_currency_in_totals localeCompare sessions e u :
  In e (snd (payrollTotals hours hzero hadd hoursOf localeCompare sessions)) ->
  In u (outTotals e) ->
  exists t, In t (fst (payrollTotals hours hzero hadd hoursOf localeCompare sessions))
            /\ currency t = currency u.
Proof.
  unfold payrollTotals.
  pose proof (wfAcc_accumulate sessions) as Hwf.
  pose proof (currenciesCovered_accumulate sessions) as Hcov.
  destruct (accumulate hours hzero hadd hoursOf sessions) as [top students].
  destruct Hwf as [[_ Hcur] [_ Hstud]]. unfold currenciesCovered in Hcov.
  cbn [fst snd] in *.
  intros He Hu.
  apply (Permutation_in _ (JsArrayFacts.sort_perm _ _)) in He.
  apply in_map_iff in He. destruct He as [e0 [<- He]].
  apply in_map_iff in He. destruct He as [[sid e1] [E He]]. simpl in E. subst e1.
  cbn [toStudentTotals outTotals] in Hu.
  apply (Permutation_in _ (JsArrayFacts.sort_perm _ _)) in Hu.
  apply in_map_iff in Hu. destruct Hu as [[k x] [E Hu]]. simpl in E. subst x.
  destruct (Hstud sid e0 He) as [_ [_ Hcur0]].
  pose proof (Hcov sid e0 k u He Hu) as Hk.
  apply in_map_iff in Hk. destruct Hk as [[k' t] [E Ht]]. simpl in E. subst k'.
  exists t. split.
  - apply (Permutation_in _ (Permutation_sym (JsArrayFacts.sort_perm _ _))).
    change t with (snd (k, t)). now apply in_map.
  - rewrite (Hcur k t Ht). symmetry. now apply Hcur0.
Qed.

Lemma top_step acc session c :
  get (fst (accumulateSession hours hzero hadd hoursOf acc session)) c
  = if counted session && Currency_eqb (currencySnapshot session) c
    then madd (get (fst acc) c) (delta (sessionCentsOf session) (durationMsOf session))
    else get (fst acc) c.
Proof.
  destruct acc as [top students]. unfold accumulateSession, counted.
  destruct (durationMsOf session <=? 0); cbn [fst negb andb]; [reflexivity |].
  apply mget_bump.
Qed.

Lemma student_step acc session sid c :
  sget hours M mzero field (snd (accumulateSession hours hzero hadd hoursOf acc session)) sid c
  = if counted session && Currency_eqb (currencySnapshot session) c
       && String.eqb (studentId session) sid
    then madd (sget hours M mzero field (snd acc) sid c)
              (delta (sessionCentsOf session) (durationMsOf session))
    else sget hours M mzero field (snd acc) sid c.
Proof.
  destruct acc as [top students]. unfold accumulateSession, counted.
  destruct (durationMsOf session <=? 0); cbn [snd negb andb]; [reflexivity |].
  unfold sget.
  destruct (String.eqb_spec (studentId session) sid) as [<- | Hne].
  - rewrite (JsMapFacts.get_set_eq _ String.eqb_spec). cbn [totalsByCurrency].
    fold get. rewrite mget_bump, andb_true_r.
    destruct (JsMap.get String.eqb (studentId session) students); reflexivity.
  - rewrite (JsMapFacts.get_set_ne _ String.eqb_spec) by exact Hne.
    now rewrite andb_false_r.
Qed.

Lemma top_fold sessions : forall acc c,
  get (fst (fold_left (accumulateSession hours hzero hadd hoursOf) sessions acc)) c
  = fold_left (fun a s => madd a (delta (sessionCentsOf s) (durationMsOf s)))
      (countedIn c sessions) (get (fst acc) c).
Proof.
  induction sessions as [| s sessions IH]; intros acc c; simpl; [reflexivity |].
  rewrite IH, top_step.
  destruct (counted s && Currency_eqb (currencySnapshot s) c); reflexivity.
Qed.

Lemma student_fold sessions : forall acc sid c,
  sget hours M mzero field
    (snd (fold_left (accumulateSession hours hzero hadd hoursOf) sessions acc)) sid c
  = fold_left (fun a s => madd a (delta (sessionCentsOf s) (durationMsOf s)))
      (countedFor sid c sessions) (sget hours M mzero field (snd acc) sid c).
Proof.
  induction sessions as [| s sessions IH]; intros acc sid c; simpl; [reflexivity |].
  rewrite IH, student_step.
  destruct (counted s && Currency_eqb (currencySnapshot s) c && String.eqb (studentId s) sid);
    reflexivity.
Qed.

(** Each top-level field is the left-to-right sum over the counted sessions
    of its currency, in query order. *)
Lemma top_running localeCompare sessions t :
  In t (fst (payrollTotals hours hzero hadd hoursOf localeCompare sessions)) ->
  field t = runningTotal M mzero madd delta (countedIn (currency t) sessions).
Proof.
  unfold payrollTotals, runningTotal.
  pose proof (wfAcc_accumulate sessions) as Hwf.
  assert (Hrun : get (fst (accumulate hours hzero hadd hoursOf sessions)) (currency t)
                 = fold_left (fun a s => madd a (delta (sessionCentsOf s) (durationMsOf s)))
                     (countedIn (currency t) sessions) mzero)
    by (unfold accumulate; now rewrite top_fold).
  destruct (accumulate hours hzero hadd hoursOf sessions) as [top students].
  destruct Hwf as [[Hnd Hcur] _]. cbn [fst snd] in *.
  intros Hin.
  apply (Permutation_in _ (JsArrayFacts.sort_perm _ _)) in Hin.
  apply in_map_iff in Hin. destruct Hin as [[k x] [E Hin]]. simpl in E. subst x.
  rewrite <- Hrun. unfold get, mget.
  rewrite (Hcur k t Hin).
  now rewrite (JsMapFacts.In_get_NoDup _ Currency_eqb_spec _ t top Hnd Hin).
Qed.

(** Each per-student field is the left-to-right sum over the counted
    sessions of that student in that currency. *)
Lemma student_running localeCompare sessions e u :
  In e (snd (payrollTotals hours hzero hadd hoursOf localeCompare sessions)) ->
  In u (outTotals e) ->
  field u = runningTotal M mzero madd delta
              (countedFor (outStudentId e) (currency u) sessions).
Proof.
  unfold payrollTotals, runningTotal.
  pose proof (wfAcc_accumulate sessions) as Hwf.
  assert (Hrun : forall sid c,
             sget hours M mzero field (snd (accumulate hours hzero hadd hoursOf sessions)) sid c
             = fold_left (fun a s => madd a (delta (sessionCentsOf s) (durationMsOf s)))
                 (countedFor sid c sessions) mzero)
    by (intros sid c; unfold accumulate; now rewrite student_fold).
  destruct (accumulate hours hzero hadd hoursOf sessions) as [top students].
  destruct Hwf as [_ [Hnd Hstud]]. cbn [fst snd] in *.
  intros He Hu.
  apply (Permutation_in _ (JsArrayFacts.sort_perm _ _)) in He.
  apply in_map_iff in He. destruct He as [e0 [<- He]].
  apply in_map_iff in He. destruct He as [[sid e1] [E He]]. simpl in E. subst e1.
  cbn [toStudentTotals outTotals outStudentId] in *.
  apply (Permutation_in _ (JsArrayFacts.sort_perm _ _)) in Hu.
  apply in_map_iff in Hu. destruct Hu as [[k x] [E Hu]]. simpl in E. subst x.
  destruct (Hstud sid e0 He) as [Hid [Hnd0 Hcur0]].
  rewrite <- Hrun. unfold sget. rewrite Hid.
  rewrite (JsMapFacts.In_get_NoDup _ String.eqb_spec _ e0 students Hnd He).
  unfold mget. rewrite (Hcur0 k u Hu).
  now rewrite (JsMapFacts.In_get_NoDup _ Currency_eqb_spec _ u _ Hnd0 Hu).
Qed.

End Running.

(** ** With an associative, commutative addition the two levels agree *)
Section Monoid.
Variable hours : Type.
Variable hzero : hours.
Variable hadd : hours -> hours -> hours.
Variable hoursOf : Z -> hours.
Variable localeCompare : string -> string -> Z.
Variable M : Type.
Variable mzero : M.
Variable madd : M -> M -> M.
Variable field : CurrencyTotal hours -> M.
Variable delta : Z -> Z -> M.
Hypothesis madd_assoc : forall x y z, madd x (madd y z) = madd (madd x y) z.
Hypothesis madd_comm : forall x y, madd x y = madd y x.
Hypothesis madd_zero_l : forall x, madd mzero x = x.
Hypothesis field_fresh : forall c, field (freshTotal hours hzero c) = mzero.
Hypothesis field_add : forall x cents d,
  field (addSession hours hadd hoursOf x cents d) = madd (field x) (delta cents d).

Let get := mget hours M mzero field.
Let sum := msum M mzero madd.

Lemma madd_zero_r x : madd x mzero = x.
Proof. now rewrite madd_comm. Qed.

Lemma msum_perm (l l' : list M) : Permutation l l' -> sum l = sum l'.
Proof.
  induction 1 as [| x l l' _ IH | x y l | l l' l'' _ IH1 _ IH2]; simpl.
  - reflexivity.
  - now rewrite IH.
  - now rewrite !madd_assoc, (madd_comm y x).
  - congruence.
Qed.

Lemma totalIn_perm c l l' :
  Permutation l l' ->
  totalIn hours M mzero madd field c l = totalIn hours M mzero madd field c l'.
Proof.
  intros Hp. unfold totalIn. apply msum_perm.
  apply Permutation_map. now apply filter_perm.
Qed.

Lemma totalIn_values m c :
  wfTotals hours m ->
  totalIn hours M mzero madd field c (JsMap.values m) = get m c.
Proof.
  unfold totalIn, inCurrency, get, mget.
  induction m as [| [k x] m IH]; intros [Hnd Hcur]; simpl; [reflexivity |].
  inversion Hnd as [| ? ? Hnotin Hnd']; subst.
  assert (Hwf : wfTotals hours m).
  { split; [exact Hnd' |]. intros k' x' Hin. apply Hcur. now right. }
  specialize (IH Hwf).
  rewrite (Hcur k x) by now left.
  destruct (Currency_eqb_spec k c) as [-> | Hne]; simpl.
  - destruct (Currency_eqb_spec c c) as [_ | Hcc]; [| congruence].
    rewrite IH.
    destruct (JsMap.get Currency_eqb c m) eqn:Hg.
    + exfalso. apply Hnotin.
      apply (JsMapFacts.get_Some_In _ Currency_eqb_spec) in Hg.
      change c with (fst (c, c0)). now apply in_map.
    + apply madd_zero_r.
  - destruct (Currency_eqb_spec c k) as [E | _]; [congruence | exact IH].
Qed.

(** Replacing (or appending) the entry of one student adds the difference
    to the sum over all students. *)
Lemma msum_set (g : StudentEntry hours -> M) sid v d
  (students : JsMap.t (K := string) (V := StudentEntry hours)) :
  g v = madd (match JsMap.get String.eqb sid students with
              | Some e => g e
              | None => mzero
              end) d ->
  sum (map g (JsMap.values (JsMap.set String.eqb sid v students)))
  = madd (sum (map g (JsMap.values students))) d.
Proof.
  induction students as [| [k e] students IH]; simpl; intros Hv.
  - rewrite Hv. now rewrite madd_zero_r.
  - destruct (String.eqb_spec sid k) as [-> | Hne]; simpl.
    + rewrite Hv. rewrite <- !madd_assoc. f_equal. apply madd_comm.
    + rewrite IH by exact Hv. apply madd_assoc.
Qed.

Lemma consistent_step acc session :
  consistent hours M mzero madd field acc ->
  consistent hours M mzero madd field
    (accumulateSession hours hzero hadd hoursOf acc session).
Proof.
  destruct acc as [top students]. unfold consistent. intros Hsum.
  unfold accumulateSession.
  destruct (durationMsOf session <=? 0); [exact Hsum |].
  cbn [fst snd] in *.
  set (c := currencySnapshot session).
  set (sid := studentId session).
  set (cents := sessionCentsOf session).
  set (d := durationMsOf session).
  intros c'.
  rewrite (mget_bump hours hzero hadd hoursOf M mzero madd field delta
             field_fresh field_add).
  fold get.
  rewrite (msum_set (fun e => get (totalsByCurrency e) c') sid _
             (if Currency_eqb c c' then delta cents d else mzero)).
  - fold sum. fold get in Hsum. rewrite <- Hsum.
    destruct (Currency_eqb c c'); [reflexivity | now rewrite madd_zero_r].
  - cbn [totalsByCurrency].
    rewrite (mget_bump hours hzero hadd hoursOf M mzero madd field delta
               field_fresh field_add).
    fold get.
    destruct (JsMap.get String.eqb sid students); cbn [totalsByCurrency];
      destruct (Currency_eqb c c'); try reflexivity; now rewrite madd_zero_r.
Qed.

Lemma consistent_accumulate sessions :
  consistent hours M mzero madd field (accumulate hours hzero hadd hoursOf sessions).
Proof.
  unfold accumulate.
  assert (H0 : consistent hours M mzero madd field ([], [])) by (intros c; reflexivity).
  revert H0. generalize (@nil (Currency * CurrencyTotal hours),
                         @nil (string * StudentEntry hours)).
  induction sessions as [| s sessions IH]; intros acc Hacc; simpl; [exact Hacc |].
  apply IH. now apply consistent_step.
Qed.

(** Every entry of [totals] equals the sum of the field over all entries of
    [byStudent] for its currency. *)
Lemma payroll_field_consistent sessions t :
  In t (fst (payrollTotals hours hzero hadd hoursOf localeCompare sessions)) ->
  field t
  = studentsTotal hours M mzero madd field (currency t)
      (snd (payrollTotals hours hzero hadd hoursOf localeCompare sessions)).
Proof.
  unfold payrollTotals.
  pose proof (consistent_accumulate sessions) as Hsum.
  pose proof (wfAcc_accumulate hours hzero hadd hoursOf sessions) as Hwf.
  destruct (accumulate hours hzero hadd hoursOf sessions) as [top students].
  destruct Hwf as [[Hnd Hcur] [_ Hstud]]. unfold consistent in Hsum.
  cbn [fst snd] in *.
  intros Hin.
  apply (Permutation_in _ (JsArrayFacts.sort_perm _ _)) in Hin.
  apply in_map_iff in Hin. destruct Hin as [[k x] [E Hin]]. simpl in E. subst x.
  assert (Hk : currency t = k) by now apply Hcur.
  assert (Hget : get top (currency t) = field t).
  { unfold get, mget. rewrite Hk.
    now rewrite (JsMapFacts.In_get_NoDup _ Currency_eqb_spec _ t top Hnd Hin). }
  rewrite <- Hget. fold get in Hsum. rewrite Hsum.
  unfold studentsTotal. fold sum.
  rewrite (msum_perm _ _ (Permutation_map _ (JsArrayFacts.sort_perm _ _))).
  rewrite map_map. f_equal.
  apply map_ext_in. intros e He.
  cbn [toStudentTotals outTotals].
  rewrite (totalIn_perm _ _ _ (JsArrayFacts.sort_perm _ _)).
  symmetry. apply totalIn_values.
  apply in_map_iff in He. destruct He as [[sid e'] [E He]]. simpl in E. subst e'.
  now apply (Hstud sid).
Qed.

End Monoid.

Lemma running_count {M : Type} (l : list M) (n : Z) :
  fold_left (fun a _ => a + 1) l n = n + Z.of_nat (List.length l).
Proof.
  revert n. induction l as [| x l IH]; intros n; cbn [List.length fold_left].
  - lia.
  - rewrite IH. lia.
Qed.

End PayrollConsistency.

(* ===================================================================== *)
(** * Time zones: the single re-check of [zonedTimeToUtc] *)
(* ===================================================================== *)

Module TimezoneFacts.
Import Timezone.

Lemma TimeClip_value (t u : Z) : TimeClip t = Some u -> u = t.
Proof.
  unfold TimeClip. destruct (Z.abs t <=? 8640000000000000); congruence.
Qed.

Lemma offset_reading (zone : Zone) (t offset : Z) :
  getTimeZoneOffsetMs (Some t) zone = Normal (Some offset) ->
  let p := zone t in
  Date_UTC (year p) (month p - 1) (day p) (hour p) (minute p) (second p) 0
  = Some (t + offset).
Proof.
  unfold getTimeZoneOffsetMs, getTime. intros H. cbv zeta in *.
  set (p := zone t) in *.
  destruct (Date_UTC (year p) (month p - 1) (day p) (hour p) (minute p) (second p) 0)
    as [a |]; simpl in H; [| discriminate].
  injection H as H. f_equal. lia.
Qed.

(** C8 (amended).  [zonedTimeToUtc] computes the UTC guess from the tuple,
    reads the zone's offset there, subtracts it, and reads the offset again
    at the corrected instant.  If the two offsets agree it returns the
    corrected instant, whose wall clock in the zone, read as UTC, is the
    guess again.  If they differ it returns the guess minus the re-read
    offset, without any further check. *)
Theorem zonedTimeToUtc_single_recheck
  (local : LocalTime) (zone : Zone) (guess offset1 offset2 : Z) :
  utcGuessOf local = Some guess ->
  getTimeZoneOffsetMs (Some guess) zone = Normal (Some offset1) ->
  getTimeZoneOffsetMs (Date_new (Some (guess - offset1))) zone = Normal (Some offset2) ->
  (offset2 = offset1 ->
     zonedTimeToUtc local zone = Normal (Date_new (Some (guess - offset1))) /\
     forall utc1, Date_new (Some (guess - offset1)) = Some utc1 ->
       let p := zone utc1 in
       Date_UTC (year p) (month p - 1) (day p) (hour p) (minute p) (second p) 0
       = Some guess) /\
  (offset2 <> offset1 ->
     zonedTimeToUtc local zone = Normal (Date_new (Some (guess - offset2)))).
Proof.
  intros Hguess Hoff1 Hoff2.
  assert (Hrun : zonedTimeToUtc local zone
                 = if offset2 =? offset1 then Normal (Date_new (Some (guess - offset1)))
                   else Normal (Date_new (Some (guess - offset2)))).
  { unfold zonedTimeToUtc. rewrite Hguess, Hoff1. cbn [bind getTime Number_sub].
    rewrite Hoff2. reflexivity. }
  split.
  - intros ->. rewrite Z.eqb_refl in Hrun. split; [exact Hrun |].
    intros utc1 Hutc1. rewrite Hutc1 in Hoff2.
    pose proof (offset_reading zone utc1 offset1 Hoff2) as Hread.
    apply TimeClip_value in Hutc1. subst utc1.
    cbv zeta in Hread |- *. rewrite Hread. f_equal. lia.
  - intros Hne. apply Z.eqb_neq in Hne. now rewrite Hne in Hrun.
Qed.

(** C8, witness: midnight of 3 June 2030 in Sydney, where the offset is
    stable at +10h. *)
Lemma zonedTimeToUtc_single_recheck_witness :
  zonedTimeToUtc plainLocalTime sydney2030 = Normal (Some 1906639200000) /\
  sydney2030 1906639200000
  = {| year := 2030; month := 6; day := 3; hour := 0; minute := 0; second := 0 |}.
Proof.
  destruct (zonedTimeToUtc_single_recheck plainLocalTime sydney2030
              1906675200000 36000000 36000000
              eq_refl eq_refl eq_refl) as [Hstable _].
  destruct (Hstable eq_refl) as [Hrun _].
  split; [exact Hrun | reflexivity].
Defined.

(** C8, counterexample: 02:30 on 6 October 2030 in Sydney falls in the
    skipped hour.  The offset at the guess is +11h, at the corrected instant
    +10h; the function returns the guess minus 10h (16:30Z), not the
    corrected instant (15:30Z). *)
Lemma zonedTimeToUtc_unstable_counterexample :
  let guess := 1917484200000 in
  let offset1 := 39600000 in
  let offset2 := 36000000 in
  utcGuessOf skippedLocalTime = Some guess /\
  getTimeZoneOffsetMs (Some guess) sydney2030 = Normal (Some offset1) /\
  getTimeZoneOffsetMs (Date_new (Some (guess - offset1))) sydney2030 = Normal (Some offset2) /\
  zonedTimeToUtc skippedLocalTime sydney2030 = Normal (Some (guess - offset2)) /\
  zonedTimeToUtc skippedLocalTime sydney2030 <> Normal (Date_new (Some (guess - offset1))).
Proof.
  repeat split; try reflexivity.
  vm_compute. discriminate.
Qed.

End TimezoneFacts.

(* ===================================================================== *)
(** * Queries on the store *)
(* ===================================================================== *)

Module PrismaFacts.
Import Prisma.

Lemma SessionStatus_eqb_spec (a b : SessionStatus) : reflect (a = b) (SessionStatus_eqb a b).
Proof. destruct a, b; constructor; congruence. Qed.

Lemma ChangeRequestStatus_eqb_spec (a b : ChangeRequestStatus) :
  reflect (a = b) (ChangeRequestStatus_eqb a b).
Proof. destruct a, b; constructor; congruence. Qed.

Lemma UserRole_eqb_refl (a : UserRole) : UserRole_eqb a a = true.
Proof. now destruct a. Qed.

Lemma findUser_id db id u : findUser db id = Some u -> User.id u = id.
Proof.
  unfold findUser. intros H. apply find_some in H. now apply String.eqb_eq.
Qed.

Lemma findSession_id db id x : findSession db id = Some x -> Session.id x = id.
Proof.
  unfold findSession. intros H. apply find_some in H. now apply String.eqb_eq.
Qed.

Lemma findSession_In db id x : findSession db id = Some x -> In x (sessions db).
Proof. unfold findSession. intros H. now apply find_some in H. Qed.

Lemma findChangeRequest_id db id x :
  findChangeRequest db id = Some x -> ChangeRequest.id x = id.
Proof.
  unfold findChangeRequest. intros H. apply find_some in H. now apply String.eqb_eq.
Qed.

(** Rewriting the rows of [id] with an id-preserving [f] rewrites what a
    lookup of [id] finds. *)
Lemma find_updateSessionRows id f l x :
  (forall y, Session.id (f y) = Session.id y) ->
  find (fun y => String.eqb (Session.id y) id) l = Some x ->
  find (fun y => String.eqb (Session.id y) id) (updateSessionRows id f l) = Some (f x).
Proof.
  intros Hid. unfold updateSessionRows.
  induction l as [| y l IH]; simpl; [discriminate |].
  destruct (String.eqb (Session.id y) id) eqn:E.
  - intros [= ->]. now rewrite Hid, E.
  - rewrite E. exact IH.
Qed.

Lemma find_updateChangeRequestRows id f l x :
  (forall y, ChangeRequest.id (f y) = ChangeRequest.id y) ->
  find (fun y => String.eqb (ChangeRequest.id y) id) l = Some x ->
  find (fun y => String.eqb (ChangeRequest.id y) id) (updateChangeRequestRows id f l)
  = Some (f x).
Proof.
  intros Hid. unfold updateChangeRequestRows.
  induction l as [| y l IH]; simpl; [discriminate |].
  destruct (String.eqb (ChangeRequest.id y) id) eqn:E.
  - intros [= ->]. now rewrite Hid, E.
  - rewrite E. exact IH.
Qed.

(** In a table with a primary key two rows with the same id are one row. *)
Lemma NoDup_id_eq (l : list Session.t) x y :
  NoDup (map Session.id l) -> In x l -> In y l -> Session.id x = Session.id y -> x = y.
Proof.
  induction l as [| z l IH]; simpl; [tauto |].
  intros Hnd Hx Hy E. inversion Hnd as [| ? ? Hnotin Hnd']; subst.
  destruct Hx as [-> | Hx], Hy as [-> | Hy]; try reflexivity.
  - exfalso. apply Hnotin. rewrite E. now apply in_map.
  - exfalso. apply Hnotin. rewrite <- E. now apply in_map.
  - now apply IH.
Qed.

Lemma findSession_NoDup db x :
  NoDup (map Session.id (sessions db)) -> In x (sessions db) ->
  findSession db (Session.id x) = Some x.
Proof.
  intros Hnd Hin. unfold findSession.
  destruct (find (fun y => String.eqb (Session.id y) (Session.id x)) (sessions db))
    as [y |] eqn:Hf.
  - apply find_some in Hf. destruct Hf as [Hy E]. apply String.eqb_eq in E.
    f_equal. now apply (NoDup_id_eq (sessions db)).
  - exfalso. apply (find_none _ _ Hf) in Hin. now rewrite String.eqb_refl in Hin.
Qed.

End PrismaFacts.

(* ===================================================================== *)
(** * Session creation and editing *)
(* ===================================================================== *)

Module SessionFacts.
Import Prisma Http AdminRoutes Spec PrismaFacts.

Lemma conflictsWith_iff teacher newStart newEnd x :
  conflictsWith teacher newStart newEnd x = true <->
  Session.teacherId x = teacher /\ Session.status x = SCHEDULED /\
  overlaps x newStart newEnd.
Proof.
  unfold conflictsWith, overlaps.
  rewrite !andb_true_iff, String.eqb_eq, !Z.ltb_lt.
  destruct (SessionStatus_eqb_spec (Session.status x) SCHEDULED);
    intuition (try congruence; try lia).
Qed.

(** What [POST /sessions] does once the conflict query is reached. *)
Lemma postSessions_reached db userId body newId :
  reachesConflictCheck db userId body ->
  exists actor rate,
    postSessions db userId body newId
    = match find (conflictsWith (teacherId body) (startAtUtc body) (endAtUtc body))
                 (sessions db) with
      | Some conflict => (db, timeConflict (Session.id conflict))
      | None =>
          (createAuditLog
             (createSession db
                {| Session.id := newId;
                   Session.teacherId := teacherId body;
                   Session.studentId := studentId body;
                   Session.subject := subject body;
                   Session.startAtUtc := startAtUtc body;
                   Session.endAtUtc := endAtUtc body;
                   Session.classTimeZone := classTimeZone body;
                   Session.status := SCHEDULED;
                   Session.consumesUnits := consumesUnits body;
                   Session.rateCentsSnapshot := TeacherStudentRate.hourlyRateCents rate;
                   Session.currencySnapshot := TeacherStudentRate.currency rate;
                   Session.createdByAdminId := User.id actor |})
             {| AuditLog.orgId := User.orgId actor;
                AuditLog.actorUserId := User.id actor;
                AuditLog.action := "ADMIN_CREATE_SESSION";
                AuditLog.entityType := "Session";
                AuditLog.entityId := newId |},
           created newId)
      end.
Proof.
  intros (Hschema & actor & teacher & student & rate & Hactor & Hteacher & Hto & Htr
          & Hstudent & Hso & Hsr & Hrate).
  exists actor, rate. unfold postSessions.
  rewrite Hschema, Hactor, Hteacher, Hstudent, Hto, Htr, Hso, Hsr, Hrate.
  rewrite String.eqb_refl. cbn [negb orb UserRole_eqb].
  rewrite (findUser_id _ _ _ Hteacher), (findUser_id _ _ _ Hstudent).
  destruct (find _ (sessions db)); reflexivity.
Qed.

(** C1 (amended).  For every create call that passes validation and rate
    resolution: the call answers Conflict exactly when some existing session
    of the same teacher with status [SCHEDULED] overlaps the new half-open
    interval; the Conflict names such a session and writes nothing;
    otherwise the session is created.  A session that ends where the new one
    starts (or starts where it ends) never conflicts. *)
Theorem postSessions_conflict_iff db userId body newId :
  reachesConflictCheck db userId body ->
  let colliding x :=
    In x (sessions db) /\ Session.teacherId x = teacherId body /\
    Session.status x = SCHEDULED /\ overlaps x (startAtUtc body) (endAtUtc body) in
  let db' := fst (postSessions db userId body newId) in
  let reply := snd (postSessions db userId body newId) in
  ((exists x, colliding x) <-> Conflict reply) /\
  (Conflict reply ->
     db' = db /\ exists x, colliding x /\ reply = timeConflict (Session.id x)) /\
  (~ Conflict reply ->
     reply = created newId /\
     exists row, sessions db' = sessions db ++ [row] /\
       Session.id row = newId /\ Session.status row = SCHEDULED /\
       Session.teacherId row = teacherId body /\
       Session.startAtUtc row = startAtUtc body /\
       Session.endAtUtc row = endAtUtc body) /\
  ((forall x, In x (sessions db) -> Session.teacherId x = teacherId body ->
              Session.status x = SCHEDULED ->
              Session.endAtUtc x <= startAtUtc body \/ endAtUtc body <= Session.startAtUtc x) ->
   reply = created newId).
Proof.
  intros Hreach colliding db' reply. subst db' reply.
  destruct (postSessions_reached db userId body newId Hreach) as (actor & rate & ->).
  destruct (find (conflictsWith (teacherId body) (startAtUtc body) (endAtUtc body))
                 (sessions db)) as [conflict |] eqn:Hfind; cbn [fst snd].
  - apply find_some in Hfind. destruct Hfind as [Hin Hc].
    apply conflictsWith_iff in Hc. destruct Hc as (Ht & Hs & Ho).
    assert (Hcol : colliding conflict) by (unfold colliding; tauto).
    split; [| split; [| split]].
    + split; [reflexivity | intros _; now exists conflict].
    + intros _. split; [reflexivity |]. now exists conflict.
    + intros Hno. exfalso. now apply Hno.
    + intros Hfree. exfalso.
      destruct (Hfree conflict Hin Ht Hs) as [H | H]; unfold overlaps in Ho; lia.
  - assert (Hnone : ~ exists x, colliding x).
    { intros [x (Hin & Ht & Hs & Ho)].
      pose proof (find_none _ _ Hfind x Hin) as Hc.
      assert (conflictsWith (teacherId body) (startAtUtc body) (endAtUtc body) x = true)
        by (apply conflictsWith_iff; tauto).
      congruence. }
    split; [| split; [| split]].
    + split; [intros H; now destruct Hnone | intros H; discriminate H].
    + intros H. discriminate H.
    + intros _. split; [reflexivity |]. eexists. split; [reflexivity |]. now cbn.
    + reflexivity.
Qed.

(** C1, witness: a session from 11:00 to 12:00 right after the teacher's
    10:00 to 11:00 session is created. *)
Lemma postSessions_conflict_iff_witness :
  snd (postSessions
         (Examples.mkDb [Examples.mkSession "s1" (Examples.jan1 10) (Examples.jan1 11) SCHEDULED]
            [] [])
         "admin1" (Examples.mkBody (Examples.jan1 11) (Examples.jan1 12)) "s2")
  = created "s2".
Proof.
  apply (postSessions_conflict_iff
           (Examples.mkDb
              [Examples.mkSession "s1" (Examples.jan1 10) (Examples.jan1 11) SCHEDULED] [] [])
           "admin1" (Examples.mkBody (Examples.jan1 11) (Examples.jan1 12)) "s2").
  - split; [reflexivity |].
    exists Examples.admin1, Examples.teacher1, Examples.student1, Examples.rate1.
    repeat split; reflexivity.
  - intros x [<- | []] _ _. left. vm_compute. discriminate.
Defined.

(** C1, counterexample: the teacher's 10:00 to 11:00 session is [COMPLETED]
    (so not [CANCELLED]) and overlaps the new 10:30 to 11:30 interval, yet
    the create succeeds. *)
Lemma postSessions_completed_overlap_counterexample :
  let existing := Examples.mkSession "s1" (Examples.jan1 10) (Examples.jan1 11) COMPLETED in
  let db := Examples.mkDb [existing] [] [] in
  let body := Examples.mkBody (Examples.jan1 10 + 1800000) (Examples.jan1 11 + 1800000) in
  reachesConflictCheck db "admin1" body /\
  In existing (sessions db) /\
  Session.teacherId existing = teacherId body /\
  Session.status existing <> CANCELLED /\
  overlaps existing (startAtUtc body) (endAtUtc body) /\
  snd (postSessions db "admin1" body "s2") = created "s2" /\
  ~ Conflict (snd (postSessions db "admin1" body "s2")) /\
  List.length (sessions (fst (postSessions db "admin1" body "s2"))) = 2%nat.
Proof.
  cbv zeta. split; [| split; [| split; [| split; [| split; [| split; [| split]]]]]].
  - split; [reflexivity |].
    exists Examples.admin1, Examples.teacher1, Examples.student1, Examples.rate1.
    repeat split; reflexivity.
  - now left.
  - reflexivity.
  - discriminate.
  - split; vm_compute; reflexivity.
  - reflexivity.
  - vm_compute. discriminate.
  - reflexivity.
Qed.

(** ** Editing *)

(** C3.  [POST /sessions] rejects every body with [endAtUtc <= startAtUtc],
    and [PATCH /sessions/:id] rejects a body that carries both instants out
    of order; but a body that carries only [startAtUtc] is merged with the
    stored [endAtUtc] unchecked: moving the start of a 10:00 to 11:00
    session to 12:00 is accepted and the stored session then ends before it
    starts. *)
Theorem patchSession_start_only_breaks_interval :
  (forall db userId body newId,
     endAtUtc body <= startAtUtc body ->
     postSessions db userId body newId = (db, badRequest)) /\
  (forall db userId id body startAt endAt,
     newStartAtUtc body = Some startAt -> newEndAtUtc body = Some endAt ->
     endAt <= startAt ->
     patchSession db userId id body = (db, badRequest)) /\
  let db := Examples.mkDb
              [Examples.mkSession "s1" (Examples.jan1 10) (Examples.jan1 11) SCHEDULED] [] [] in
  let body := {| newSubject := None; newStartAtUtc := Some (Examples.jan1 12);
                 newEndAtUtc := None; newClassTimeZone := None;
                 newConsumesUnits := None; newStatus := None |} in
  snd (patchSession db "admin1" "s1" body) = ok /\
  sessions (fst (patchSession db "admin1" "s1" body))
  = [Examples.mkSession "s1" (Examples.jan1 12) (Examples.jan1 11) SCHEDULED] /\
  forall x, In x (sessions (fst (patchSession db "admin1" "s1" body))) ->
            Session.endAtUtc x < Session.startAtUtc x.
Proof.
  split; [| split].
  - intros db userId body newId Hle. unfold postSessions, createSessionBodySchema.
    replace (startAtUtc body <? endAtUtc body) with false
      by (symmetry; apply Z.ltb_ge; exact Hle).
    now rewrite !andb_false_r.
  - intros db userId id body startAt endAt Hs He Hle.
    unfold patchSession, updateSessionBodySchema. rewrite Hs, He.
    replace (startAt <? endAt) with false by (symmetry; apply Z.ltb_ge; exact Hle).
    rewrite !andb_false_r. now destruct (nonEmpty id).
  - cbv zeta. split; [reflexivity |]. split; [reflexivity |].
    intros x [<- | []]. vm_compute. reflexivity.
Qed.

End SessionFacts.

(* ===================================================================== *)
(** * Approval of change requests *)
(* ===================================================================== *)

Module ApprovalFacts.
Import Prisma Http AdminRoutes Spec PrismaFacts.

(** The store after the four statements of the approval transaction. *)
Lemma approveTransaction_run fault db actor cr session mutation :
  findChangeRequest db (ChangeRequest.id cr) = Some cr ->
  findSession db (ChangeRequest.sessionId cr) = Some session ->
  exists db',
    approvalApplied db db' (ChangeRequest.id cr) (User.id actor)
      (ChangeRequest.sessionId cr) mutation /\
    transaction (approveTransaction fault actor cr mutation) db
    = if match fault with Some n => Nat.ltb n 4 | None => false end
      then (db, None)
      else (db', Some (markApproved (User.id actor) cr, mutation session)).
Proof.
  intros Hcr Hsession.
  assert (Hsession' :
    forall l, findSession (withChangeRequests db l) (ChangeRequest.sessionId cr)
              = Some session) by (intros l; exact Hsession).
  eexists. split.
  2: { unfold transaction, approveTransaction, bind, stmt, ret,
         changeRequest_update, session_update, auditLog_create.
       destruct fault as [[| [| [| [| n]]]] |]; cbn [Nat.eqb Nat.ltb Nat.leb];
         rewrite ?Hcr, ?Hsession'; reflexivity. }
  repeat split.
Qed.

(** Every outcome of an approval: either nothing changed and the reply is
    not a success, or the request reached the transaction, which committed
    both effects. *)
Lemma approve_outcome fault db userId id :
  let db' := fst (approveChangeRequest fault db userId id) in
  let reply := snd (approveChangeRequest fault db userId id) in
  (db' = db /\ statusCode reply <> 200) \/
  (exists actor cr session mutation,
     approvable db userId id actor cr session /\
     approvalMutation cr = Some mutation /\
     reply = approved (markApproved (User.id actor) cr) (mutation session) /\
     approvalApplied db db' id (User.id actor) (ChangeRequest.sessionId cr) mutation).
Proof.
  unfold approveChangeRequest.
  destruct (nonEmpty id) eqn:Hid; cbn [negb]; [| left; split; [reflexivity | discriminate]].
  destruct (findUser db userId) as [actor |] eqn:Hactor;
    [| left; split; [reflexivity | discriminate]].
  destruct (findChangeRequest db id) as [cr |] eqn:Hcr;
    [| left; split; [reflexivity | discriminate]].
  destruct (findSession db (ChangeRequest.sessionId cr)) as [session |] eqn:Hsession;
    [| left; split; [reflexivity | discriminate]].
  destruct (findUser db (Session.studentId session)) as [student |] eqn:Hstudent;
    [| left; split; [reflexivity | discriminate]].
  destruct (String.eqb_spec (User.orgId student) (User.orgId actor)) as [Horg | Horg];
    cbn [negb]; [| left; split; [reflexivity | discriminate]].
  destruct (ChangeRequestStatus_eqb_spec (ChangeRequest.status cr) PENDING) as [Hpending | _];
    cbn [negb]; [| left; split; [reflexivity | discriminate]].
  destruct (SessionStatus_eqb_spec (Session.status session) SCHEDULED) as [Hscheduled | _];
    cbn [negb]; [| left; split; [reflexivity | discriminate]].
  destruct (approvalMutation cr) as [mutation |] eqn:Hmutation;
    [| left; split; [reflexivity | discriminate]].
  pose proof (findChangeRequest_id _ _ _ Hcr) as Hcrid.
  assert (Hcr' : findChangeRequest db (ChangeRequest.id cr) = Some cr) by now rewrite Hcrid.
  destruct (approveTransaction_run fault db actor cr session mutation Hcr' Hsession)
    as (dbf & Happlied & ->).
  destruct (match fault with Some n => Nat.ltb n 4 | None => false end).
  - left. split; [reflexivity | discriminate].
  - right. exists actor, cr, session, mutation. cbn [fst snd].
    rewrite Hcrid in Happlied.
    split; [| split; [exact Hmutation | split; [reflexivity | exact Happlied]]].
    unfold approvable. repeat split; try assumption. now exists student.
Qed.

Lemma approvalMutation_id cr mutation :
  approvalMutation cr = Some mutation -> forall x, Session.id (mutation x) = Session.id x.
Proof.
  unfold approvalMutation.
  destruct (ChangeRequest.type cr); [intros [= <-]; reflexivity |].
  destruct (ChangeRequest.proposedStartAtUtc cr); [| discriminate].
  destruct (ChangeRequest.proposedEndAtUtc cr); [| discriminate].
  destruct (ChangeRequest.proposedTimeZone cr) as [zone |]; [| discriminate].
  destruct (nonEmpty zone); [intros [= <-]; reflexivity | discriminate].
Qed.

(** Once both effects are applied, lookups find the approved request and
    the mutated session. *)
Lemma approvalApplied_lookup db db' id deciderId cr session mutation :
  approvalApplied db db' id deciderId (ChangeRequest.sessionId cr) mutation ->
  (forall x, Session.id (mutation x) = Session.id x) ->
  findChangeRequest db id = Some cr ->
  findSession db (ChangeRequest.sessionId cr) = Some session ->
  findChangeRequest db' id = Some (markApproved deciderId cr) /\
  findSession db' (ChangeRequest.sessionId cr) = Some (mutation session).
Proof.
  intros (Hcrs & Hsessions & _) Hid Hcr Hsession.
  unfold findChangeRequest, findSession. rewrite Hcrs, Hsessions. split.
  - now apply find_updateChangeRequestRows.
  - now apply find_updateSessionRows.
Qed.

(** C5.  In every outcome of an approval, whatever statement of the
    transaction the store may fail at: either the reply is the success, the
    change request is [APPROVED] by the decider and the session carries the
    mutation, or the reply is not a success and the store is exactly as
    before.  In particular a NotFound, Conflict or InvalidArgument reply
    leaves request and session unchanged. *)
Theorem approve_atomic fault db userId id :
  let db' := fst (approveChangeRequest fault db userId id) in
  let reply := snd (approveChangeRequest fault db userId id) in
  ((exists actor cr session mutation,
      findChangeRequest db id = Some cr /\
      findSession db (ChangeRequest.sessionId cr) = Some session /\
      approvalMutation cr = Some mutation /\
      statusCode reply = 200 /\
      findChangeRequest db' id = Some (markApproved (User.id actor) cr) /\
      findSession db' (ChangeRequest.sessionId cr) = Some (mutation session) /\
      approvalApplied db db' id (User.id actor) (ChangeRequest.sessionId cr) mutation)
   \/ (db' = db /\ statusCode reply <> 200)) /\
  (NotFound reply \/ Conflict reply \/ InvalidArgument reply -> db' = db).
Proof.
  intros db' reply.
  destruct (approve_outcome fault db userId id)
    as [[Hsame Hcode] | (actor & cr & session & mutation & Hok & Hmut & Hreply & Happlied)];
    fold db' in Hsame, Hcode || fold db' reply in Hreply, Happlied.
  - split; [right; now split | intros _; exact Hsame].
  - destruct Hok as (_ & _ & Hcr & Hsession & _).
    destruct (approvalApplied_lookup db db' id (User.id actor) cr session mutation
                Happlied (approvalMutation_id cr mutation Hmut) Hcr Hsession)
      as [Hcr' Hsession'].
    split.
    + left. exists actor, cr, session, mutation. rewrite Hreply.
      split; [exact Hcr |]. split; [exact Hsession |]. split; [exact Hmut |].
      split; [reflexivity |]. split; [exact Hcr' |]. split; [exact Hsession' | exact Happlied].
    + rewrite Hreply. unfold NotFound, Conflict, InvalidArgument. cbn [statusCode].
      intros [H | [H | H]]; discriminate H.
Qed.

(** The approval of an approvable request with no store failure. *)
Lemma approve_run db userId id actor cr session mutation :
  approvable db userId id actor cr session ->
  approvalMutation cr = Some mutation ->
  snd (approveChangeRequest None db userId id)
  = approved (markApproved (User.id actor) cr) (mutation session) /\
  approvalApplied db (fst (approveChangeRequest None db userId id)) id (User.id actor)
    (ChangeRequest.sessionId cr) mutation.
Proof.
  intros (Hid & Hactor & Hcr & Hsession & (student & Hstudent & Horg) & Hpending & Hscheduled)
         Hmut.
  pose proof (findChangeRequest_id _ _ _ Hcr) as Hcrid.
  assert (Hcr' : findChangeRequest db (ChangeRequest.id cr) = Some cr) by now rewrite Hcrid.
  destruct (approveTransaction_run None db actor cr session mutation Hcr' Hsession)
    as (dbf & Happlied & Hrun).
  unfold approveChangeRequest.
  rewrite Hid, Hactor, Hcr, Hsession, Hstudent, Horg, String.eqb_refl, Hpending, Hscheduled,
    Hmut, Hrun.
  cbn. rewrite Hcrid in Happlied. now split.
Qed.

(** C4.  Approving a [PENDING] [RESCHEDULE] request against a [SCHEDULED]
    session overwrites the session's start, end and time zone with the
    proposed values and leaves it [SCHEDULED]; approving a [PENDING]
    [CANCEL] sets the session [CANCELLED] and leaves start, end and time
    zone as they were.  Either way the request becomes [APPROVED] with the
    decider's id, and every other row and field is untouched. *)
Theorem approve_side_effects db userId id actor cr session :
  approvable db userId id actor cr session ->
  let db' := fst (approveChangeRequest None db userId id) in
  (forall startAt endAt zone,
     ChangeRequest.type cr = RESCHEDULE ->
     ChangeRequest.proposedStartAtUtc cr = Some startAt ->
     ChangeRequest.proposedEndAtUtc cr = Some endAt ->
     ChangeRequest.proposedTimeZone cr = Some zone -> zone <> "" ->
     exists session' cr',
       findSession db' (ChangeRequest.sessionId cr) = Some session' /\
       Session.startAtUtc session' = startAt /\
       Session.endAtUtc session' = endAt /\
       Session.classTimeZone session' = zone /\
       Session.status session' = SCHEDULED /\
       session' = reschedule startAt endAt zone session /\
       findChangeRequest db' id = Some cr' /\
       ChangeRequest.status cr' = APPROVED /\
       ChangeRequest.decidedByAdminId cr' = Some (User.id actor) /\
       approvalApplied db db' id (User.id actor) (ChangeRequest.sessionId cr)
         (reschedule startAt endAt zone)) /\
  (ChangeRequest.type cr = CANCEL ->
     exists session' cr',
       findSession db' (ChangeRequest.sessionId cr) = Some session' /\
       Session.status session' = CANCELLED /\
       Session.startAtUtc session' = Session.startAtUtc session /\
       Session.endAtUtc session' = Session.endAtUtc session /\
       Session.classTimeZone session' = Session.classTimeZone session /\
       session' = markCancelled session /\
       findChangeRequest db' id = Some cr' /\
       ChangeRequest.status cr' = APPROVED /\
       ChangeRequest.decidedByAdminId cr' = Some (User.id actor) /\
       approvalApplied db db' id (User.id actor) (ChangeRequest.sessionId cr) markCancelled).
Proof.
  intros Hok db'.
  assert (Hsched : Session.status session = SCHEDULED) by apply Hok.
  assert (Hcr : findChangeRequest db id = Some cr) by apply Hok.
  assert (Hsession : findSession db (ChangeRequest.sessionId cr) = Some session) by apply Hok.
  split.
  - intros startAt endAt zone Htype Hs He Hz Hne.
    assert (Hmut : approvalMutation cr = Some (reschedule startAt endAt zone)).
    { unfold approvalMutation, nonEmpty. rewrite Htype, Hs, He, Hz.
      destruct (String.eqb_spec zone ""); [contradiction | reflexivity]. }
    destruct (approve_run db userId id actor cr session _ Hok Hmut) as [_ Happlied].
    fold db' in Happlied.
    destruct (approvalApplied_lookup db db' id (User.id actor) cr session _
                Happlied (approvalMutation_id cr _ Hmut) Hcr Hsession) as [Hcr' Hsession'].
    exists (reschedule startAt endAt zone session), (markApproved (User.id actor) cr).
    split; [exact Hsession' |]. cbn. rewrite Hsched.
    do 5 (split; [reflexivity |]). split; [exact Hcr' |].
    split; [reflexivity |]. split; [reflexivity | exact Happlied].
  - intros Htype.
    assert (Hmut : approvalMutation cr = Some markCancelled).
    { unfold approvalMutation. now rewrite Htype. }
    destruct (approve_run db userId id actor cr session _ Hok Hmut) as [_ Happlied].
    fold db' in Happlied.
    destruct (approvalApplied_lookup db db' id (User.id actor) cr session _
                Happlied (approvalMutation_id cr _ Hmut) Hcr Hsession) as [Hcr' Hsession'].
    exists (markCancelled session), (markApproved (User.id actor) cr).
    split; [exact Hsession' |]. cbn.
    do 5 (split; [reflexivity |]). split; [exact Hcr' |].
    split; [reflexivity |]. split; [reflexivity | exact Happlied].
Qed.

(** C4, witness: the administrator approves the pending reschedule of
    session [s1] to 14:00 to 15:00 in Asia/Shanghai. *)
Lemma approve_side_effects_witness :
  let session := Examples.mkSession "s1" (Examples.jan1 10) (Examples.jan1 11) SCHEDULED in
  let cr := Examples.pendingReschedule "cr1" "s1" (Examples.jan1 14) (Examples.jan1 15) in
  let db := Examples.mkDb [session] [cr] [] in
  exists session',
    findSession (fst (approveChangeRequest None db "admin1" "cr1")) "s1" = Some session' /\
    Session.startAtUtc session' = Examples.jan1 14 /\
    Session.endAtUtc session' = Examples.jan1 15 /\
    Session.classTimeZone session' = "Asia/Shanghai" /\
    Session.status session' = SCHEDULED.
Proof.
  intros session cr db.
  assert (Hok : approvable db "admin1" "cr1" Examples.admin1 cr session).
  { unfold approvable. repeat split; try reflexivity.
    exists Examples.student1. split; reflexivity. }
  destruct (approve_side_effects db "admin1" "cr1" Examples.admin1 cr session Hok)
    as [Hreschedule _].
  destruct (Hreschedule (Examples.jan1 14) (Examples.jan1 15) "Asia/Shanghai"
              eq_refl eq_refl eq_refl eq_refl) as (session' & cr' & H).
  - discriminate.
  - exists session'. tauto.
Defined.

End ApprovalFacts.

(* ===================================================================== *)
(** * Creation of change requests *)
(* ===================================================================== *)

Module ChangeRequestFacts.
Import Prisma Http StudentRoutes Spec PrismaFacts.

Lemma createTransaction_run fault db actor row :
  transaction (createTransaction fault actor row) db
  = if match fault with Some n => Nat.ltb n 2 | None => false end
    then (db, None)
    else (createAuditLog (createChangeRequest db row)
            {| AuditLog.orgId := User.orgId actor;
               AuditLog.actorUserId := User.id actor;
               AuditLog.action := "STUDENT_CREATE_CHANGE_REQUEST";
               AuditLog.entityType := "ChangeRequest";
               AuditLog.entityId := ChangeRequest.id row |},
          Some row).
Proof.
  unfold transaction, createTransaction, bind, stmt, ret, changeRequest_create,
    auditLog_create.
  destruct fault as [[| [| n]] |]; reflexivity.
Qed.

Lemma ownSession_id db userId id x :
  find (fun x => String.eqb (Session.id x) id && String.eqb (Session.studentId x) userId)
       (sessions db) = Some x ->
  Session.id x = id.
Proof.
  intros H. apply find_some in H. destruct H as [_ H].
  apply andb_true_iff in H. now apply String.eqb_eq.
Qed.

(** The handler on one of the student's own [SCHEDULED] sessions. *)
Lemma postChangeRequest_reached fault db userId id body session now newId :
  ownScheduledSession db userId id body session ->
  exists actor,
    postChangeRequest fault db userId id body now newId
    = if cutoffUtc session <? now then (db, message 403 "Forbidden")
      else
        match findPending db id with
        | Some _ => (db, message 409 "Pending change request already exists")
        | None =>
            if match fault with Some n => Nat.ltb n 2 | None => false end
            then (db, internalError)
            else (createAuditLog
                    (createChangeRequest db (newChangeRequest newId id userId body))
                    {| AuditLog.orgId := User.orgId actor;
                       AuditLog.actorUserId := User.id actor;
                       AuditLog.action := "STUDENT_CREATE_CHANGE_REQUEST";
                       AuditLog.entityType := "ChangeRequest";
                       AuditLog.entityId := newId |},
                  createdChangeRequest (newChangeRequest newId id userId body))
        end.
Proof.
  intros ((Hid & Hbody & (actor & Hactor) & Hsession) & Hstatus).
  exists actor. unfold postChangeRequest.
  rewrite Hid, Hbody, Hactor, Hsession, Hstatus. cbn [negb SessionStatus_eqb].
  rewrite (ownSession_id _ _ _ _ Hsession).
  destruct (cutoffUtc session <? now); [reflexivity |].
  destruct (findPending db id); [reflexivity |].
  rewrite createTransaction_run.
  destruct (match fault with Some n => Nat.ltb n 2 | None => false end); reflexivity.
Qed.

(** C6 (amended).  For a change request of a student that passes
    validation (a non-empty session id and a well-formed body) against one
    of the student's own [SCHEDULED] sessions, with
    [cutoff = startAtUtc - 24h]: the reply is Forbidden exactly when
    [now > cutoff], and then it is not a Conflict and nothing is written; at
    [now = cutoff] the request is not Forbidden, and is created when no
    request is pending and the store does not fail; one millisecond later it
    is Forbidden. *)
Theorem postChangeRequest_cutoff fault db userId id body session now newId :
  ownScheduledSession db userId id body session ->
  let db' := fst (postChangeRequest fault db userId id body now newId) in
  let reply := snd (postChangeRequest fault db userId id body now newId) in
  cutoffUtc session = Session.startAtUtc session - 86400000 /\
  (Forbidden reply <-> now > cutoffUtc session) /\
  (Forbidden reply -> ~ Conflict reply /\ db' = db) /\
  (now = cutoffUtc session ->
     ~ Forbidden reply /\
     (findPending db id = None -> fault = None ->
      reply = createdChangeRequest (newChangeRequest newId id userId body) /\
      statusCode reply = 201 /\
      In (newChangeRequest newId id userId body) (changeRequests db'))) /\
  (now = cutoffUtc session + 1 -> Forbidden reply).
Proof.
  intros Hown db' reply. subst db' reply.
  destruct (postChangeRequest_reached fault db userId id body session now newId Hown)
    as (actor & ->).
  split; [reflexivity |].
  destruct (Z.ltb_spec (cutoffUtc session) now) as [Hlate | Hintime]; cbn [fst snd].
  - split; [split; [intros _; lia | reflexivity] |].
    split; [intros _; split; [discriminate | reflexivity] |].
    split; [intros ->; lia | reflexivity].
  - destruct (findPending db id) as [pending |] eqn:Hpending;
      [| destruct (match fault with Some n => Nat.ltb n 2 | None => false end) eqn:Hfault];
      cbn [fst snd].
    + split; [split; [intros H; discriminate H | lia] |].
      split; [intros H; discriminate H |].
      split; [| lia]. intros _. split; [intros H; discriminate H |]. discriminate.
    + split; [split; [intros H; discriminate H | lia] |].
      split; [intros H; discriminate H |].
      split; [| lia]. intros _. split; [intros H; discriminate H |].
      intros _ ->. discriminate Hfault.
    + split; [split; [intros H; discriminate H | lia] |].
      split; [intros H; discriminate H |].
      split; [| lia]. intros _. split; [intros H; discriminate H |].
      intros _ _. split; [reflexivity |]. split; [reflexivity |].
      cbn [createAuditLog createChangeRequest withChangeRequests changeRequests].
      apply in_or_app. right. now left.
Qed.

(** C6, witness: the session starts at 2030-01-02T00:00:00Z; a request at
    2030-01-01T00:00:00.000Z is created, one at 00:00:00.001Z is Forbidden. *)
Lemma postChangeRequest_cutoff_witness :
  let session := Examples.mkSession "s1" (Examples.jan1 24) (Examples.jan1 25) SCHEDULED in
  let db := Examples.mkDb [session] [] [] in
  statusCode (snd (postChangeRequest None db "student1" "s1" CancelBody (Examples.jan1 0) "cr1"))
  = 201 /\
  Forbidden (snd (postChangeRequest None db "student1" "s1" CancelBody
                    (Examples.jan1 0 + 1) "cr1")).
Proof.
  intros session db.
  assert (Hown : ownScheduledSession db "student1" "s1" CancelBody session).
  { unfold ownScheduledSession, ownSession. repeat split; try reflexivity.
    exists Examples.student1. reflexivity. }
  split.
  - destruct (postChangeRequest_cutoff None db "student1" "s1" CancelBody session
                (Examples.jan1 0) "cr1" Hown) as (_ & _ & _ & Hat & _).
    destruct (Hat eq_refl) as [_ Hcreated].
    destruct (Hcreated eq_refl eq_refl) as (_ & Hcode & _). exact Hcode.
  - destruct (postChangeRequest_cutoff None db "student1" "s1" CancelBody session
                (Examples.jan1 0 + 1) "cr1" Hown) as (_ & _ & _ & _ & Hlate).
    exact (Hlate eq_refl).
Defined.

(** C6, counterexample: the session starts at 2030-01-02T00:00Z; at
    2030-01-01T01:00Z, past the cutoff, the student sends a [RESCHEDULE]
    whose proposed end is not after its proposed start.  The body is
    validated before the cutoff is looked at: the reply is 400 Bad Request,
    not Forbidden. *)
Lemma postChangeRequest_invalid_body_counterexample :
  let session := Examples.mkSession "s1" (Examples.jan1 24) (Examples.jan1 25) SCHEDULED in
  let db := Examples.mkDb [session] [] [] in
  let body := RescheduleBody (Examples.jan1 49) (Examples.jan1 48) "Australia/Sydney" in
  let reply := snd (postChangeRequest None db "student1" "s1" body (Examples.jan1 1) "cr1") in
  find (fun x => String.eqb (Session.id x) "s1" && String.eqb (Session.studentId x) "student1")
       (sessions db) = Some session /\
  Session.status session = SCHEDULED /\
  Examples.jan1 1 > cutoffUtc session /\
  reply = badRequest /\
  ~ Forbidden reply.
Proof.
  cbv zeta. split; [reflexivity |]. split; [reflexivity |].
  split; [reflexivity |]. split; [reflexivity | discriminate].
Qed.

Lemma find_none_filter {A : Type} (f : A -> bool) (l : list A) :
  find f l = None -> filter f l = [].
Proof.
  induction l as [| x l IH]; simpl; [reflexivity |].
  destruct (f x); [discriminate | exact IH].
Qed.

(** Every outcome of the handler: nothing is written and the reply is not
    a creation, or no request was pending for the session and exactly the
    new request (and its audit fact) is written. *)
Lemma postChangeRequest_outcome fault db userId id body now newId :
  let db' := fst (postChangeRequest fault db userId id body now newId) in
  let reply := snd (postChangeRequest fault db userId id body now newId) in
  (db' = db /\ statusCode reply <> 201) \/
  (findPending db id = None /\
   changeRequests db' = changeRequests db ++ [newChangeRequest newId id userId body] /\
   reply = createdChangeRequest (newChangeRequest newId id userId body)).
Proof.
  unfold postChangeRequest.
  destruct (nonEmpty id); cbn [negb]; [| left; split; [reflexivity | discriminate]].
  destruct (createChangeRequestBodySchema body); cbn [negb];
    [| left; split; [reflexivity | discriminate]].
  destruct (findUser db userId) as [actor |];
    [| left; split; [reflexivity | discriminate]].
  destruct (find _ (sessions db)) as [session |] eqn:Hsession;
    [| left; split; [reflexivity | discriminate]].
  rewrite (ownSession_id _ _ _ _ Hsession).
  destruct (SessionStatus_eqb (Session.status session) SCHEDULED); cbn [negb];
    [| left; split; [reflexivity | discriminate]].
  destruct (cutoffUtc session <? now); [left; split; [reflexivity | discriminate] |].
  destruct (findPending db id) eqn:Hpending;
    [left; split; [reflexivity | discriminate] |].
  rewrite createTransaction_run.
  destruct (match fault with Some n => Nat.ltb n 2 | None => false end).
  - left. split; [reflexivity | discriminate].
  - right. now repeat split.
Qed.

(** C9 (amended).  Every attempt to create a change request keeps at most
    one [PENDING] request per session.  When the session already has a
    [PENDING] request the attempt never creates one and writes nothing.  An
    attempt that fails validation (an empty id or a malformed body) is
    answered Bad Request.  An attempt that passes validation, against the
    student's own session, is answered Forbidden, and not Conflict, when
    the session is still [SCHEDULED] and [now] is past the cutoff (the
    cutoff check comes before the pending check); otherwise it is answered
    Conflict. *)
Theorem postChangeRequest_second_pending fault db userId id body now newId :
  let db' := fst (postChangeRequest fault db userId id body now newId) in
  let reply := snd (postChangeRequest fault db userId id body now newId) in
  (atMostOnePending db -> atMostOnePending db') /\
  (forall pending, findPending db id = Some pending ->
     db' = db /\ statusCode reply <> 201 /\
     (nonEmpty id = false \/ createChangeRequestBodySchema body = false ->
      reply = badRequest) /\
     forall session,
       ownSession db userId id body session ->
       (Session.status session = SCHEDULED /\ cutoffUtc session < now ->
        Forbidden reply /\ ~ Conflict reply) /\
       (Session.status session <> SCHEDULED \/ now <= cutoffUtc session ->
        Conflict reply)).
Proof.
  intros db' reply. split.
  - intros Hinv.
    destruct (postChangeRequest_outcome fault db userId id body now newId)
      as [[Hsame _] | (Hnone & Hrows & _)]; fold db' in Hsame || fold db' in Hrows.
    + now rewrite Hsame.
    + intros sid. rewrite Hrows, filter_app, length_app. cbn [filter].
      unfold pendingFor at 2. cbn [newChangeRequest ChangeRequest.sessionId ChangeRequest.status].
      destruct (String.eqb_spec id sid) as [<- | Hne]; cbn.
      * unfold findPending in Hnone. apply find_none_filter in Hnone.
        change (filter (pendingFor id) (changeRequests db)) with
          (filter (fun cr => String.eqb (ChangeRequest.sessionId cr) id
                             && ChangeRequestStatus_eqb (ChangeRequest.status cr) PENDING)
                  (changeRequests db)).
        rewrite Hnone. cbn. lia.
      * specialize (Hinv sid). lia.
  - intros pending Hpending.
    destruct (postChangeRequest_outcome fault db userId id body now newId)
      as [[Hsame Hcode] | (Hnone & _)]; [| congruence].
    fold db' in Hsame. fold reply in Hcode.
    split; [exact Hsame |]. split; [exact Hcode |]. split.
    + subst reply. unfold postChangeRequest. intros [Hid | Hbody].
      * now rewrite Hid.
      * rewrite Hbody. now destruct (nonEmpty id).
    + intros session (Hid & Hbody & (actor & Hactor) & Hsession).
      subst reply. unfold postChangeRequest.
      rewrite Hid, Hbody, Hactor, Hsession. cbn [negb].
      rewrite (ownSession_id _ _ _ _ Hsession).
      destruct (SessionStatus_eqb_spec (Session.status session) SCHEDULED) as [Hs | Hs];
        cbn [negb].
      * destruct (Z.ltb_spec (cutoffUtc session) now) as [Hlate | Hintime].
        -- split; [intros _; split; [reflexivity | discriminate] |].
           intros [Hns | Hnow]; [contradiction | lia].
        -- rewrite Hpending. split; [intros [_ Hlate]; lia | reflexivity].
      * split; [intros [Hs' _]; contradiction | reflexivity].
Qed.

(** C9, counterexample: session [s1] starts at 2030-01-02T00:00Z and has a
    [PENDING] request; the student's second attempt at 2030-01-01T01:00Z,
    past the cutoff, is answered Forbidden, not Conflict. *)
Lemma postChangeRequest_pending_past_cutoff_counterexample :
  let session := Examples.mkSession "s1" (Examples.jan1 24) (Examples.jan1 25) SCHEDULED in
  let db := Examples.mkDb [session] [Examples.pendingCancel "cr1" "s1"] [] in
  let reply := snd (postChangeRequest None db "student1" "s1" CancelBody
                      (Examples.jan1 1) "cr2") in
  findPending db "s1" = Some (Examples.pendingCancel "cr1" "s1") /\
  ownScheduledSession db "student1" "s1" CancelBody session /\
  reply = message 403 "Forbidden" /\
  ~ Conflict reply.
Proof.
  cbv zeta. split; [reflexivity |]. split; [| split; [reflexivity | discriminate]].
  unfold ownScheduledSession, ownSession. repeat split; try reflexivity.
  exists Examples.student1. reflexivity.
Qed.

End ChangeRequestFacts.

(* ===================================================================== *)
(** * The completion job *)
(* ===================================================================== *)

Module JobFacts.
Import Prisma Jobs Spec PrismaFacts.

Lemma markCompleted_not_ended now x : isEnded now (markCompleted x) = false.
Proof. reflexivity. Qed.

Lemma completeRows_id now ids x : Session.id (completeRows now ids x) = Session.id x.
Proof.
  unfold completeRows.
  now destruct (existsb (String.eqb (Session.id x)) ids && isEnded now x).
Qed.

Lemma completeRows_app now a b x :
  completeRows now a (completeRows now b x) = completeRows now (a ++ b) x.
Proof.
  unfold completeRows at 2 3. rewrite existsb_app.
  destruct (existsb (String.eqb (Session.id x)) b) eqn:Hb;
    destruct (isEnded now x) eqn:He; cbn [andb orb];
    rewrite ?orb_true_r, ?orb_false_r, ?andb_false_r; cbn [andb].
  - unfold completeRows. rewrite markCompleted_not_ended. now rewrite andb_false_r.
  - unfold completeRows. now rewrite He, andb_false_r.
  - unfold completeRows. now rewrite He.
  - unfold completeRows. now rewrite He, andb_false_r.
Qed.

Lemma map_id_in {A : Type} (f : A -> A) (l : list A) :
  (forall x, In x l -> f x = x) -> map f l = l.
Proof.
  intros H. rewrite <- (map_id l) at 2. now apply map_ext_in.
Qed.

(** One transaction of the job, on the sessions table. *)
Lemma completeOne_sessions newEntryId now db s :
  NoDup (map Session.id (sessions db)) ->
  sessions (completeOne newEntryId now db s)
  = map (completeRows now [Session.id s]) (sessions db).
Proof.
  intros Hnd. unfold completeOne.
  destruct (findSession db (Session.id s)) as [current |] eqn:Hfind.
  - pose proof (findSession_In _ _ _ Hfind) as Hin.
    pose proof (findSession_id _ _ _ Hfind) as Hid.
    assert (Hrow : forall x, In x (sessions db) ->
                     String.eqb (Session.id x) (Session.id s) = true -> x = current).
    { intros x Hx E. apply String.eqb_eq in E.
      apply (NoDup_id_eq (sessions db)); congruence. }
    destruct (Z.ltb_spec now (Session.endAtUtc current)) as [Hfuture | Hpast].
    + symmetry. apply map_id_in. intros x Hx. unfold completeRows. cbn [existsb].
      rewrite orb_false_r.
      destruct (String.eqb (Session.id x) (Session.id s)) eqn:E; [| reflexivity].
      rewrite (Hrow x Hx E). unfold isEnded.
      replace (Session.endAtUtc current <=? now) with false
        by (symmetry; apply Z.leb_gt; exact Hfuture).
      now rewrite andb_false_r.
    + destruct (SessionStatus_eqb_spec (Session.status current) CANCELLED) as [Hc | Hc].
      * symmetry. apply map_id_in. intros x Hx. unfold completeRows. cbn [existsb].
        rewrite orb_false_r.
        destruct (String.eqb (Session.id x) (Session.id s)) eqn:E; [| reflexivity].
        rewrite (Hrow x Hx E). unfold isEnded. now rewrite Hc.
      * cbn [sessions withHourLedgerEntries withSessions]. unfold completeScheduled.
        apply map_ext_in. intros x Hx. unfold completeRows. cbn [existsb].
        rewrite orb_false_r, Hid.
        destruct (String.eqb (Session.id x) (Session.id s)) eqn:E; [| reflexivity].
        rewrite (Hrow x Hx E). unfold isEnded. cbn [andb].
        replace (Session.endAtUtc current <=? now) with true
          by (symmetry; apply Z.leb_le; exact Hpast).
        now rewrite andb_true_r.
  - symmetry. apply map_id_in. intros x Hx. unfold completeRows. cbn [existsb].
    unfold findSession in Hfind. rewrite (find_none _ _ Hfind x Hx). reflexivity.
Qed.

Lemma completeOne_ids newEntryId now db s :
  NoDup (map Session.id (sessions db)) ->
  map Session.id (sessions (completeOne newEntryId now db s)) = map Session.id (sessions db).
Proof.
  intros Hnd. rewrite completeOne_sessions by exact Hnd.
  rewrite map_map. apply map_ext. intros x. apply completeRows_id.
Qed.

(** The sessions table after the job has run over [sel]. *)
Lemma run_sessions newEntryId now sel : forall db,
  NoDup (map Session.id (sessions db)) ->
  sessions (fold_left (completeOne newEntryId now) sel db)
  = map (completeRows now (rev (map Session.id sel))) (sessions db).
Proof.
  induction sel as [| s sel IH]; intros db Hnd; cbn [fold_left map rev].
  - symmetry. apply map_id_in. intros x _. reflexivity.
  - rewrite IH by now rewrite completeOne_ids.
    rewrite completeOne_sessions by exact Hnd.
    rewrite map_map. apply map_ext. intros x. apply completeRows_app.
Qed.

(** ** The ledger *)

Lemma entriesOf_upsert entryId current l sid :
  filter (refersTo sid) (upsertConsume entryId current l)
  = match find (refersTo (Session.id current)) l with
    | Some _ => filter (refersTo sid) l
    | None =>
        filter (refersTo sid) l
        ++ (if String.eqb (Session.id current) sid
            then [{| HourLedgerEntry.id := entryId;
                     HourLedgerEntry.studentId := Session.studentId current;
                     HourLedgerEntry.teacherId := Some (Session.teacherId current);
                     HourLedgerEntry.deltaUnits := - Session.consumesUnits current;
                     HourLedgerEntry.reason := SESSION_CONSUME;
                     HourLedgerEntry.sessionId := Some (Session.id current) |}]
            else [])
    end.
Proof.
  unfold upsertConsume.
  destruct (find (refersTo (Session.id current)) l); [reflexivity |].
  rewrite filter_app. cbn [filter refersTo HourLedgerEntry.sessionId].
  now destruct (String.eqb (Session.id current) sid).
Qed.

(** A transaction for a session writes no entry that refers to another. *)
Lemma entriesOf_completeOne_other newEntryId now db s sid :
  Session.id s <> sid ->
  entriesOf (completeOne newEntryId now db s) sid = entriesOf db sid.
Proof.
  intros Hne. unfold completeOne.
  destruct (findSession db (Session.id s)) as [current |] eqn:Hfind; [| reflexivity].
  destruct (now <? Session.endAtUtc current); [reflexivity |].
  destruct (SessionStatus_eqb (Session.status current) CANCELLED); [reflexivity |].
  unfold entriesOf. cbn [hourLedgerEntries withHourLedgerEntries withSessions].
  rewrite entriesOf_upsert.
  destruct (find (refersTo (Session.id current)) (hourLedgerEntries db)); [reflexivity |].
  rewrite (findSession_id _ _ _ Hfind).
  destruct (String.eqb_spec (Session.id s) sid); [contradiction | apply app_nil_r].
Qed.




(** ** Two runs *)

Lemma ended_ids_NoDup now (rows : list Session.t) :
  NoDup (map Session.id rows) ->
  NoDup (map Session.id (filter (isEnded now) rows)).
Proof.
  induction rows as [| x rows IH]; cbn [map filter]; intros Hnd; [constructor |].
  apply NoDup_cons_iff in Hnd. destruct Hnd as [Hnotin Hnd].
  destruct (isEnded now x); [| now apply IH].
  cbn [map]. apply NoDup_cons; [| now apply IH].
  contradict Hnotin. apply in_map_iff in Hnotin. destruct Hnotin as (y & E & Hy).
  rewrite <- E. apply in_map. now apply filter_In in Hy.
Qed.



Lemma filter_nil_iff {A : Type} (p : A -> bool) (l : list A) :
  (forall x, In x l -> p x = false) -> filter p l = [].
Proof.
  induction l as [| x l IH]; intros H; cbn [filter]; [reflexivity |].
  rewrite (H x) by now left. apply IH. intros y Hy. apply H. now right.
Qed.




End JobFacts.

(* ===================================================================== *)
(** * Calendar dates *)
(* ===================================================================== *)

Module IsoDateFacts.
Import Timezone IsoDate.

Ltac floor_arith := Z.to_euclidean_division_equations; lia.

Lemma DayFromYear_lt (a b : Z) : a < b -> DayFromYear a < DayFromYear b.
Proof. intros H. unfold DayFromYear. floor_arith. Qed.

Lemma DayFromYear_succ (y : Z) :
  DayFromYear (y + 1) = DayFromYear y + (if InLeapYear y then 366 else 365).
Proof.
  unfold DayFromYear, InLeapYear.
  destruct (y mod 4 =? 0) eqn:E4; destruct (y mod 100 =? 0) eqn:E100;
    destruct (y mod 400 =? 0) eqn:E400; cbn [andb orb negb];
    rewrite ?Z.eqb_eq, ?Z.eqb_neq in *; floor_arith.
Qed.

Lemma YearFromDay_spec (d : Z) :
  DayFromYear (YearFromDay d) <= d < DayFromYear (YearFromDay d + 1).
Proof.
  unfold YearFromDay. cbv zeta.
  set (y0 := 1970 + d * 400 / 146097).
  assert (H1 : DayFromYear (y0 - 1) <= d) by (unfold DayFromYear, y0; floor_arith).
  assert (H2 : d < DayFromYear (y0 + 2)) by (unfold DayFromYear, y0; floor_arith).
  destruct (Z.ltb_spec d (DayFromYear y0)).
  - replace (y0 - 1 + 1) with y0 by lia. lia.
  - destruct (Z.leb_spec (DayFromYear (y0 + 1)) d).
    + replace (y0 + 1 + 1) with (y0 + 2) by lia. lia.
    + lia.
Qed.

(** [YearFromDay d] is the one year whose days include [d]. *)
Lemma YearFromDay_unique (d y : Z) :
  DayFromYear y <= d < DayFromYear (y + 1) -> YearFromDay d = y.
Proof.
  intros [Hlo Hhi]. pose proof (YearFromDay_spec d) as [Hlo' Hhi'].
  destruct (Z.lt_trichotomy (YearFromDay d) y) as [Hlt | [Heq | Hgt]]; [| exact Heq |].
  - assert (YearFromDay d + 1 <= y) by lia.
    destruct (Z.eq_dec (YearFromDay d + 1) y) as [E | E].
    + rewrite E in Hhi'. lia.
    + pose proof (DayFromYear_lt (YearFromDay d + 1) y). lia.
  - destruct (Z.eq_dec (y + 1) (YearFromDay d)) as [E | E].
    + rewrite E in Hhi. lia.
    + pose proof (DayFromYear_lt (y + 1) (YearFromDay d)). lia.
Qed.

Lemma Day_of_days (n : Z) : Day (n * msPerDay) = n.
Proof. unfold Day, msPerDay. now rewrite Z.div_mul. Qed.

Lemma month_cases (m : Z) : 1 <= m <= 12 ->
  m = 1 \/ m = 2 \/ m = 3 \/ m = 4 \/ m = 5 \/ m = 6 \/
  m = 7 \/ m = 8 \/ m = 9 \/ m = 10 \/ m = 11 \/ m = 12.
Proof. lia. Qed.

Ltac split_month H :=
  apply month_cases in H;
  destruct H as [H | [H | [H | [H | [H | [H | [H | [H | [H | [H | [H | H]]]]]]]]]]];
  subst.

Ltac ltb_cases :=
  repeat match goal with
         | |- context [?a <? ?b] => destruct (Z.ltb_spec a b)
         end.

Lemma MakeDay_month (y k d : Z) :
  0 <= k <= 11 -> MakeDay y k d = DayFromYear y + DaysBeforeMonth y k + d - 1.
Proof.
  intros Hk. unfold MakeDay. cbv zeta.
  rewrite (Z.div_small k 12), (Z.mod_small k 12), Z.add_0_r by lia. reflexivity.
Qed.

Lemma MakeDay_shift (y k d n : Z) : MakeDay y k (d + n) = MakeDay y k d + n.
Proof. unfold MakeDay. lia. Qed.

(** The month and the day of the month, from the day within the year. *)
Lemma month_of_time (t : Z) :
  let y := YearFromTime t in
  let k := MonthFromTime t in
  let d := DateFromTime t in
  0 <= k <= 11 /\ 1 <= d <= daysInMonth y (k + 1).
Proof.
  cbv zeta.
  pose proof (YearFromDay_spec (Day t)) as Hy.
  rewrite DayFromYear_succ in Hy. fold (YearFromTime t) in Hy.
  unfold DateFromTime, MonthFromTime, DayWithinYear.
  set (y := YearFromTime t) in *. set (n := Day t) in *.
  destruct (InLeapYear y) eqn:Hleap; cbv zeta;
    ltb_cases; cbn [Z.add Pos.add Pos.succ DaysBeforeMonth daysInMonth];
    rewrite ?Hleap; lia.
Qed.

(** The civil date of a day number is a calendar date, and [MakeDay] maps
    it back. *)
Lemma civil_of_time (t : Z) :
  let y := YearFromTime t in
  let m := MonthFromTime t + 1 in
  let d := DateFromTime t in
  1 <= m <= 12 /\ 1 <= d <= daysInMonth y m /\ MakeDay y (m - 1) d = Day t.
Proof.
  cbv zeta. pose proof (month_of_time t) as [Hk Hd]. cbv zeta in Hk, Hd.
  split; [lia |]. split; [exact Hd |].
  rewrite Z.add_simpl_r, MakeDay_month by exact Hk.
  unfold DateFromTime, DayWithinYear. lia.
Qed.

(** A calendar date is the civil date of its day number. *)
Lemma civil_of_MakeDay (y m d : Z) :
  1 <= m <= 12 -> 1 <= d <= daysInMonth y m ->
  let t := MakeDay y (m - 1) d * msPerDay in
  YearFromTime t = y /\ MonthFromTime t + 1 = m /\ DateFromTime t = d.
Proof.
  intros Hm Hd. cbv zeta. rewrite MakeDay_month by lia.
  assert (Hyear : YearFromTime
                    ((DayFromYear y + DaysBeforeMonth y (m - 1) + d - 1) * msPerDay) = y).
  { unfold YearFromTime. rewrite Day_of_days. apply YearFromDay_unique.
    rewrite DayFromYear_succ.
    split_month Hm; cbn [Z.sub Z.add Z.opp Z.pos_sub Pos.pred_double DaysBeforeMonth daysInMonth] in *;
      destruct (InLeapYear y); lia. }
  split; [exact Hyear |].
  unfold DateFromTime, MonthFromTime, DayWithinYear. rewrite Hyear, Day_of_days.
  split_month Hm; cbn [Z.sub Z.add Z.opp Z.pos_sub Pos.pred_double DaysBeforeMonth daysInMonth] in *;
    destruct (InLeapYear y) eqn:Hleap; cbv zeta;
    ltb_cases; cbn [Z.add Pos.add Pos.succ DaysBeforeMonth]; rewrite ?Hleap; lia.
Qed.

(** ** Digits *)

Lemma digit_cases (k : Z) : 0 <= k <= 9 ->
  k = 0 \/ k = 1 \/ k = 2 \/ k = 3 \/ k = 4 \/ k = 5 \/ k = 6 \/ k = 7 \/ k = 8 \/ k = 9.
Proof. lia. Qed.

Lemma digitChar_digit (k : Z) : 0 <= k <= 9 ->
  isDigit (digitChar k) = true /\ digitValue (digitChar k) = k.
Proof.
  intros H. apply digit_cases in H.
  destruct H as [H | [H | [H | [H | [H | [H | [H | [H | [H | H]]]]]]]]]; subst; now split.
Qed.

Lemma isDigit_digitChar_mod (n : Z) : isDigit (digitChar (n mod 10)) = true.
Proof. apply digitChar_digit. floor_arith. Qed.

Lemma digitValue_digitChar_mod (n : Z) : digitValue (digitChar (n mod 10)) = n mod 10.
Proof. apply digitChar_digit. floor_arith. Qed.

Lemma isDigit_inv (c : ascii) : isDigit c = true ->
  c = digitChar (digitValue c) /\ 0 <= digitValue c <= 9.
Proof.
  destruct c as [[] [] [] [] [] [] [] []]; intros H; try discriminate H;
    (split; [reflexivity | unfold digitValue; cbn; lia]).
Qed.

Lemma zeroPadded_4 (n : Z) :
  zeroPadded 4 n
  = String (digitChar (n / 1000 mod 10)) (String (digitChar (n / 100 mod 10))
      (String (digitChar (n / 10 mod 10)) (String (digitChar (n / 1 mod 10)) ""))).
Proof. reflexivity. Qed.

Lemma zeroPadded_2 (n : Z) :
  zeroPadded 2 n = String (digitChar (n / 10 mod 10)) (String (digitChar (n / 1 mod 10)) "").
Proof. reflexivity. Qed.

Lemma isoDateString_chars (y m d : Z) :
  isoDateString y m d
  = String (digitChar (y / 1000 mod 10)) (String (digitChar (y / 100 mod 10))
      (String (digitChar (y / 10 mod 10)) (String (digitChar (y / 1 mod 10))
      (String "-" (String (digitChar (m / 10 mod 10)) (String (digitChar (m / 1 mod 10))
      (String "-" (String (digitChar (d / 10 mod 10)) (String (digitChar (d / 1 mod 10))
      ""))))))))).
Proof. reflexivity. Qed.

(** The pattern matches exactly the strings [YYYY-MM-DD] of decimal
    digits, and the groups read back the three numbers. *)
Lemma isoDatePattern_isoDateString (y m d : Z) :
  0 <= y <= 9999 -> 0 <= m <= 99 -> 0 <= d <= 99 ->
  exists g1 g2 g3,
    isoDatePattern (isoDateString y m d) = Some (g1, g2, g3) /\
    Number_of_digits g1 = y /\ Number_of_digits g2 = m /\ Number_of_digits g3 = d.
Proof.
  intros Hy Hm Hd. rewrite isoDateString_chars. unfold isoDatePattern.
  cbn [list_ascii_of_string forallb]. rewrite !isDigit_digitChar_mod.
  cbn [andb Ascii.eqb Bool.eqb]. do 3 eexists. split; [reflexivity |].
  unfold Number_of_digits. cbn [fold_left]. rewrite !digitValue_digitChar_mod.
  repeat split; floor_arith.
Qed.

Lemma isoDatePattern_inv (s : string) (g1 g2 g3 : list ascii) :
  isoDatePattern s = Some (g1, g2, g3) ->
  let y := Number_of_digits g1 in
  let m := Number_of_digits g2 in
  let d := Number_of_digits g3 in
  s = isoDateString y m d /\ 0 <= y <= 9999 /\ 0 <= m <= 99 /\ 0 <= d <= 99.
Proof.
  unfold isoDatePattern.
  destruct s as [| y1 [| y2 [| y3 [| y4 [| h1 [| m1 [| m2 [| h2 [| d1 [| d2 [| ? ?]]]]]]]]]]];
    cbn [list_ascii_of_string]; try discriminate.
  destruct (forallb isDigit [y1; y2; y3; y4; m1; m2; d1; d2]) eqn:Hdigits;
    [| discriminate].
  destruct (Ascii.eqb_spec h1 "-") as [-> |]; [| discriminate].
  destruct (Ascii.eqb_spec h2 "-") as [-> |]; [| discriminate].
  cbn [andb]. intros H. injection H as <- <- <-.
  cbn [forallb] in Hdigits.
  repeat match type of Hdigits with
         | _ && _ = true => apply andb_true_iff in Hdigits; destruct Hdigits as [?H Hdigits]
         end.
  repeat match goal with
         | H : isDigit ?c = true |- _ =>
             let E := fresh "E" in let R := fresh "R" in let v := fresh "v" in
             destruct (isDigit_inv c H) as [E R]; clear H;
             set (v := digitValue c) in *; clearbody v; subst c
         end.
  cbv zeta. unfold Number_of_digits. cbn [fold_left].
  rewrite !(fun k H => proj2 (digitChar_digit k H)) by assumption.
  rewrite isoDateString_chars.
  split; [| lia].
  repeat (apply (f_equal2 String); [first [reflexivity | f_equal; floor_arith] |]).
  reflexivity.
Qed.

(** ** [parseIsoDate] *)

Lemma Date_UTC_midnight (y k d : Z) :
  Date_UTC y k d 0 0 0 0
  = TimeClip (MakeDay (if (0 <=? y) && (y <=? 99) then 1900 + y else y) k d * msPerDay).
Proof. unfold Date_UTC, MakeDate, MakeTime. cbv zeta. f_equal. lia. Qed.

Lemma Date_new_TimeClip (t : Z) : Date_new (TimeClip t) = TimeClip t.
Proof.
  unfold Date_new, TimeClip.
  destruct (Z.abs t <=? 8640000000000000) eqn:E; [now rewrite E | reflexivity].
Qed.

Lemma TimeClip_days (n : Z) :
  -100000000 <= n <= 100000000 -> TimeClip (n * msPerDay) = Some (n * msPerDay).
Proof.
  intros H. unfold TimeClip, msPerDay.
  destruct (Z.leb_spec (Z.abs (n * 86400000)) 8640000000000000); [reflexivity | lia].
Qed.

Lemma TimeClip_days_out (n : Z) :
  100000000 < Z.abs n -> TimeClip (n * msPerDay) = None.
Proof.
  intros H. unfold TimeClip, msPerDay.
  destruct (Z.leb_spec (Z.abs (n * 86400000)) 8640000000000000); [lia | reflexivity].
Qed.

Lemma TimeClip_Some (t u : Z) : TimeClip t = Some u -> u = t.
Proof. unfold TimeClip. destruct (Z.abs t <=? _); congruence. Qed.

Lemma DayFromYear_le (a b : Z) : a <= b -> DayFromYear a <= DayFromYear b.
Proof.
  intros H. destruct (Z.eq_dec a b) as [-> | Hne]; [lia |].
  pose proof (DayFromYear_lt a b). lia.
Qed.

(** The days of a calendar date lie within its year. *)
Lemma dayNumber_within_year (p : IsoDateParts) :
  validDate p ->
  DayFromYear (year p) <= dayNumber p < DayFromYear (year p + 1).
Proof.
  intros [Hm Hd]. unfold dayNumber. rewrite MakeDay_month by lia.
  rewrite DayFromYear_succ.
  destruct p as [y m d]. cbn [year month day] in *.
  split_month Hm;
    cbn [Z.sub Z.add Z.opp Z.pos_sub Pos.pred_double DaysBeforeMonth daysInMonth] in *;
    destruct (InLeapYear y); lia.
Qed.

Lemma dayNumber_bounds (p : IsoDateParts) :
  validDate p -> 100 <= year p <= 9999 ->
  DayFromYear 100 <= dayNumber p < DayFromYear 10000.
Proof.
  intros Hv Hy. pose proof (dayNumber_within_year p Hv).
  pose proof (DayFromYear_le 100 (year p)).
  pose proof (DayFromYear_le (year p + 1) 10000). lia.
Qed.

Lemma civil_of_dayNumber (p : IsoDateParts) :
  validDate p ->
  let t := dayNumber p * msPerDay in
  YearFromTime t = year p /\ MonthFromTime t + 1 = month p /\ DateFromTime t = day p.
Proof. intros [Hm Hd]. now apply civil_of_MakeDay. Qed.

Lemma parseIsoDate_sound (s : string) (p : IsoDateParts) :
  parseIsoDate s = Return p ->
  s = isoDateString (year p) (month p) (day p) /\ 100 <= year p <= 9999 /\ validDate p.
Proof.
  unfold parseIsoDate.
  destruct (isoDatePattern s) as [[[g1 g2] g3] |] eqn:Hpat; [| discriminate].
  apply isoDatePattern_inv in Hpat. cbv zeta in Hpat |- *.
  set (y := Number_of_digits g1) in *. set (m := Number_of_digits g2) in *.
  set (d := Number_of_digits g3) in *.
  destruct Hpat as (Hs & Hy & Hm & Hd). clearbody y m d.
  rewrite Date_UTC_midnight, Date_new_TimeClip.
  set (yr := if (0 <=? y) && (y <=? 99) then 1900 + y else y).
  destruct (TimeClip (MakeDay yr (m - 1) d * msPerDay)) as [t |] eqn:Hclip;
    [| discriminate].
  apply TimeClip_Some in Hclip.
  unfold Number_strict_ne, getUTCFullYear, getUTCMonth, getUTCDate.
  cbn [option_map Number_add Number_strict_eq].
  destruct (Z.eqb_spec (YearFromTime t) y) as [Ey |]; [| discriminate].
  destruct (Z.eqb_spec (MonthFromTime t + 1) m) as [Em |]; [| discriminate].
  destruct (Z.eqb_spec (DateFromTime t) d) as [Ed |]; [| discriminate].
  cbn [negb orb]. intros H. injection H as <-. cbn [year month day].
  pose proof (civil_of_time t) as (Hm' & Hd' & Hday). cbv zeta in Hm', Hd', Hday.
  rewrite Ey, Em, Ed in *.
  assert (Hvalid : validDate {| year := y; month := m; day := d |}) by (now split).
  split; [exact Hs |]. split; [| exact Hvalid].
  destruct (Z.leb_spec y 99) as [Hsmall | Hbig]; [| lia].
  exfalso.
  assert (Hyr : yr = 1900 + y).
  { unfold yr. destruct (Z.leb_spec 0 y); destruct (Z.leb_spec y 99); cbn [andb]; lia. }
  subst t. rewrite Day_of_days, Hyr in Hday.
  assert (Hn : DayFromYear 1900 <= MakeDay (1900 + y) (m - 1) d).
  { rewrite MakeDay_month by lia.
    pose proof (DayFromYear_le 1900 (1900 + y)).
    assert (0 <= DaysBeforeMonth (1900 + y) (m - 1)).
    { clear - Hm'. generalize (1900 + y). intros Y. split_month Hm';
        cbn [Z.sub Z.add Z.opp Z.pos_sub Pos.pred_double DaysBeforeMonth];
        destruct (InLeapYear Y); lia. }
    lia. }
  pose proof (dayNumber_within_year _ Hvalid) as Hin.
  unfold dayNumber in Hin. cbn [year month day] in Hin. rewrite Hday in Hin.
  pose proof (DayFromYear_le (y + 1) 100).
  pose proof (DayFromYear_lt 100 1900). lia.
Qed.

Lemma parseIsoDate_complete (p : IsoDateParts) :
  100 <= year p <= 9999 -> validDate p ->
  parseIsoDate (isoDateString (year p) (month p) (day p)) = Return p.
Proof.
  intros Hy Hv. pose proof Hv as [Hm Hd].
  assert (Hd99 : 0 <= day p <= 99).
  { destruct p as [y m d]. cbn [year month day] in *. clear - Hm Hd.
    split_month Hm; cbn [daysInMonth] in Hd; destruct (InLeapYear y); lia. }
  destruct (isoDatePattern_isoDateString (year p) (month p) (day p))
    as (g1 & g2 & g3 & Hpat & E1 & E2 & E3); [lia | lia | exact Hd99 |].
  unfold parseIsoDate. rewrite Hpat, E1, E2, E3.
  rewrite Date_UTC_midnight, Date_new_TimeClip.
  replace ((0 <=? year p) && (year p <=? 99)) with false
    by (symmetry; apply andb_false_iff; right; apply Z.leb_gt; lia).
  fold (dayNumber p).
  pose proof (dayNumber_bounds p Hv Hy) as Hb.
  assert (Hlo : -100000000 <= DayFromYear 100) by (vm_compute; discriminate).
  assert (Hhi : DayFromYear 10000 <= 100000000) by (vm_compute; discriminate).
  rewrite TimeClip_days by lia.
  destruct (civil_of_dayNumber p Hv) as (Ey & Em & Ed).
  unfold Number_strict_ne, getUTCFullYear, getUTCMonth, getUTCDate.
  cbn [option_map Number_add Number_strict_eq].
  rewrite Ey, Em, Ed, !Z.eqb_refl. cbn [negb orb]. now destruct p.
Qed.

(** A string the parser accepts begins with a digit. *)
Lemma parseIsoDate_first_char (c : ascii) (rest : string) :
  isDigit c = false -> parseIsoDate (String c rest) = Throw (Error "Invalid ISO date").
Proof.
  intros Hc. unfold parseIsoDate.
  destruct (isoDatePattern (String c rest)) as [[[g1 g2] g3] |] eqn:Hpat; [| reflexivity].
  apply isoDatePattern_inv in Hpat. destruct Hpat as [Hs _].
  rewrite isoDateString_chars in Hs. injection Hs as Hs _.
  rewrite Hs, isDigit_digitChar_mod in Hc. discriminate.
Qed.

(** The parser throws nothing but its own error. *)
Lemma parseIsoDate_throws (s : string) (e : Exception) :
  parseIsoDate s = Throw e -> e = Error "Invalid ISO date".
Proof.
  unfold parseIsoDate. destruct (isoDatePattern s) as [[[g1 g2] g3] |].
  - destruct (_ || _); [| discriminate]. congruence.
  - congruence.
Qed.

(** ** [isoDateAddDays] *)

(** The ISO date of a day number. *)
Lemma toISOString_date (t : Z) :
  0 <= YearFromTime t <= 9999 ->
  exists iso, toISOString (Some t) = Return iso /\
              slice10 iso = isoDateString (YearFromTime t) (MonthFromTime t + 1)
                                          (DateFromTime t).
Proof.
  intros Hy. unfold toISOString.
  replace ((0 <=? YearFromTime t) && (YearFromTime t <=? 9999)) with true
    by (symmetry; apply andb_true_iff; split; apply Z.leb_le; lia).
  eexists. split; [reflexivity |]. reflexivity.
Qed.

Lemma toISOString_extended (t : Z) :
  ~ 0 <= YearFromTime t <= 9999 ->
  exists iso c rest, toISOString (Some t) = Return iso /\
                     slice10 iso = String c rest /\ isDigit c = false.
Proof.
  intros Hy. unfold toISOString.
  replace ((0 <=? YearFromTime t) && (YearFromTime t <=? 9999)) with false.
  - destruct (0 <=? YearFromTime t); do 3 eexists;
      (split; [reflexivity |]); split; reflexivity.
  - symmetry. apply andb_false_iff.
    destruct (Z.leb_spec 0 (YearFromTime t)); [right; apply Z.leb_gt; lia | now left].
Qed.

Lemma isoDateAddDays_eval (s : string) (p : IsoDateParts) (k : Z) :
  parseIsoDate s = Return p ->
  isoDateAddDays s k
  = andThen (toISOString (TimeClip ((dayNumber p + k) * msPerDay)))
            (fun iso => Return (slice10 iso)).
Proof.
  intros Hp. pose proof (parseIsoDate_sound s p Hp) as (_ & Hy & _).
  unfold isoDateAddDays. rewrite Hp. cbn [andThen].
  rewrite Date_UTC_midnight, Date_new_TimeClip.
  replace ((0 <=? year p) && (year p <=? 99)) with false
    by (symmetry; apply andb_false_iff; right; apply Z.leb_gt; lia).
  now rewrite MakeDay_shift.
Qed.

Lemma YearFromDay_range (n a b : Z) :
  DayFromYear a <= n < DayFromYear b -> a <= YearFromDay n < b.
Proof.
  intros [Hlo Hhi]. pose proof (YearFromDay_spec n) as [Hlo' Hhi'].
  split.
  - destruct (Z.le_gt_cases a (YearFromDay n)) as [| Hgt]; [assumption |].
    pose proof (DayFromYear_le (YearFromDay n + 1) a). lia.
  - destruct (Z.lt_ge_cases (YearFromDay n) b) as [| Hge]; [assumption |].
    pose proof (DayFromYear_le b (YearFromDay n)). lia.
Qed.

(** The civil date of a day number, as a record. *)
Lemma civil_parts (n : Z) :
  exists p, validDate p /\ dayNumber p = n /\ year p = YearFromDay n /\
            month p = MonthFromTime (n * msPerDay) + 1 /\
            day p = DateFromTime (n * msPerDay).
Proof.
  pose proof (civil_of_time (n * msPerDay)) as (Hm & Hd & Hday).
  cbv zeta in Hm, Hd, Hday. rewrite Day_of_days in Hday.
  exists {| year := YearFromTime (n * msPerDay);
            month := MonthFromTime (n * msPerDay) + 1;
            day := DateFromTime (n * msPerDay) |}.
  unfold validDate, dayNumber. cbn [year month day].
  unfold YearFromTime in *. rewrite Day_of_days in *. tauto.
Qed.

(** Calendar dates with the same day number are the same date. *)
Lemma dayNumber_inj (p q : IsoDateParts) :
  validDate p -> validDate q -> dayNumber p = dayNumber q -> p = q.
Proof.
  intros Hp Hq E.
  destruct (civil_of_dayNumber p Hp) as (Ey & Em & Ed).
  destruct (civil_of_dayNumber q Hq) as (Ey' & Em' & Ed').
  rewrite E in Ey, Em, Ed. destruct p, q. cbn [year month day] in *. congruence.
Qed.

(** The three regimes of [isoDateAddDays] on an accepted date. *)
Lemma isoDateAddDays_cases (s : string) (p : IsoDateParts) (k : Z) :
  parseIsoDate s = Return p ->
  let n := dayNumber p + k in
  (DayFromYear 0 <= n < DayFromYear 10000 ->
     exists q, validDate q /\ dayNumber q = n /\ 0 <= year q <= 9999 /\
               isoDateAddDays s k = Return (isoDateString (year q) (month q) (day q))) /\
  ((n < DayFromYear 0 \/ DayFromYear 10000 <= n) -> -100000000 <= n <= 100000000 ->
     exists c rest, isoDateAddDays s k = Return (String c rest) /\ isDigit c = false) /\
  (100000000 < Z.abs n -> isoDateAddDays s k = Throw RangeError).
Proof.
  intros Hp n. rewrite (isoDateAddDays_eval s p k Hp). fold n.
  assert (Hlo : -100000000 <= DayFromYear 0) by (vm_compute; discriminate).
  assert (Hhi : DayFromYear 10000 <= 100000000) by (vm_compute; discriminate).
  split; [| split].
  - intros Hn. rewrite TimeClip_days by lia.
    destruct (civil_parts n) as (q & Hq & Hqn & Hqy & Hqm & Hqd).
    pose proof (YearFromDay_range n 0 10000 Hn) as Hyr.
    destruct (toISOString_date (n * msPerDay)) as (iso & Hiso & Hslice).
    { unfold YearFromTime. rewrite Day_of_days. lia. }
    exists q. rewrite Hiso. cbn [andThen]. rewrite Hslice, Hqy, Hqm, Hqd.
    unfold YearFromTime. rewrite Day_of_days.
    split; [exact Hq |]. split; [exact Hqn |]. split; [lia | reflexivity].
  - intros Hout Hn. rewrite TimeClip_days by lia.
    destruct (toISOString_extended (n * msPerDay)) as (iso & c & rest & Hiso & Hslice & Hc).
    { unfold YearFromTime. rewrite Day_of_days. intros Hyr.
      pose proof (YearFromDay_spec n) as [H1 H2].
      pose proof (DayFromYear_le 0 (YearFromDay n)).
      pose proof (DayFromYear_le (YearFromDay n + 1) 10000). lia. }
    exists c, rest. rewrite Hiso. cbn [andThen]. rewrite Hslice.
    split; [reflexivity | exact Hc].
  - intros Hn. now rewrite TimeClip_days_out.
Qed.

End IsoDateFacts.

Module IsoDateTheorems.
Import Timezone IsoDate IsoDateFacts.

(** X1.  [parseIsoDate] returns the parts [p] of a string exactly when the
    string is the zero-padded [YYYY-MM-DD] writing of [p], [p] is a date of
    the calendar (month 1 to 12, day within the length of the month, leap
    years included) and its year lies between 100 and 9999.  Every other
    string makes it throw; among them the dates of the years 0000 to 0099,
    which [Date.UTC] reads as 1900 to 1999. *)
Theorem parseIsoDate_accepts_iff (s : string) (p : IsoDateParts) :
  parseIsoDate s = Return p <->
  s = isoDateString (year p) (month p) (day p) /\ 100 <= year p <= 9999 /\ validDate p.
Proof.
  split.
  - apply parseIsoDate_sound.
  - intros (-> & Hy & Hv). now apply parseIsoDate_complete.
Qed.

Lemma isoDateString_inj (p q : IsoDateParts) :
  0 <= year p <= 9999 -> validDate p -> 0 <= year q <= 9999 -> validDate q ->
  isoDateString (year p) (month p) (day p) = isoDateString (year q) (month q) (day q) ->
  p = q.
Proof.
  intros Hyp [Hmp Hdp] Hyq [Hmq Hdq] E.
  assert (Hd99 : forall y m d, 1 <= m <= 12 -> 1 <= d <= daysInMonth y m -> 0 <= d <= 99).
  { intros y m d Hm Hd. split_month Hm; cbn [daysInMonth] in Hd; destruct (InLeapYear y); lia. }
  destruct (isoDatePattern_isoDateString (year p) (month p) (day p))
    as (g1 & g2 & g3 & Hpat & E1 & E2 & E3); [lia | lia | eauto |].
  destruct (isoDatePattern_isoDateString (year q) (month q) (day q))
    as (h1 & h2 & h3 & Hpat' & E1' & E2' & E3'); [lia | lia | eauto |].
  rewrite E, Hpat' in Hpat. injection Hpat as <- <- <-.
  destruct p, q. cbn [year month day] in *. congruence.
Qed.

(** What [isoDateAddDays] returns for an accepted date, when it returns a
    date the parser accepts. *)
Lemma isoDateAddDays_accepted (s s' : string) (p p' : IsoDateParts) (k : Z) :
  parseIsoDate s = Return p -> parseIsoDate s' = Return p' ->
  isoDateAddDays s k = Return s' -> dayNumber p' = dayNumber p + k.
Proof.
  intros Hp Hp' Hrun.
  destruct (isoDateAddDays_cases s p k Hp) as (Hin & Hout & Hrange).
  cbv zeta in Hin, Hout, Hrange.
  apply parseIsoDate_sound in Hp'. destruct Hp' as (Hs' & Hy' & Hv').
  assert (Hfirst : forall c rest, s' = String c rest -> isDigit c = true).
  { intros c rest E. rewrite Hs', isoDateString_chars in E. injection E as <- _.
    apply isDigit_digitChar_mod. }
  destruct (Z.le_gt_cases (Z.abs (dayNumber p + k)) 100000000) as [Hsmall | Hbig].
  - destruct (Z.lt_ge_cases (dayNumber p + k) (DayFromYear 0)) as [Hlow | Hlow'].
    + destruct Hout as (c & rest & Hret & Hc); [now left | lia |].
      rewrite Hret in Hrun. injection Hrun as <-.
      rewrite (Hfirst c rest eq_refl) in Hc. discriminate.
    + destruct (Z.lt_ge_cases (dayNumber p + k) (DayFromYear 10000)) as [Hhigh | Hhigh'].
      * destruct Hin as (q & Hq & Hqn & Hqy & Hret); [lia |].
        rewrite Hret in Hrun. injection Hrun as Hrun.
        rewrite Hs' in Hrun.
        apply isoDateString_inj in Hrun; try assumption; [| lia].
        now rewrite <- Hrun.
      * destruct Hout as (c & rest & Hret & Hc); [now right | lia |].
        rewrite Hret in Hrun. injection Hrun as <-.
        rewrite (Hfirst c rest eq_refl) in Hc. discriminate.
  - rewrite Hrange in Hrun by exact Hbig. discriminate.
Qed.

(** [isoDateAddDays] reaches every calendar date of the years 0100 to
    9999. *)
Lemma isoDateAddDays_target (s : string) (p q : IsoDateParts) (k : Z) :
  parseIsoDate s = Return p ->
  100 <= year q <= 9999 -> validDate q -> dayNumber q = dayNumber p + k ->
  isoDateAddDays s k = Return (isoDateString (year q) (month q) (day q)).
Proof.
  intros Hp Hy Hv Hn.
  destruct (isoDateAddDays_cases s p k Hp) as (Hin & _ & _). cbv zeta in Hin.
  pose proof (dayNumber_bounds q Hv Hy) as Hb.
  pose proof (DayFromYear_le 0 100).
  destruct Hin as (q' & Hq' & Hqn' & Hqy' & Hret); [lia |].
  assert (q' = q) by (apply dayNumber_inj; [assumption | assumption | lia]).
  now subst q'.
Qed.

(** X2.  [isoDateAddDays] adds calendar days: for two dates [parseIsoDate]
    accepts, [isoDateAddDays s k] returns [s'] exactly when [s'] lies [k]
    days after [s] (before it, for a negative [k]); month lengths, leap days
    and year ends are carried over. *)
Theorem isoDateAddDays_days_apart (s s' : string) (p p' : IsoDateParts) (k : Z) :
  parseIsoDate s = Return p -> parseIsoDate s' = Return p' ->
  (isoDateAddDays s k = Return s' <-> dayNumber p' = dayNumber p + k).
Proof.
  intros Hp Hp'. split.
  - now apply isoDateAddDays_accepted.
  - intros Hn. pose proof (parseIsoDate_sound s' p' Hp') as (Hs' & Hy' & Hv').
    rewrite Hs' at 1. now apply (isoDateAddDays_target s p p' k).
Qed.

Lemma isoDateAddDays_days_apart_witness :
  isoDateAddDays "2024-02-28" 2 = Return "2024-03-01" <->
  dayNumber {| year := 2024; month := 3; day := 1 |}
  = dayNumber {| year := 2024; month := 2; day := 28 |} + 2.
Proof.
  apply (isoDateAddDays_days_apart "2024-02-28" "2024-03-01"); reflexivity.
Defined.

(** X3.  Adding zero days to a date [parseIsoDate] accepts returns the very
    same string. *)
Theorem isoDateAddDays_zero (s : string) (p : IsoDateParts) :
  parseIsoDate s = Return p -> isoDateAddDays s 0 = Return s.
Proof.
  intros Hp. pose proof (parseIsoDate_sound s p Hp) as (Hs & Hy & Hv).
  rewrite Hs at 2. apply isoDateAddDays_target with (p := p); try assumption. lia.
Qed.

Lemma isoDateAddDays_zero_witness : isoDateAddDays "2024-02-29" 0 = Return "2024-02-29".
Proof.
  apply (isoDateAddDays_zero "2024-02-29" {| year := 2024; month := 2; day := 29 |}).
  reflexivity.
Defined.

(** X4.  Two steps of [isoDateAddDays] compose: when adding [a] days to [s]
    returns a date [s1] that [parseIsoDate] accepts, adding [b] days to [s1]
    behaves as adding [a + b] days to [s]. *)
Theorem isoDateAddDays_compose (s s1 : string) (p1 : IsoDateParts) (a b : Z) :
  isoDateAddDays s a = Return s1 -> parseIsoDate s1 = Return p1 ->
  isoDateAddDays s1 b = isoDateAddDays s (a + b).
Proof.
  intros Hrun Hp1.
  destruct (parseIsoDate s) as [p | e] eqn:Hp.
  - pose proof (isoDateAddDays_accepted s s1 p p1 a Hp Hp1 Hrun) as Hn.
    rewrite (isoDateAddDays_eval s1 p1 b Hp1), (isoDateAddDays_eval s p (a + b) Hp).
    now replace (dayNumber p + (a + b)) with (dayNumber p1 + b) by lia.
  - unfold isoDateAddDays in Hrun. rewrite Hp in Hrun. discriminate.
Qed.

Lemma isoDateAddDays_compose_witness :
  isoDateAddDays "2024-12-31" 7 = isoDateAddDays "2024-12-25" (6 + 7).
Proof.
  apply (isoDateAddDays_compose "2024-12-25" "2024-12-31"
           {| year := 2024; month := 12; day := 31 |}); reflexivity.
Defined.

(** X5.  When the target day falls before 0100-01-01 or after 9999-12-31,
    [isoDateAddDays] returns no ISO date: within 10^8 days of the epoch it
    returns a string that [parseIsoDate] itself rejects (a year read as
    19xx, or the first ten characters of a signed six-digit year), and
    beyond that range [toISOString] throws a [RangeError]. *)
Theorem isoDateAddDays_outside_years (s : string) (p : IsoDateParts) (k : Z) :
  parseIsoDate s = Return p ->
  let n := dayNumber p + k in
  n < DayFromYear 100 \/ DayFromYear 10000 <= n ->
  (Z.abs n <= 100000000 ->
     exists s', isoDateAddDays s k = Return s' /\
                parseIsoDate s' = Throw (Error "Invalid ISO date")) /\
  (100000000 < Z.abs n -> isoDateAddDays s k = Throw RangeError).
Proof.
  intros Hp n Hout.
  destruct (isoDateAddDays_cases s p k Hp) as (Hin & Hext & Hrange).
  cbv zeta in Hin, Hext, Hrange. fold n in Hin, Hext, Hrange.
  split; [| exact Hrange].
  intros Hsmall.
  destruct (Z.lt_ge_cases n (DayFromYear 0)) as [Hlow | Hlow'].
  - destruct Hext as (c & rest & Hret & Hc); [now left | lia |].
    exists (String c rest). split; [exact Hret | now apply parseIsoDate_first_char].
  - destruct (Z.lt_ge_cases n (DayFromYear 10000)) as [Hhigh | Hhigh'].
    + destruct Hin as (q & Hq & Hqn & Hqy & Hret); [lia |].
      exists (isoDateString (year q) (month q) (day q)). split; [exact Hret |].
      destruct (parseIsoDate (isoDateString (year q) (month q) (day q))) as [q' | e] eqn:Hq'.
      * exfalso. apply parseIsoDate_sound in Hq'. destruct Hq' as (E & Hy' & Hv').
        apply isoDateString_inj in E; try assumption; [| lia]. subst q'.
        pose proof (dayNumber_bounds q Hq Hy'). lia.
      * now rewrite (parseIsoDate_throws _ _ Hq').
    + destruct Hext as (c & rest & Hret & Hc); [now right | lia |].
      exists (String c rest). split; [exact Hret | now apply parseIsoDate_first_char].
Qed.

Lemma isoDateAddDays_outside_years_witness :
  (exists s', isoDateAddDays "9999-12-31" 1 = Return s' /\
              parseIsoDate s' = Throw (Error "Invalid ISO date")) /\
  (exists s', isoDateAddDays "0100-01-01" (-1) = Return s' /\
              parseIsoDate s' = Throw (Error "Invalid ISO date")).
Proof.
  split.
  - apply (isoDateAddDays_outside_years "9999-12-31"
             {| year := 9999; month := 12; day := 31 |} 1 eq_refl);
      [right | ]; vm_compute; discriminate.
  - apply (isoDateAddDays_outside_years "0100-01-01"
             {| year := 100; month := 1; day := 1 |} (-1) eq_refl);
      [left; reflexivity | vm_compute; discriminate].
Defined.

End IsoDateTheorems.

(* ===================================================================== *)
(** * The payroll week *)
(* ===================================================================== *)

Module PayrollWeekFacts.
Import Timezone IsoDate IsoDateFacts IsoDateTheorems PayrollWeek.

(** The schema accepts the Mondays among the dates [parseIsoDate] accepts. *)
Lemma payrollQuerySchema_iff (weekStart : string) :
  payrollQuerySchema weekStart = true <->
  exists p, parseIsoDate weekStart = Return p /\ (dayNumber p + 4) mod 7 = 1.
Proof.
  unfold payrollQuerySchema. split.
  - intros H. apply andb_true_iff in H. destruct H as [_ H].
    destruct (parseIsoDate weekStart) as [p | e] eqn:Hp; [| discriminate].
    exists p. split; [reflexivity |].
    pose proof (parseIsoDate_sound _ _ Hp) as (_ & Hy & Hv).
    rewrite Date_UTC_midnight, Date_new_TimeClip in H.
    replace ((0 <=? year p) && (year p <=? 99)) with false in H
      by (symmetry; apply andb_false_iff; right; apply Z.leb_gt; lia).
    fold (dayNumber p) in H.
    destruct (TimeClip (dayNumber p * msPerDay)) as [t |] eqn:Hclip; [| discriminate].
    apply TimeClip_Some in Hclip. subst t.
    unfold Number_strict_ne, getUTCDay, WeekDay in H.
    cbn [option_map Number_strict_eq] in H. rewrite Day_of_days, negb_involutive in H.
    now apply Z.eqb_eq.
  - intros (p & Hp & Hmon). rewrite Hp.
    pose proof (parseIsoDate_sound _ _ Hp) as (_ & Hy & Hv).
    replace (isoDatePattern weekStart) with (isoDatePattern weekStart) by reflexivity.
    assert (Hpat : exists g, isoDatePattern weekStart = Some g).
    { unfold parseIsoDate in Hp. destruct (isoDatePattern weekStart) as [g |]; [| discriminate].
      now exists g. }
    destruct Hpat as [g ->]. cbn [andb].
    rewrite Date_UTC_midnight, Date_new_TimeClip.
    replace ((0 <=? year p) && (year p <=? 99)) with false
      by (symmetry; apply andb_false_iff; right; apply Z.leb_gt; lia).
    fold (dayNumber p).
    pose proof (dayNumber_bounds p Hv Hy) as Hb.
    assert (Hlo : -100000000 <= DayFromYear 100) by (vm_compute; discriminate).
    assert (Hhi : DayFromYear 10000 <= 100000000) by (vm_compute; discriminate).
    rewrite TimeClip_days by lia.
    unfold Number_strict_ne, getUTCDay, WeekDay.
    cbn [option_map Number_strict_eq]. rewrite Day_of_days, negb_involutive.
    now apply Z.eqb_eq.
Qed.

Lemma andThen_Return {A B : Type} (r : Result A) (k : A -> Result B) (b : B) :
  andThen r k = Return b -> exists a, r = Return a /\ k a = Return b.
Proof. destruct r as [a | e]; [| discriminate]. intros H. now exists a. Qed.

(** The steps of a run of [payrollWeek] that returns. *)
Lemma payrollWeek_Return (zone : Zone) (weekStart : string) (w : Week) :
  payrollWeek zone weekStart = Return w ->
  exists p pn,
    weekStartLocal w = weekStart /\
    isoDateAddDays weekStart 6 = Return (weekEndLocal w) /\
    isoDateAddDays weekStart 7 = Return (nextWeekStartLocal w) /\
    parseIsoDate weekStart = Return p /\
    parseIsoDate (nextWeekStartLocal w) = Return pn /\
    zonedTimeToUtc (midnight p) zone = Normal (rangeStartUtc w) /\
    zonedTimeToUtc (midnight pn) zone = Normal (rangeEndUtcExclusive w).
Proof.
  unfold payrollWeek. cbv zeta. intros H.
  apply andThen_Return in H. destruct H as (weekEnd & H6 & H).
  apply andThen_Return in H. destruct H as (nextWeekStart & H7 & H).
  apply andThen_Return in H. destruct H as (p & Hp & H).
  apply andThen_Return in H. destruct H as (pn & Hpn & H).
  apply andThen_Return in H. destruct H as (rangeStart & Hs & H).
  apply andThen_Return in H. destruct H as (rangeEnd & He & H).
  injection H as <-. cbn [weekStartLocal weekEndLocal nextWeekStartLocal rangeStartUtc
                          rangeEndUtcExclusive].
  exists p, pn.
  destruct (zonedTimeToUtc (midnight p) zone) as [d1 |]; [| discriminate].
  destruct (zonedTimeToUtc (midnight pn) zone) as [d2 |]; [| discriminate].
  cbn [ofCompletion] in Hs, He. injection Hs as ->. injection He as ->.
  repeat split; assumption.
Qed.

(** X6.  Successive payroll weeks are adjacent.  For a [weekStart] the
    query schema accepts, for which the handler's date computations return:
    [weekEndLocal] is the date six days later, [nextWeekStartLocal] the date
    seven days later, the schema accepts [nextWeekStartLocal] again (it is a
    Monday), and the queried range of that next week starts at the instant
    where this week's range ends, in every time zone. *)
Theorem payroll_weeks_adjacent (zone : Zone) (weekStart : string) (w : Week) :
  payrollQuerySchema weekStart = true ->
  payrollWeek zone weekStart = Return w ->
  (exists p pe pn,
     parseIsoDate weekStart = Return p /\
     parseIsoDate (weekEndLocal w) = Return pe /\ dayNumber pe = dayNumber p + 6 /\
     parseIsoDate (nextWeekStartLocal w) = Return pn /\ dayNumber pn = dayNumber p + 7) /\
  payrollQuerySchema (nextWeekStartLocal w) = true /\
  (forall w', payrollWeek zone (nextWeekStartLocal w) = Return w' ->
              rangeStartUtc w' = rangeEndUtcExclusive w).
Proof.
  intros Hschema Hrun.
  apply payrollQuerySchema_iff in Hschema. destruct Hschema as (p0 & Hp0 & Hmon).
  apply payrollWeek_Return in Hrun.
  destruct Hrun as (p & pn & _ & H6 & H7 & Hp & Hpn & Hstart & Hend).
  rewrite Hp0 in Hp. injection Hp as <-.
  pose proof (isoDateAddDays_accepted _ _ _ _ _ Hp0 Hpn H7) as Hn7.
  pose proof (parseIsoDate_sound _ _ Hp0) as (_ & Hy0 & Hv0).
  pose proof (parseIsoDate_sound _ _ Hpn) as (_ & Hyn & Hvn).
  pose proof (dayNumber_bounds p0 Hv0 Hy0) as Hb0.
  pose proof (dayNumber_bounds pn Hvn Hyn) as Hbn.
  split; [| split].
  - destruct (isoDateAddDays_cases _ _ 6 Hp0) as (Hin & _ & _). cbv zeta in Hin.
    pose proof (DayFromYear_le 0 100).
    destruct Hin as (pe & Hve & Hne & Hye & Hret); [lia |].
    assert (Hye' : 100 <= year pe <= 9999).
    { pose proof (dayNumber_within_year pe Hve) as Hin.
      split; [| lia].
      destruct (Z.le_gt_cases 100 (year pe)) as [| Hlt]; [assumption |].
      pose proof (DayFromYear_le (year pe + 1) 100). lia. }
    exists p0, pe, pn. rewrite H6 in Hret. injection Hret as Hret.
    rewrite Hret. repeat split; try assumption.
    now apply parseIsoDate_complete.
  - apply payrollQuerySchema_iff. exists pn. split; [exact Hpn |].
    rewrite Hn7. replace (dayNumber p0 + 7 + 4) with (dayNumber p0 + 4 + 1 * 7) by lia.
    now rewrite Z.mod_add.
  - intros w' Hrun'. apply payrollWeek_Return in Hrun'.
    destruct Hrun' as (p' & _ & _ & _ & _ & Hp' & _ & Hstart' & _).
    rewrite Hpn in Hp'. injection Hp' as <-.
    rewrite Hend in Hstart'. now injection Hstart'.
Qed.

Lemma payroll_weeks_adjacent_witness :
  exists w, payrollWeek sydney2030 monday = Return w /\
            weekEndLocal w = "2030-06-09" /\ nextWeekStartLocal w = "2030-06-10" /\
            payrollQuerySchema (nextWeekStartLocal w) = true.
Proof.
  eexists. split; [vm_compute; reflexivity |].
  split; [reflexivity |]. split; [reflexivity |].
  refine (proj1 (proj2 (payroll_weeks_adjacent sydney2030 monday _ _ _)));
    vm_compute; reflexivity.
Defined.

End PayrollWeekFacts.

(* ===================================================================== *)
(** * The teacher's payroll page *)
(* ===================================================================== *)

Module TeacherPayrollPageFacts.
Import Timezone IsoDate IsoDateFacts IsoDateTheorems PayrollWeek PayrollWeekFacts.
Import TeacherPayrollPage.

(** On a date the API accepts the page's parser yields the same parts. *)
Lemma page_parseIsoDate (s : string) (p : IsoDateParts) :
  IsoDate.parseIsoDate s = Return p -> parseIsoDate s = Return p.
Proof.
  unfold IsoDate.parseIsoDate, parseIsoDate.
  destruct (isoDatePattern s) as [[[g1 g2] g3] |]; [| discriminate].
  cbv zeta. destruct (_ || _); [discriminate |]. now intros [= <-].
Qed.

Lemma addDaysIsoDate_eval (s : string) (p : IsoDateParts) (k : Z) :
  IsoDate.parseIsoDate s = Return p ->
  addDaysIsoDate s k
  = andThen (toISOString (TimeClip ((dayNumber p + k) * msPerDay)))
            (fun iso => Return (slice10 iso)).
Proof.
  intros Hp. pose proof (parseIsoDate_sound s p Hp) as (_ & Hy & Hv).
  unfold addDaysIsoDate. rewrite (page_parseIsoDate s p Hp). cbn [andThen]. cbv zeta.
  rewrite Date_UTC_midnight, Date_new_TimeClip.
  replace ((0 <=? year p) && (year p <=? 99)) with false
    by (symmetry; apply andb_false_iff; right; apply Z.leb_gt; lia).
  fold (dayNumber p).
  pose proof (dayNumber_bounds p Hv Hy) as Hb.
  assert (Hlo : -100000000 <= DayFromYear 100) by (vm_compute; discriminate).
  assert (Hhi : DayFromYear 10000 <= 100000000) by (vm_compute; discriminate).
  rewrite TimeClip_days by lia.
  destruct (civil_of_dayNumber p Hv) as (Ey & Em & Ed). cbv zeta in Ey, Em, Ed.
  unfold setUTCDate, getUTCDate, Number_add. cbn [option_map].
  rewrite Ey, Ed. replace (MonthFromTime (dayNumber p * msPerDay)) with (month p - 1) by lia.
  replace ((dayNumber p * msPerDay) mod msPerDay) with 0
    by (symmetry; apply Z.mod_mul; discriminate).
  replace (MakeDate (MakeDay (year p) (month p - 1) (day p + k)) 0)
    with ((dayNumber p + k) * msPerDay); [reflexivity |].
  unfold MakeDate, dayNumber, MakeDay. cbv zeta. lia.
Qed.

(** X27.  On every date the API's [parseIsoDate] accepts, the page's
    [addDaysIsoDate] (built on [setUTCDate]) and the API's [isoDateAddDays]
    give the same result, for every number of days. *)
Theorem addDaysIsoDate_agrees (s : string) (p : IsoDateParts) (k : Z) :
  IsoDate.parseIsoDate s = Return p ->
  addDaysIsoDate s k = isoDateAddDays s k.
Proof.
  intros Hp. now rewrite (addDaysIsoDate_eval s p k Hp), (isoDateAddDays_eval s p k Hp).
Qed.

Lemma addDaysIsoDate_agrees_witness :
  addDaysIsoDate "2024-02-28" 2 = isoDateAddDays "2024-02-28" 2.
Proof.
  apply (addDaysIsoDate_agrees "2024-02-28" {| year := 2024; month := 2; day := 28 |}).
  reflexivity.
Defined.

(** X28.  Stepping by whole weeks from a week start the API accepts gives a
    week start the API accepts: as long as the target stays within the
    years 0100 to 9999, [addDaysIsoDate weekStart (7 * n)] returns the date
    [7 * n] days away, and [payrollQuerySchema] accepts it. *)
Theorem week_navigation_accepted (weekStart : string) (p : IsoDateParts) (n : Z) :
  payrollQuerySchema weekStart = true ->
  IsoDate.parseIsoDate weekStart = Return p ->
  DayFromYear 100 <= dayNumber p + 7 * n < DayFromYear 10000 ->
  exists s' p',
    addDaysIsoDate weekStart (7 * n) = Return s' /\
    IsoDate.parseIsoDate s' = Return p' /\ dayNumber p' = dayNumber p + 7 * n /\
    payrollQuerySchema s' = true.
Proof.
  intros Hschema Hp Hrange.
  apply payrollQuerySchema_iff in Hschema. destruct Hschema as (p0 & Hp0 & Hmon).
  rewrite Hp in Hp0. injection Hp0 as <-.
  destruct (civil_parts (dayNumber p + 7 * n)) as (q & Hv & Hn & Hyq & _).
  assert (Hy : 100 <= year q <= 9999).
  { rewrite Hyq. pose proof (YearFromDay_range (dayNumber p + 7 * n) 100 10000 Hrange). lia. }
  exists (isoDateString (year q) (month q) (day q)), q.
  split; [| split; [| split]].
  - rewrite (addDaysIsoDate_eval weekStart p (7 * n) Hp),
      <- (isoDateAddDays_eval weekStart p (7 * n) Hp).
    now apply (isoDateAddDays_target weekStart p q).
  - now apply parseIsoDate_complete.
  - exact Hn.
  - apply payrollQuerySchema_iff. exists q. split; [now apply parseIsoDate_complete |].
    rewrite Hn. replace (dayNumber p + 7 * n + 4) with (dayNumber p + 4 + n * 7) by lia.
    now rewrite Z.mod_add.
Qed.

Lemma week_navigation_accepted_witness :
  exists s' p',
    addDaysIsoDate monday (7 * (-1)) = Return s' /\
    IsoDate.parseIsoDate s' = Return p' /\
    dayNumber p' = dayNumber {| year := 2030; month := 6; day := 3 |} + 7 * (-1) /\
    payrollQuerySchema s' = true.
Proof.
  apply (week_navigation_accepted monday {| year := 2030; month := 6; day := 3 |} (-1)).
  - reflexivity.
  - reflexivity.
  - vm_compute. split; [discriminate | reflexivity].
Defined.

End TeacherPayrollPageFacts.

(* ===================================================================== *)
(** * Payroll: whole hours, monotonicity and the entries of the response *)
(* ===================================================================== *)

Module ProrationFacts.
Import Payroll PayrollFacts.

(** Within the exactly representable integers the prorated amount is the
    integer quotient. *)
Lemma prorateCents_quotient (durationMs hourlyRateCents : Z) :
  0 < durationMs -> 0 <= hourlyRateCents ->
  (durationMs * hourlyRateCents + 1800000) / 3600000 <= 2 ^ 53 ->
  prorateCents durationMs hourlyRateCents
  = (durationMs * hourlyRateCents + 1800000) / 3600000.
Proof.
  intros Hd Hr Hsafe. unfold prorateCents.
  destruct (Z.leb_spec durationMs 0) as [Hle | _]; [lia |].
  unfold Js.BigInt_div, MS_PER_HOUR.
  change (Z.quot (60 * 60 * 1000) 2) with 1800000.
  change (60 * 60 * 1000) with 3600000.
  assert (Hnum : 0 <= durationMs * hourlyRateCents + 1800000) by nia.
  rewrite Z.quot_div_nonneg by lia.
  apply Number_of_BigInt_safe.
  rewrite Z.abs_eq; [exact Hsafe |].
  apply Z.div_pos; [exact Hnum | lia].
Qed.

(** X22.  A session of a whole number of hours is paid hours times rate,
    without rounding, as long as the product is exactly representable. *)
Theorem prorateCents_whole_hours (hours hourlyRateCents : Z) :
  0 < hours -> 0 <= hourlyRateCents -> hours * hourlyRateCents <= 2 ^ 53 ->
  prorateCents (hours * MS_PER_HOUR) hourlyRateCents = hours * hourlyRateCents.
Proof.
  intros Hh Hr Hsafe. change MS_PER_HOUR with 3600000.
  assert (E : (hours * 3600000 * hourlyRateCents + 1800000) / 3600000
              = hours * hourlyRateCents).
  { replace (hours * 3600000 * hourlyRateCents + 1800000)
      with (1800000 + hours * hourlyRateCents * 3600000) by ring.
    rewrite Z.div_add by lia. reflexivity. }
  rewrite prorateCents_quotient; [exact E | lia | exact Hr | now rewrite E].
Qed.

Lemma prorateCents_whole_hours_witness : prorateCents (2 * MS_PER_HOUR) 12345 = 2 * 12345.
Proof. apply prorateCents_whole_hours; lia. Defined.

(** X23.  Within the exactly representable amounts the prorated pay is
    monotone in the duration, and splitting a duration in two changes the
    pay by at most one cent in either direction. *)
Theorem prorateCents_duration (d1 d2 hourlyRateCents : Z) :
  0 <= hourlyRateCents ->
  ((d1 + d2) * hourlyRateCents + 1800000) / 3600000 <= 2 ^ 53 ->
  0 <= d1 -> 0 <= d2 ->
  prorateCents d1 hourlyRateCents <= prorateCents (d1 + d2) hourlyRateCents /\
  - 1 <= prorateCents (d1 + d2) hourlyRateCents
         - (prorateCents d1 hourlyRateCents + prorateCents d2 hourlyRateCents) <= 1.
Proof.
  intros Hr Hsafe H1 H2.
  assert (Hq : forall d, 0 <= d <= d1 + d2 ->
                 prorateCents d hourlyRateCents = (d * hourlyRateCents + 1800000) / 3600000).
  { intros d Hd. destruct (Z.eq_dec d 0) as [-> | Hne]; [reflexivity |].
    apply prorateCents_quotient; [lia | exact Hr |].
    apply Z.le_trans with (2 := Hsafe). apply Z.div_le_mono; [lia | nia]. }
  rewrite (Hq d1), (Hq d2), (Hq (d1 + d2)) by lia.
  replace ((d1 + d2) * hourlyRateCents) with (d1 * hourlyRateCents + d2 * hourlyRateCents)
    by ring.
  assert (Ha : 0 <= d1 * hourlyRateCents) by nia.
  assert (Hb : 0 <= d2 * hourlyRateCents) by nia.
  set (a := d1 * hourlyRateCents) in *. set (b := d2 * hourlyRateCents) in *.
  clearbody a b. clear - Ha Hb. Z.to_euclidean_division_equations. lia.
Qed.

Lemma prorateCents_duration_witness :
  prorateCents 1000 10000 <= prorateCents (1000 + 1000) 10000 /\
  - 1 <= prorateCents (1000 + 1000) 10000 - (prorateCents 1000 10000 + prorateCents 1000 10000)
      <= 1.
Proof. apply prorateCents_duration; try lia. vm_compute. discriminate. Defined.

End ProrationFacts.

Module PayrollEntries.
Import Prisma Payroll PayrollConsistency PayrollNotions.

Section Entries.
Variable hours : Type.
Variable hzero : hours.
Variable hadd : hours -> hours -> hours.
Variable hoursOf : Z -> hours.
Variable localeCompare : string -> string -> Z.

Let step := accumulateSession hours hzero hadd hoursOf.

(** The keys of the two maps after one iteration. *)
Lemma top_keys_step acc session k :
  In k (JsMap.keys (fst (step acc session))) <->
  In k (JsMap.keys (fst acc)) \/ (counted session = true /\ currencySnapshot session = k).
Proof.
  destruct acc as [top students]. unfold step, accumulateSession, counted.
  destruct (durationMsOf session <=? 0); cbn [fst negb]; [intuition discriminate |].
  rewrite (JsMapFacts.keys_set _ Currency_eqb_spec).
  destruct (JsMap.get Currency_eqb (currencySnapshot session) top) as [x |] eqn:Hg.
  - split; [tauto |]. intros [H | [_ <-]]; [exact H |].
    apply (JsMapFacts.get_Some_In _ Currency_eqb_spec) in Hg.
    change (currencySnapshot session) with (fst (currencySnapshot session, x)).
    now apply in_map.
  - rewrite in_app_iff. cbn [In]. intuition congruence.
Qed.

Lemma top_keys_fold sessions : forall acc k,
  In k (JsMap.keys (fst (fold_left step sessions acc))) <->
  In k (JsMap.keys (fst acc))
  \/ exists s, In s sessions /\ counted s = true /\ currencySnapshot s = k.
Proof.
  induction sessions as [| s sessions IH]; intros acc k; cbn [fold_left].
  - split; [tauto | intros [H | (s & [] & _)]; exact H].
  - rewrite IH, top_keys_step. split.
    + intros [[H | H] | (s' & Hs' & H)].
      * now left.
      * right. exists s. split; [now left | exact H].
      * right. exists s'. split; [now right | exact H].
    + intros [H | (s' & [<- | Hs'] & H)].
      * left. now left.
      * left. now right.
      * right. now exists s'.
Qed.

Lemma student_keys_step acc session sid k :
  NoDup (JsMap.keys (snd acc)) ->
  hasEntry (snd (step acc session)) sid k <->
  hasEntry (snd acc) sid k
  \/ (counted session = true /\ studentId session = sid /\ currencySnapshot session = k).
Proof.
  destruct acc as [top students]. intros Hnd. unfold step, accumulateSession, counted.
  destruct (durationMsOf session <=? 0); cbn [snd negb] in *; [intuition discriminate |].
  set (entry := match JsMap.get String.eqb (studentId session) students with
                | Some e => e
                | None => {| entryStudentId := studentId session;
                             entryStudentName := studentDisplayName session;
                             totalsByCurrency := [] |}
                end).
  set (entry' := {| entryStudentId := entryStudentId entry;
                    entryStudentName := entryStudentName entry;
                    totalsByCurrency :=
                      JsMap.set Currency_eqb (currencySnapshot session)
                        (addSession hours hadd hoursOf
                           (getOrFresh hours hzero (totalsByCurrency entry)
                              (currencySnapshot session))
                           (sessionCentsOf session) (durationMsOf session))
                        (totalsByCurrency entry) |}).
  assert (Hkeys : forall c, In c (JsMap.keys (totalsByCurrency entry')) <->
                            In c (JsMap.keys (totalsByCurrency entry))
                            \/ currencySnapshot session = c).
  { intros c. cbn [totalsByCurrency entry'].
    rewrite (JsMapFacts.keys_set _ Currency_eqb_spec).
    destruct (JsMap.get Currency_eqb (currencySnapshot session) (totalsByCurrency entry))
      as [x |] eqn:Hg.
    - split; [tauto |]. intros [H | <-]; [exact H |].
      apply (JsMapFacts.get_Some_In _ Currency_eqb_spec) in Hg.
      change (currencySnapshot session) with (fst (currencySnapshot session, x)).
      now apply in_map.
    - rewrite in_app_iff. cbn [In]. intuition congruence. }
  assert (Hnew : In (studentId session, entry')
                    (JsMap.set String.eqb (studentId session) entry' students)).
  { apply (JsMapFacts.get_Some_In _ String.eqb_spec).
    apply (JsMapFacts.get_set_eq _ String.eqb_spec). }
  assert (Hold : forall e, In (studentId session, e) students -> e = entry).
  { intros e He. unfold entry.
    now rewrite (JsMapFacts.In_get_NoDup _ String.eqb_spec _ _ _ Hnd He). }
  assert (Hkeep : forall sid' e, sid' <> studentId session -> In (sid', e) students ->
                    In (sid', e) (JsMap.set String.eqb (studentId session) entry' students)).
  { intros sid' e Hne He. apply (JsMapFacts.get_Some_In _ String.eqb_spec).
    rewrite (JsMapFacts.get_set_ne _ String.eqb_spec) by congruence.
    now apply (JsMapFacts.In_get_NoDup _ String.eqb_spec). }
  unfold hasEntry. split.
  - intros (e & He & Hk).
    destruct (JsMapFacts.In_set _ String.eqb_spec _ _ _ _ _ He) as [[-> ->] | Hin].
    + apply Hkeys in Hk. destruct Hk as [Hk | <-]; [| now right].
      left. unfold entry in Hk |- *.
      destruct (JsMap.get String.eqb (studentId session) students) as [e0 |] eqn:Hg;
        [| destruct Hk].
      exists e0. split; [| exact Hk].
      now apply (JsMapFacts.get_Some_In _ String.eqb_spec).
    + left. now exists e.
  - intros [(e & He & Hk) | (_ & <- & <-)].
    + destruct (String.eqb_spec sid (studentId session)) as [-> | Hne].
      * exists entry'. split; [exact Hnew |]. apply Hkeys. left.
        now rewrite <- (Hold e He).
      * exists e. split; [now apply Hkeep | exact Hk].
    + exists entry'. split; [exact Hnew |]. apply Hkeys. now right.
Qed.

Lemma student_keys_fold sessions : forall acc sid k,
  wfAcc hours acc ->
  hasEntry (snd (fold_left step sessions acc)) sid k <->
  hasEntry (snd acc) sid k
  \/ exists s, In s sessions /\ counted s = true /\ studentId s = sid
               /\ currencySnapshot s = k.
Proof.
  induction sessions as [| s sessions IH]; intros acc sid k Hwf; cbn [fold_left].
  - split; [tauto | intros [H | (s & [] & _)]; exact H].
  - rewrite IH by now apply wfAcc_step.
    rewrite student_keys_step by apply Hwf. split.
    + intros [[H | H] | (s' & Hs' & H)].
      * now left.
      * right. exists s. split; [now left | exact H].
      * right. exists s'. split; [now right | exact H].
    + intros [H | (s' & [<- | Hs'] & H)].
      * left. now left.
      * left. now right.
      * right. now exists s'.
Qed.

Lemma wfAcc_nil :
  wfAcc hours (@nil (Currency * CurrencyTotal hours), @nil (string * StudentEntry hours)).
Proof.
  split; [split; [constructor | intros ? ? []] |].
  split; [constructor | intros ? ? []].
Qed.

(** The currencies of a well-formed map are its keys. *)
Lemma currencies_keys (m : JsMap.t (K := Currency) (V := CurrencyTotal hours)) :
  wfTotals hours m -> map currency (JsMap.values m) = JsMap.keys m.
Proof.
  intros [_ Hcur]. unfold JsMap.values, JsMap.keys. rewrite map_map.
  apply map_ext_in. intros [k x] Hin. cbn [fst snd]. now apply Hcur.
Qed.

Lemma sorted_currencies (m : JsMap.t (K := Currency) (V := CurrencyTotal hours)) :
  wfTotals hours m ->
  Permutation (map currency
                 (JsArray.sort (compareCurrency hours localeCompare) (JsMap.values m)))
              (JsMap.keys m).
Proof.
  intros Hwf. rewrite <- (currencies_keys m Hwf).
  apply Permutation_map, JsArrayFacts.sort_perm.
Qed.

(** The keys of the response: one entry per currency, per student, and per
    currency of a student, each for the counted sessions that have it. *)
Lemma payroll_keys (sessions : list SessionRow) :
  let result := payrollTotals hours hzero hadd hoursOf localeCompare sessions in
  NoDup (map currency (fst result)) /\
  NoDup (map outStudentId (snd result)) /\
  (forall e, In e (snd result) -> NoDup (map currency (outTotals e))) /\
  (forall c, In c (map currency (fst result)) <->
             exists s, In s sessions /\ counted s = true /\ currencySnapshot s = c) /\
  (forall sid c,
     (exists e, In e (snd result) /\ outStudentId e = sid /\ In c (map currency (outTotals e)))
     <-> exists s, In s sessions /\ counted s = true /\ studentId s = sid
                   /\ currencySnapshot s = c).
Proof.
  cbv zeta. unfold payrollTotals.
  pose proof (wfAcc_accumulate hours hzero hadd hoursOf sessions) as Hwf.
  pose proof (top_keys_fold sessions ([], [])) as Htop.
  pose proof (fun sid k => student_keys_fold sessions ([], []) sid k wfAcc_nil) as Hstud.
  unfold step in Htop, Hstud. fold (accumulate hours hzero hadd hoursOf sessions) in Htop, Hstud.
  destruct (accumulate hours hzero hadd hoursOf sessions) as [top students].
  destruct Hwf as [Hwtop [Hnd Hwstud]]. cbn [fst snd] in *.
  assert (Htop' : forall k, In k (JsMap.keys top) <->
                    exists s, In s sessions /\ counted s = true /\ currencySnapshot s = k).
  { intros k. rewrite Htop. split; [intros [[] | H]; exact H | now right]. }
  assert (Hstud' : forall sid k, hasEntry students sid k <->
                     exists s, In s sessions /\ counted s = true /\ studentId s = sid
                               /\ currencySnapshot s = k).
  { intros sid k. rewrite Hstud. split; [intros [(e & [] & _) | H]; exact H | now right]. }
  clear Htop Hstud.
  assert (Hids : map outStudentId (map (toStudentTotals hours localeCompare)
                                       (JsMap.values students)) = JsMap.keys students).
  { unfold JsMap.values, JsMap.keys. rewrite !map_map.
    apply map_ext_in. intros [sid e] Hin. cbn [fst snd toStudentTotals outStudentId].
    now apply Hwstud. }
  assert (Hentry : forall e, In e (JsArray.sort (compareStudent hours localeCompare)
                                     (map (toStudentTotals hours localeCompare)
                                        (JsMap.values students))) ->
                     exists e0, In (outStudentId e, e0) students /\
                                e = toStudentTotals hours localeCompare e0).
  { intros e He. apply (Permutation_in _ (JsArrayFacts.sort_perm _ _)) in He.
    apply in_map_iff in He. destruct He as (e0 & <- & He0).
    apply in_map_iff in He0. destruct He0 as ([sid e1] & E & Hin). cbn [snd] in E. subst e1.
    exists e0. split; [| reflexivity]. cbn [toStudentTotals outStudentId].
    now rewrite (proj1 (Hwstud sid e0 Hin)). }
  split; [| split; [| split; [| split]]].
  - apply (Permutation_NoDup (Permutation_sym (sorted_currencies top Hwtop))), Hwtop.
  - apply (Permutation_NoDup
             (Permutation_sym (Permutation_map outStudentId (JsArrayFacts.sort_perm _ _)))).
    now rewrite Hids.
  - intros e He. destruct (Hentry e He) as (e0 & Hin & ->).
    cbn [toStudentTotals outTotals].
    destruct (Hwstud _ _ Hin) as [_ Hw0].
    apply (Permutation_NoDup (Permutation_sym (sorted_currencies _ Hw0))), Hw0.
  - intros c. rewrite <- Htop'.
    split; intros H.
    + now apply (Permutation_in _ (sorted_currencies top Hwtop)).
    + now apply (Permutation_in _ (Permutation_sym (sorted_currencies top Hwtop))).
  - intros sid c. rewrite <- Hstud'. unfold hasEntry. split.
    + intros (e & He & <- & Hc). destruct (Hentry e He) as (e0 & Hin & ->).
      exists e0. split; [exact Hin |].
      cbn [toStudentTotals outTotals] in Hc.
      destruct (Hwstud _ _ Hin) as [_ Hw0].
      now apply (Permutation_in _ (sorted_currencies _ Hw0)).
    + intros (e0 & Hin & Hc).
      exists (toStudentTotals hours localeCompare e0).
      destruct (Hwstud _ _ Hin) as [Hid0 Hw0].
      split; [| split; [exact Hid0 |]].
      * apply (Permutation_in _ (Permutation_sym (JsArrayFacts.sort_perm _ _))).
        apply in_map. change e0 with (snd (sid, e0)). now apply in_map.
      * cbn [toStudentTotals outTotals].
        now apply (Permutation_in _ (Permutation_sym (sorted_currencies _ Hw0))).
Qed.

(** X24.  The payroll response has one entry per key: the currencies of
    [totals] are pairwise distinct, so are the students of [byStudent] and
    the currencies of each student; a currency appears in [totals] exactly
    when a counted session has it, and a student has a total in a currency
    exactly when a counted session of that student has it. *)
Theorem payroll_entries_complete (sessions : list SessionRow) :
  let result := payrollTotals hours hzero hadd hoursOf localeCompare sessions in
  NoDup (map currency (fst result)) /\
  NoDup (map outStudentId (snd result)) /\
  (forall e, In e (snd result) -> NoDup (map currency (outTotals e))) /\
  (forall c, In c (map currency (fst result)) <->
             exists s, In s sessions /\ counted s = true /\ currencySnapshot s = c) /\
  (forall sid c,
     (exists e, In e (snd result) /\ outStudentId e = sid /\ In c (map currency (outTotals e)))
     <-> exists s, In s sessions /\ counted s = true /\ studentId s = sid
                   /\ currencySnapshot s = c).
Proof. exact (payroll_keys sessions). Qed.

End Entries.
End PayrollEntries.

(* ===================================================================== *)
(** * Payroll: the totals and the per-student breakdown *)
(* ===================================================================== *)

Module PayrollTotals.
Import Prisma Payroll PayrollFacts PayrollConsistency PayrollNotions PayrollEntries.

Lemma sumAbsCents_nonneg (l : list SessionRow) : 0 <= sumAbsCents l.
Proof.
  induction l as [| s l IH]; [reflexivity |].
  change (sumAbsCents (s :: l)) with (Z.abs (sessionCentsOf s) + sumAbsCents l). lia.
Qed.

(** While the amounts stay within 2^53 no addition of a running total
    rounds. *)
Lemma running_cents_exact (l : list SessionRow) : forall acc,
  Z.abs acc + sumAbsCents l <= 2 ^ 53 ->
  fold_left (fun a s => Js.Number_add a (sessionCentsOf s)) l acc = acc + sumCents l.
Proof.
  induction l as [| s l IH]; intros acc H.
  - cbn. lia.
  - change (sumAbsCents (s :: l)) with (Z.abs (sessionCentsOf s) + sumAbsCents l) in H.
    change (sumCents (s :: l)) with (sessionCentsOf s + sumCents l).
    pose proof (sumAbsCents_nonneg l) as Hl.
    cbn [fold_left]. unfold Js.Number_add at 2.
    rewrite Number_of_BigInt_safe by lia.
    rewrite IH by lia. lia.
Qed.

Lemma runningTotal_cents_exact (l : list SessionRow) :
  sumAbsCents l <= 2 ^ 53 ->
  runningTotal Z 0 Js.Number_add (fun cents _ => cents) l = sumCents l.
Proof.
  intros H. unfold runningTotal. now rewrite running_cents_exact by (cbn; lia).
Qed.

(** The sessions of one student are among those of the currency. *)
Lemma sumAbsCents_countedFor (sid : string) (c : Currency) (sessions : list SessionRow) :
  sumAbsCents (countedFor sid c sessions) <= sumAbsCents (countedIn c sessions).
Proof.
  unfold countedFor, countedIn.
  induction sessions as [| s sessions IH]; cbn [filter]; [reflexivity |].
  destruct (counted s && Currency_eqb (currencySnapshot s) c); cbn [andb]; [| exact IH].
  change (sumAbsCents (s :: ?l)) with (Z.abs (sessionCentsOf s) + sumAbsCents l).
  destruct (String.eqb (studentId s) sid).
  - change (sumAbsCents (s :: ?l)) with (Z.abs (sessionCentsOf s) + sumAbsCents l). lia.
  - lia.
Qed.

Lemma countedFor_nil (sid : string) (c : Currency) (sessions : list SessionRow) :
  ~ (exists s, In s sessions /\ counted s = true /\ studentId s = sid
               /\ currencySnapshot s = c) ->
  countedFor sid c sessions = [].
Proof.
  intros Hnone. unfold countedFor.
  induction sessions as [| s sessions IH]; cbn [filter]; [reflexivity |].
  destruct (counted s) eqn:Hc; cbn [andb];
    [| apply IH; intros (s' & Hin & H); apply Hnone; exists s'; split; [now right | exact H]].
  destruct (Currency_eqb_spec (currencySnapshot s) c) as [Hcur | _]; cbn [andb];
    [| apply IH; intros (s' & Hin & H); apply Hnone; exists s'; split; [now right | exact H]].
  destruct (String.eqb_spec (studentId s) sid) as [Hsid | _];
    [| apply IH; intros (s' & Hin & H); apply Hnone; exists s'; split; [now right | exact H]].
  exfalso. apply Hnone. exists s. split; [now left | now repeat split].
Qed.

(** One amount, picked by the one student of the list that has it. *)
Lemma pick_student (ids : list string) (k : string) (v : Z) :
  NoDup ids -> In k ids ->
  fold_right Z.add 0 (map (fun sid => if String.eqb k sid then v else 0) ids) = v.
Proof.
  induction ids as [| sid ids IH]; intros Hnd Hin; [destruct Hin |].
  inversion Hnd as [| ? ? Hnotin Hnd']; subst. cbn [map fold_right].
  destruct (String.eqb_spec k sid) as [-> | Hne].
  - assert (Hzero : fold_right Z.add 0
                      (map (fun sid' => if String.eqb sid sid' then v else 0) ids) = 0).
    { clear - Hnotin. induction ids as [| x ids IH]; [reflexivity |].
      cbn [map fold_right]. destruct (String.eqb_spec sid x) as [-> | _].
      - exfalso. apply Hnotin. now left.
      - rewrite IH; [reflexivity |]. intros H. apply Hnotin. now right. }
    rewrite Hzero. lia.
  - destruct Hin as [-> | Hin]; [contradiction |]. now rewrite IH.
Qed.

(** The wages of a currency, split by student. *)
Lemma sumCents_by_student (ids : list string) (c : Currency) (sessions : list SessionRow) :
  NoDup ids ->
  (forall s, In s sessions -> counted s = true -> currencySnapshot s = c ->
             In (studentId s) ids) ->
  fold_right Z.add 0 (map (fun sid => sumCents (countedFor sid c sessions)) ids)
  = sumCents (countedIn c sessions).
Proof.
  intros Hnd. unfold countedFor, countedIn.
  induction sessions as [| s sessions IH]; intros Hcover.
  - cbn [filter]. clear. induction ids as [| x ids IH]; [reflexivity |].
    cbn [map fold_right]. now rewrite IH.
  - assert (IH' := IH (fun s' Hin => Hcover s' (or_intror Hin))). clear IH.
    cbn [filter].
    destruct (counted s && Currency_eqb (currencySnapshot s) c) eqn:Hb; cbn [andb];
      [| exact IH'].
    change (sumCents (s :: ?l)) with (sessionCentsOf s + sumCents l).
    rewrite <- IH'.
    apply andb_true_iff in Hb. destruct Hb as [Hc Hcur].
    destruct (Currency_eqb_spec (currencySnapshot s) c) as [Hcur' | ]; [| discriminate].
    pose proof (Hcover s (or_introl eq_refl) Hc Hcur') as Hin.
    rewrite <- (pick_student ids (studentId s) (sessionCentsOf s) Hnd Hin) at 1.
    clear. induction ids as [| x ids IH]; [reflexivity |].
    cbn [map fold_right]. rewrite IH.
    destruct (String.eqb (studentId s) x).
    + change (sumCents (s :: ?l)) with (sessionCentsOf s + sumCents l). lia.
    + lia.
Qed.

(** With one entry per currency, the entries of a currency are none or
    one. *)
Lemma inCurrency_cases {hours : Type} (c : Currency) (l : list (CurrencyTotal hours)) :
  NoDup (map currency l) ->
  (inCurrency hours c l = [] /\ ~ In c (map currency l))
  \/ (exists u, In u l /\ currency u = c /\ inCurrency hours c l = [u]).
Proof.
  unfold inCurrency.
  induction l as [| x l IH]; intros Hnd; [left; split; [reflexivity | intros []] |].
  inversion Hnd as [| ? ? Hnotin Hnd']; subst. cbn [filter map].
  destruct (Currency_eqb_spec (currency x) c) as [Hx | Hx].
  - right. exists x. split; [now left |]. split; [exact Hx |].
    destruct (IH Hnd') as [[-> _] | (u & Hu & Hcu & _)]; [reflexivity |].
    exfalso. apply Hnotin. rewrite Hx, <- Hcu. now apply in_map.
  - destruct (IH Hnd') as [[-> Hnot] | (u & Hu & Hcu & ->)].
    + left. split; [reflexivity |]. intros [H | H]; [contradiction | now apply Hnot].
    + right. exists u. split; [now right |]. now split.
Qed.

Lemma student_entry_unique {hours : Type} (l : list (StudentTotals hours)) e e' :
  NoDup (map outStudentId l) -> In e l -> In e' l -> outStudentId e = outStudentId e' ->
  e = e'.
Proof.
  induction l as [| x l IH]; intros Hnd He He' E; [destruct He |].
  inversion Hnd as [| ? ? Hnotin Hnd']; subst.
  destruct He as [-> | He], He' as [-> | He']; try reflexivity.
  - exfalso. apply Hnotin. rewrite E. now apply in_map.
  - exfalso. apply Hnotin. rewrite <- E. now apply in_map.
  - now apply IH.
Qed.

Section Totals.
Variable hours : Type.
Variable hzero : hours.
Variable hadd : hours -> hours -> hours.
Variable hoursOf : Z -> hours.
Variable localeCompare : string -> string -> Z.

(** Within 2^53 the [totalCents] of the per-student entries of a currency
    add up to the wages of the currency. *)
Lemma students_cents (sessions : list SessionRow) (c : Currency) :
  sumAbsCents (countedIn c sessions) <= 2 ^ 53 ->
  studentsTotal hours Z 0 Z.add totalCents c
    (snd (payrollTotals hours hzero hadd hoursOf localeCompare sessions))
  = sumCents (countedIn c sessions).
Proof.
  intros Hbound.
  destruct (payroll_keys hours hzero hadd hoursOf localeCompare sessions)
    as (_ & Hids & Hcurs & _ & Hkeys). cbv zeta in *.
  set (byStudent := snd (payrollTotals hours hzero hadd hoursOf localeCompare sessions)) in *.
  unfold studentsTotal, msum.
  rewrite <- (sumCents_by_student (map outStudentId byStudent) c sessions Hids).
  - rewrite map_map. f_equal. apply map_ext_in. intros e He.
    unfold totalIn, msum.
    destruct (inCurrency_cases c (outTotals e) (Hcurs e He))
      as [[-> Hnot] | (u & Hu & Hcu & ->)]; cbn [map fold_right].
    + rewrite countedFor_nil; [reflexivity |].
      intros Hs. apply (proj2 (Hkeys (outStudentId e) c)) in Hs.
      destruct Hs as (e' & He' & E & Hc).
      apply Hnot. now rewrite (student_entry_unique byStudent e e' Hids He He' (eq_sym E)).
    + rewrite (student_running hours hzero hadd hoursOf Z 0 Js.Number_add totalCents
                 (fun cents _ => cents) (fun _ => eq_refl) (fun _ _ _ => eq_refl)
                 localeCompare sessions e u He Hu).
      rewrite Hcu, runningTotal_cents_exact; [lia |].
      pose proof (sumAbsCents_countedFor (outStudentId e) c sessions). lia.
  - intros s Hin Hc Hcur.
    destruct (proj2 (Hkeys (studentId s) c)) as (e & He & E & _).
    { exists s. now repeat split. }
    rewrite <- E. now apply in_map.
Qed.

(** C10 (amended).  For every entry [t] of [totals], of currency [c]:
    [sessionsCount] is the number of the counted sessions of [c] and equals
    the sum of [sessionsCount] over all per-student entries of [c];
    [totalCents] and [totalHours] are the left-to-right sums, as the loop
    adds them in query order, of the prorated wages and of the hours of the
    counted sessions of [c].  Every per-student entry counts exactly the
    counted sessions of its student and currency, holds their left-to-right
    sums likewise, and its currency has an entry in [totals].  Whenever the
    prorated wages of the counted sessions of [c] add up to at most 2^53 in
    absolute value, no addition of cents rounds: [totalCents] is the exact
    sum of these wages and equals the sum of [totalCents] over all
    per-student entries of [c]. *)
Theorem payroll_totals_consistent (sessions : list SessionRow) (t : CurrencyTotal hours) :
  let result := payrollTotals hours hzero hadd hoursOf localeCompare sessions in
  let c := currency t in
  In t (fst result) ->
  sessionsCount t = Z.of_nat (List.length (countedIn c sessions)) /\
  sessionsCount t = studentsTotal hours Z 0 Z.add sessionsCount c (snd result) /\
  totalCents t
  = runningTotal Z 0 Js.Number_add (fun cents _ => cents) (countedIn c sessions) /\
  totalHours t
  = runningTotal hours hzero hadd (fun _ d => hoursOf d) (countedIn c sessions) /\
  (forall e u, In e (snd result) -> In u (outTotals e) ->
     sessionsCount u
     = Z.of_nat (List.length (countedFor (outStudentId e) (currency u) sessions)) /\
     totalCents u
     = runningTotal Z 0 Js.Number_add (fun cents _ => cents)
         (countedFor (outStudentId e) (currency u) sessions) /\
     totalHours u
     = runningTotal hours hzero hadd (fun _ d => hoursOf d)
         (countedFor (outStudentId e) (currency u) sessions) /\
     exists t', In t' (fst result) /\ currency t' = currency u) /\
  (sumAbsCents (countedIn c sessions) <= 2 ^ 53 ->
   totalCents t = sumCents (countedIn c sessions) /\
   totalCents t = studentsTotal hours Z 0 Z.add totalCents c (snd result)).
Proof.
  intros result c Hin. subst result c.
  assert (Hcents : totalCents t
                   = runningTotal Z 0 Js.Number_add (fun cents _ => cents)
                       (countedIn (currency t) sessions))
    by exact (top_running hours hzero hadd hoursOf Z 0 Js.Number_add totalCents
                (fun cents _ => cents) (fun _ => eq_refl) (fun _ _ _ => eq_refl)
                localeCompare sessions t Hin).
  split; [| split; [| split; [| split; [| split]]]].
  - rewrite (top_running hours hzero hadd hoursOf Z 0 Z.add sessionsCount (fun _ _ => 1)
               (fun _ => eq_refl) (fun _ _ _ => eq_refl) localeCompare sessions t Hin).
    unfold runningTotal. now rewrite running_count.
  - apply (payroll_field_consistent hours hzero hadd hoursOf localeCompare
             Z 0 Z.add sessionsCount (fun _ _ => 1));
      try reflexivity; try exact Hin; intros; ring.
  - exact Hcents.
  - exact (top_running hours hzero hadd hoursOf hours hzero hadd totalHours
             (fun _ d => hoursOf d) (fun _ => eq_refl) (fun _ _ _ => eq_refl)
             localeCompare sessions t Hin).
  - intros e u He Hu. split; [| split; [| split]].
    + rewrite (student_running hours hzero hadd hoursOf Z 0 Z.add sessionsCount (fun _ _ => 1)
                 (fun _ => eq_refl) (fun _ _ _ => eq_refl) localeCompare sessions e u He Hu).
      unfold runningTotal. now rewrite running_count.
    + exact (student_running hours hzero hadd hoursOf Z 0 Js.Number_add totalCents
               (fun cents _ => cents) (fun _ => eq_refl) (fun _ _ _ => eq_refl)
               localeCompare sessions e u He Hu).
    + exact (student_running hours hzero hadd hoursOf hours hzero hadd totalHours
               (fun _ d => hoursOf d) (fun _ => eq_refl) (fun _ _ _ => eq_refl)
               localeCompare sessions e u He Hu).
    + exact (student_currency_in_totals hours hzero hadd hoursOf localeCompare sessions
               e u He Hu).
  - intros Hbound.
    assert (Hexact : totalCents t = sumCents (countedIn (currency t) sessions))
      by (rewrite Hcents; now apply runningTotal_cents_exact).
    split; [exact Hexact |].
    rewrite Hexact. symmetry. now apply students_cents.
Qed.

End Totals.

(** C10, witness: the three sessions of 6, 12 and 18 minutes, as the loop
    runs on doubles: 1000 + 2000 + 3000 cents, three sessions. *)
Lemma payroll_totals_consistent_witness :
  let result := payrollTotalsDouble codeUnitCompare threeSessions in
  exists t, In t (fst result) /\
    sessionsCount t = 3 /\
    totalCents t = 6000 /\
    totalCents t = studentsTotal Js.double Z 0 Z.add totalCents (currency t) (snd result).
Proof.
  intros result.
  assert (Hin : In (hd (freshTotal Js.double zeroDouble AUD) (fst result)) (fst result))
    by (left; reflexivity).
  exists (hd (freshTotal Js.double zeroDouble AUD) (fst result)).
  destruct (payroll_totals_consistent Js.double zeroDouble Js.dadd hoursOfDouble
              codeUnitCompare threeSessions _ Hin) as (Hcount & _ & _ & _ & _ & Hcents).
  split; [exact Hin |]. split; [exact Hcount |].
  destruct Hcents as [Hsum Hstudents]; [vm_compute; discriminate |].
  split; [exact Hsum | exact Hstudents].
Defined.

(** C10, counterexample: with [totalHours] in binary64 the three sessions
    give a top-level [totalHours] of 0.6000000000000001 for AUD while the
    per-student entries hold 0.1 and 0.5, whose sum is 0.6 in either order
    of addition; nor is the top-level value the exact sum of the two
    doubles. *)
Lemma payroll_totalHours_counterexample :
  let result := payrollTotalsDouble codeUnitCompare threeSessions in
  exists t, In t (fst result) /\
    map (fun e => totalIn Js.double Js.double zeroDouble Js.dadd totalHours (currency t)
                    (outTotals e)) (snd result)
    = [S754_finite false 7205759403792794 (-56); S754_finite false 4503599627370496 (-53)] /\
    totalHours t = S754_finite false 5404319552844596 (-53) /\
    studentsTotal Js.double Js.double zeroDouble Js.dadd totalHours (currency t) (snd result)
    = S754_finite false 5404319552844595 (-53) /\
    totalHours t
    <> studentsTotal Js.double Js.double zeroDouble Js.dadd totalHours (currency t) (snd result) /\
    Js.dadd (S754_finite false 4503599627370496 (-53)) (S754_finite false 7205759403792794 (-56))
    = S754_finite false 5404319552844595 (-53) /\
    ~ (Js.double_to_Q (totalHours t)
       == Js.double_to_Q (S754_finite false 7205759403792794 (-56))
          + Js.double_to_Q (S754_finite false 4503599627370496 (-53)))%Q.
Proof.
  intros result.
  exists (hd (freshTotal Js.double zeroDouble AUD) (fst result)).
  split; [left; reflexivity |].
  split; [vm_compute; reflexivity |].
  split; [vm_compute; reflexivity |].
  split; [vm_compute; reflexivity |].
  split; [vm_compute; discriminate |].
  split; [vm_compute; reflexivity |].
  intros H. vm_compute in H. discriminate H.
Qed.

(** Beyond 2^53 the cents round as well: for the three sessions of
    [largeSessions] the loop adds 1 cent twice to 9007201398030336, each time
    a tie that rounds back to it, while the per-student entries hold
    9007201398030336 and 2. *)
Lemma payroll_totalCents_rounding :
  let result := payrollTotalsDouble codeUnitCompare largeSessions in
  exists t, In t (fst result) /\
    map sessionCentsOf largeSessions = [9007201398030336; 1; 1] /\
    totalCents t = 9007201398030336 /\
    map (fun e => totalIn Js.double Z 0 Z.add totalCents (currency t) (outTotals e))
        (snd result)
    = [9007201398030336; 2] /\
    totalCents t
    <> studentsTotal Js.double Z 0 Z.add totalCents (currency t) (snd result) /\
    2 ^ 53 < sumAbsCents (countedIn (currency t) largeSessions).
Proof.
  intros result.
  exists (hd (freshTotal Js.double zeroDouble AUD) (fst result)).
  split; [left; reflexivity |].
  split; [vm_compute; reflexivity |].
  split; [vm_compute; reflexivity |].
  split; [vm_compute; reflexivity |].
  split; [vm_compute; discriminate | vm_compute; reflexivity].
Qed.

End PayrollTotals.

(* ===================================================================== *)
(** * The hour balance of a student *)
(* ===================================================================== *)

Module StudentHoursFacts.
Import Prisma Http StudentHours.

Lemma sameTeacher_spec (a b : option string) : reflect (a = b) (sameTeacher a b).
Proof.
  destruct a as [x |], b as [y |]; cbn [sameTeacher]; try (constructor; congruence).
  destruct (String.eqb_spec x y); constructor; congruence.
Qed.

Lemma orZero_sum (rows : list HourLedgerEntry.t) :
  orZero (sumDeltaUnits rows) = total (map HourLedgerEntry.deltaUnits rows).
Proof. now destruct rows. Qed.

Lemma perm_In_iff {A : Type} (l l' : list A) (x : A) :
  Permutation l l' -> (In x l <-> In x l').
Proof.
  intros H. split; [apply Permutation_in; exact H |].
  apply Permutation_in, Permutation_sym, H.
Qed.

Lemma total_app (a b : list Z) : total (a ++ b) = total a + total b.
Proof. unfold total. induction a as [| x a IH]; cbn [app fold_right]; lia. Qed.


Lemma total_fold_left {A : Type} (f : A -> Z) (l : list A) : forall acc,
  fold_left (fun acc x => acc + f x) l acc = acc + total (map f l).
Proof.
  unfold total. induction l as [| x l IH]; intros acc; cbn [fold_left map fold_right];
    [lia | rewrite IH; lia].
Qed.


(** ** [distinct] *)

Lemma In_distinct (x : option string) (l : list (option string)) :
  In x (distinct l) <-> In x l.
Proof.
  induction l as [| y l IH]; cbn [distinct]; [tauto |].
  cbn [In]. rewrite filter_In, IH.
  destruct (sameTeacher_spec x y) as [-> | Hne]; cbn [negb]; [tauto |].
  split; [tauto |]. intros [E | H]; [now left | now right].
Qed.

Lemma NoDup_distinct (l : list (option string)) : NoDup (distinct l).
Proof.
  induction l as [| y l IH]; cbn [distinct]; constructor.
  - rewrite filter_In. intros [_ H]. now destruct (sameTeacher_spec y y).
  - now apply NoDup_filter.
Qed.



Lemma getHours_remainingUnits (db : Db) (userId : string) :
  getHours db userId = Jobs.remainingUnits db userId.
Proof. unfold getHours. now rewrite orZero_sum. Qed.


Lemma keys_groupBy (rows : list HourLedgerEntry.t) :
  map groupTeacherId (groupByTeacherId rows) = distinct (map HourLedgerEntry.teacherId rows).
Proof.
  unfold groupByTeacherId. rewrite map_map. cbn [groupTeacherId]. apply map_id.
Qed.

(** The unassigned units are those of the one group without a teacher. *)
Lemma find_isNull (G : list Group) :
  NoDup (map groupTeacherId G) ->
  match find isNull G with Some g => units g | None => 0 end
  = total (map units (filter isNull G)).
Proof.
  induction G as [| g G IH]; intros Hnd; [reflexivity |].
  cbn [map] in Hnd. apply NoDup_cons_iff in Hnd. destruct Hnd as [Hnotin Hnd].
  cbn [find filter]. destruct (isNull g) eqn:Hg; [| now apply IH].
  replace (filter isNull G) with (@nil Group); [cbn; unfold total; cbn; lia |].
  symmetry. clear IH Hnd. induction G as [| h G IH]; [reflexivity |].
  cbn [filter]. destruct (isNull h) eqn:Hh.
  - exfalso. apply Hnotin. left. unfold isNull in Hg, Hh.
    destruct (groupTeacherId g), (groupTeacherId h); congruence.
  - apply IH. intros H. apply Hnotin. now right.
Qed.

Lemma set_absent {V : Type} (k : string) (v : V) (m : JsMap.t) :
  ~ In k (JsMap.keys m) -> JsMap.set String.eqb k v m = m ++ [(k, v)].
Proof.
  induction m as [| [k' v'] m IH]; cbn [JsMap.set JsMap.keys map fst In app];
    intros Hnotin; [reflexivity |].
  destruct (String.eqb_spec k k') as [-> | Hne]; [exfalso; apply Hnotin; now left |].
  f_equal. apply IH. intros H. apply Hnotin. now right.
Qed.

Lemma keys_collected (g : Group) (t : string) :
  In t (JsMap.keys (collected g)) -> groupTeacherId g = Some t /\ t <> "".
Proof.
  unfold collected. destruct (groupTeacherId g) as [t' |]; [| intros []].
  destruct (String.eqb_spec t' ""); [intros [] |].
  cbn. intros [<- | []]. now split.
Qed.

(** The map the loop builds holds one entry per group with a teacher, in
    the order of the groups. *)
Lemma collectUnits_fold (G : list Group) : forall m,
  NoDup (map groupTeacherId G) ->
  (forall g t, In g G -> groupTeacherId g = Some t -> ~ In t (JsMap.keys m)) ->
  fold_left collectUnits G m = m ++ flat_map collected G.
Proof.
  induction G as [| g G IH]; intros m Hnd Hfresh; cbn [fold_left flat_map];
    [now rewrite app_nil_r |].
  cbn [map] in Hnd. apply NoDup_cons_iff in Hnd. destruct Hnd as [Hnotin Hnd].
  assert (Hstep : collectUnits m g = m ++ collected g).
  { unfold collectUnits, collected.
    destruct (groupTeacherId g) as [t |] eqn:Hg; [| now rewrite app_nil_r].
    destruct (String.eqb t ""); [now rewrite app_nil_r |].
    apply set_absent. apply (Hfresh g t); [now left | exact Hg]. }
  rewrite Hstep, IH, <- app_assoc; [reflexivity | exact Hnd |].
  intros h t Hh Hht Hin. unfold JsMap.keys in Hin. rewrite map_app in Hin.
  apply in_app_or in Hin. destruct Hin as [Hin | Hin].
  - apply (Hfresh h t); [now right | exact Hht | exact Hin].
  - apply keys_collected in Hin. destruct Hin as [Hgt _].
    apply Hnotin. rewrite Hgt, <- Hht. now apply in_map.
Qed.

Lemma keys_flat_map_collected (G : list Group) :
  NoDup (map groupTeacherId G) -> NoDup (JsMap.keys (flat_map collected G)).
Proof.
  induction G as [| g G IH]; intros Hnd; [constructor |].
  cbn [map] in Hnd. apply NoDup_cons_iff in Hnd. destruct Hnd as [Hnotin Hnd].
  cbn [flat_map]. unfold JsMap.keys. rewrite map_app.
  unfold collected at 1.
  destruct (groupTeacherId g) as [t |] eqn:Hg; [| now apply IH].
  destruct (String.eqb t ""); [now apply IH |].
  cbn [map fst app]. constructor; [| now apply IH].
  intros Hin. apply Hnotin. clear - Hin.
  induction G as [| h G IH]; [destruct Hin |].
  cbn [flat_map map] in *. rewrite map_app in Hin. apply in_app_or in Hin.
  destruct Hin as [Hin | Hin]; [| right; now apply IH].
  left. apply (keys_collected h t) in Hin. now destruct Hin as [-> _].
Qed.

Lemma In_keys_flat_map_collected (G : list Group) (t : string) :
  In t (JsMap.keys (flat_map collected G)) <-> In (Some t) (map groupTeacherId G) /\ t <> "".
Proof.
  induction G as [| g G IH]; cbn [flat_map map In]; [cbn; tauto |].
  unfold JsMap.keys in *. rewrite map_app, in_app_iff, IH. split.
  - intros [Hin | [Hin Hne]]; [| tauto].
    apply (keys_collected g t) in Hin. destruct Hin as [-> Hne]. tauto.
  - intros [[Hg | Hin] Hne]; [| tauto]. left. unfold collected. rewrite Hg.
    destruct (String.eqb_spec t ""); [contradiction | now left].
Qed.



Section ByTeacher.
Variable groupOrder : list Group -> list Group.
Variable teacherProfileDisplayName : string -> option string.
Variable localeCompare : string -> string -> Z.
Hypothesis groupOrder_perm : forall l, Permutation (groupOrder l) l.

Lemma grouped_keys (rows : list HourLedgerEntry.t) :
  Permutation (map groupTeacherId (groupOrder (groupByTeacherId rows)))
              (distinct (map HourLedgerEntry.teacherId rows)).
Proof. rewrite <- keys_groupBy. apply Permutation_map, groupOrder_perm. Qed.

Lemma grouped_NoDup (rows : list HourLedgerEntry.t) :
  NoDup (map groupTeacherId (groupOrder (groupByTeacherId rows))).
Proof.
  apply (Permutation_NoDup (Permutation_sym (grouped_keys rows))), NoDup_distinct.
Qed.


(** The sum of one group is the sum of the rows with its teacher. *)
Lemma grouped_units (rows : list HourLedgerEntry.t) (g : Group) :
  In g (groupOrder (groupByTeacherId rows)) ->
  units g = total (map HourLedgerEntry.deltaUnits
                     (filter (fun e => sameTeacher (HourLedgerEntry.teacherId e)
                                                   (groupTeacherId g)) rows)).
Proof.
  intros Hin. apply (Permutation_in _ (groupOrder_perm _)) in Hin.
  unfold groupByTeacherId in Hin. apply in_map_iff in Hin.
  destruct Hin as (t & <- & _). unfold units. cbn [groupSumDeltaUnits groupTeacherId].
  apply orZero_sum.
Qed.

(** The response of a run for a known user. *)
Lemma getHoursByTeacher_run (db : Db) (userId : string) (response : HoursByTeacher) :
  getHoursByTeacher groupOrder teacherProfileDisplayName localeCompare db userId
  = inr response ->
  let G := groupOrder (groupByTeacherId (entriesOfStudent db userId)) in
  let M := flat_map collected G in
  totalRemainingUnits response = total (map units G) /\
  unassignedUnits response = total (map units (filter isNull G)) /\
  Permutation (map teacherId (byTeacher response)) (JsMap.keys M) /\
  (forall x, In x (byTeacher response) ->
     In (teacherId x) (JsMap.keys M) /\
     remainingUnits x = orZero (JsMap.get String.eqb (teacherId x) M)).
Proof.
  unfold getHoursByTeacher.
  destruct (findUser db userId) as [actor |] eqn:Hactor; [| discriminate].
  rewrite (PrismaFacts.findUser_id _ _ _ Hactor). cbv zeta.
  set (G := groupOrder (groupByTeacherId (entriesOfStudent db userId))).
  pose proof (grouped_NoDup (entriesOfStudent db userId)) as Hnd. fold G in Hnd.
  rewrite (collectUnits_fold G [] Hnd) by (intros ? ? ? ? []).
  cbn [app]. set (M := flat_map collected G).
  intros H. injection H as <-.
  cbn [totalRemainingUnits unassignedUnits byTeacher].
  split; [now rewrite total_fold_left |].
  split; [now apply find_isNull |].
  split.
  - rewrite (Permutation_map teacherId (JsArrayFacts.sort_perm _ _)).
    rewrite map_map. cbn [teacherId]. now rewrite map_id.
  - intros x Hx. apply (Permutation_in _ (JsArrayFacts.sort_perm _ _)) in Hx.
    apply in_map_iff in Hx. destruct Hx as (t & <- & Ht). now split.
Qed.

End ByTeacher.





(** X9.  [GET /hours/by-teacher] lists every teacher once: the teacher ids
    of [byTeacher] are pairwise distinct, a teacher is listed exactly when
    its id is non-empty and some ledger row of the student names it, each
    [remainingUnits] is the sum of the student's rows with that teacher, and
    [unassignedUnits] is the sum of the student's rows without a teacher. *)
Theorem hoursByTeacher_entries
  (groupOrder : list Group -> list Group) (teacherProfileDisplayName : string -> option string)
  (localeCompare : string -> string -> Z) (db : Db) (userId : string)
  (response : HoursByTeacher) :
  (forall l, Permutation (groupOrder l) l) ->
  getHoursByTeacher groupOrder teacherProfileDisplayName localeCompare db userId
  = inr response ->
  NoDup (map teacherId (byTeacher response)) /\
  (forall t, In t (map teacherId (byTeacher response)) <->
             t <> "" /\ entriesWithTeacher db userId t <> []) /\
  (forall x, In x (byTeacher response) ->
     remainingUnits x
     = total (map HourLedgerEntry.deltaUnits (entriesWithTeacher db userId (teacherId x)))) /\
  unassignedUnits response
  = total (map HourLedgerEntry.deltaUnits
             (filter (fun e => sameTeacher (HourLedgerEntry.teacherId e) None)
                     (entriesOfStudent db userId))).
Proof.
  intros Hperm Hrun.
  destruct (getHoursByTeacher_run _ _ _ Hperm db userId response Hrun)
    as (_ & Hnull & Hkeys & Hunits).
  cbv zeta in *.
  set (rows := entriesOfStudent db userId) in *.
  set (G := groupOrder (groupByTeacherId rows)) in *.
  pose proof (grouped_NoDup groupOrder Hperm rows) as Hnd. fold G in Hnd.
  pose proof (keys_flat_map_collected G Hnd) as HndM.
  assert (Hgroup : forall t, In (Some t) (map groupTeacherId G)
                             <-> entriesWithTeacher db userId t <> []).
  { intros t. unfold G.
    rewrite (perm_In_iff _ _ _ (grouped_keys groupOrder Hperm rows)).
    rewrite In_distinct, in_map_iff. unfold entriesWithTeacher. fold rows. split.
    - intros (e & He & Hin) Hnil.
      assert (Hflt : In e (filter (fun e => sameTeacher (HourLedgerEntry.teacherId e) (Some t))
                                  rows)).
      { apply filter_In. split; [exact Hin |]. rewrite He.
        now destruct (sameTeacher_spec (Some t) (Some t)). }
      rewrite Hnil in Hflt. exact Hflt.
    - intros Hne.
      destruct (filter (fun e => sameTeacher (HourLedgerEntry.teacherId e) (Some t)) rows)
        as [| e l] eqn:Hflt; [congruence |].
      assert (Hin : In e (e :: l)) by now left.
      rewrite <- Hflt in Hin. apply filter_In in Hin. destruct Hin as [Hin Hsame].
      exists e. split; [| exact Hin].
      now destruct (sameTeacher_spec (HourLedgerEntry.teacherId e) (Some t)). }
  split; [| split; [| split]].
  - apply (Permutation_NoDup (Permutation_sym Hkeys) HndM).
  - intros t. rewrite (perm_In_iff _ _ _ Hkeys).
    rewrite In_keys_flat_map_collected, Hgroup. tauto.
  - intros x Hx. destruct (Hunits x Hx) as [Hkey ->].
    apply In_keys_flat_map_collected in Hkey. destruct Hkey as [Hkey Hne].
    apply in_map_iff in Hkey. destruct Hkey as (g & Hg & Hin).
    assert (HinM : In (teacherId x, units g) (flat_map collected G)).
    { apply in_flat_map. exists g. split; [exact Hin |]. unfold collected. rewrite Hg.
      destruct (String.eqb_spec (teacherId x) ""); [contradiction | now left]. }
    rewrite (JsMapFacts.In_get_NoDup String.eqb String.eqb_spec _ _ _ HndM HinM).
    cbn [orZero]. rewrite (grouped_units groupOrder Hperm rows g Hin), Hg. reflexivity.
  - rewrite Hnull.
    destruct (filter isNull G) as [| g l] eqn:Hflt.
    + symmetry. unfold total. cbn [map fold_right].
      replace (filter (fun e => sameTeacher (HourLedgerEntry.teacherId e) None) rows)
        with (@nil HourLedgerEntry.t); [reflexivity |].
      symmetry. apply JobFacts.filter_nil_iff. intros e He.
      destruct (sameTeacher_spec (HourLedgerEntry.teacherId e) None) as [Hnone |]; [| reflexivity].
      exfalso.
      assert (Hin : In None (map groupTeacherId G)).
      { apply (Permutation_in _ (Permutation_sym (grouped_keys groupOrder Hperm rows))).
        apply In_distinct. rewrite <- Hnone. now apply in_map. }
      apply in_map_iff in Hin. destruct Hin as (g & Hg & Hin).
      assert (Hf : In g (filter isNull G))
        by (apply filter_In; split; [exact Hin | unfold isNull; now rewrite Hg]).
      rewrite Hflt in Hf. exact Hf.
    + pose proof (find_isNull G Hnd) as Hfind. rewrite Hflt in Hfind.
      assert (Hg : In g (filter isNull G)) by (rewrite Hflt; now left).
      apply filter_In in Hg. destruct Hg as [Hin Hnullg].
      assert (Hl : l = []).
      { destruct l as [| h l]; [reflexivity |]. exfalso.
        assert (Hh : In h (filter isNull G)) by (rewrite Hflt; right; now left).
        apply filter_In in Hh. destruct Hh as [Hinh Hnullh].
        assert (Hlen : NoDup (map groupTeacherId (filter isNull G))).
        { clear - Hnd. induction G as [| a G IH]; [constructor |].
          cbn [map] in Hnd. apply NoDup_cons_iff in Hnd. destruct Hnd as [Hnotin Hnd].
          cbn [filter]. destruct (isNull a); [| now apply IH].
          cbn [map]. constructor; [| now apply IH].
          intros H. apply Hnotin. apply in_map_iff in H. destruct H as (b & <- & Hb).
          apply in_map. now apply filter_In in Hb. }
        rewrite Hflt in Hlen. cbn [map] in Hlen. apply NoDup_cons_iff in Hlen.
        apply (proj1 Hlen). left. unfold isNull in Hnullg, Hnullh.
        destruct (groupTeacherId g), (groupTeacherId h); congruence. }
      subst l. unfold total at 1. cbn [map fold_right]. rewrite Z.add_0_r.
      rewrite (grouped_units groupOrder Hperm rows g Hin).
      unfold isNull in Hnullg. destruct (groupTeacherId g); [discriminate | reflexivity].
Qed.

Lemma hoursByTeacher_entries_witness :
  exists response,
    getHoursByTeacher (fun l => l) noProfile Payroll.codeUnitCompare ledgerOfStudent1 "student1"
    = inr response /\
    NoDup (map teacherId (byTeacher response)).
Proof.
  eexists. split; [reflexivity |].
  apply (hoursByTeacher_entries (fun l => l) noProfile Payroll.codeUnitCompare
           ledgerOfStudent1 "student1");
    [intros l; apply Permutation_refl | reflexivity].
Defined.

End StudentHoursFacts.

(* ===================================================================== *)
(** * Rejection of change requests *)
(* ===================================================================== *)

Module RejectionFacts.
Import Prisma Http AdminRoutes Spec PrismaFacts ApprovalFacts AdminMutations.

(** The store after the two statements of the rejection transaction. *)
Lemma rejectTransaction_run fault db actor cr :
  findChangeRequest db (ChangeRequest.id cr) = Some cr ->
  exists db',
    rejectionApplied db db' (ChangeRequest.id cr) actor /\
    transaction (rejectTransaction fault actor cr) db
    = if match fault with Some n => Nat.ltb n 2 | None => false end
      then (db, None)
      else (db', Some (markRejected (User.id actor) cr)).
Proof.
  intros Hcr. eexists. split.
  2: { unfold transaction, rejectTransaction, bind, stmt, ret,
         changeRequest_update, auditLog_create.
       destruct fault as [[| [| n]] |]; cbn [Nat.eqb Nat.ltb Nat.leb];
         rewrite ?Hcr; reflexivity. }
  repeat split.
Qed.

(** Every outcome of a rejection. *)
Lemma reject_outcome fault db userId id :
  let db' := fst (rejectChangeRequest fault db userId id) in
  let reply := snd (rejectChangeRequest fault db userId id) in
  (db' = db /\ exists r, reply = inl r /\ statusCode r <> 200) \/
  (exists actor cr,
     rejectable db userId id actor cr /\
     match fault with Some n => (2 <= n)%nat | None => True end /\
     reply = inr (markRejected (User.id actor) cr) /\
     rejectionApplied db db' id actor).
Proof.
  unfold rejectChangeRequest.
  destruct (nonEmpty id) eqn:Hid; cbn [negb];
    [| left; split; [reflexivity | eexists; split; [reflexivity | discriminate]]].
  destruct (findUser db userId) as [actor |] eqn:Hactor;
    [| left; split; [reflexivity | eexists; split; [reflexivity | discriminate]]].
  destruct (findChangeRequest db id) as [cr |] eqn:Hcr;
    [| left; split; [reflexivity | eexists; split; [reflexivity | discriminate]]].
  destruct (findSession db (ChangeRequest.sessionId cr)) as [session |] eqn:Hsession;
    [| left; split; [reflexivity | eexists; split; [reflexivity | discriminate]]].
  destruct (findUser db (Session.studentId session)) as [student |] eqn:Hstudent;
    [| left; split; [reflexivity | eexists; split; [reflexivity | discriminate]]].
  destruct (String.eqb_spec (User.orgId student) (User.orgId actor)) as [Horg | Horg];
    cbn [negb];
    [| left; split; [reflexivity | eexists; split; [reflexivity | discriminate]]].
  destruct (ChangeRequestStatus_eqb_spec (ChangeRequest.status cr) PENDING) as [Hpending | _];
    cbn [negb];
    [| left; split; [reflexivity | eexists; split; [reflexivity | discriminate]]].
  pose proof (findChangeRequest_id _ _ _ Hcr) as Hcrid.
  assert (Hcr' : findChangeRequest db (ChangeRequest.id cr) = Some cr) by now rewrite Hcrid.
  destruct (rejectTransaction_run fault db actor cr Hcr') as (dbf & Happlied & ->).
  destruct (match fault with Some n => Nat.ltb n 2 | None => false end) eqn:Hfault.
  - left. split; [reflexivity | eexists; split; [reflexivity | discriminate]].
  - right. exists actor, cr. cbn [fst snd]. rewrite Hcrid in Happlied.
    split; [| split; [| split; [reflexivity | exact Happlied]]].
    + unfold rejectable. repeat split; try assumption. now exists session, student.
    + destruct fault as [n |]; [| exact I]. apply Nat.ltb_ge in Hfault. exact Hfault.
Qed.

Lemma reject_run db userId id actor cr :
  rejectable db userId id actor cr ->
  snd (rejectChangeRequest None db userId id) = inr (markRejected (User.id actor) cr) /\
  rejectionApplied db (fst (rejectChangeRequest None db userId id)) id actor.
Proof.
  intros (Hid & Hactor & Hcr & (session & student & Hsession & Hstudent & Horg) & Hpending).
  pose proof (findChangeRequest_id _ _ _ Hcr) as Hcrid.
  assert (Hcr' : findChangeRequest db (ChangeRequest.id cr) = Some cr) by now rewrite Hcrid.
  destruct (rejectTransaction_run None db actor cr Hcr') as (dbf & Happlied & Hrun).
  unfold rejectChangeRequest.
  rewrite Hid, Hactor, Hcr, Hsession, Hstudent, Horg, String.eqb_refl, Hpending, Hrun.
  cbn. rewrite Hcrid in Happlied. now split.
Qed.

(** X10.  A rejection is atomic: either the reply carries the change
    request marked [REJECTED] by the deciding administrator, the store holds
    that row and the audit entry and the sessions are untouched, or the
    store is exactly as before and the reply is an error.  When the request
    is rejectable and no statement fails, the rejection succeeds. *)
Theorem reject_atomic fault db userId id :
  let db' := fst (rejectChangeRequest fault db userId id) in
  let reply := snd (rejectChangeRequest fault db userId id) in
  ((exists actor cr,
      rejectable db userId id actor cr /\
      reply = inr (markRejected (User.id actor) cr) /\
      findChangeRequest db' id = Some (markRejected (User.id actor) cr) /\
      rejectionApplied db db' id actor)
   \/ (db' = db /\ exists r, reply = inl r /\ statusCode r <> 200)) /\
  (forall actor cr, rejectable db userId id actor cr -> fault = None ->
     reply = inr (markRejected (User.id actor) cr)).
Proof.
  intros db' reply. split.
  - destruct (reject_outcome fault db userId id)
      as [Hsame | (actor & cr & Hok & _ & Hreply & Happlied)];
      fold db' reply in Hsame || fold db' reply in Hreply, Happlied.
    + now right.
    + left. exists actor, cr. split; [exact Hok |]. split; [exact Hreply |].
      split; [| exact Happlied].
      destruct Hok as (_ & _ & Hcr & _). destruct Happlied as (Hcrs & _).
      unfold findChangeRequest. rewrite Hcrs. now apply find_updateChangeRequestRows.
  - intros actor cr Hok ->. now destruct (reject_run db userId id actor cr Hok).
Qed.

Lemma reject_atomic_witness :
  let db := Examples.mkDb [Examples.mkSession "s1" (Examples.jan1 10) (Examples.jan1 11) SCHEDULED]
              [Examples.pendingCancel "cr1" "s1"] [] in
  snd (rejectChangeRequest None db "admin1" "cr1")
  = inr (markRejected "admin1" (Examples.pendingCancel "cr1" "s1")) /\
  sessions (fst (rejectChangeRequest None db "admin1" "cr1")) = sessions db.
Proof.
  cbv zeta. split; [| reflexivity].
  refine (proj2 (reject_atomic None _ "admin1" "cr1") Examples.admin1 _ _ eq_refl).
  unfold rejectable. repeat split. eexists. eexists. repeat split.
Defined.

Lemma approvalMutation_studentId cr mutation :
  approvalMutation cr = Some mutation ->
  forall x, Session.studentId (mutation x) = Session.studentId x.
Proof.
  unfold approvalMutation.
  destruct (ChangeRequest.type cr); [intros [= <-]; reflexivity |].
  destruct (ChangeRequest.proposedStartAtUtc cr); [| discriminate].
  destruct (ChangeRequest.proposedEndAtUtc cr); [| discriminate].
  destruct (ChangeRequest.proposedTimeZone cr) as [zone |]; [| discriminate].
  destruct (nonEmpty zone); [intros [= <-]; reflexivity | discriminate].
Qed.

(** What a decision leaves in the store: the request, no longer pending,
    and the session with its student. *)
Lemma decides_decided db userId id db1 :
  decides db userId id db1 ->
  nonEmpty id = true /\ users db1 = users db /\
  exists actor cr' session' student,
    findUser db userId = Some actor /\
    findChangeRequest db1 id = Some cr' /\ ChangeRequest.status cr' <> PENDING /\
    findSession db1 (ChangeRequest.sessionId cr') = Some session' /\
    findUser db (Session.studentId session') = Some student /\
    User.orgId student = User.orgId actor.
Proof.
  intros [(fault & cr1 & s1 & Hrun) | (fault & cr1 & Hrun)].
  - pose proof (approve_outcome fault db userId id) as Hout. cbv zeta in Hout.
    rewrite Hrun in Hout. cbn [fst snd] in Hout.
    destruct Hout as [[_ Hcode] | (actor & cr & session & mutation & Hok & Hmut & _ & Happlied)];
      [now cbn in Hcode |].
    destruct Hok as (Hid & Hactor & Hcr & Hsession & (student & Hstudent & Horg) & _ & _).
    destruct (approvalApplied_lookup db db1 id (User.id actor) cr session mutation
                Happlied (approvalMutation_id cr mutation Hmut) Hcr Hsession)
      as [Hcr' Hsession'].
    split; [exact Hid |]. split; [exact (proj1 (proj2 (proj2 Happlied))) |].
    exists actor, (markApproved (User.id actor) cr), (mutation session), student.
    cbn [ChangeRequest.status ChangeRequest.sessionId markApproved].
    rewrite (approvalMutation_studentId cr mutation Hmut).
    repeat split; try assumption. discriminate.
  - pose proof (reject_outcome fault db userId id) as Hout. cbv zeta in Hout.
    rewrite Hrun in Hout. cbn [fst snd] in Hout.
    destruct Hout as [[_ (r & Hr & _)] | (actor & cr & Hok & _ & _ & Happlied)];
      [discriminate |].
    destruct Hok as (Hid & Hactor & Hcr & (session & student & Hsession & Hstudent & Horg) & _).
    destruct Happlied as (Hcrs & _ & Hsessions & Husers & _).
    split; [exact Hid |]. split; [exact Husers |].
    exists actor, (markRejected (User.id actor) cr), session, student.
    cbn [ChangeRequest.status ChangeRequest.sessionId markRejected].
    unfold findChangeRequest, findSession. rewrite Hcrs, Hsessions.
    repeat split; try assumption.
    + now apply find_updateChangeRequestRows.
    + discriminate.
Qed.

(** X11.  A change request is decided once.  After a successful approval or
    rejection of the request, every later approval or rejection of it, by
    anyone and whether or not a statement fails, writes nothing and replies
    with an error; for the same administrator the reply is the 409 "Change
    request is not pending". *)
Theorem decided_once db userId id db1 :
  decides db userId id db1 ->
  forall fault userId',
    fst (approveChangeRequest fault db1 userId' id) = db1 /\
    statusCode (snd (approveChangeRequest fault db1 userId' id)) <> 200 /\
    fst (rejectChangeRequest fault db1 userId' id) = db1 /\
    (exists r, snd (rejectChangeRequest fault db1 userId' id) = inl r /\ statusCode r <> 200) /\
    (userId' = userId ->
       snd (approveChangeRequest fault db1 userId' id)
       = message 409 "Change request is not pending" /\
       snd (rejectChangeRequest fault db1 userId' id)
       = inl (message 409 "Change request is not pending")).
Proof.
  intros Hdec fault userId'.
  destruct (decides_decided db userId id db1 Hdec)
    as (Hid & Husers & actor & cr' & session' & student & Hactor & Hcr' & Hstatus
        & Hsession' & Hstudent & Horg).
  assert (Hfind : forall u, findUser db1 u = findUser db u)
    by (intros u; unfold findUser; now rewrite Husers).
  assert (Hnp : ChangeRequestStatus_eqb (ChangeRequest.status cr') PENDING = false)
    by (destruct (ChangeRequestStatus_eqb_spec (ChangeRequest.status cr') PENDING);
        [contradiction | reflexivity]).
  unfold approveChangeRequest, rejectChangeRequest.
  rewrite Hid, Hcr', Hsession', !Hfind, Hstudent, Hnp. cbn [negb].
  destruct (findUser db userId') as [actor' |] eqn:Hactor'.
  - destruct (String.eqb (User.orgId student) (User.orgId actor')) eqn:Horg'; cbn [negb fst snd].
    + split; [reflexivity |]. split; [discriminate |]. split; [reflexivity |].
      split; [eexists; split; [reflexivity | discriminate] |].
      intros _. split; reflexivity.
    + split; [reflexivity |]. split; [discriminate |]. split; [reflexivity |].
      split; [eexists; split; [reflexivity | discriminate] |].
      intros ->. exfalso. rewrite Hactor in Hactor'. injection Hactor' as <-.
      rewrite Horg, String.eqb_refl in Horg'. discriminate.
  - cbn [fst snd].
    split; [reflexivity |]. split; [discriminate |]. split; [reflexivity |].
    split; [eexists; split; [reflexivity | discriminate] |].
    intros ->. congruence.
Qed.

Lemma decided_once_witness :
  let db := Examples.mkDb [Examples.mkSession "s1" (Examples.jan1 10) (Examples.jan1 11) SCHEDULED]
              [Examples.pendingCancel "cr1" "s1"] [] in
  let db1 := fst (rejectChangeRequest None db "admin1" "cr1") in
  approveChangeRequest None db1 "admin1" "cr1"
  = (db1, message 409 "Change request is not pending").
Proof.
  cbv zeta.
  set (db := Examples.mkDb _ _ _).
  set (db1 := fst (rejectChangeRequest None db "admin1" "cr1")).
  assert (Hdec : decides db "admin1" "cr1" db1).
  { right. exists None. eexists. reflexivity. }
  destruct (decided_once db "admin1" "cr1" db1 Hdec None "admin1")
    as (Hdb & _ & _ & _ & Hsame).
  destruct (Hsame eq_refl) as [Hreply _].
  rewrite (surjective_pairing (approveChangeRequest None db1 "admin1" "cr1")).
  now rewrite Hdb, Hreply.
Defined.

End RejectionFacts.

(* ===================================================================== *)
(** * Cancellation, creation and editing of sessions; hours and rates *)
(* ===================================================================== *)

Module AdminMutationFacts.
Import Prisma Http AdminRoutes Spec PrismaFacts AdminMutations.

(** ** [DELETE /sessions/:id] *)

Lemma find_inOrg_id db actor id x : findInOrg db actor id = Some x -> Session.id x = id.
Proof.
  unfold findInOrg. intros H. apply find_some in H. destruct H as [_ H].
  apply andb_true_iff in H. now apply String.eqb_eq.
Qed.

Lemma find_inOrg_findSession db actor id x :
  findInOrg db actor id = Some x -> exists y, findSession db id = Some y.
Proof.
  unfold findInOrg, findSession. intros H. apply find_some in H. destruct H as [Hin H].
  apply andb_true_iff in H. destruct H as [H _].
  destruct (find (fun x0 => String.eqb (Session.id x0) id) (sessions db)) as [y |] eqn:E;
    [now exists y |].
  now rewrite (find_none _ _ E x Hin) in H.
Qed.

(** The two outcomes of [DELETE /sessions/:id] when every statement succeeds. *)
Lemma deleteSession_cases db userId id :
  let db' := fst (deleteSession None db userId id) in
  let reply := snd (deleteSession None db userId id) in
  (exists actor existing,
     reply = ok /\
     findUser db userId = Some actor /\ findInOrg db actor id = Some existing /\
     Session.status existing <> COMPLETED /\
     sessions db'
     = (if SessionStatus_eqb (Session.status existing) CANCELLED then sessions db
        else updateSessionRows id markCancelled (sessions db)) /\
     auditLogs db' = auditLogs db ++ [cancelAudit actor id] /\
     users db' = users db /\ teacherStudentRates db' = teacherStudentRates db /\
     changeRequests db' = changeRequests db /\
     hourLedgerEntries db' = hourLedgerEntries db)
  \/ (db' = db /\ statusCode reply <> 200).
Proof.
  cbv zeta. unfold deleteSession.
  destruct (nonEmpty id) eqn:Hid; cbn [negb]; [| right; split; [reflexivity | discriminate]].
  destruct (findUser db userId) as [actor |] eqn:Hactor;
    [| right; split; [reflexivity | discriminate]].
  fold (findInOrg db actor id).
  destruct (findInOrg db actor id) as [existing |] eqn:Hfind;
    [| right; split; [reflexivity | discriminate]].
  pose proof (find_inOrg_id _ _ _ _ Hfind) as Heid.
  destruct (SessionStatus_eqb_spec (Session.status existing) COMPLETED) as [Hc | Hc];
    [right; split; [reflexivity | discriminate] |].
  left. exists actor, existing.
  destruct (SessionStatus_eqb_spec (Session.status existing) CANCELLED) as [Hx | Hx];
    cbn [negb].
  - cbn [stmt auditLog_create fst snd]. rewrite Heid. repeat split; assumption.
  - destruct (find_inOrg_findSession _ _ _ _ Hfind) as [y Hy].
    unfold stmt, session_update. rewrite Heid, Hy.
    cbn [auditLog_create fst snd createAuditLog withSessions auditLogs sessions users
         teacherStudentRates changeRequests hourLedgerEntries].
    repeat split; assumption.
Qed.

(** X12.  [DELETE /sessions/:id], when no statement fails, either replies
    [{ ok: true }] for a session of the administrator's organisation that is
    not [COMPLETED] - the rows of the id are then [CANCELLED] (left as they
    were if already cancelled; rows are rewritten, never removed), one audit
    entry is appended and no other table changes - or replies with an error
    and writes nothing. *)
Theorem deleteSession_outcome db userId id :
  let db' := fst (deleteSession None db userId id) in
  let reply := snd (deleteSession None db userId id) in
  (exists actor existing,
     reply = ok /\
     findUser db userId = Some actor /\ findInOrg db actor id = Some existing /\
     Session.status existing <> COMPLETED /\
     sessions db'
     = (if SessionStatus_eqb (Session.status existing) CANCELLED then sessions db
        else updateSessionRows id markCancelled (sessions db)) /\
     auditLogs db' = auditLogs db ++ [cancelAudit actor id] /\
     users db' = users db /\ teacherStudentRates db' = teacherStudentRates db /\
     changeRequests db' = changeRequests db /\
     hourLedgerEntries db' = hourLedgerEntries db)
  \/ (db' = db /\ statusCode reply <> 200).
Proof. exact (deleteSession_cases db userId id). Qed.

(** After a cancellation no row of the id is [SCHEDULED]. *)
Lemma deleteSession_cancelled db userId id db' :
  NoDup (map Session.id (sessions db)) ->
  deleteSession None db userId id = (db', ok) ->
  forall x, In x (sessions db') -> Session.id x = id -> Session.status x = CANCELLED.
Proof.
  intros Hnd Hrun x Hx Hxid.
  pose proof (deleteSession_cases db userId id) as Hout. cbv zeta in Hout.
  rewrite Hrun in Hout. cbn [fst snd] in Hout.
  destruct Hout as [(actor & existing & _ & _ & Hfind & _ & Hsessions & _) | [_ Hcode]];
    [| now cbn in Hcode].
  rewrite Hsessions in Hx.
  destruct (SessionStatus_eqb_spec (Session.status existing) CANCELLED) as [Hc | Hc].
  - pose proof (find_inOrg_id _ _ _ _ Hfind) as Heid.
    unfold findInOrg in Hfind. apply find_some in Hfind. destruct Hfind as [Hin _].
    assert (x = existing) by (apply (NoDup_id_eq (sessions db)); congruence).
    now subst x.
  - unfold updateSessionRows in Hx. apply in_map_iff in Hx. destruct Hx as (y & Hy & _).
    destruct (String.eqb_spec (Session.id y) id) as [_ | Hne]; [now subst x |].
    subst x. contradiction.
Qed.

(** A time conflict names a [SCHEDULED] session of the store. *)
Lemma postSessions_timeConflict db userId body newId cid :
  snd (postSessions db userId body newId) = timeConflict cid ->
  exists x, In x (sessions db) /\ Session.id x = cid /\ Session.status x = SCHEDULED.
Proof.
  unfold postSessions.
  destruct (createSessionBodySchema body); cbn [negb]; [| discriminate].
  destruct (findUser db userId) as [actor |]; [| discriminate].
  destruct (findUser db (AdminRoutes.teacherId body)) as [teacher |]; [| discriminate].
  destruct (_ || _); [discriminate |].
  destruct (findUser db (AdminRoutes.studentId body)) as [student |]; [| discriminate].
  destruct (_ || _); [discriminate |].
  destruct (findRate db _ _ _) as [rate |]; [| discriminate].
  destruct (find _ (sessions db)) as [conflict |] eqn:Hfind; [| discriminate].
  cbn [snd]. intros [= <-]. apply find_some in Hfind. destruct Hfind as [Hin Hc].
  exists conflict. split; [exact Hin |]. split; [reflexivity |].
  unfold conflictsWith in Hc. rewrite !andb_true_iff in Hc.
  destruct Hc as [[[_ Hs] _] _].
  now destruct (SessionStatus_eqb_spec (Session.status conflict) SCHEDULED).
Qed.

(** X13.  A cancelled session frees its slot: after a successful
    [DELETE /sessions/:id], no later [POST /sessions] is refused with a time
    conflict that names the cancelled session. *)
Theorem deleteSession_frees_the_slot db userId id db' :
  NoDup (map Session.id (sessions db)) ->
  deleteSession None db userId id = (db', ok) ->
  forall userId' body newId,
    snd (postSessions db' userId' body newId) <> timeConflict id.
Proof.
  intros Hnd Hrun userId' body newId Hconflict.
  apply postSessions_timeConflict in Hconflict.
  destruct Hconflict as (x & Hx & Hxid & Hs).
  rewrite (deleteSession_cancelled db userId id db' Hnd Hrun x Hx Hxid) in Hs.
  discriminate.
Qed.

Lemma deleteSession_frees_the_slot_witness :
  let db := Examples.mkDb [Examples.mkSession "s1" (Examples.jan1 10) (Examples.jan1 11) SCHEDULED]
              [] [] in
  snd (postSessions db "admin1" (Examples.mkBody (Examples.jan1 10) (Examples.jan1 11)) "s2")
  = timeConflict "s1" /\
  snd (postSessions (fst (deleteSession None db "admin1" "s1")) "admin1"
         (Examples.mkBody (Examples.jan1 10) (Examples.jan1 11)) "s2")
  <> timeConflict "s1".
Proof.
  cbv zeta. split; [reflexivity |].
  apply (deleteSession_frees_the_slot
           (Examples.mkDb [Examples.mkSession "s1" (Examples.jan1 10) (Examples.jan1 11)
                             SCHEDULED] [] []) "admin1" "s1").
  - cbn. constructor; [intros [] | constructor].
  - reflexivity.
Defined.

(** X14.  The two writes of [DELETE /sessions/:id] are not one transaction:
    when the audit entry cannot be written for a [SCHEDULED] session, the
    handler fails with a 500 while the session is already [CANCELLED] and
    no audit entry exists. *)
Theorem deleteSession_audit_failure db userId id actor existing :
  nonEmpty id = true -> findUser db userId = Some actor ->
  findInOrg db actor id = Some existing -> Session.status existing = SCHEDULED ->
  let db' := fst (deleteSession (Some 1%nat) db userId id) in
  snd (deleteSession (Some 1%nat) db userId id) = internalError /\
  sessions db' = updateSessionRows id markCancelled (sessions db) /\
  auditLogs db' = auditLogs db /\
  (forall x, In x (sessions db') -> Session.id x = id -> Session.status x = CANCELLED).
Proof.
  intros Hid Hactor Hfind Hs. cbv zeta. unfold deleteSession.
  rewrite Hid, Hactor. cbn [negb]. fold (findInOrg db actor id). rewrite Hfind, Hs.
  cbn [SessionStatus_eqb negb].
  pose proof (find_inOrg_id _ _ _ _ Hfind) as Heid.
  destruct (find_inOrg_findSession _ _ _ _ Hfind) as [y Hy].
  unfold stmt, session_update. rewrite Heid, Hy. cbn [Nat.eqb fst snd sessions withSessions auditLogs].
  repeat split.
  intros x Hx Hxid. unfold updateSessionRows in Hx. apply in_map_iff in Hx.
  destruct Hx as (z & Hz & _).
  destruct (String.eqb_spec (Session.id z) id) as [_ | Hne]; [now subst x |].
  subst x. contradiction.
Qed.

Lemma deleteSession_audit_failure_witness :
  let db := Examples.mkDb [Examples.mkSession "s1" (Examples.jan1 10) (Examples.jan1 11) SCHEDULED]
              [] [] in
  snd (deleteSession (Some 1%nat) db "admin1" "s1") = internalError /\
  sessions (fst (deleteSession (Some 1%nat) db "admin1" "s1"))
  = [Examples.mkSession "s1" (Examples.jan1 10) (Examples.jan1 11) CANCELLED].
Proof.
  cbv zeta.
  destruct (deleteSession_audit_failure
              (Examples.mkDb [Examples.mkSession "s1" (Examples.jan1 10) (Examples.jan1 11)
                                SCHEDULED] [] [])
              "admin1" "s1" Examples.admin1
              (Examples.mkSession "s1" (Examples.jan1 10) (Examples.jan1 11) SCHEDULED)
              eq_refl eq_refl eq_refl eq_refl) as (Hreply & Hsessions & _).
  split; [exact Hreply | exact Hsessions].
Defined.

(** ** [POST /sessions] *)

(** The two outcomes of [POST /sessions]. *)
Lemma postSessions_cases db userId body newId :
  let db' := fst (postSessions db userId body newId) in
  let reply := snd (postSessions db userId body newId) in
  (exists actor rate,
     reply = created newId /\
     findUser db userId = Some actor /\
     findRate db (AdminRoutes.teacherId body) (AdminRoutes.studentId body)
       (AdminRoutes.subject body) = Some rate /\
     sessions db' = sessions db ++ [createdSession actor body rate newId] /\
     auditLogs db'
     = auditLogs db ++ [{| AuditLog.orgId := User.orgId actor;
                           AuditLog.actorUserId := User.id actor;
                           AuditLog.action := "ADMIN_CREATE_SESSION";
                           AuditLog.entityType := "Session";
                           AuditLog.entityId := newId |}] /\
     users db' = users db /\ teacherStudentRates db' = teacherStudentRates db /\
     changeRequests db' = changeRequests db /\
     hourLedgerEntries db' = hourLedgerEntries db)
  \/ (db' = db /\ statusCode reply <> 201).
Proof.
  cbv zeta. unfold postSessions.
  destruct (createSessionBodySchema body); cbn [negb];
    [| right; split; [reflexivity | discriminate]].
  destruct (findUser db userId) as [actor |] eqn:Hactor;
    [| right; split; [reflexivity | discriminate]].
  destruct (findUser db (AdminRoutes.teacherId body)) as [teacher |] eqn:Hteacher;
    [| right; split; [reflexivity | discriminate]].
  destruct (_ || _); [right; split; [reflexivity | discriminate] |].
  destruct (findUser db (AdminRoutes.studentId body)) as [student |] eqn:Hstudent;
    [| right; split; [reflexivity | discriminate]].
  destruct (_ || _); [right; split; [reflexivity | discriminate] |].
  rewrite (findUser_id _ _ _ Hteacher), (findUser_id _ _ _ Hstudent).
  destruct (findRate db _ _ _) as [rate |] eqn:Hrate;
    [| right; split; [reflexivity | discriminate]].
  destruct (find _ (sessions db)) as [conflict |];
    [right; split; [reflexivity | discriminate] |].
  left. exists actor, rate. cbn [fst snd Session.id]. repeat split.
Qed.

(** The handler on a store that may fail, from the handler on a store that
    does not. *)
Lemma postSessionsFallible_run fault db userId body newId :
  postSessionsFallible fault db userId body newId
  = match snd (postSessions db userId body newId), fault with
    | created _, Some 0%nat => (db, internalError)
    | created _, Some 1%nat =>
        (withSessions db (sessions (fst (postSessions db userId body newId))), internalError)
    | _, _ => postSessions db userId body newId
    end.
Proof.
  unfold postSessionsFallible, postSessions.
  destruct (createSessionBodySchema body); cbn [negb]; [| reflexivity].
  destruct (findUser db userId) as [actor |]; [| reflexivity].
  destruct (findUser db (AdminRoutes.teacherId body)) as [teacher |]; [| reflexivity].
  destruct (_ || _); [reflexivity |].
  destruct (findUser db (AdminRoutes.studentId body)) as [student |]; [| reflexivity].
  destruct (_ || _); [reflexivity |].
  destruct (findRate db _ _ _) as [rate |]; [| reflexivity].
  destruct (find _ (sessions db)) as [conflict |]; [reflexivity |].
  destruct fault as [[| [| n]] |]; reflexivity.
Qed.

(** X15.  [POST /sessions] has three outcomes.  Nothing is written and the
    reply is not a 201; or exactly one session row is appended, [SCHEDULED],
    with the body's fields, the rate and currency of the teacher-student
    rate as snapshots and the administrator as creator, users, rates, change
    requests and ledger unchanged.  In that case the reply is 201 with the
    new id and one audit entry is appended, unless the store fails at the
    audit entry: the two writes are not one transaction, and the handler
    then fails with a 500 while the session row stays and no audit entry
    exists.  This happens whenever the request would succeed and the audit
    write fails. *)
Theorem postSessions_outcome fault db userId body newId :
  let db' := fst (postSessionsFallible fault db userId body newId) in
  let reply := snd (postSessionsFallible fault db userId body newId) in
  ((db' = db /\ statusCode reply <> 201)
   \/ (exists actor rate,
         findUser db userId = Some actor /\
         findRate db (AdminRoutes.teacherId body) (AdminRoutes.studentId body)
           (AdminRoutes.subject body) = Some rate /\
         sessions db' = sessions db ++ [createdSession actor body rate newId] /\
         users db' = users db /\ teacherStudentRates db' = teacherStudentRates db /\
         changeRequests db' = changeRequests db /\
         hourLedgerEntries db' = hourLedgerEntries db /\
         ((reply = created newId /\
           auditLogs db' = auditLogs db ++ [auditEntry actor "ADMIN_CREATE_SESSION" "Session" newId])
          \/ (fault = Some 1%nat /\ reply = internalError /\
              auditLogs db' = auditLogs db)))) /\
  (fault = Some 1%nat ->
   statusCode (snd (postSessionsFallible None db userId body newId)) = 201 ->
   reply = internalError /\
   exists session, sessions db' = sessions db ++ [session] /\ Session.id session = newId).
Proof.
  cbv zeta.
  assert (Hnone : postSessionsFallible None db userId body newId
                  = postSessions db userId body newId).
  { rewrite postSessionsFallible_run. now destruct (snd (postSessions db userId body newId)). }
  rewrite Hnone, postSessionsFallible_run.
  destruct (postSessions_cases db userId body newId)
    as [(actor & rate & Hreply & Hactor & Hrate & Hsessions & Haudit & Husers & Hrates
         & Hcrs & Hledger) | [Hsame Hcode]]; cbv zeta in *.
  - rewrite Hreply. split.
    + destruct fault as [[| [| n]] |]; cbn [fst snd].
      * left. split; [reflexivity | discriminate].
      * right. exists actor, rate. cbn [sessions users teacherStudentRates changeRequests
          hourLedgerEntries auditLogs withSessions].
        repeat (split; [first [assumption | reflexivity] |]).
        right. repeat split.
      * right. exists actor, rate. repeat (split; [assumption |]).
        left. split; [exact Hreply | exact Haudit].
      * right. exists actor, rate. repeat (split; [assumption |]).
        left. split; [exact Hreply | exact Haudit].
    + intros -> _. cbn [fst snd sessions withSessions]. split; [reflexivity |].
      exists (createdSession actor body rate newId). now split.
  - assert (Hrun : match snd (postSessions db userId body newId), fault with
                   | created _, Some 0%nat => (db, internalError)
                   | created _, Some 1%nat =>
                       (withSessions db (sessions (fst (postSessions db userId body newId))),
                        internalError)
                   | _, _ => postSessions db userId body newId
                   end = postSessions db userId body newId).
    { destruct (snd (postSessions db userId body newId)); try reflexivity.
      now elim Hcode. }
    rewrite Hrun. split.
    + left. now split.
    + intros _ H. now elim Hcode.
Qed.

(** X15, witness: the audit entry of a new session cannot be written; the
    reply is a 500 and the session row is stored. *)
Lemma postSessions_outcome_witness :
  let db := Examples.mkDb [] [] [] in
  let body := Examples.mkBody (Examples.jan1 10) (Examples.jan1 11) in
  snd (postSessionsFallible (Some 1%nat) db "admin1" body "s9") = internalError /\
  exists session,
    sessions (fst (postSessionsFallible (Some 1%nat) db "admin1" body "s9"))
    = sessions db ++ [session] /\ Session.id session = "s9".
Proof.
  cbv zeta.
  apply (proj2 (postSessions_outcome (Some 1%nat) (Examples.mkDb [] [] []) "admin1"
                  (Examples.mkBody (Examples.jan1 10) (Examples.jan1 11)) "s9"));
    reflexivity.
Defined.

(** ** [PATCH /sessions/:id] *)

Lemma conflictsWithOther_iff existing nextStart nextEnd x :
  conflictsWithOther existing nextStart nextEnd x = true <->
  Session.id x <> Session.id existing /\
  Session.teacherId x = Session.teacherId existing /\
  Session.status x = SCHEDULED /\ overlaps x nextStart nextEnd.
Proof.
  unfold conflictsWithOther. rewrite andb_true_iff, negb_true_iff.
  rewrite SessionFacts.conflictsWith_iff.
  destruct (String.eqb_spec (Session.id x) (Session.id existing)); split;
    intros H; try tauto; destruct H as [H _]; congruence.
Qed.

(** The run of an edit that reaches the conflict check. *)
Lemma patchSession_reached db userId id body actor existing :
  reachesPatchConflictCheck db userId id body actor existing ->
  patchSession db userId id body
  = match find (conflictsWithOther existing
                  (orElse (newStartAtUtc body) (Session.startAtUtc existing))
                  (orElse (newEndAtUtc body) (Session.endAtUtc existing))) (sessions db) with
    | Some conflict => (db, timeConflict (Session.id conflict))
    | None =>
        match patchRate db body existing with
        | None => (db, message 404 "Rate not found")
        | Some rate =>
            (createAuditLog
               (withSessions db (updateSessionRows id (patched body existing rate)
                                   (sessions db)))
               {| AuditLog.orgId := User.orgId actor;
                  AuditLog.actorUserId := User.id actor;
                  AuditLog.action := "ADMIN_UPDATE_SESSION";
                  AuditLog.entityType := "Session";
                  AuditLog.entityId := id |}, ok)
        end
    end.
Proof.
  intros (Hid & Hschema & Hactor & Hfind & Hs & Hnext).
  pose proof (find_inOrg_id _ _ _ _ Hfind) as Heid.
  unfold patchSession. rewrite Hid, Hschema, Hactor. cbn [negb].
  fold (findInOrg db actor id). rewrite Hfind, Hs. cbn [SessionStatus_eqb negb].
  assert (Hstatus : negb (SessionStatus_eqb (orElse (newStatus body) SCHEDULED) SCHEDULED)
                    && negb (SessionStatus_eqb (orElse (newStatus body) SCHEDULED) CANCELLED)
                    = false).
  { destruct (newStatus body) as [[| |] |]; try reflexivity. congruence. }
  rewrite Hstatus.
  destruct (find _ (sessions db)); [reflexivity |].
  unfold patchRate. cbv zeta.
  destruct (negb (Subject_eqb _ _)).
  - destruct (findRate db _ _ _); [| reflexivity].
    unfold patched. rewrite Heid, Hs. reflexivity.
  - unfold patched. rewrite Heid, Hs. reflexivity.
Qed.

(** X16.  For a [PATCH /sessions/:id] that passes validation, finds a
    [SCHEDULED] session of the administrator's organisation and does not ask
    for [COMPLETED]: the reply is a time conflict exactly when another
    [SCHEDULED] session of the same teacher overlaps the effective interval
    (the body's times, the stored ones where the body has none); the
    conflict names such a session and nothing is written.  The check runs
    whatever else the patch changes, also when it cancels the session. *)
Theorem patchSession_conflict_iff db userId id body actor existing :
  reachesPatchConflictCheck db userId id body actor existing ->
  let nextStart := orElse (newStartAtUtc body) (Session.startAtUtc existing) in
  let nextEnd := orElse (newEndAtUtc body) (Session.endAtUtc existing) in
  let colliding x :=
    In x (sessions db) /\ Session.id x <> id /\
    Session.teacherId x = Session.teacherId existing /\
    Session.status x = SCHEDULED /\ overlaps x nextStart nextEnd in
  let db' := fst (patchSession db userId id body) in
  let reply := snd (patchSession db userId id body) in
  ((exists x, colliding x) <-> Conflict reply) /\
  (Conflict reply ->
     db' = db /\ exists x, colliding x /\ reply = timeConflict (Session.id x)).
Proof.
  intros Hreach nextStart nextEnd colliding db' reply. subst db' reply.
  rewrite (patchSession_reached db userId id body actor existing Hreach).
  destruct Hreach as (_ & _ & _ & Hfind & _ & _).
  pose proof (find_inOrg_id _ _ _ _ Hfind) as Heid.
  fold nextStart nextEnd.
  destruct (find (conflictsWithOther existing nextStart nextEnd) (sessions db))
    as [conflict |] eqn:Hc.
  - apply find_some in Hc. destruct Hc as [Hin Hc].
    apply conflictsWithOther_iff in Hc. rewrite Heid in Hc.
    assert (Hcol : colliding conflict) by (unfold colliding; tauto).
    cbn [fst snd]. split.
    + split; [reflexivity | intros _; now exists conflict].
    + intros _. split; [reflexivity |]. now exists conflict.
  - assert (Hnone : ~ exists x, colliding x).
    { intros [x (Hin & Hne & Ht & Hs & Ho)].
      pose proof (find_none _ _ Hc x Hin) as Hx.
      assert (conflictsWithOther existing nextStart nextEnd x = true)
        by (apply conflictsWithOther_iff; rewrite Heid; tauto).
      congruence. }
    assert (Hno : ~ Conflict (snd (match patchRate db body existing with
                                   | None => (db, message 404 "Rate not found")
                                   | Some rate =>
                                       (createAuditLog
                                          (withSessions db
                                             (updateSessionRows id (patched body existing rate)
                                                (sessions db)))
                                          {| AuditLog.orgId := User.orgId actor;
                                             AuditLog.actorUserId := User.id actor;
                                             AuditLog.action := "ADMIN_UPDATE_SESSION";
                                             AuditLog.entityType := "Session";
                                             AuditLog.entityId := id |}, ok)
                                   end)))
      by (destruct (patchRate db body existing); discriminate).
    split; [split; [intros H; now destruct Hnone | intros H; now destruct Hno] |].
    intros H. now destruct Hno.
Qed.

Lemma patchSession_conflict_iff_witness :
  let db := Examples.mkDb
              [Examples.mkSession "s1" (Examples.jan1 10) (Examples.jan1 11) SCHEDULED;
               Examples.mkSession "s2" (Examples.jan1 12) (Examples.jan1 13) SCHEDULED] [] [] in
  let body := {| newSubject := None; newStartAtUtc := None; newEndAtUtc := None;
                 newClassTimeZone := None; newConsumesUnits := None;
                 newStatus := Some CANCELLED |} in
  let clash := {| newSubject := None; newStartAtUtc := Some (Examples.jan1 12);
                  newEndAtUtc := Some (Examples.jan1 13);
                  newClassTimeZone := None; newConsumesUnits := None;
                  newStatus := Some CANCELLED |} in
  ~ Conflict (snd (patchSession db "admin1" "s1" body)) /\
  Conflict (snd (patchSession db "admin1" "s1" clash)).
Proof.
  cbv zeta. split.
  - intros H. discriminate H.
  - refine (proj1 (proj1 (patchSession_conflict_iff _ "admin1" "s1" _ Examples.admin1
                            (Examples.mkSession "s1" (Examples.jan1 10) (Examples.jan1 11)
                               SCHEDULED) _)) _).
    + unfold reachesPatchConflictCheck. repeat split. discriminate.
    + exists (Examples.mkSession "s2" (Examples.jan1 12) (Examples.jan1 13) SCHEDULED).
      cbn. repeat split; try discriminate; try lia. right. now left.
Defined.

(** The two outcomes of [PATCH /sessions/:id]. *)
Lemma patchSession_cases db userId id body :
  let db' := fst (patchSession db userId id body) in
  let reply := snd (patchSession db userId id body) in
  (exists actor existing rate,
     reply = ok /\
     reachesPatchConflictCheck db userId id body actor existing /\
     patchRate db body existing = Some rate /\
     sessions db' = updateSessionRows id (patched body existing rate) (sessions db) /\
     (newSubject body = None \/ newSubject body = Some (Session.subject existing) ->
      rate = None) /\
     (forall x, In x (sessions db') -> Session.id x = id ->
        Session.status x = SCHEDULED \/ Session.status x = CANCELLED) /\
     users db' = users db /\ teacherStudentRates db' = teacherStudentRates db /\
     changeRequests db' = changeRequests db /\
     hourLedgerEntries db' = hourLedgerEntries db /\
     auditLogs db' = auditLogs db ++ [auditEntry actor "ADMIN_UPDATE_SESSION" "Session" id])
  \/ (db' = db /\ statusCode reply <> 200).
Proof.
  cbv zeta.
  destruct (nonEmpty id) eqn:Hid;
    [| unfold patchSession; rewrite Hid; right; split; [reflexivity | discriminate]].
  destruct (updateSessionBodySchema body) eqn:Hschema;
    [| unfold patchSession; rewrite Hid, Hschema; right; split; [reflexivity | discriminate]].
  destruct (findUser db userId) as [actor |] eqn:Hactor;
    [| unfold patchSession; rewrite Hid, Hschema, Hactor; right;
       split; [reflexivity | discriminate]].
  destruct (findInOrg db actor id) as [existing |] eqn:Hfind.
  2: { unfold patchSession. rewrite Hid, Hschema, Hactor. cbn [negb].
       fold (findInOrg db actor id). rewrite Hfind. right. split; [reflexivity | discriminate]. }
  destruct (SessionStatus_eqb_spec (Session.status existing) SCHEDULED) as [Hs | Hs].
  2: { unfold patchSession. rewrite Hid, Hschema, Hactor. cbn [negb].
       fold (findInOrg db actor id). rewrite Hfind.
       destruct (SessionStatus_eqb_spec (Session.status existing) SCHEDULED);
         [contradiction |].
       right. split; [reflexivity | discriminate]. }
  destruct (newStatus body) as [[| |] |] eqn:Hnew.
  3: { unfold patchSession. rewrite Hid, Hschema, Hactor. cbn [negb].
       fold (findInOrg db actor id). rewrite Hfind, Hs, Hnew.
       right. split; [reflexivity | discriminate]. }
  all: assert (Hreach : reachesPatchConflictCheck db userId id body actor existing)
         by (unfold reachesPatchConflictCheck; rewrite Hnew; repeat split;
             try assumption; discriminate).
  all: rewrite (patchSession_reached db userId id body actor existing Hreach).
  all: destruct (find _ (sessions db)); [right; split; [reflexivity | discriminate] |].
  all: destruct (patchRate db body existing) as [rate |] eqn:Hrate;
         [| right; split; [reflexivity | discriminate]].
  all: left; exists actor, existing, rate; cbn [fst snd sessions createAuditLog withSessions
         users teacherStudentRates changeRequests hourLedgerEntries].
  all: split; [reflexivity |]; split; [exact Hreach |]; split; [exact Hrate |];
       split; [reflexivity |]; split; [| split; [| repeat split]].
  all: try (intros Hsub; unfold patchRate in Hrate; cbv zeta in Hrate;
            assert (Hsame : orElse (newSubject body) (Session.subject existing)
                            = Session.subject existing)
              by (destruct Hsub as [-> | ->]; reflexivity);
            rewrite Hsame in Hrate;
            assert (Hrefl : Subject_eqb (Session.subject existing) (Session.subject existing)
                            = true) by (now destruct (Session.subject existing));
            rewrite Hrefl in Hrate; cbn [negb] in Hrate; congruence).
  all: intros x Hx Hxid; unfold updateSessionRows in Hx; apply in_map_iff in Hx;
       destruct Hx as (y & Hy & _);
       destruct (String.eqb_spec (Session.id y) id) as [_ | Hne];
         [subst x; cbn [patched Session.status]; rewrite Hnew, Hs; cbn [orElse]; tauto
         | subst x; contradiction].
Qed.

(** The handler on a store that may fail, from the handler on a store that
    does not. *)
Lemma patchSessionFallible_run fault db userId id body :
  patchSessionFallible fault db userId id body
  = match snd (patchSession db userId id body), fault with
    | ok, Some 0%nat => (db, internalError)
    | ok, Some 1%nat =>
        (withSessions db (sessions (fst (patchSession db userId id body))), internalError)
    | _, _ => patchSession db userId id body
    end.
Proof.
  unfold patchSessionFallible, patchSession.
  destruct (nonEmpty id); cbn [negb]; [| reflexivity].
  destruct (updateSessionBodySchema body); cbn [negb]; [| reflexivity].
  destruct (findUser db userId) as [actor |]; [| reflexivity].
  fold (findInOrg db actor id).
  destruct (findInOrg db actor id) as [existing |] eqn:Hfind; [| reflexivity].
  destruct (SessionStatus_eqb (Session.status existing) SCHEDULED); cbn [negb];
    [| reflexivity].
  destruct (_ && _); [reflexivity |].
  destruct (find _ (sessions db)) as [conflict |]; [reflexivity |].
  destruct (find_inOrg_findSession _ _ _ _ Hfind) as [y Hy].
  rewrite <- (find_inOrg_id _ _ _ _ Hfind) in Hy.
  destruct (negb (Subject_eqb _ _)); [destruct (findRate db _ _ _); [| reflexivity] |].
  all: unfold stmt, session_update; rewrite Hy.
  all: destruct fault as [[| [| n]] |]; reflexivity.
Qed.

(** X17.  [PATCH /sessions/:id] has three outcomes.  Nothing is written and
    the reply is not a 200; or the rows of the id are rewritten by the
    patch, the rate snapshot is replaced only when the subject changes, the
    session ends [SCHEDULED] or [CANCELLED], and users, rates, change
    requests and ledger are unchanged.  In that case the reply is
    [{ ok: true }] and one audit entry is appended, unless the store fails
    at the audit entry: the two writes are not one transaction, and the
    handler then fails with a 500 while the session is already rewritten and
    no audit entry exists.  This happens whenever the request would succeed
    and the audit write fails. *)
Theorem patchSession_outcome fault db userId id body :
  let db' := fst (patchSessionFallible fault db userId id body) in
  let reply := snd (patchSessionFallible fault db userId id body) in
  ((db' = db /\ statusCode reply <> 200)
   \/ (exists actor existing rate,
         reachesPatchConflictCheck db userId id body actor existing /\
         patchRate db body existing = Some rate /\
         sessions db' = updateSessionRows id (patched body existing rate) (sessions db) /\
         (newSubject body = None \/ newSubject body = Some (Session.subject existing) ->
          rate = None) /\
         (forall x, In x (sessions db') -> Session.id x = id ->
            Session.status x = SCHEDULED \/ Session.status x = CANCELLED) /\
         users db' = users db /\ teacherStudentRates db' = teacherStudentRates db /\
         changeRequests db' = changeRequests db /\
         hourLedgerEntries db' = hourLedgerEntries db /\
         ((reply = ok /\
           auditLogs db' = auditLogs db ++ [auditEntry actor "ADMIN_UPDATE_SESSION" "Session" id])
          \/ (fault = Some 1%nat /\ reply = internalError /\
              auditLogs db' = auditLogs db)))) /\
  (fault = Some 1%nat ->
   statusCode (snd (patchSessionFallible None db userId id body)) = 200 ->
   reply = internalError /\
   exists existing rate,
     sessions db' = updateSessionRows id (patched body existing rate) (sessions db)).
Proof.
  cbv zeta.
  assert (Hnone : patchSessionFallible None db userId id body
                  = patchSession db userId id body).
  { rewrite patchSessionFallible_run. now destruct (snd (patchSession db userId id body)). }
  rewrite Hnone, patchSessionFallible_run.
  destruct (patchSession_cases db userId id body)
    as [(actor & existing & rate & Hreply & Hreach & Hrate & Hsessions & Hsubject & Hstatus
         & Husers & Hrates & Hcrs & Hledger & Haudit) | [Hsame Hcode]]; cbv zeta in *.
  - rewrite Hreply. split.
    + destruct fault as [[| [| n]] |]; cbn [fst snd].
      * left. split; [reflexivity | discriminate].
      * right. exists actor, existing, rate.
        cbn [sessions users teacherStudentRates changeRequests hourLedgerEntries auditLogs
             withSessions].
        repeat (split; [first [assumption | reflexivity] |]).
        right. repeat split.
      * right. exists actor, existing, rate. repeat (split; [assumption |]).
        left. split; [exact Hreply | exact Haudit].
      * right. exists actor, existing, rate. repeat (split; [assumption |]).
        left. split; [exact Hreply | exact Haudit].
    + intros -> _. cbn [fst snd sessions withSessions]. split; [reflexivity |].
      now exists existing, rate.
  - assert (Hrun : match snd (patchSession db userId id body), fault with
                   | ok, Some 0%nat => (db, internalError)
                   | ok, Some 1%nat =>
                       (withSessions db (sessions (fst (patchSession db userId id body))),
                        internalError)
                   | _, _ => patchSession db userId id body
                   end = patchSession db userId id body).
    { destruct (snd (patchSession db userId id body)); try reflexivity.
      now elim Hcode. }
    rewrite Hrun. split.
    + left. now split.
    + intros _ H. now elim Hcode.
Qed.

(** X17, witness: the audit entry of an edit cannot be written; the reply
    is a 500 and the session is already moved. *)
Lemma patchSession_outcome_witness :
  let db := Examples.mkDb
              [Examples.mkSession "s1" (Examples.jan1 10) (Examples.jan1 11) SCHEDULED] [] [] in
  let body := {| newSubject := None; newStartAtUtc := Some (Examples.jan1 12);
                 newEndAtUtc := Some (Examples.jan1 13);
                 newClassTimeZone := None; newConsumesUnits := None;
                 newStatus := None |} in
  snd (patchSessionFallible (Some 1%nat) db "admin1" "s1" body) = internalError /\
  exists existing rate,
    sessions (fst (patchSessionFallible (Some 1%nat) db "admin1" "s1" body))
    = updateSessionRows "s1" (patched body existing rate) (sessions db).
Proof.
  cbv zeta.
  apply (proj2 (patchSession_outcome (Some 1%nat)
                  (Examples.mkDb
                     [Examples.mkSession "s1" (Examples.jan1 10) (Examples.jan1 11) SCHEDULED]
                     [] [])
                  "admin1" "s1"
                  {| newSubject := None; newStartAtUtc := Some (Examples.jan1 12);
                     newEndAtUtc := Some (Examples.jan1 13);
                     newClassTimeZone := None; newConsumesUnits := None;
                     newStatus := None |}));
    reflexivity.
Defined.

(** ** [POST /students/:id/hours] *)

Lemma getHours_app (db db' : Db) (l : list HourLedgerEntry.t) (sid : string) :
  hourLedgerEntries db' = hourLedgerEntries db ++ l ->
  StudentHours.getHours db' sid
  = StudentHours.getHours db sid
    + StudentHours.total
        (map HourLedgerEntry.deltaUnits
           (filter (fun e => String.eqb (HourLedgerEntry.studentId e) sid) l)).
Proof.
  intros H. unfold StudentHours.getHours, StudentHours.entriesOfStudent.
  rewrite !StudentHoursFacts.orZero_sum, H.
  now rewrite filter_app, map_app, StudentHoursFacts.total_app.
Qed.

(** X18.  [POST /students/:id/hours] has three outcomes.  Nothing is
    written and the reply is not a 201; or exactly one ledger row is
    appended for the student, with the body's positive [deltaUnits] and
    reason, never [SESSION_CONSUME] and bound to no session, so that the
    student's remaining units grow by [deltaUnits] and no other student's
    balance changes.  In that case the reply is 201 and one audit entry is
    appended, unless the store fails at the audit entry: the two writes are
    not one transaction, and the handler then fails with a 500 while the
    ledger row stays and no audit entry exists.  This happens whenever the
    request would succeed and the audit write fails. *)
Theorem addHours_outcome fault db userId id body newId :
  let db' := fst (addHours fault db userId id body newId) in
  let reply := snd (addHours fault db userId id body newId) in
  ((db' = db /\ statusCode reply <> 201)
   \/ (exists actor entry,
         findUser db userId = Some actor /\
         hourLedgerEntries db' = hourLedgerEntries db ++ [entry] /\
         HourLedgerEntry.id entry = newId /\
         HourLedgerEntry.studentId entry = id /\
         HourLedgerEntry.deltaUnits entry = deltaUnits body /\ 0 < deltaUnits body /\
         HourLedgerEntry.reason entry = reason body /\
         HourLedgerEntry.reason entry <> SESSION_CONSUME /\
         HourLedgerEntry.sessionId entry = None /\
         StudentHours.getHours db' id = StudentHours.getHours db id + deltaUnits body /\
         (forall other, other <> id ->
            StudentHours.getHours db' other = StudentHours.getHours db other) /\
         sessions db' = sessions db /\ users db' = users db /\
         ((reply = created newId /\
           auditLogs db'
           = auditLogs db ++ [auditEntry actor "ADMIN_ADD_HOURS" "HourLedgerEntry" newId])
          \/ (fault = Some 1%nat /\ reply = internalError /\
              auditLogs db' = auditLogs db)))) /\
  (fault = Some 1%nat ->
   statusCode (snd (addHours None db userId id body newId)) = 201 ->
   reply = internalError /\
   StudentHours.getHours db' id = StudentHours.getHours db id + deltaUnits body).
Proof.
  cbv zeta.
  assert (Hmain :
    forall fault,
      (fst (addHours fault db userId id body newId) = db /\
       statusCode (snd (addHours fault db userId id body newId)) <> 201 /\
       (fault <> Some 0%nat ->
        statusCode (snd (addHours None db userId id body newId)) <> 201))
      \/ (exists actor entry,
            findUser db userId = Some actor /\
            hourLedgerEntries (fst (addHours fault db userId id body newId))
            = hourLedgerEntries db ++ [entry] /\
            HourLedgerEntry.id entry = newId /\
            HourLedgerEntry.studentId entry = id /\
            HourLedgerEntry.deltaUnits entry = deltaUnits body /\ 0 < deltaUnits body /\
            HourLedgerEntry.reason entry = reason body /\
            HourLedgerEntry.reason entry <> SESSION_CONSUME /\
            HourLedgerEntry.sessionId entry = None /\
            sessions (fst (addHours fault db userId id body newId)) = sessions db /\
            users (fst (addHours fault db userId id body newId)) = users db /\
            ((snd (addHours fault db userId id body newId) = created newId /\
              fault <> Some 1%nat /\
              auditLogs (fst (addHours fault db userId id body newId))
              = auditLogs db ++ [auditEntry actor "ADMIN_ADD_HOURS" "HourLedgerEntry" newId])
             \/ (fault = Some 1%nat /\
                 snd (addHours fault db userId id body newId) = internalError /\
                 auditLogs (fst (addHours fault db userId id body newId)) = auditLogs db)))).
  { intros f. unfold addHours.
    destruct (nonEmpty id); cbn [negb];
      [| left; split; [reflexivity | split; [discriminate | intros _; discriminate]]].
    destruct (addHoursBodySchema body) eqn:Hschema; cbn [negb];
      [| left; split; [reflexivity | split; [discriminate | intros _; discriminate]]].
    destruct (findUser db userId) as [actor |];
      [| left; split; [reflexivity | split; [discriminate | intros _; discriminate]]].
    destruct (findUser db id) as [student |] eqn:Hstudent;
      [| left; split; [reflexivity | split; [discriminate | intros _; discriminate]]].
    destruct (_ || _);
      [left; split; [reflexivity | split; [discriminate | intros _; discriminate]] |].
    match goal with
    | |- context [match ?c with Some _ => _ | None => (db, message 404 "Teacher not found") end] =>
        destruct c as [teacher |]
    end; [| left; split; [reflexivity | split; [discriminate | intros _; discriminate]]].
    unfold addHoursBodySchema in Hschema. rewrite !andb_true_iff in Hschema.
    destruct Hschema as [[Hpos Hreason] _]. apply Z.ltb_lt in Hpos.
    rewrite (findUser_id _ _ _ Hstudent).
    assert (Hr : reason body <> SESSION_CONSUME)
      by (destruct (reason body); [discriminate | discriminate | discriminate Hreason]).
    destruct f as [[| [| n]] |]; cbn [stmt Nat.eqb hourLedgerEntry_create auditLog_create
      fst snd].
    - left. split; [reflexivity |]. split; [discriminate |]. intros H. now elim H.
    - right. eexists actor, _. split; [reflexivity |]. split; [reflexivity |].
      repeat (split; [first [reflexivity | exact Hpos | exact Hr] |]).
      right. repeat split.
    - right. eexists actor, _. split; [reflexivity |]. split; [reflexivity |].
      repeat (split; [first [reflexivity | exact Hpos | exact Hr] |]).
      left. split; [reflexivity |]. split; [discriminate | reflexivity].
    - right. eexists actor, _. split; [reflexivity |]. split; [reflexivity |].
      repeat (split; [first [reflexivity | exact Hpos | exact Hr] |]).
      left. split; [reflexivity |]. split; [discriminate | reflexivity]. }
  assert (Hbalance :
    forall db' entry,
      hourLedgerEntries db' = hourLedgerEntries db ++ [entry] ->
      HourLedgerEntry.studentId entry = id ->
      HourLedgerEntry.deltaUnits entry = deltaUnits body ->
      StudentHours.getHours db' id = StudentHours.getHours db id + deltaUnits body /\
      (forall other, other <> id ->
         StudentHours.getHours db' other = StudentHours.getHours db other)).
  { intros db' entry Hl Hsid Hunits. split.
    - rewrite (getHours_app db db' [entry] id Hl).
      cbn [filter]. rewrite Hsid, String.eqb_refl.
      unfold StudentHours.total. cbn [map fold_right]. lia.
    - intros other Hne. rewrite (getHours_app db db' [entry] other Hl).
      cbn [filter]. rewrite Hsid.
      destruct (String.eqb_spec id other); [congruence |].
      unfold StudentHours.total. cbn [map fold_right]. lia. }
  split.
  - destruct (Hmain fault) as [(Hsame & Hcode & _) |
      (actor & entry & Hactor & Hl & Hid & Hsid & Hunits & Hpos & Hreason & Hr & Hsess
       & Hsessions & Husers & Haudit)].
    + left. now split.
    + right. exists actor, entry.
      destruct (Hbalance _ entry Hl Hsid Hunits) as [Hown Hothers].
      repeat (split; [assumption |]).
      destruct Haudit as [(Hreply & _ & Hlog) | Hfail]; [left; now split | right; exact Hfail].
  - intros -> Hwould.
    destruct (Hmain (Some 1%nat)) as [(_ & _ & Hnot) |
      (actor & entry & _ & Hl & _ & Hsid & Hunits & _ & _ & _ & _ & _ & _ & Haudit)].
    + exfalso. apply Hnot; [discriminate | exact Hwould].
    + destruct Haudit as [(_ & Hne & _) | (_ & Hreply & _)]; [now elim Hne |].
      split; [exact Hreply |]. exact (proj1 (Hbalance _ entry Hl Hsid Hunits)).
Qed.

(** X18, witness: the audit entry of a purchase of five units cannot be
    written; the reply is a 500 and the balance has grown by five. *)
Lemma addHours_outcome_witness :
  let db := Examples.mkDb [] [] [Examples.purchase10] in
  let body := {| deltaUnits := 5; reason := PURCHASE; AdminMutations.teacherId := None |} in
  snd (addHours (Some 1%nat) db "admin1" "student1" body "ledger9") = internalError /\
  StudentHours.getHours (fst (addHours (Some 1%nat) db "admin1" "student1" body "ledger9"))
    "student1"
  = StudentHours.getHours db "student1" + 5.
Proof.
  cbv zeta.
  apply (proj2 (addHours_outcome (Some 1%nat) (Examples.mkDb [] [] [Examples.purchase10])
                  "admin1" "student1"
                  {| deltaUnits := 5; reason := PURCHASE; AdminMutations.teacherId := None |}
                  "ledger9"));
    reflexivity.
Defined.

(** ** [PUT /rates] *)

Lemma hasKey_iff teacherId studentId subject r :
  hasKey teacherId studentId subject r = true <->
  TeacherStudentRate.teacherId r = teacherId /\
  TeacherStudentRate.studentId r = studentId /\ TeacherStudentRate.subject r = subject.
Proof.
  unfold hasKey. rewrite !andb_true_iff, !String.eqb_eq.
  destruct (TeacherStudentRate.subject r), subject; cbn; intuition congruence.
Qed.

Lemma hasKey_updateRate t s subj cents cur t' s' subj' r :
  hasKey t s subj r = true ->
  hasKey t' s' subj' (updateRate subj cents cur r) = hasKey t' s' subj' r.
Proof.
  intros H. apply hasKey_iff in H. destruct H as (_ & _ & Hsubj).
  unfold hasKey, updateRate. cbn. now rewrite Hsubj.
Qed.

(** The table after an upsert, seen through [findRate]. *)
Lemma upsertRate_lookup t s subj cents cur newId db rate db1 :
  upsertRate t s subj cents cur newId db = (rate, db1) ->
  findRate db1 t s subj = Some rate /\
  TeacherStudentRate.hourlyRateCents rate = cents /\
  TeacherStudentRate.currency rate = cur /\
  (forall t' s' subj', (t', s', subj') <> (t, s, subj) ->
     findRate db1 t' s' subj' = findRate db t' s' subj') /\
  (forall t' s' subj',
     List.length (filter (hasKey t' s' subj') (teacherStudentRates db1))
     = (List.length (filter (hasKey t' s' subj') (teacherStudentRates db))
        + (if hasKey t' s' subj' rate
           then match findRate db t s subj with Some _ => 0 | None => 1 end
           else 0))%nat).
Proof.
  unfold upsertRate, findRate. fold (hasKey t s subj).
  assert (Hrefl : forall x, Subject_eqb x x = true) by (intros []; reflexivity).
  destruct (find (hasKey t s subj) (teacherStudentRates db)) as [existing |] eqn:Hfind;
    intros [= <- <-]; cbn [teacherStudentRates withTeacherStudentRates].
  - pose proof (find_some _ _ Hfind) as [_ Hkey].
    split; [| split; [reflexivity | split; [reflexivity | split]]].
    + clear Hkey. induction (teacherStudentRates db) as [| r l IH]; [discriminate |].
      cbn [find map] in *. destruct (hasKey t s subj r) eqn:Hr.
      * injection Hfind as <-. now rewrite (hasKey_updateRate _ _ _ _ _ _ _ _ _ Hr), Hr.
      * rewrite Hr. now apply IH.
    + intros t' s' subj' Hne. fold (hasKey t' s' subj').
      clear - Hne. induction (teacherStudentRates db) as [| r l IH]; [reflexivity |].
      cbn [find map]. destruct (hasKey t s subj r) eqn:Hr.
      * rewrite (hasKey_updateRate _ _ _ _ _ _ _ _ _ Hr).
        destruct (hasKey t' s' subj' r) eqn:Hr'; [| exact IH].
        exfalso. apply hasKey_iff in Hr, Hr'. apply Hne.
        destruct Hr as (<- & <- & <-), Hr' as (-> & -> & ->). reflexivity.
      * destruct (hasKey t' s' subj' r); [reflexivity | exact IH].
    + intros t' s' subj'.
      match goal with
      | |- _ = (_ + ?x)%nat =>
          replace x with 0%nat by (now destruct (hasKey t' s' subj' _))
      end.
      rewrite Nat.add_0_r. clear.
      induction (teacherStudentRates db) as [| r l IH]; [reflexivity |].
      cbn [map filter]. destruct (hasKey t s subj r) eqn:Hr.
      * rewrite (hasKey_updateRate _ _ _ _ _ _ _ _ _ Hr).
        destruct (hasKey t' s' subj' r); cbn [List.length]; now rewrite IH.
      * destruct (hasKey t' s' subj' r); cbn [List.length]; now rewrite IH.
  - assert (Hself : hasKey t s subj
                      {| TeacherStudentRate.id := newId; TeacherStudentRate.teacherId := t;
                         TeacherStudentRate.studentId := s; TeacherStudentRate.subject := subj;
                         TeacherStudentRate.hourlyRateCents := cents;
                         TeacherStudentRate.currency := cur |} = true)
      by (apply hasKey_iff; now cbn).
    split; [| split; [reflexivity | split; [reflexivity | split]]].
    + induction (teacherStudentRates db) as [| r l IH]; cbn [find app] in *;
        [now rewrite Hself |].
      destruct (hasKey t s subj r); [discriminate | now apply IH].
    + intros t' s' subj' Hne. fold (hasKey t' s' subj'). clear - Hne.
      induction (teacherStudentRates db) as [| r l IH]; cbn [find app].
      * destruct (hasKey t' s' subj' _) eqn:Hk; [| reflexivity].
        exfalso. apply hasKey_iff in Hk. cbn in Hk. apply Hne.
        now destruct Hk as (-> & -> & ->).
      * destruct (hasKey t' s' subj' r); [reflexivity | exact IH].
    + intros t' s' subj'. rewrite filter_app, length_app. f_equal.
      cbn [filter]. now destruct (hasKey t' s' subj' _).
Qed.

(** X19.  [PUT /rates] has three outcomes.  Nothing is written and the reply
    is an error; or the rate is stored: looking up the (teacher, student,
    subject) key afterwards finds it, with the body's positive
    [hourlyRateCents] and currency, every other key resolves as before, and
    unique keys stay unique (a missing subject stands for [GENERAL]).  In
    that case the reply shows the stored rate and one audit entry is
    appended, unless the store fails at the audit entry: the two writes are
    not one transaction, and the handler then fails with a 500 while the
    rate is already changed and no audit entry exists.  This happens
    whenever the request would succeed and the audit write fails. *)
Theorem putRates_outcome fault db userId body newId :
  let db' := fst (putRates fault db userId body newId) in
  let reply := snd (putRates fault db userId body newId) in
  let subject := orElse (rateSubject body) GENERAL in
  ((db' = db /\ exists r, reply = inl r /\ statusCode r <> 200)
   \/ (exists actor rate,
         findUser db userId = Some actor /\
         findRate db' (rateTeacherId body) (rateStudentId body) subject = Some rate /\
         TeacherStudentRate.hourlyRateCents rate = hourlyRateCents body /\
         0 < TeacherStudentRate.hourlyRateCents rate /\
         TeacherStudentRate.currency rate = currency body /\
         (forall t s subj, (t, s, subj) <> (rateTeacherId body, rateStudentId body, subject) ->
            findRate db' t s subj = findRate db t s subj) /\
         (uniqueRateKeys db -> uniqueRateKeys db') /\
         sessions db' = sessions db /\ users db' = users db /\
         changeRequests db' = changeRequests db /\
         hourLedgerEntries db' = hourLedgerEntries db /\
         ((reply = inr rate /\
           auditLogs db'
           = auditLogs db ++ [auditEntry actor "ADMIN_UPSERT_RATE" "TeacherStudentRate"
                                (TeacherStudentRate.id rate)])
          \/ (fault = Some 1%nat /\ reply = inl internalError /\
              auditLogs db' = auditLogs db)))) /\
  (fault = Some 1%nat ->
   (exists rate, snd (putRates None db userId body newId) = inr rate) ->
   reply = inl internalError /\
   exists rate,
     findRate db' (rateTeacherId body) (rateStudentId body) subject = Some rate /\
     TeacherStudentRate.hourlyRateCents rate = hourlyRateCents body /\
     TeacherStudentRate.currency rate = currency body).
Proof.
  cbv zeta.
  assert (Hmain :
    forall fault,
      (fst (putRates fault db userId body newId) = db /\
       (exists r, snd (putRates fault db userId body newId) = inl r /\ statusCode r <> 200) /\
       (fault <> Some 0%nat ->
        exists r, snd (putRates None db userId body newId) = inl r))
      \/ (exists actor rate db1,
            findUser db userId = Some actor /\
            upsertRate (rateTeacherId body) (rateStudentId body)
              (orElse (rateSubject body) GENERAL) (hourlyRateCents body) (currency body)
              newId db = (rate, db1) /\
            0 < hourlyRateCents body /\
            ((fault <> Some 1%nat /\
              putRates fault db userId body newId
              = (createAuditLog db1
                   (auditEntry actor "ADMIN_UPSERT_RATE" "TeacherStudentRate"
                      (TeacherStudentRate.id rate)), inr rate))
             \/ (fault = Some 1%nat /\
                 putRates fault db userId body newId = (db1, inl internalError))))).
  { intros f. unfold putRates.
    destruct (upsertRateBodySchema body) eqn:Hschema; cbn [negb];
      [| left; split; [reflexivity |];
         split; [eexists; split; [reflexivity | discriminate] | intros _; now eexists]].
    destruct (findUser db userId) as [actor |];
      [| left; split; [reflexivity |];
         split; [eexists; split; [reflexivity | discriminate] | intros _; now eexists]].
    destruct (findUser db (rateTeacherId body)) as [teacher |] eqn:Hteacher;
      [| left; split; [reflexivity |];
         split; [eexists; split; [reflexivity | discriminate] | intros _; now eexists]].
    destruct (_ || _);
      [left; split; [reflexivity |];
       split; [eexists; split; [reflexivity | discriminate] | intros _; now eexists] |].
    destruct (findUser db (rateStudentId body)) as [student |] eqn:Hstudent;
      [| left; split; [reflexivity |];
         split; [eexists; split; [reflexivity | discriminate] | intros _; now eexists]].
    destruct (_ || _);
      [left; split; [reflexivity |];
       split; [eexists; split; [reflexivity | discriminate] | intros _; now eexists] |].
    rewrite (findUser_id _ _ _ Hteacher), (findUser_id _ _ _ Hstudent).
    unfold upsertRateBodySchema in Hschema. rewrite !andb_true_iff in Hschema.
    destruct Hschema as [_ Hpos]. apply Z.ltb_lt in Hpos.
    destruct (upsertRate (rateTeacherId body) (rateStudentId body)
                (orElse (rateSubject body) GENERAL) (hourlyRateCents body) (currency body)
                newId db) as [rate db1] eqn:Hupsert.
    destruct f as [[| [| n]] |];
      cbn [stmt Nat.eqb teacherStudentRate_upsert auditLog_create fst snd];
      try rewrite Hupsert.
    - left. split; [reflexivity |].
      split; [eexists; split; [reflexivity | discriminate] | intros H; now elim H].
    - right. exists actor, rate, db1. repeat (split; [first [reflexivity | exact Hpos] |]).
      right. now split.
    - right. exists actor, rate, db1. repeat (split; [first [reflexivity | exact Hpos] |]).
      left. split; [discriminate | reflexivity].
    - right. exists actor, rate, db1. repeat (split; [first [reflexivity | exact Hpos] |]).
      left. split; [discriminate | reflexivity]. }
  assert (Hstored :
    forall rate db1 db',
      upsertRate (rateTeacherId body) (rateStudentId body)
        (orElse (rateSubject body) GENERAL) (hourlyRateCents body) (currency body)
        newId db = (rate, db1) ->
      teacherStudentRates db' = teacherStudentRates db1 ->
      findRate db' (rateTeacherId body) (rateStudentId body)
        (orElse (rateSubject body) GENERAL) = Some rate /\
      TeacherStudentRate.hourlyRateCents rate = hourlyRateCents body /\
      TeacherStudentRate.currency rate = currency body /\
      (forall t s subj,
         (t, s, subj) <> (rateTeacherId body, rateStudentId body,
                          orElse (rateSubject body) GENERAL) ->
         findRate db' t s subj = findRate db t s subj) /\
      (uniqueRateKeys db -> uniqueRateKeys db') /\
      sessions db1 = sessions db /\ users db1 = users db /\
      changeRequests db1 = changeRequests db /\
      hourLedgerEntries db1 = hourLedgerEntries db /\ auditLogs db1 = auditLogs db).
  { intros rate db1 db' Hupsert Hrates.
    pose proof (upsertRate_lookup _ _ _ _ _ _ _ _ _ Hupsert)
      as (Hfind & Hcents & Hcur & Hother & Hcount).
    assert (Hlook : forall t s subj, findRate db' t s subj = findRate db1 t s subj)
      by (intros; unfold findRate; now rewrite Hrates).
    split; [now rewrite Hlook |]. split; [exact Hcents |]. split; [exact Hcur |].
    split; [intros t s subj Hne; rewrite Hlook; now apply Hother |].
    split.
    - intros Huniq t s subj. unfold uniqueRateKeys in Huniq.
      rewrite Hrates, Hcount.
      destruct (hasKey t s subj rate) eqn:Hk; [| rewrite Nat.add_0_r; apply Huniq].
      destruct (findRate db _ _ _) as [existing |] eqn:Hex;
        [rewrite Nat.add_0_r; apply Huniq |].
      assert (Hkey : (t, s, subj)
                     = (rateTeacherId body, rateStudentId body,
                        orElse (rateSubject body) GENERAL)).
      { unfold upsertRate in Hupsert. rewrite Hex in Hupsert. injection Hupsert as <- _.
        apply hasKey_iff in Hk. cbn in Hk. now destruct Hk as (-> & -> & ->). }
      injection Hkey as -> -> ->.
      replace (filter _ (teacherStudentRates db)) with (@nil TeacherStudentRate.t);
        [cbn; lia |].
      symmetry. apply JobFacts.filter_nil_iff. intros r Hr.
      unfold findRate in Hex. fold (hasKey (rateTeacherId body) (rateStudentId body)
                                      (orElse (rateSubject body) GENERAL)) in Hex.
      exact (find_none _ _ Hex r Hr).
    - unfold upsertRate in Hupsert.
      destruct (findRate db _ _ _); injection Hupsert as _ <-; repeat split. }
  split.
  - destruct (Hmain fault) as [(Hsame & Herr & _) |
      (actor & rate & db1 & Hactor & Hupsert & Hpos & Hrun)].
    + left. now split.
    + right. exists actor, rate.
      destruct Hrun as [(_ & ->) | (Hf & ->)]; cbn [fst snd].
      * destruct (Hstored rate db1 (createAuditLog db1
                    (auditEntry actor "ADMIN_UPSERT_RATE" "TeacherStudentRate"
                       (TeacherStudentRate.id rate))) Hupsert eq_refl)
          as (Hfind & Hcents & Hcur & Hother & Huniq & Hs & Hu & Hc & Hl & Ha).
        split; [exact Hactor |]. split; [exact Hfind |]. split; [exact Hcents |].
        split; [now rewrite Hcents |]. split; [exact Hcur |]. split; [exact Hother |].
        split; [exact Huniq |].
        cbn [sessions users changeRequests hourLedgerEntries auditLogs createAuditLog].
        repeat (split; [assumption |]).
        left. split; [reflexivity |]. now rewrite Ha.
      * destruct (Hstored rate db1 db1 Hupsert eq_refl)
          as (Hfind & Hcents & Hcur & Hother & Huniq & Hs & Hu & Hc & Hl & Ha).
        split; [exact Hactor |]. split; [exact Hfind |]. split; [exact Hcents |].
        split; [now rewrite Hcents |]. split; [exact Hcur |]. split; [exact Hother |].
        split; [exact Huniq |].
        repeat (split; [assumption |]).
        right. now split.
  - intros -> [rate0 Hwould].
    destruct (Hmain (Some 1%nat)) as [(_ & _ & Hnot) |
      (actor & rate & db1 & _ & Hupsert & _ & Hrun)].
    + destruct Hnot as [r Hr]; [discriminate |]. rewrite Hr in Hwould. discriminate.
    + destruct Hrun as [(Hne & _) | (_ & ->)]; [now elim Hne |]. cbn [fst snd].
      split; [reflexivity |]. exists rate.
      destruct (Hstored rate db1 db1 Hupsert eq_refl) as (Hfind & Hcents & Hcur & _).
      now repeat split.
Qed.

(** X19, witness: the audit entry of a new hourly rate cannot be written;
    the reply is a 500 and the rate is already 12000 cents. *)
Lemma putRates_outcome_witness :
  let db := Examples.mkDb [] [] [] in
  let body := {| rateTeacherId := "teacher1"; rateStudentId := "student1";
                 rateSubject := None; hourlyRateCents := 12000; currency := AUD |} in
  snd (putRates (Some 1%nat) db "admin1" body "rate9") = inl internalError /\
  exists rate,
    findRate (fst (putRates (Some 1%nat) db "admin1" body "rate9"))
      "teacher1" "student1" GENERAL = Some rate /\
    TeacherStudentRate.hourlyRateCents rate = 12000 /\
    TeacherStudentRate.currency rate = AUD.
Proof.
  cbv zeta.
  apply (proj2 (putRates_outcome (Some 1%nat) (Examples.mkDb [] [] []) "admin1"
                  {| rateTeacherId := "teacher1"; rateStudentId := "student1";
                     rateSubject := None; hourlyRateCents := 12000; currency := AUD |}
                  "rate9")).
  - reflexivity.
  - eexists. reflexivity.
Defined.

End AdminMutationFacts.

(* ===================================================================== *)
(** * The change request workflow *)
(* ===================================================================== *)

Module WorkflowFacts.
Import Prisma Http AdminRoutes StudentRoutes Spec PrismaFacts ApprovalFacts ChangeRequestFacts.
Import AdminMutations RejectionFacts AdminMutationFacts.

(** Marking the rows of an id as decided adds no pending request. *)
Lemma pending_after_decision (f : ChangeRequest.t -> ChangeRequest.t) (id sid : string)
  (l : list ChangeRequest.t) :
  (forall cr, ChangeRequest.sessionId (f cr) = ChangeRequest.sessionId cr) ->
  (forall cr, ChangeRequest.status (f cr) <> PENDING) ->
  (List.length (filter (pendingFor sid) (updateChangeRequestRows id f l))
   <= List.length (filter (pendingFor sid) l))%nat.
Proof.
  intros Hsid Hstatus. unfold updateChangeRequestRows.
  induction l as [| cr l IH]; cbn [map filter]; [lia |].
  destruct (String.eqb (ChangeRequest.id cr) id).
  - assert (Hf : pendingFor sid (f cr) = false).
    { unfold pendingFor.
      destruct (ChangeRequestStatus_eqb_spec (ChangeRequest.status (f cr)) PENDING) as [E | _];
        [now apply Hstatus in E | apply andb_false_r]. }
    rewrite Hf. destruct (pendingFor sid cr); cbn [List.length]; lia.
  - destruct (pendingFor sid cr); cbn [List.length]; lia.
Qed.

(** X25.  The administrator routes and the completion job keep the
    invariant of at most one [PENDING] change request per session: when it
    holds before, it holds after approving or rejecting a change request
    (also when a statement fails), after cancelling, editing or creating a
    session, and after a run of the job. *)
Theorem pending_invariant_kept db :
  atMostOnePending db ->
  (forall fault userId id, atMostOnePending (fst (approveChangeRequest fault db userId id))) /\
  (forall fault userId id, atMostOnePending (fst (rejectChangeRequest fault db userId id))) /\
  (forall userId id, atMostOnePending (fst (deleteSession None db userId id))) /\
  (forall userId id body, atMostOnePending (fst (patchSession db userId id body))) /\
  (forall userId body newId, atMostOnePending (fst (postSessions db userId body newId))) /\
  (forall newEntryId now batchSize,
     atMostOnePending (fst (Jobs.completeEndedSessions newEntryId db now batchSize))).
Proof.
  intros Hinv.
  assert (Hsame : forall db', changeRequests db' = changeRequests db -> atMostOnePending db').
  { intros db' E sid. rewrite E. apply Hinv. }
  split; [| split; [| split; [| split; [| split]]]].
  - intros fault userId id.
    destruct (approve_outcome fault db userId id)
      as [[-> _] | (actor & cr & session & mutation & _ & _ & _ & Happlied)];
      [exact Hinv |].
    destruct Happlied as (Hcrs & _). intros sid. rewrite Hcrs.
    eapply Nat.le_trans; [apply pending_after_decision | apply Hinv].
    + reflexivity.
    + discriminate.
  - intros fault userId id.
    destruct (reject_outcome fault db userId id)
      as [[-> _] | (actor & cr & _ & _ & _ & Happlied)]; [exact Hinv |].
    destruct Happlied as (Hcrs & _). intros sid. rewrite Hcrs.
    eapply Nat.le_trans; [apply pending_after_decision | apply Hinv].
    + reflexivity.
    + discriminate.
  - intros userId id.
    destruct (deleteSession_cases db userId id)
      as [(actor & existing & _ & _ & _ & _ & _ & _ & _ & _ & Hcrs & _) | [-> _]];
      [now apply Hsame | exact Hinv].
  - intros userId id body.
    destruct (patchSession_cases db userId id body)
      as [(actor & existing & rate & _ & _ & _ & _ & _ & _ & _ & _ & Hcrs & _) | [-> _]];
      [now apply Hsame | exact Hinv].
  - intros userId body newId.
    destruct (postSessions_cases db userId body newId)
      as [(actor & rate & _ & _ & _ & _ & _ & _ & _ & Hcrs & _) | [-> _]];
      [now apply Hsame | exact Hinv].
  - intros newEntryId now batchSize. apply Hsame.
    unfold Jobs.completeEndedSessions. cbn [fst].
    generalize (Jobs.endedSessions db now batchSize). intros sel. clear.
    revert db. induction sel as [| s sel IH]; intros db; cbn [fold_left]; [reflexivity |].
    rewrite IH. unfold Jobs.completeOne.
    destruct (findSession db (Session.id s)) as [current |]; [| reflexivity].
    destruct (now <? Session.endAtUtc current); [reflexivity |].
    destruct (SessionStatus_eqb (Session.status current) CANCELLED); reflexivity.
Qed.

Lemma pending_invariant_kept_witness :
  atMostOnePending
    (fst (approveChangeRequest None
            (Examples.mkDb [Examples.mkSession "s1" (Examples.jan1 48) (Examples.jan1 49) SCHEDULED]
                           [Examples.pendingCancel "cr1" "s1"] [])
            "admin1" "cr1")).
Proof.
  apply pending_invariant_kept.
  intros sid. cbn [Examples.mkDb changeRequests filter].
  destruct (pendingFor sid _); cbn [List.length]; lia.
Defined.

(** The last row of a table is found by its id when no earlier row has
    it. *)
Lemma findChangeRequest_created (l : list ChangeRequest.t) (row : ChangeRequest.t) :
  (forall x, In x l -> ChangeRequest.id x <> ChangeRequest.id row) ->
  find (fun x => String.eqb (ChangeRequest.id x) (ChangeRequest.id row)) (l ++ [row])
  = Some row.
Proof.
  intros Hfresh. induction l as [| y l IH]; cbn [app find].
  - now rewrite String.eqb_refl.
  - destruct (String.eqb_spec (ChangeRequest.id y) (ChangeRequest.id row)) as [E | _].
    + exfalso. now apply (Hfresh y); [left |].
    + apply IH. intros x Hx. apply Hfresh. now right.
Qed.

(** X26.  A change request created through the student route can be
    approved as it stands.  When the student's request for an own
    [SCHEDULED] session is made by the cutoff with no request pending, the
    store gives it a fresh id and session ids are unique, the creation
    replies with the new row, and an approval by an administrator of the
    student's organisation succeeds: it replies with the row marked
    [APPROVED] and the session cancelled, or moved to the proposed times and
    zone.  The reply "Missing proposed time fields" cannot arise. *)
Theorem created_request_approvable db userId id body session now newId adminId admin :
  ownScheduledSession db userId id body session ->
  now <= cutoffUtc session ->
  findPending db id = None ->
  NoDup (map Session.id (sessions db)) ->
  nonEmpty newId = true ->
  (forall x, In x (changeRequests db) -> ChangeRequest.id x <> newId) ->
  findUser db adminId = Some admin ->
  (forall student, findUser db userId = Some student ->
                   User.orgId student = User.orgId admin) ->
  let row := newChangeRequest newId id userId body in
  let db1 := fst (postChangeRequest None db userId id body now newId) in
  snd (postChangeRequest None db userId id body now newId) = createdChangeRequest row /\
  snd (approveChangeRequest None db1 adminId newId)
  = approved (markApproved (User.id admin) row)
      (match body with
       | CancelBody => markCancelled session
       | RescheduleBody startAt endAt zone => reschedule startAt endAt zone session
       end).
Proof.
  intros Hown Hnow Hpending Hnd HnewId Hfresh Hadmin Horg. cbv zeta.
  destruct (postChangeRequest_reached None db userId id body session now newId Hown)
    as [actor Hrun].
  destruct Hown as ((Hid & Hbody & (student & Hstudent) & Hsession) & Hstatus).
  assert (Hlt : (cutoffUtc session <? now) = false) by (apply Z.ltb_ge; exact Hnow).
  rewrite Hlt, Hpending in Hrun. rewrite Hrun. cbn [fst snd].
  split; [reflexivity |].
  set (row := newChangeRequest newId id userId body).
  set (db1 := createAuditLog (createChangeRequest db row) _).
  pose proof (ownSession_id _ _ _ _ Hsession) as Hsid.
  assert (Hin : In session (sessions db)) by (apply find_some in Hsession; tauto).
  assert (Huser : Session.studentId session = userId).
  { apply find_some in Hsession. destruct Hsession as [_ H].
    apply andb_true_iff in H. now apply String.eqb_eq. }
  assert (Happrovable : approvable db1 adminId newId admin row session).
  { unfold approvable. split; [exact HnewId |]. split; [exact Hadmin |].
    split; [apply (findChangeRequest_created (changeRequests db) row Hfresh) |].
    split.
    { change (findSession db (ChangeRequest.sessionId row) = Some session).
      change (ChangeRequest.sessionId row) with id. rewrite <- Hsid.
      now apply findSession_NoDup. }
    split; [| split; [reflexivity | exact Hstatus]].
    exists student. change (findUser db1 (Session.studentId session))
      with (findUser db (Session.studentId session)).
    rewrite Huser. split; [exact Hstudent | now apply Horg]. }
  destruct body as [| startAt endAt zone].
  - exact (proj1 (approve_run db1 adminId newId admin row session markCancelled
                    Happrovable eq_refl)).
  - cbn [createChangeRequestBodySchema] in Hbody. apply andb_true_iff in Hbody.
    destruct Hbody as [Hzone _].
    refine (proj1 (approve_run db1 adminId newId admin row session
                     (reschedule startAt endAt zone) Happrovable _)).
    unfold approvalMutation, row. cbn [newChangeRequest ChangeRequest.type
      ChangeRequest.proposedStartAtUtc ChangeRequest.proposedEndAtUtc
      ChangeRequest.proposedTimeZone]. now rewrite Hzone.
Qed.

Lemma created_request_approvable_witness :
  snd (approveChangeRequest None
         (fst (postChangeRequest None
                 (Examples.mkDb
                    [Examples.mkSession "s1" (Examples.jan1 48) (Examples.jan1 49) SCHEDULED]
                    [] [])
                 "student1" "s1" (RescheduleBody (Examples.jan1 72) (Examples.jan1 73) "Asia/Shanghai")
                 (Examples.jan1 24) "cr1"))
         "admin1" "cr1")
  = approved
      (markApproved "admin1"
         (newChangeRequest "cr1" "s1" "student1"
            (RescheduleBody (Examples.jan1 72) (Examples.jan1 73) "Asia/Shanghai")))
      (reschedule (Examples.jan1 72) (Examples.jan1 73) "Asia/Shanghai"
         (Examples.mkSession "s1" (Examples.jan1 48) (Examples.jan1 49) SCHEDULED)).
Proof.
  refine (proj2 (created_request_approvable
                   (Examples.mkDb
                      [Examples.mkSession "s1" (Examples.jan1 48) (Examples.jan1 49) SCHEDULED]
                      [] [])
                   "student1" "s1"
                   (RescheduleBody (Examples.jan1 72) (Examples.jan1 73) "Asia/Shanghai")
                   (Examples.mkSession "s1" (Examples.jan1 48) (Examples.jan1 49) SCHEDULED)
                   (Examples.jan1 24) "cr1" "admin1" Examples.admin1 _ _ _ _ _ _ _ _)).
  - repeat split; try reflexivity. now exists Examples.student1.
  - vm_compute. discriminate.
  - reflexivity.
  - cbn. constructor; [intros [] | constructor].
  - reflexivity.
  - intros x [].
  - reflexivity.
  - intros student H. vm_compute in H. injection H as <-. reflexivity.
Defined.

End WorkflowFacts.

(* ===================================================================== *)
(** * The completion job: batches *)
(* ===================================================================== *)

Module JobBatchFacts.
Import Prisma Jobs Spec PrismaFacts JobFacts JobDefs.

(** ** The batch *)

Lemma insert_byEndAtUtc_sorted (x : Session.t) (l : list Session.t) :
  StronglySorted (fun a b => Session.endAtUtc a <= Session.endAtUtc b) l ->
  StronglySorted (fun a b => Session.endAtUtc a <= Session.endAtUtc b)
                 (JsArray.insert byEndAtUtc x l).
Proof.
  induction 1 as [| y l Hl IH Hy]; cbn [JsArray.insert].
  - repeat constructor.
  - unfold byEndAtUtc at 1.
    destruct (Z.leb_spec (Session.endAtUtc x - Session.endAtUtc y) 0) as [Hle | Hgt].
    + constructor; [now constructor |].
      constructor; [lia |].
      rewrite Forall_forall in *. intros z Hz. specialize (Hy z Hz). lia.
    + constructor; [exact IH |].
      rewrite Forall_forall in *. intros z Hz.
      apply (Permutation_in _ (JsArrayFacts.insert_perm byEndAtUtc x l)) in Hz.
      destruct Hz as [<- | Hz]; [lia | now apply Hy].
Qed.

Lemma sort_byEndAtUtc_sorted (l : list Session.t) :
  StronglySorted (fun a b => Session.endAtUtc a <= Session.endAtUtc b)
                 (JsArray.sort byEndAtUtc l).
Proof.
  induction l as [| x l IH]; cbn [JsArray.sort fold_right]; [constructor |].
  now apply insert_byEndAtUtc_sorted.
Qed.

(** In a sorted list every element of a prefix ends no later than every
    element of the rest. *)
Lemma sorted_prefix (n : nat) (l : list Session.t) :
  StronglySorted (fun a b => Session.endAtUtc a <= Session.endAtUtc b) l ->
  forall x y, In x (firstn n l) -> In y (skipn n l) ->
              Session.endAtUtc x <= Session.endAtUtc y.
Proof.
  intros Hs. revert n. induction Hs as [| z l Hl IH Hz]; intros n x y Hx Hy.
  - destruct n; destruct Hx.
  - destruct n as [| n]; [destruct Hx |].
    cbn [firstn skipn] in Hx, Hy. destruct Hx as [<- | Hx].
    + rewrite Forall_forall in Hz. apply Hz.
      rewrite <- (firstn_skipn n l). apply in_or_app. now right.
    + now apply (IH n).
Qed.

Lemma endedSessions_eq db now batchSize :
  endedSessions db now batchSize
  = firstn batchSize (JsArray.sort byEndAtUtc (filter (isEnded now) (sessions db))).
Proof. reflexivity. Qed.

Lemma In_endedSessions db now batchSize x :
  In x (endedSessions db now batchSize) -> In x (sessions db) /\ isEnded now x = true.
Proof.
  rewrite endedSessions_eq. intros H.
  assert (Hin : In x (JsArray.sort byEndAtUtc (filter (isEnded now) (sessions db)))).
  { rewrite <- (firstn_skipn batchSize). apply in_or_app. now left. }
  apply (Permutation_in _ (JsArrayFacts.sort_perm byEndAtUtc _)) in Hin.
  now apply filter_In in Hin.
Qed.

Lemma endedSessions_NoDup db now batchSize :
  NoDup (map Session.id (sessions db)) ->
  NoDup (map Session.id (endedSessions db now batchSize)).
Proof.
  intros Hnd. rewrite endedSessions_eq.
  set (L := JsArray.sort byEndAtUtc (filter (isEnded now) (sessions db))).
  assert (HL : NoDup (map Session.id L)).
  { apply (Permutation_NoDup
             (Permutation_map Session.id
                (Permutation_sym (JsArrayFacts.sort_perm byEndAtUtc _)))).
    now apply ended_ids_NoDup. }
  rewrite <- (firstn_skipn batchSize L), map_app in HL.
  now apply NoDup_app_remove_r in HL.
Qed.

(** X20.  The completion job takes the oldest ended sessions first: it
    reports [min(batchSize, number of ended SCHEDULED sessions)] as
    processed, every selected session is a [SCHEDULED] session of the store
    ended by [now], and every selected session ends no later than every
    ended [SCHEDULED] session left for a later run. *)
Theorem completeEndedSessions_oldest_first newEntryId db now batchSize :
  let selected := endedSessions db now batchSize in
  snd (completeEndedSessions newEntryId db now batchSize)
  = Z.of_nat (Nat.min batchSize (List.length (filter (isEnded now) (sessions db)))) /\
  (forall x, In x selected -> In x (sessions db) /\ isEnded now x = true) /\
  (forall x y, In x selected -> In y (sessions db) -> isEnded now y = true ->
               ~ In y selected -> Session.endAtUtc x <= Session.endAtUtc y).
Proof.
  cbv zeta. split; [| split].
  - unfold completeEndedSessions. cbn [snd]. rewrite endedSessions_eq, length_firstn.
    now rewrite (Permutation_length (JsArrayFacts.sort_perm byEndAtUtc _)).
  - intros x. apply In_endedSessions.
  - intros x y Hx Hy Hended Hout. rewrite endedSessions_eq in Hx, Hout.
    set (L := JsArray.sort byEndAtUtc (filter (isEnded now) (sessions db))) in *.
    assert (HyL : In y L).
    { apply (Permutation_in _ (Permutation_sym (JsArrayFacts.sort_perm byEndAtUtc _))).
      apply filter_In. now split. }
    rewrite <- (firstn_skipn batchSize L) in HyL. apply in_app_or in HyL.
    destruct HyL as [HyL | HyL]; [contradiction |].
    exact (sorted_prefix batchSize L (sort_byEndAtUtc_sorted _) x y Hx HyL).
Qed.

(** ** The ledger after a run *)

Lemma completeOne_appends newEntryId now db s :
  NoDup (map Session.id (sessions db)) ->
  In s (sessions db) -> isEnded now s = true ->
  entriesOf db (Session.id s) = [] ->
  hourLedgerEntries (completeOne newEntryId now db s)
  = hourLedgerEntries db ++ [consumeEntry newEntryId s].
Proof.
  intros Hnd Hin Hended Hnone. unfold completeOne.
  rewrite (findSession_NoDup db s Hnd Hin).
  unfold isEnded in Hended. apply andb_true_iff in Hended. destruct Hended as [Hs He].
  destruct (SessionStatus_eqb_spec (Session.status s) SCHEDULED) as [Hs' | ]; [| discriminate].
  apply Z.leb_le in He.
  replace (now <? Session.endAtUtc s) with false by (symmetry; apply Z.ltb_ge; exact He).
  rewrite Hs'. cbn [SessionStatus_eqb hourLedgerEntries withHourLedgerEntries withSessions].
  unfold upsertConsume.
  destruct (find (refersTo (Session.id s)) (hourLedgerEntries db)) as [e |] eqn:Hfind;
    [| reflexivity].
  exfalso. apply find_some in Hfind. destruct Hfind as [Hein Href].
  assert (Hflt : In e (entriesOf db (Session.id s))) by (apply filter_In; now split).
  rewrite Hnone in Hflt. exact Hflt.
Qed.

Lemma run_appends newEntryId now sel : forall db,
  NoDup (map Session.id (sessions db)) ->
  NoDup (map Session.id sel) ->
  (forall s, In s sel ->
     In s (sessions db) /\ isEnded now s = true /\ entriesOf db (Session.id s) = []) ->
  hourLedgerEntries (fold_left (completeOne newEntryId now) sel db)
  = hourLedgerEntries db ++ map (consumeEntry newEntryId) sel.
Proof.
  induction sel as [| s0 sel IH]; intros db Hnd Hsel Hall; cbn [fold_left map];
    [now rewrite app_nil_r |].
  cbn [map] in Hsel. apply NoDup_cons_iff in Hsel. destruct Hsel as [Hfresh Hsel].
  destruct (Hall s0 (or_introl eq_refl)) as (Hin0 & Hended0 & Hnone0).
  assert (Hother : forall s', In s' sel -> Session.id s' <> Session.id s0).
  { intros s' Hs' E. apply Hfresh. rewrite <- E. now apply in_map. }
  rewrite IH.
  - rewrite (completeOne_appends _ _ _ _ Hnd Hin0 Hended0 Hnone0), <- app_assoc.
    reflexivity.
  - now rewrite completeOne_ids.
  - exact Hsel.
  - intros s' Hs'. destruct (Hall s' (or_intror Hs')) as (Hin & Hended & Hnone).
    split; [| split; [exact Hended |]].
    + rewrite completeOne_sessions by exact Hnd.
      replace s' with (completeRows now [Session.id s0] s') at 1.
      * now apply in_map.
      * unfold completeRows. cbn [existsb].
        destruct (String.eqb_spec (Session.id s') (Session.id s0)) as [E | _];
          [now apply Hother in E | reflexivity].
    + rewrite entriesOf_completeOne_other; [exact Hnone |].
      intros E. now apply (Hother s' Hs').
Qed.

(** X21.  On a well-formed store one run of the completion job appends
    exactly one [SESSION_CONSUME] entry per selected session, in selection
    order; each student's remaining units drop by the units its selected
    sessions consume, and the sessions not selected stay as they are. *)
Theorem completeEndedSessions_balance newEntryId db now batchSize :
  wellFormed db ->
  let selected := endedSessions db now batchSize in
  let db' := fst (completeEndedSessions newEntryId db now batchSize) in
  hourLedgerEntries db'
  = hourLedgerEntries db ++ map (consumeEntry newEntryId) selected /\
  (forall studentId,
     remainingUnits db' studentId
     = remainingUnits db studentId - consumedBy studentId selected) /\
  (forall x, In x (sessions db) -> ~ In x selected -> In x (sessions db')).
Proof.
  intros [Hnd Hfresh]. cbv zeta.
  set (sel := endedSessions db now batchSize).
  assert (Hsel : forall s, In s sel ->
            In s (sessions db) /\ isEnded now s = true /\ entriesOf db (Session.id s) = []).
  { intros s Hs. destruct (In_endedSessions db now batchSize s Hs) as [Hin Hended].
    split; [exact Hin |]. split; [exact Hended |].
    apply Hfresh; [exact Hin |]. unfold isEnded in Hended.
    apply andb_true_iff in Hended. destruct Hended as [Hst _].
    now destruct (SessionStatus_eqb_spec (Session.status s) SCHEDULED). }
  pose proof (endedSessions_NoDup db now batchSize Hnd) as Hselnd. fold sel in Hselnd.
  assert (Hledger : hourLedgerEntries (fst (completeEndedSessions newEntryId db now batchSize))
                    = hourLedgerEntries db ++ map (consumeEntry newEntryId) sel).
  { unfold completeEndedSessions. cbn [fst]. fold sel. now apply run_appends. }
  split; [exact Hledger |]. split.
  - intros studentId. unfold remainingUnits. rewrite Hledger.
    rewrite filter_app, map_app, fold_right_app.
    assert (Hshift : forall (l : list Z) (a : Z),
              fold_right Z.add a l = fold_right Z.add 0 l + a).
    { induction l as [| x l IHl]; intros a; cbn [fold_right]; [lia | rewrite IHl; lia]. }
    rewrite Hshift. unfold consumedBy.
    assert (Hsum : fold_right Z.add 0
                     (map HourLedgerEntry.deltaUnits
                        (filter (fun e => String.eqb (HourLedgerEntry.studentId e) studentId)
                                (map (consumeEntry newEntryId) sel)))
                   = - fold_right Z.add 0
                       (map Session.consumesUnits
                          (filter (fun s => String.eqb (Session.studentId s) studentId) sel))).
    { clear. induction sel as [| s sel IH]; cbn [map filter fold_right]; [reflexivity |].
      cbn [consumeEntry HourLedgerEntry.studentId].
      destruct (String.eqb (Session.studentId s) studentId);
        cbn [map fold_right HourLedgerEntry.deltaUnits consumeEntry]; lia. }
    rewrite Hsum. lia.
  - intros x Hx Hout. unfold completeEndedSessions. cbn [fst]. fold sel.
    rewrite run_sessions by exact Hnd.
    replace x with (completeRows now (rev (map Session.id sel)) x) at 1;
      [now apply in_map |].
    unfold completeRows.
    destruct (existsb (String.eqb (Session.id x)) (rev (map Session.id sel))) eqn:Hex;
      [| reflexivity].
    exfalso. apply existsb_exists in Hex. destruct Hex as (i & Hi & E).
    apply String.eqb_eq in E. apply in_rev in Hi. apply in_map_iff in Hi.
    destruct Hi as (s & Hsid & Hs). destruct (Hsel s Hs) as (Hin & _ & _).
    assert (x = s) by (apply (NoDup_id_eq (sessions db)); congruence).
    subst x. contradiction.
Qed.

Lemma completeEndedSessions_balance_witness :
  remainingUnits (fst (completeEndedSessions Examples.entryIdOf Examples.twoEnded
                         (Examples.jan1 24) 1)) "student1" = 9.
Proof.
  assert (Hwf : wellFormed Examples.twoEnded).
  { split.
    - cbn. repeat constructor; cbn; intuition discriminate.
    - intros x [<- | [<- | []]] _; reflexivity. }
  rewrite (proj1 (proj2 (completeEndedSessions_balance Examples.entryIdOf Examples.twoEnded
                           (Examples.jan1 24) 1 Hwf))).
  reflexivity.
Defined.

End JobBatchFacts.
